(** * AutoTestAI: the test-generation pipeline and its HTTP handlers

    A shallow embedding of [src/lib/ai-service.ts] (the model pipeline),
    [src/lib/auth.ts], [src/lib/database.ts] and the route handlers
    [api/generate-tests], [api/test-cases] and [api/executions].

    Conventions.
    - A JavaScript string is the list of its UTF-16 code units ([jstr]).
    - A JavaScript value of dynamic type (the parsed analysis) is a [value].
    - Everything the program does not own is a field of [World]: the
      language model, the clock, the random source, the token library.
    - Handlers run in the monad [M]: state passing plus exceptions. *)

From Stdlib Require Import String Ascii List NArith ZArith Lia Bool.
Import ListNotations.

Set Implicit Arguments.
Set Warnings "-register-all".

(* ===================================================================== *)
(** * JavaScript strings *)
(* ===================================================================== *)

Module Js.

(** One UTF-16 code unit. *)
Definition unit16 := N.

Definition jstr := list N.

(** A literal of the source, read one code unit per character. *)
Fixpoint lit (s : string) : jstr :=
  match s with
  | EmptyString => []
  | String c r => N_of_ascii c :: lit r
  end.

Fixpoint eqb (a b : jstr) : bool :=
  match a, b with
  | [], [] => true
  | x :: a', y :: b' => N.eqb x y && eqb a' b'
  | _, _ => false
  end.

(** The double quote, which a literal of this file cannot hold. *)
Definition dq : string := String (ascii_of_nat 34) EmptyString.

(** [WhiteSpace] and [LineTerminator] of ECMAScript: what [\s] matches
    and what [trim] removes. *)
Definition isWhiteSpace (c : N) : bool :=
  ((9 <=? c) && (c <=? 13) || (c =? 32) || (c =? 160) || (c =? 5760)
   || (8192 <=? c) && (c <=? 8202) || (c =? 8232) || (c =? 8233)
   || (c =? 8239) || (c =? 8287) || (c =? 12288) || (c =? 65279))%N.

Fixpoint startsWith (s p : jstr) {struct p} : bool :=
  match p, s with
  | [], _ => true
  | x :: p', y :: s' => N.eqb x y && startsWith s' p'
  | _ :: _, [] => false
  end.

Definition endsWith (s p : jstr) : bool := startsWith (rev s) (rev p).

Fixpoint includes (s p : jstr) : bool :=
  startsWith s p ||
  match s with
  | [] => false
  | _ :: s' => includes s' p
  end.

(** [s.indexOf(c)] for a one-unit pattern; [None] is -1. *)
Fixpoint indexOf (s : jstr) (c : N) : option nat :=
  match s with
  | [] => None
  | x :: s' => if N.eqb x c then Some 0
               else option_map S (indexOf s' c)
  end.

Fixpoint lastIndexOf (s : jstr) (c : N) : option nat :=
  match s with
  | [] => None
  | x :: s' => match lastIndexOf s' c with
               | Some i => Some (S i)
               | None => if N.eqb x c then Some 0 else None
               end
  end.

(** [s.substring(a, b)] for [a <= b]. *)
Definition substring (s : jstr) (a b : nat) : jstr :=
  firstn (b - a) (skipn a s).

(** [s.split(c)] for a one-unit separator. *)
Fixpoint split (s : jstr) (c : N) : list jstr :=
  match s with
  | [] => [[]]
  | x :: s' =>
      if N.eqb x c then [] :: split s' c
      else match split s' c with
           | l :: ls => (x :: l) :: ls
           | [] => [[x]]
           end
  end.

(** [s.split(sep)] for a separator of one unit or more. [skip] units of
    a separator already found are still to be dropped; [cur] is the
    current piece, reversed. *)
Fixpoint splitOn_go (sep : jstr) (skip : nat) (cur s : jstr) : list jstr :=
  match s with
  | [] => [rev cur]
  | c :: r =>
      match skip with
      | S n => splitOn_go sep n cur r
      | O => if startsWith s sep
             then rev cur :: splitOn_go sep (length sep - 1) [] r
             else splitOn_go sep 0 (c :: cur) r
      end
  end.

Definition splitOn (s sep : jstr) : list jstr := splitOn_go sep 0 [] s.

Fixpoint join (l : list jstr) (sep : jstr) : jstr :=
  match l with
  | [] => []
  | [x] => x
  | x :: r => x ++ sep ++ join r sep
  end.

Fixpoint dropWhile (f : N -> bool) (s : jstr) : jstr :=
  match s with
  | [] => []
  | x :: s' => if f x then dropWhile f s' else s
  end.

Definition trimStart (s : jstr) : jstr := dropWhile isWhiteSpace s.
Definition trimEnd (s : jstr) : jstr := rev (dropWhile isWhiteSpace (rev s)).
Definition trim (s : jstr) : jstr := trimEnd (trimStart s).

(** Number of units of [s] equal to [c]: [(s.match(/c/g) || []).length]. *)
Definition countOf (s : jstr) (c : N) : nat :=
  length (filter (N.eqb c) s).

(** [s.replace(p, r)] with a string pattern: the first occurrence only. *)
Fixpoint replaceFirst (s p r : jstr) : jstr :=
  if startsWith s p then r ++ skipn (length p) s
  else match s with
       | [] => []
       | c :: s' => c :: replaceFirst s' p r
       end.

(** [s.replace(/p\s*/g, empty)] for a literal [p] of one unit or more:
    every occurrence of [p], with the white space after it, is removed.
    [skip] counts the units of a matched [p] still to drop; [ws] says
    that the scan is inside the [\s*] of a match. *)
Fixpoint removeWithSpace_go (p : jstr) (skip : nat) (ws : bool) (s : jstr)
  : jstr :=
  match s with
  | [] => []
  | c :: r =>
      match skip with
      | S n => removeWithSpace_go p n true r
      | O =>
          if ws && isWhiteSpace c then removeWithSpace_go p 0 true r
          else if startsWith s p
               then removeWithSpace_go p (length p - 1) true r
               else c :: removeWithSpace_go p 0 false r
      end
  end.

Definition removeWithSpace (s p : jstr) : jstr :=
  removeWithSpace_go p 0 false s.

Definition isAsciiUpper (c : N) : bool := ((65 <=? c) && (c <=? 90))%N.
Definition isAsciiLower (c : N) : bool := ((97 <=? c) && (c <=? 122))%N.
Definition isDigit (c : N) : bool := ((48 <=? c) && (c <=? 57))%N.

(** [\w] of a regular expression without the unicode flag. *)
Definition isWordChar (c : N) : bool :=
  isAsciiUpper c || isAsciiLower c || isDigit c || (c =? 95)%N.

(** [s.toLowerCase()]. The mappings written out are all those whose
    result holds an ASCII letter: A-Z, KELVIN SIGN (U+212A) and
    I WITH DOT ABOVE (U+0130). Other letters are left as they are. *)
Definition lowerUnit (c : N) : jstr :=
  if isAsciiUpper c then [c + 32]%N
  else if (c =? 8490)%N then [107]%N
  else if (c =? 304)%N then [105; 775]%N
  else [c].

Definition toLowerCase (s : jstr) : jstr := flat_map lowerUnit s.

(** [s.toUpperCase()], on ASCII letters. *)
Definition upperUnit (c : N) : N :=
  if isAsciiLower c then (c - 32)%N else c.

Definition toUpperCase (s : jstr) : jstr := map upperUnit s.

(** [s.split(/\s+/)]: the pieces between maximal runs of white space. *)
Fixpoint splitSpaces_go (cur : jstr) (inws : bool) (s : jstr) : list jstr :=
  match s with
  | [] => [rev cur]
  | c :: r =>
      if isWhiteSpace c
      then if inws then splitSpaces_go cur true r
           else rev cur :: splitSpaces_go [] true r
      else splitSpaces_go (c :: cur) false r
  end.

Definition splitSpaces (s : jstr) : list jstr := splitSpaces_go [] false s.

End Js.

Abbreviation jstr := Js.jstr.
Notation "` s" := (Js.lit s%string) (at level 1, format "` s").

(** An object literal of the source used as a table: the value of its
    own property [key], [None] when the literal has no such property. *)
Fixpoint tableGet {A} (table : list (jstr * A)) (key : jstr) : option A :=
  match table with
  | [] => None
  | (k, v) :: rest => if Js.eqb k key then Some v else tableGet rest key
  end.

(** The names of the properties that every object literal inherits from
    [Object.prototype]. *)
Definition objectPrototypeKeys : list jstr :=
  [`"constructor"; `"__proto__"; `"hasOwnProperty"; `"isPrototypeOf";
   `"propertyIsEnumerable"; `"toLocaleString"; `"toString"; `"valueOf";
   `"__defineGetter__"; `"__defineSetter__"; `"__lookupGetter__";
   `"__lookupSetter__"].

(** The value of an inherited property: a built-in function, given by its
    name, or the prototype object itself. *)
Inductive inherited : Type :=
| BuiltinFunction (name : jstr)
| ObjectPrototype.

(** [({})[key]]: [constructor] is the function [Object], [__proto__] is
    [Object.prototype], every other inherited name is the method of that
    name. *)
Definition inheritedGet (key : jstr) : option inherited :=
  if existsb (Js.eqb key) objectPrototypeKeys then
    Some (if Js.eqb key `"__proto__" then ObjectPrototype
          else if Js.eqb key `"constructor" then BuiltinFunction `"Object"
          else BuiltinFunction key)
  else None.

(** [String(m)] for an inherited member [m], as a template literal
    converts it; a built-in function is printed the way V8 prints it. *)
Definition inheritedText (m : inherited) : jstr :=
  match m with
  | BuiltinFunction name => `"function " ++ name ++ `"() { [native code] }"
  | ObjectPrototype => `"[object Object]"
  end.

(** What [table[key]] finds on an object literal: an own property, an
    inherited member, or nothing ([undefined]). *)
Inductive member (A : Type) : Type :=
| Own (a : A)
| Inherited (m : inherited)
| Absent.
Arguments Own {A} a.
Arguments Inherited {A} m.
Arguments Absent {A}.

(** [table[key]] *)
Definition memberGet {A} (table : list (jstr * A)) (key : jstr) : member A :=
  match tableGet table key with
  | Some v => Own v
  | None =>
      match inheritedGet key with
      | Some m => Inherited m
      | None => Absent
      end
  end.

(** The text of [x || d] in a template literal, where [x] was read from
    a table of strings: an inherited member is truthy and is printed. *)
Definition textOr (x : member jstr) (d : jstr) : jstr :=
  match x with
  | Own ((_ :: _) as s) => s
  | Own [] => d
  | Inherited m => inheritedText m
  | Absent => d
  end.

(** [x || d] where [x] is a string or [undefined]. *)
Definition orElse (x : option jstr) (d : jstr) : jstr :=
  match x with
  | Some ((_ :: _) as s) => s
  | _ => d
  end.

(* ===================================================================== *)
(** * The pure helpers of [ai-service.ts] *)
(* ===================================================================== *)

Module AiText.

Definition LBRACE : N := 123.
Definition RBRACE : N := 125.
Definition NL : N := 10.

(** The loop of [extractJsonFromResponse] over the lines, with its two
    variables [braceCount] and [foundStart]; the result is [jsonLines]. *)
Fixpoint collectJsonLines (lines : list jstr) (braceCount : Z)
         (foundStart : bool) : list jstr :=
  match lines with
  | [] => []
  | line :: rest =>
      let foundStart := foundStart || Js.includes line [LBRACE] in
      if foundStart then
        let braceCount :=
          (braceCount + Z.of_nat (Js.countOf line LBRACE)
                      - Z.of_nat (Js.countOf line RBRACE))%Z in
        line :: (if (braceCount =? 0)%Z then []
                 else collectJsonLines rest braceCount foundStart)
      else collectJsonLines rest braceCount foundStart
  end.

(** Removal of the markdown fences: the two [replace] calls. *)
Definition stripFences (text : jstr) : jstr :=
  Js.removeWithSpace (Js.removeWithSpace text `"```json") `"```".

(** The text between the first [{] and the last [}], when the last [}]
    comes after the first [{]; otherwise the text itself. *)
Definition braceRegion (cleaned : jstr) : jstr :=
  match Js.indexOf cleaned LBRACE, Js.lastIndexOf cleaned RBRACE with
  | Some jsonStart, Some jsonEnd =>
      if jsonStart <? jsonEnd
      then Js.substring cleaned jsonStart (jsonEnd + 1)
      else cleaned
  | _, _ => cleaned
  end.

Definition extractJsonFromResponse (text : jstr) : jstr :=
  let cleaned := braceRegion (stripFences text) in
  let lines := Js.split cleaned NL in
  let jsonLines := collectJsonLines lines 0 false in
  Js.trim (Js.join jsonLines [NL]).

(** [getFileExtension] (lines 965-972). Its callers print the result
    into a template literal (lines 691, 864, 956): the model gives the
    text that is printed. *)
Definition getFileExtension (language : jstr) : jstr :=
  textOr (memberGet [(`"java", `"java"); (`"python", `"py");
                     (`"javascript", `"js")] language) `"txt".

(** [inputData.toLowerCase().replace(/[^a-z0-9\s]/g, " ")
     .split(/\s+/).filter(w => w.length > 2).slice(0, 3).join("-")],
    or [testType + "-case"] when that is empty. *)
Definition extractBaseName (inputData testType : jstr) : jstr :=
  let keep c :=
    if Js.isAsciiLower c || Js.isDigit c || Js.isWhiteSpace c
    then c else 32%N in
  let words :=
    Js.join
      (firstn 3
         (filter (fun word => 2 <? length word)
            (Js.splitSpaces (map keep (Js.toLowerCase inputData)))))
      `"-" in
  orElse (Some words) (testType ++ `"-case").

Definition generateFilename (testType language inputData : jstr) : jstr :=
  let extensions :=
    [(`"java", `".java"); (`"python", `".py"); (`"javascript", `".js")] in
  let typePrefix :=
    [(`"bdd", `"feature"); (`"unit", `"test"); (`"api", `"api-test");
     (`"ui", `"ui-test"); (`"performance", `"perf-test")] in
  let baseName := extractBaseName inputData testType in
  if Js.eqb testType `"bdd" then baseName ++ `".feature"
  else if Js.eqb testType `"performance" then baseName ++ `".jmx"
  else
    let prefix := textOr (memberGet typePrefix testType) `"test" in
    let extension := textOr (memberGet extensions language) `".txt" in
    prefix ++ `"-" ++ baseName ++ extension.

Definition getDefaultDependencies (testType language : jstr) : list jstr :=
  let dependencyMap :=
    [(`"java",
      [(`"unit", [`"junit-jupiter"; `"mockito-core"; `"assertj-core"]);
       (`"bdd", [`"cucumber-java"; `"cucumber-junit"; `"rest-assured"]);
       (`"api", [`"rest-assured"; `"testng"; `"hamcrest"]);
       (`"ui", [`"selenium-java"; `"webdrivermanager"; `"testng"]);
       (`"performance",
        [`"apache-jmeter"; `"rest-assured"; `"micrometer-core"])]);
     (`"python",
      [(`"unit", [`"pytest"; `"unittest.mock"; `"pytest-mock"]);
       (`"bdd", [`"behave"; `"requests"; `"pytest-bdd"]);
       (`"api", [`"requests"; `"pytest"; `"jsonschema"]);
       (`"ui", [`"selenium"; `"pytest"; `"webdriver-manager"]);
       (`"performance", [`"locust"; `"requests"; `"pytest"])]);
     (`"javascript",
      [(`"unit",
        [`"jest"; `"@testing-library/react"; `"@testing-library/jest-dom"]);
       (`"bdd", [`"cucumber"; `"axios"; `"chai"]);
       (`"api", [`"axios"; `"jest"; `"supertest"]);
       (`"ui", [`"selenium-webdriver"; `"jest"; `"webdriver-manager"]);
       (`"performance", [`"artillery"; `"axios"; `"jest"])])] in
  match tableGet dependencyMap language with
  | Some byType =>
      match tableGet byType testType with
      | Some deps => deps
      | None => []
      end
  | None => []
  end.

End AiText.

(* ===================================================================== *)
(** * Values of dynamic type, exceptions *)
(* ===================================================================== *)

(** What [JSON.parse] returns and what the object literals of the source
    denote. A number is kept as the text of its literal: the arithmetic
    of the engine on it is a field of [Engine]. An object is the list of
    its own properties in creation order; a later entry of the same key
    overrides an earlier one. *)
Inductive value : Type :=
| VUndefined
| VNull
| VBool (b : bool)
| VNum (literal : jstr)
| VStr (s : jstr)
| VArr (items : list value)
| VObj (props : list (jstr * value)).

(** A thrown value: whether it is an [Error] instance and its [message]
    property when that is a string. *)
Record exn : Type := mkExn { isError : bool; message : option jstr }.

Definition JsError (msg : jstr) : exn := mkExn true (Some msg).
Definition TypeError : exn := JsError `"TypeError".
Definition SyntaxError : exn := JsError `"SyntaxError".

Inductive outcome (A : Type) : Type :=
| Ok (a : A)
| Throw (e : exn).
Arguments Ok {A} a.
Arguments Throw {A} e.

(** The arithmetic of the JavaScript engine that the model leaves
    uninterpreted. *)
Record Engine : Type := mkEngine {
  (** [String(n)] for the number written [n] *)
  numToString : jstr -> jstr;
  (** whether the number written [n] is [0] or [-0] *)
  numIsZero : jstr -> bool;
  (** [v > 1] for a value [v] that is not the length of an array or string *)
  gtOne : value -> bool;
  (** [new Date(ms).toISOString()] *)
  toISOString : N -> jstr;
  (** [x.toString(36)] for the double [mant / 2^(53 + expo)] *)
  fractionToString36 : N -> N -> jstr;
  (** [JSON.stringify(n)] for the number written [n] *)
  numToJSON : jstr -> jstr
}.

(** [l.map(f)] where [f] may throw. *)
Fixpoint mapO {A B} (f : A -> outcome B) (l : list A) : outcome (list B) :=
  match l with
  | [] => Ok []
  | x :: r =>
      match f x with
      | Ok y => match mapO f r with
                | Ok ys => Ok (y :: ys)
                | Throw e => Throw e
                end
      | Throw e => Throw e
      end
  end.

(** Sequencing of two computations that may throw. *)
Definition andThen {A B} (o : outcome A) (k : A -> outcome B) : outcome B :=
  match o with
  | Ok a => k a
  | Throw e => Throw e
  end.

Module Dyn.

Fixpoint natDigits (fuel n : nat) (acc : jstr) : jstr :=
  match fuel with
  | O => acc
  | S fuel =>
      let acc := (48 + N.of_nat (n mod 10))%N :: acc in
      if n / 10 =? 0 then acc else natDigits fuel (n / 10) acc
  end.

(** The decimal literal of a natural number. *)
Definition ofNat (n : nat) : value := VNum (natDigits (S n) n []).

(** [o[key]] on the property list of an object. *)
Fixpoint lookup (props : list (jstr * value)) (key : jstr) : option value :=
  match props with
  | [] => None
  | (k, v) :: rest =>
      match lookup rest key with
      | Some v' => Some v'
      | None => if Js.eqb k key then Some v else None
      end
  end.

Definition isNullish (v : value) : bool :=
  match v with
  | VUndefined | VNull => true
  | _ => false
  end.

(** [v.key] for the property names the source reads: [length] is the
    one that arrays and strings have. *)
Definition get (v : value) (key : jstr) : outcome value :=
  match v with
  | VUndefined | VNull => Throw TypeError
  | VObj props =>
      Ok (match lookup props key with Some x => x | None => VUndefined end)
  | VArr items =>
      Ok (if Js.eqb key `"length" then ofNat (length items) else VUndefined)
  | VStr s =>
      Ok (if Js.eqb key `"length" then ofNat (length s) else VUndefined)
  | VBool _ | VNum _ => Ok VUndefined
  end.

(** [v?.key] *)
Definition getOpt (v : value) (key : jstr) : value :=
  match get v key with
  | Ok x => x
  | Throw _ => VUndefined
  end.

Definition truthy (eng : Engine) (v : value) : bool :=
  match v with
  | VUndefined | VNull => false
  | VBool b => b
  | VNum n => negb (numIsZero eng n)
  | VStr s => match s with [] => false | _ => true end
  | VArr _ | VObj _ => true
  end.

(** [a || b] *)
Definition or (eng : Engine) (a b : value) : value :=
  if truthy eng a then a else b.

(** [String(v)], as a template literal converts [v]. An object is
    converted by its [toString]: the inherited one prints
    [[object Object]]; an own property of that name, which in a parsed
    value is never a function, leaves no method that returns a
    primitive, and the conversion throws a [TypeError]. An array is
    converted by [join]. *)
Fixpoint toStr (eng : Engine) (v : value) : outcome jstr :=
  match v with
  | VUndefined => Ok `"undefined"
  | VNull => Ok `"null"
  | VBool true => Ok `"true"
  | VBool false => Ok `"false"
  | VNum n => Ok (numToString eng n)
  | VStr s => Ok s
  | VArr items =>
      (fix elems (l : list value) : outcome jstr :=
         match l with
         | [] => Ok []
         | x :: r =>
             match (if isNullish x then Ok [] else toStr eng x) with
             | Throw e => Throw e
             | Ok a =>
                 match r with
                 | [] => Ok a
                 | _ :: _ =>
                     match elems r with
                     | Ok b => Ok (a ++ `"," ++ b)
                     | Throw e => Throw e
                     end
                 end
             end
         end) items
  | VObj props =>
      match lookup props `"toString" with
      | Some _ => Throw TypeError
      | None => Ok `"[object Object]"
      end
  end.

(** [items.join(sep)] on an array. *)
Definition joinItems (eng : Engine) (items : list value) (sep : jstr)
  : outcome jstr :=
  match mapO (fun x => if isNullish x then Ok [] else toStr eng x) items with
  | Ok texts => Ok (Js.join texts sep)
  | Throw e => Throw e
  end.

(** [v?.join(sep)]: [undefined] on [null] and [undefined], a [TypeError]
    on what has no [join] method. *)
Definition joinOpt (eng : Engine) (v : value) (sep : jstr) : outcome value :=
  match v with
  | VUndefined | VNull => Ok VUndefined
  | VArr items =>
      match joinItems eng items sep with
      | Ok text => Ok (VStr text)
      | Throw e => Throw e
      end
  | _ => Throw TypeError
  end.

Definition strs (l : list jstr) : value := VArr (map VStr l).

End Dyn.

(* ===================================================================== *)
(** * [JSON.parse] and [JSON.stringify] *)
(* ===================================================================== *)

Module Json.

Definition QUOTE : N := 34.
Definition BACKSLASH : N := 92.

Definition isJsonSpace (c : N) : bool :=
  ((c =? 32) || (c =? 9) || (c =? 10) || (c =? 13))%N.

Definition skipWs (s : jstr) : jstr := Js.dropWhile isJsonSpace s.

Definition hexVal (c : N) : option N :=
  if Js.isDigit c then Some (c - 48)%N
  else if ((97 <=? c) && (c <=? 102))%N then Some (c - 87)%N
  else if ((65 <=? c) && (c <=? 70))%N then Some (c - 55)%N
  else None.

Definition hex4 (a b c d : N) : option N :=
  match hexVal a, hexVal b, hexVal c, hexVal d with
  | Some x, Some y, Some z, Some t =>
      Some (((x * 16 + y) * 16 + z) * 16 + t)%N
  | _, _, _, _ => None
  end.

(** The character an escape letter stands for ([\u] apart). *)
Definition unescape (e : N) : option N :=
  if (e =? 34)%N then Some 34%N
  else if (e =? 92)%N then Some 92%N
  else if (e =? 47)%N then Some 47%N
  else if (e =? 98)%N then Some 8%N
  else if (e =? 102)%N then Some 12%N
  else if (e =? 110)%N then Some 10%N
  else if (e =? 114)%N then Some 13%N
  else if (e =? 116)%N then Some 9%N
  else None.

(** The characters of a string literal after its opening quote, up to
    and including the closing quote. *)
Fixpoint pChars (s : jstr) : option (jstr * jstr) :=
  match s with
  | [] => None
  | c :: r =>
      if (c =? QUOTE)%N then Some ([], r)
      else if (c =? BACKSLASH)%N then
        match r with
        | [] => None
        | e :: r1 =>
            if (e =? 117)%N then
              match r1 with
              | h1 :: h2 :: h3 :: h4 :: r2 =>
                  match hex4 h1 h2 h3 h4, pChars r2 with
                  | Some u, Some (cs, rest) => Some (u :: cs, rest)
                  | _, _ => None
                  end
              | _ => None
              end
            else
              match unescape e, pChars r1 with
              | Some u, Some (cs, rest) => Some (u :: cs, rest)
              | _, _ => None
              end
        end
      else if (c <? 32)%N then None
      else match pChars r with
           | Some (cs, rest) => Some (c :: cs, rest)
           | None => None
           end
  end.

Fixpoint spanDigits (s : jstr) : jstr * jstr :=
  match s with
  | c :: r => if Js.isDigit c
              then let (ds, rest) := spanDigits r in (c :: ds, rest)
              else ([], s)
  | [] => ([], [])
  end.

(** A number: an optional minus, an integer part without a leading
    zero, an optional fraction and an optional exponent. *)
Definition pNumber (s : jstr) : option (jstr * jstr) :=
  let (sign, s1) :=
    match s with
    | c :: r => if (c =? 45)%N then ([c], r) else ([], s)
    | [] => ([], s)
    end in
  let int :=
    match s1 with
    | c :: r =>
        if (c =? 48)%N then Some ([c], r)
        else if Js.isDigit c
             then let (ds, rest) := spanDigits r in Some (c :: ds, rest)
             else None
    | [] => None
    end in
  match int with
  | None => None
  | Some (ip, s2) =>
      let frac :=
        match s2 with
        | c :: r =>
            if (c =? 46)%N
            then match spanDigits r with
                 | ([], _) => None
                 | (ds, rest) => Some (c :: ds, rest)
                 end
            else Some ([], s2)
        | [] => Some ([], s2)
        end in
      match frac with
      | None => None
      | Some (fp, s3) =>
          let exp :=
            match s3 with
            | c :: r =>
                if ((c =? 101) || (c =? 69))%N then
                  let (sg, r1) :=
                    match r with
                    | d :: r' => if ((d =? 43) || (d =? 45))%N
                                 then ([d], r') else ([], r)
                    | [] => ([], r)
                    end in
                  match spanDigits r1 with
                  | ([], _) => None
                  | (ds, rest) => Some (c :: sg ++ ds, rest)
                  end
                else Some ([], s3)
            | [] => Some ([], s3)
            end in
          match exp with
          | None => None
          | Some (ep, s4) => Some (sign ++ ip ++ fp ++ ep, s4)
          end
      end
  end.

(** Recursive descent; each call uses one unit of [fuel]. *)
Fixpoint pValue (fuel : nat) (s : jstr) : option (value * jstr) :=
  match fuel with
  | O => None
  | S fuel =>
      match skipWs s with
      | [] => None
      | c :: r =>
          if (c =? 123)%N then
            match skipWs r with
            | d :: r' =>
                if (d =? 125)%N then Some (VObj [], r')
                else match pMembers fuel r with
                     | Some (ms, rest) => Some (VObj ms, rest)
                     | None => None
                     end
            | [] => None
            end
          else if (c =? 91)%N then
            match skipWs r with
            | d :: r' =>
                if (d =? 93)%N then Some (VArr [], r')
                else match pElements fuel r with
                     | Some (vs, rest) => Some (VArr vs, rest)
                     | None => None
                     end
            | [] => None
            end
          else if (c =? QUOTE)%N then
            match pChars r with
            | Some (str, rest) => Some (VStr str, rest)
            | None => None
            end
          else if Js.startsWith (c :: r) `"true"
               then Some (VBool true, skipn 4 (c :: r))
          else if Js.startsWith (c :: r) `"false"
               then Some (VBool false, skipn 5 (c :: r))
          else if Js.startsWith (c :: r) `"null"
               then Some (VNull, skipn 4 (c :: r))
          else match pNumber (c :: r) with
               | Some (n, rest) => Some (VNum n, rest)
               | None => None
               end
      end
  end

with pMembers (fuel : nat) (s : jstr) : option (list (jstr * value) * jstr) :=
  match fuel with
  | O => None
  | S fuel =>
      match skipWs s with
      | c :: r =>
          if (c =? QUOTE)%N then
            match pChars r with
            | Some (key, r1) =>
                match skipWs r1 with
                | d :: r2 =>
                    if (d =? 58)%N then
                      match pValue fuel r2 with
                      | Some (v, r3) =>
                          match skipWs r3 with
                          | e :: r4 =>
                              if (e =? 44)%N then
                                match pMembers fuel r4 with
                                | Some (ms, rest) =>
                                    Some ((key, v) :: ms, rest)
                                | None => None
                                end
                              else if (e =? 125)%N
                                   then Some ([(key, v)], r4)
                                   else None
                          | [] => None
                          end
                      | None => None
                      end
                    else None
                | [] => None
                end
            | None => None
            end
          else None
      | [] => None
      end
  end

with pElements (fuel : nat) (s : jstr) : option (list value * jstr) :=
  match fuel with
  | O => None
  | S fuel =>
      match pValue fuel s with
      | Some (v, r) =>
          match skipWs r with
          | e :: r1 =>
              if (e =? 44)%N then
                match pElements fuel r1 with
                | Some (vs, rest) => Some (v :: vs, rest)
                | None => None
                end
              else if (e =? 93)%N then Some ([v], r1)
              else None
          | [] => None
          end
      | None => None
      end
  end.

(** [JSON.parse(text)]; a [SyntaxError] when the text is not JSON. *)
Definition parse (text : jstr) : outcome value :=
  match pValue (2 * length text + 2) text with
  | Some (v, rest) =>
      match skipWs rest with
      | [] => Ok v
      | _ :: _ => Throw SyntaxError
      end
  | None => Throw SyntaxError
  end.

Definition hexDigit (n : N) : N :=
  if (n <? 10)%N then (48 + n)%N else (87 + n)%N.

(** [\uXXXX] *)
Definition escapeU (c : N) : jstr :=
  [BACKSLASH; 117%N;
   hexDigit (c / 4096 mod 16); hexDigit (c / 256 mod 16);
   hexDigit (c / 16 mod 16); hexDigit (c mod 16)]%N.

Definition isHighSurrogate (c : N) : bool := ((55296 <=? c) && (c <=? 56319))%N.
Definition isLowSurrogate (c : N) : bool := ((56320 <=? c) && (c <=? 57343))%N.

(** One code unit that is not a surrogate, as [QuoteJSONString] writes it. *)
Definition quoteUnit (c : N) : jstr :=
  if (c =? 34)%N then [BACKSLASH; 34%N]
  else if (c =? 92)%N then [BACKSLASH; 92%N]
  else if (c =? 8)%N then [BACKSLASH; 98%N]
  else if (c =? 12)%N then [BACKSLASH; 102%N]
  else if (c =? 10)%N then [BACKSLASH; 110%N]
  else if (c =? 13)%N then [BACKSLASH; 114%N]
  else if (c =? 9)%N then [BACKSLASH; 116%N]
  else if (c <? 32)%N then escapeU c
  else [c].

(** The body of a quoted string; a surrogate that is not half of a pair
    is escaped. *)
Fixpoint quoteBody (s : jstr) : jstr :=
  match s with
  | [] => []
  | c :: r =>
      if isHighSurrogate c then
        match r with
        | d :: r' => if isLowSurrogate d then c :: d :: quoteBody r'
                     else escapeU c ++ quoteBody r
        | [] => escapeU c
        end
      else if isLowSurrogate c then escapeU c ++ quoteBody r
      else quoteUnit c ++ quoteBody r
  end.

Definition quote (s : jstr) : jstr := QUOTE :: quoteBody s ++ [QUOTE].

(** An element of an array: [undefined] is written [null]. *)
Definition elementText (t : option jstr) : jstr :=
  match t with
  | Some s => s
  | None => `"null"
  end.

(** The members of an object: a property whose value is [undefined] is
    left out. *)
Fixpoint memberTexts (l : list (jstr * option jstr)) : list jstr :=
  match l with
  | [] => []
  | (k, Some t) :: r => (quote k ++ `":" ++ t) :: memberTexts r
  | (_, None) :: r => memberTexts r
  end.

(** [JSON.stringify(v)]; [None] is [undefined]. *)
Fixpoint stringify (eng : Engine) (v : value) : option jstr :=
  match v with
  | VUndefined => None
  | VNull => Some `"null"
  | VBool true => Some `"true"
  | VBool false => Some `"false"
  | VNum n => Some (numToJSON eng n)
  | VStr s => Some (quote s)
  | VArr items =>
      Some (`"[" ++
            Js.join (map (fun x => elementText (stringify eng x)) items) `","
            ++ `"]")
  | VObj props =>
      Some (`"{" ++
            Js.join
              (memberTexts
                 (map (fun kv => (fst kv, stringify eng (snd kv))) props))
              `","
            ++ `"}")
  end.

End Json.

(* ===================================================================== *)
(** * The world, the state and the monad of the handlers *)
(* ===================================================================== *)

(** The place of a [generateText] call in the source. The prompt text is
    not represented: the model is a black box that answers the calls of a
    run by their position, which covers any dependence on the prompt. *)
Inductive CallSite : Type :=
| AtAnalyzeInput
| AtAnalyzeUploadedFiles
| AtAnalyzeGitRepository
| AtAnalyzePostmanCollection
| AtAnalyzeWebPage
| AtProjectLevelUnit
| AtSingleUnit
| AtSingleBDD
| AtSingleAPI
| AtSingleUI
| AtSinglePerformance.

(** [AuthUser] (src/app/settings/page.tsx, lines 939-945). *)
Record AuthUser : Type := mkAuthUser {
  user_id : jstr;
  user_email : jstr;
  user_name : jstr;
  user_role : jstr;
  user_plan : jstr
}.

(** The payload of a token that [jwt.verify] accepts, which the handlers
    read as an [AuthUser]. *)
Record Decoded : Type := mkDecoded {
  id : jstr;
  email : jstr;
  role : jstr;
  plan : jstr
}.

(** A double in the interval from 0 (included) to 1 (excluded), as
    [Math.random()] draws it: [(mant mod 2^53) / 2^(53 + expo)]. *)
Record Draw : Type := mkDraw {
  mant : N;
  expo : N
}.

(** A file of an upload, as [parseUploadedFiles] builds it. *)
Record UploadedFile : Type := mkUploadedFile {
  file_name : jstr;
  file_content : jstr;
  file_language : jstr;
  file_linesOfCode : nat;
  file_testableElements : list jstr;
  file_complexity : jstr
}.

Record World : Type := mkWorld {
  engine : Engine;
  (** [process.env.GOOGLE_GENERATIVE_AI_API_KEY] *)
  GOOGLE_GENERATIVE_AI_API_KEY : option jstr;
  (** [process.env.JWT_SECRET] *)
  JWT_SECRET_env : option jstr;
  (** the answer of the model to the [n]-th call of a run *)
  modelAnswer : nat -> CallSite -> outcome jstr;
  (** the [n]-th draw of [Math.random()] *)
  randomDraw : nat -> Draw;
  (** the [n]-th reading of the clock, in milliseconds *)
  clock : nat -> N;
  (** [jwt.sign(payload, secret, { expiresIn })] at a time *)
  jwt_sign : N -> list (jstr * jstr) -> jstr -> jstr -> jstr;
  (** [jwt.verify(token, secret)] at a time *)
  jwt_verify : N -> jstr -> jstr -> outcome Decoded;
  (** [extractDependencies], [detectFrameworks], [extractApiEndpoints]
      (lines 267-407): scans of the uploaded files whose results are only
      printed into a prompt; left uninterpreted. *)
  extractDependencies : list UploadedFile -> list jstr;
  detectFrameworks : list UploadedFile -> list jstr;
  extractApiEndpoints : list UploadedFile -> list value
}.

(** ** The database (the tables of [initializeDatabase] that the modelled
    handlers touch, with the columns they read or write) *)

Record UserRow : Type := mkUserRow {
  u_id : jstr;
  u_plan : option jstr
}.

Record ProjectRow : Type := mkProjectRow {
  p_id : jstr;
  p_name : jstr
}.

Record TestCaseRow : Type := mkTestCaseRow {
  tc_id : jstr;
  tc_project_id : option jstr;
  tc_name : jstr;
  tc_type : jstr;
  tc_content : jstr;
  tc_input_source : jstr;
  tc_ai_model_used : jstr;
  tc_created_by : jstr;
  tc_metadata : jstr;
  tc_created_at : N
}.

Record ExecutionRow : Type := mkExecutionRow {
  te_id : jstr;
  te_test_case_id : jstr;
  te_status : jstr;
  te_duration : Z;
  te_environment : option jstr;
  te_triggered_by : jstr;
  te_logs : jstr;
  te_created_at : N
}.

Record AuditRow : Type := mkAuditRow {
  al_user_id : jstr;
  al_action : jstr;
  al_resource_type : jstr;
  al_resource_id : jstr;
  al_ip_address : jstr;
  al_user_agent : jstr
}.

(** Rows are kept in insertion order. *)
Record Db : Type := mkDb {
  users : list UserRow;
  projects : list ProjectRow;
  test_cases : list TestCaseRow;
  test_executions : list ExecutionRow;
  audit_logs : list AuditRow
}.

Record State : Type := mkState {
  db : Db;
  (** the calls made to the model, latest first *)
  modelCalls : list CallSite;
  randomDraws : nat;
  clockReads : nat;
  (** ghost: how many times [generateTestCases] was entered *)
  pipelineRuns : nat
}.

Definition M (A : Type) : Type := State -> outcome A * State.

Definition ret {A} (a : A) : M A := fun st => (Ok a, st).

Definition bind {A B} (m : M A) (k : A -> M B) : M B :=
  fun st =>
    match m st with
    | (Ok a, st') => k a st'
    | (Throw e, st') => (Throw e, st')
    end.

Definition throw {A} (e : exn) : M A := fun st => (Throw e, st).

(** [try { m } catch (e) { h e }] *)
Definition tryCatch {A} (m : M A) (h : exn -> M A) : M A :=
  fun st =>
    match m st with
    | (Ok a, st') => (Ok a, st')
    | (Throw e, st') => h e st'
    end.

Definition lift {A} (o : outcome A) : M A := fun st => (o, st).

Notation "x <- m ;; k" := (bind m (fun x => k))
  (at level 61, m at next level, right associativity).

Definition setDb (d : Db) (st : State) : State :=
  mkState d (modelCalls st) (randomDraws st) (clockReads st) (pipelineRuns st).

(** [Date.now()], [new Date()], [datetime('now')] *)
Definition readClock (w : World) : M N :=
  fun st =>
    (Ok (clock w (clockReads st)),
     mkState (db st) (modelCalls st) (randomDraws st) (S (clockReads st))
             (pipelineRuns st)).

(** [Math.random()] *)
Definition mathRandom (w : World) : M Draw :=
  fun st =>
    (Ok (randomDraw w (randomDraws st)),
     mkState (db st) (modelCalls st) (S (randomDraws st)) (clockReads st)
             (pipelineRuns st)).

(** [await generateText({ model, prompt, system, ... })], its [text] *)
Definition generateText (w : World) (site : CallSite) : M jstr :=
  fun st =>
    (modelAnswer w (length (modelCalls st)) site,
     mkState (db st) (site :: modelCalls st) (randomDraws st) (clockReads st)
             (pipelineRuns st)).

Definition enterPipeline : M unit :=
  fun st =>
    (Ok tt,
     mkState (db st) (modelCalls st) (randomDraws st) (clockReads st)
             (S (pipelineRuns st))).

(* ===================================================================== *)
(** * The pipeline of [ai-service.ts] *)
(* ===================================================================== *)

Module AiService.

Import AiText.

Record TestGenerationRequest : Type := mkRequest {
  inputType : jstr;
  inputData : jstr;
  testTypes : list jstr;
  language : jstr;
  additionalContext : option jstr;
  framework : option jstr;
  testingLibrary : option jstr;
  aiModel : option jstr
}.

Record GeneratedTest : Type := mkTest {
  type : jstr;
  content : jstr;
  filename : jstr;
  description : jstr;
  coverage : list jstr;
  dependencies : list jstr;
  category : option jstr
}.

Definition blank : string := EmptyString.

(** The lines of a multi-line literal of the source. *)
Definition text (lines : list string) : jstr :=
  Js.join (map Js.lit lines) [NL].

(** ** The fallback templates (lines 1156-1513) *)

(** [templates.unit.java], lines 1159-1203 *)
Definition unit_java : jstr :=
  text [
   "package com.example.test;";
   blank;
   "import org.junit.jupiter.api.Test;";
   "import org.junit.jupiter.api.BeforeEach;";
   "import org.junit.jupiter.api.DisplayName;";
   "import static org.junit.jupiter.api.Assertions.*;";
   blank;
   "@DisplayName(" ++ Js.dq ++ "Generated Unit Test" ++ Js.dq ++ ")";
   "public class GeneratedTest {";
   "    ";
   "    @BeforeEach";
   "    void setUp() {";
   "        // Setup test data";
   "    }";
   "    ";
   "    @Test";
   "    @DisplayName(" ++ Js.dq ++ "Should test basic functionality" ++ Js.dq ++ ")";
   "    void testBasicFunctionality() {";
   "        // Arrange";
   "        String input = " ++ Js.dq ++ "test" ++ Js.dq ++ ";";
   "        ";
   "        // Act";
   "        String result = processInput(input);";
   "        ";
   "        // Assert";
   "        assertNotNull(result);";
   "        assertEquals(" ++ Js.dq ++ "expected" ++ Js.dq ++ ", result);";
   "    }";
   "    ";
   "    @Test";
   "    @DisplayName(" ++ Js.dq ++ "Should handle null input" ++ Js.dq ++ ")";
   "    void testNullInput() {";
   "        // Test null handling";
   "        assertThrows(IllegalArgumentException.class, () -> {";
   "            processInput(null);";
   "        });";
   "    }";
   "    ";
   "    private String processInput(String input) {";
   "        if (input == null) {";
   "            throw new IllegalArgumentException(" ++ Js.dq ++ "Input cannot be null" ++ Js.dq ++ ");";
   "        }";
   "        return " ++ Js.dq ++ "processed: " ++ Js.dq ++ " + input;";
   "    }";
   "}" ]%string.

(** [templates.unit.python], lines 1204-1237 *)
Definition unit_python : jstr :=
  text [
   "import unittest";
   "from unittest.mock import Mock, patch";
   blank;
   "class TestGenerated(unittest.TestCase):";
   "    ";
   "    def setUp(self):";
   "        " ++ Js.dq ++ Js.dq ++ Js.dq ++ "Set up test fixtures" ++ Js.dq ++ Js.dq ++ Js.dq;
   "        self.test_data = " ++ Js.dq ++ "test_input" ++ Js.dq;
   "    ";
   "    def test_basic_functionality(self):";
   "        " ++ Js.dq ++ Js.dq ++ Js.dq ++ "Test basic functionality" ++ Js.dq ++ Js.dq ++ Js.dq;
   "        # Arrange";
   "        input_data = self.test_data";
   "        ";
   "        # Act";
   "        result = self.process_input(input_data)";
   "        ";
   "        # Assert";
   "        self.assertIsNotNone(result)";
   "        self.assertEqual(" ++ Js.dq ++ "processed: test_input" ++ Js.dq ++ ", result)";
   "    ";
   "    def test_none_input(self):";
   "        " ++ Js.dq ++ Js.dq ++ Js.dq ++ "Test handling of None input" ++ Js.dq ++ Js.dq ++ Js.dq;
   "        with self.assertRaises(ValueError):";
   "            self.process_input(None)";
   "    ";
   "    def process_input(self, input_data):";
   "        " ++ Js.dq ++ Js.dq ++ Js.dq ++ "Process input data" ++ Js.dq ++ Js.dq ++ Js.dq;
   "        if input_data is None:";
   "            raise ValueError(" ++ Js.dq ++ "Input cannot be None" ++ Js.dq ++ ")";
   "        return f" ++ Js.dq ++ "processed: {input_data}" ++ Js.dq;
   blank;
   "if __name__ == '__main__':";
   "    unittest.main()" ]%string.

(** [templates.unit.javascript], lines 1238-1272 *)
Definition unit_javascript : jstr :=
  text [
   "const { describe, it, expect, beforeEach } = require('@jest/globals');";
   blank;
   "describe('Generated Test Suite', () => {";
   "    let testData;";
   "    ";
   "    beforeEach(() => {";
   "        testData = 'test_input';";
   "    });";
   "    ";
   "    it('should test basic functionality', () => {";
   "        // Arrange";
   "        const input = testData;";
   "        ";
   "        // Act";
   "        const result = processInput(input);";
   "        ";
   "        // Assert";
   "        expect(result).toBeDefined();";
   "        expect(result).toBe('processed: test_input');";
   "    });";
   "    ";
   "    it('should handle null input', () => {";
   "        // Test null handling";
   "        expect(() => {";
   "            processInput(null);";
   "        }).toThrow('Input cannot be null');";
   "    });";
   "    ";
   "    function processInput(input) {";
   "        if (input === null || input === undefined) {";
   "            throw new Error('Input cannot be null');";
   "        }";
   "        return `processed: ${input}`;";
   "    }";
   "});" ]%string.

(** [templates.bdd.feature], lines 1275-1308 *)
Definition bdd_feature : jstr :=
  text [
   "Feature: Generated Feature";
   "  As a user";
   "  I want to test functionality";
   "  So that I can ensure quality";
   blank;
   "  Background:";
   "    Given the system is initialized";
   "    And test data is prepared";
   blank;
   "  @smoke";
   "  Scenario: Basic functionality test";
   "    Given I have valid input data";
   "    When I process the data";
   "    Then I should get expected results";
   "    And the system should remain stable";
   blank;
   "  @regression";
   "  Scenario Outline: Data validation test";
   "    Given I have input data " ++ Js.dq ++ "<input>" ++ Js.dq;
   "    When I validate the data";
   "    Then the result should be " ++ Js.dq ++ "<result>" ++ Js.dq;
   "    ";
   "    Examples:";
   "      | input    | result  |";
   "      | valid    | success |";
   "      | invalid  | error   |";
   "      | empty    | error   |";
   blank;
   "  @error-handling";
   "  Scenario: Error handling test";
   "    Given I have invalid input";
   "    When I process the data";
   "    Then I should get an error message";
   "    And the error should be logged" ]%string.

(** [templates.api.java], lines 1311-1364 *)
Definition api_java : jstr :=
  text [
   "package com.example.api.test;";
   blank;
   "import io.restassured.RestAssured;";
   "import io.restassured.response.Response;";
   "import org.testng.annotations.BeforeClass;";
   "import org.testng.annotations.Test;";
   "import static io.restassured.RestAssured.*;";
   "import static org.hamcrest.Matchers.*;";
   blank;
   "public class GeneratedAPITest {";
   "    ";
   "    @BeforeClass";
   "    public void setup() {";
   "        RestAssured.baseURI = " ++ Js.dq ++ "http://localhost:8080" ++ Js.dq ++ ";";
   "        RestAssured.basePath = " ++ Js.dq ++ "/api" ++ Js.dq ++ ";";
   "    }";
   "    ";
   "    @Test";
   "    public void testGetEndpoint() {";
   "        given()";
   "            .header(" ++ Js.dq ++ "Content-Type" ++ Js.dq ++ ", " ++ Js.dq ++ "application/json" ++ Js.dq ++ ")";
   "        .when()";
   "            .get(" ++ Js.dq ++ "/users" ++ Js.dq ++ ")";
   "        .then()";
   "            .statusCode(200)";
   "            .body(" ++ Js.dq ++ "size()" ++ Js.dq ++ ", greaterThan(0));";
   "    }";
   "    ";
   "    @Test";
   "    public void testPostEndpoint() {";
   "        String requestBody = " ++ Js.dq ++ "{\" ++ Js.dq ++ "name\" ++ Js.dq ++ ": \" ++ Js.dq ++ "John\" ++ Js.dq ++ ", \" ++ Js.dq ++ "email\" ++ Js.dq ++ ": \" ++ Js.dq ++ "john@example.com\" ++ Js.dq ++ "}" ++ Js.dq ++ ";";
   "        ";
   "        given()";
   "            .header(" ++ Js.dq ++ "Content-Type" ++ Js.dq ++ ", " ++ Js.dq ++ "application/json" ++ Js.dq ++ ")";
   "            .body(requestBody)";
   "        .when()";
   "            .post(" ++ Js.dq ++ "/users" ++ Js.dq ++ ")";
   "        .then()";
   "            .statusCode(201)";
   "            .body(" ++ Js.dq ++ "name" ++ Js.dq ++ ", equalTo(" ++ Js.dq ++ "John" ++ Js.dq ++ "))";
   "            .body(" ++ Js.dq ++ "email" ++ Js.dq ++ ", equalTo(" ++ Js.dq ++ "john@example.com" ++ Js.dq ++ "));";
   "    }";
   "    ";
   "    @Test";
   "    public void testErrorHandling() {";
   "        given()";
   "            .header(" ++ Js.dq ++ "Content-Type" ++ Js.dq ++ ", " ++ Js.dq ++ "application/json" ++ Js.dq ++ ")";
   "        .when()";
   "            .get(" ++ Js.dq ++ "/users/999999" ++ Js.dq ++ ")";
   "        .then()";
   "            .statusCode(404)";
   "            .body(" ++ Js.dq ++ "error" ++ Js.dq ++ ", notNullValue());";
   "    }";
   "}" ]%string.

(** [templates.ui.java], lines 1367-1431 *)
Definition ui_java : jstr :=
  text [
   "package com.example.ui.test;";
   blank;
   "import org.openqa.selenium.WebDriver;";
   "import org.openqa.selenium.WebElement;";
   "import org.openqa.selenium.support.FindBy;";
   "import org.openqa.selenium.support.PageFactory;";
   "import org.openqa.selenium.support.ui.WebDriverWait;";
   "import org.testng.annotations.AfterMethod;";
   "import org.testng.annotations.BeforeMethod;";
   "import org.testng.annotations.Test;";
   "import io.github.bonigarcia.wdm.WebDriverManager;";
   "import org.openqa.selenium.chrome.ChromeDriver;";
   "import static org.testng.Assert.*;";
   blank;
   "public class GeneratedUITest {";
   "    ";
   "    private WebDriver driver;";
   "    private WebDriverWait wait;";
   "    ";
   "    @FindBy(id = " ++ Js.dq ++ "email" ++ Js.dq ++ ")";
   "    private WebElement emailField;";
   "    ";
   "    @FindBy(id = " ++ Js.dq ++ "password" ++ Js.dq ++ ")";
   "    private WebElement passwordField;";
   "    ";
   "    @FindBy(id = " ++ Js.dq ++ "submit" ++ Js.dq ++ ")";
   "    private WebElement submitButton;";
   "    ";
   "    @BeforeMethod";
   "    public void setup() {";
   "        WebDriverManager.chromedriver().setup();";
   "        driver = new ChromeDriver();";
   "        wait = new WebDriverWait(driver, 10);";
   "        PageFactory.initElements(driver, this);";
   "    }";
   "    ";
   "    @Test";
   "    public void testLoginForm() {";
   "        driver.get(" ++ Js.dq ++ "http://localhost:3000/login" ++ Js.dq ++ ");";
   "        ";
   "        emailField.sendKeys(" ++ Js.dq ++ "test@example.com" ++ Js.dq ++ ");";
   "        passwordField.sendKeys(" ++ Js.dq ++ "password123" ++ Js.dq ++ ");";
   "        submitButton.click();";
   "        ";
   "        // Verify successful login";
   "        assertTrue(driver.getCurrentUrl().contains(" ++ Js.dq ++ "dashboard" ++ Js.dq ++ "));";
   "    }";
   "    ";
   "    @Test";
   "    public void testFormValidation() {";
   "        driver.get(" ++ Js.dq ++ "http://localhost:3000/login" ++ Js.dq ++ ");";
   "        ";
   "        submitButton.click();";
   "        ";
   "        // Verify validation messages";
   "        assertTrue(emailField.getAttribute(" ++ Js.dq ++ "validationMessage" ++ Js.dq ++ ").contains(" ++ Js.dq ++ "required" ++ Js.dq ++ "));";
   "    }";
   "    ";
   "    @AfterMethod";
   "    public void tearDown() {";
   "        if (driver != null) {";
   "            driver.quit();";
   "        }";
   "    }";
   "}" ]%string.

(** [templates.performance.jmx], lines 1434-1479 *)
Definition performance_jmx : jstr :=
  text [
   "<?xml version=" ++ Js.dq ++ "1.0" ++ Js.dq ++ " encoding=" ++ Js.dq ++ "UTF-8" ++ Js.dq ++ "?>";
   "<jmeterTestPlan version=" ++ Js.dq ++ "1.2" ++ Js.dq ++ ">";
   "  <hashTree>";
   "    <TestPlan guiclass=" ++ Js.dq ++ "TestPlanGui" ++ Js.dq ++ " testclass=" ++ Js.dq ++ "TestPlan" ++ Js.dq ++ " testname=" ++ Js.dq ++ "Generated Performance Test" ++ Js.dq ++ ">";
   "      <stringProp name=" ++ Js.dq ++ "TestPlan.comments" ++ Js.dq ++ ">Generated performance test plan</stringProp>";
   "      <boolProp name=" ++ Js.dq ++ "TestPlan.functional_mode" ++ Js.dq ++ ">false</boolProp>";
   "      <boolProp name=" ++ Js.dq ++ "TestPlan.serialize_threadgroups" ++ Js.dq ++ ">false</boolProp>";
   "      <elementProp name=" ++ Js.dq ++ "TestPlan.arguments" ++ Js.dq ++ " elementType=" ++ Js.dq ++ "Arguments" ++ Js.dq ++ " guiclass=" ++ Js.dq ++ "ArgumentsPanel" ++ Js.dq ++ ">";
   "        <collectionProp name=" ++ Js.dq ++ "Arguments.arguments" ++ Js.dq ++ "/>";
   "      </elementProp>";
   "      <stringProp name=" ++ Js.dq ++ "TestPlan.user_define_classpath" ++ Js.dq ++ "></stringProp>";
   "    </TestPlan>";
   "    <hashTree>";
   "      <ThreadGroup guiclass=" ++ Js.dq ++ "ThreadGroupGui" ++ Js.dq ++ " testclass=" ++ Js.dq ++ "ThreadGroup" ++ Js.dq ++ " testname=" ++ Js.dq ++ "Load Test" ++ Js.dq ++ ">";
   "        <stringProp name=" ++ Js.dq ++ "ThreadGroup.on_sample_error" ++ Js.dq ++ ">continue</stringProp>";
   "        <elementProp name=" ++ Js.dq ++ "ThreadGroup.main_controller" ++ Js.dq ++ " elementType=" ++ Js.dq ++ "LoopController" ++ Js.dq ++ ">";
   "          <boolProp name=" ++ Js.dq ++ "LoopController.continue_forever" ++ Js.dq ++ ">false</boolProp>";
   "          <stringProp name=" ++ Js.dq ++ "LoopController.loops" ++ Js.dq ++ ">10</stringProp>";
   "        </elementProp>";
   "        <stringProp name=" ++ Js.dq ++ "ThreadGroup.num_threads" ++ Js.dq ++ ">50</stringProp>";
   "        <stringProp name=" ++ Js.dq ++ "ThreadGroup.ramp_time" ++ Js.dq ++ ">60</stringProp>";
   "        <longProp name=" ++ Js.dq ++ "ThreadGroup.start_time" ++ Js.dq ++ ">1</longProp>";
   "        <longProp name=" ++ Js.dq ++ "ThreadGroup.end_time" ++ Js.dq ++ ">1</longProp>";
   "        <boolProp name=" ++ Js.dq ++ "ThreadGroup.scheduler" ++ Js.dq ++ ">false</boolProp>";
   "        <stringProp name=" ++ Js.dq ++ "ThreadGroup.duration" ++ Js.dq ++ "></stringProp>";
   "        <stringProp name=" ++ Js.dq ++ "ThreadGroup.delay" ++ Js.dq ++ "></stringProp>";
   "      </ThreadGroup>";
   "      <hashTree>";
   "        <HTTPSamplerProxy guiclass=" ++ Js.dq ++ "HttpTestSampleGui" ++ Js.dq ++ " testclass=" ++ Js.dq ++ "HTTPSamplerProxy" ++ Js.dq ++ " testname=" ++ Js.dq ++ "API Request" ++ Js.dq ++ ">";
   "          <elementProp name=" ++ Js.dq ++ "HTTPsampler.Arguments" ++ Js.dq ++ " elementType=" ++ Js.dq ++ "Arguments" ++ Js.dq ++ ">";
   "            <collectionProp name=" ++ Js.dq ++ "Arguments.arguments" ++ Js.dq ++ "/>";
   "          </elementProp>";
   "          <stringProp name=" ++ Js.dq ++ "HTTPSampler.domain" ++ Js.dq ++ ">localhost</stringProp>";
   "          <stringProp name=" ++ Js.dq ++ "HTTPSampler.port" ++ Js.dq ++ ">8080</stringProp>";
   "          <stringProp name=" ++ Js.dq ++ "HTTPSampler.protocol" ++ Js.dq ++ ">http</stringProp>";
   "          <stringProp name=" ++ Js.dq ++ "HTTPSampler.contentEncoding" ++ Js.dq ++ "></stringProp>";
   "          <stringProp name=" ++ Js.dq ++ "HTTPSampler.path" ++ Js.dq ++ ">/api/users</stringProp>";
   "          <stringProp name=" ++ Js.dq ++ "HTTPSampler.method" ++ Js.dq ++ ">GET</stringProp>";
   "          <boolProp name=" ++ Js.dq ++ "HTTPSampler.follow_redirects" ++ Js.dq ++ ">true</boolProp>";
   "          <boolProp name=" ++ Js.dq ++ "HTTPSampler.auto_redirects" ++ Js.dq ++ ">false</boolProp>";
   "          <boolProp name=" ++ Js.dq ++ "HTTPSampler.use_keepalive" ++ Js.dq ++ ">true</boolProp>";
   "        </HTTPSamplerProxy>";
   "      </hashTree>";
   "    </hashTree>";
   "  </hashTree>";
   "</jmeterTestPlan>" ]%string.

(** The constant [templates] of [generateBasicTestTemplate] *)
Definition templates : list (jstr * list (jstr * jstr)) :=
  [(`"unit", [(`"java", unit_java); (`"python", unit_python);
              (`"javascript", unit_javascript)]);
   (`"bdd", [(`"feature", bdd_feature)]);
   (`"api", [(`"java", api_java)]);
   (`"ui", [(`"java", ui_java)]);
   (`"performance", [(`"jmx", performance_jmx)])].

(** [generateBasicTestTemplate] *)
Definition generateBasicTestTemplate (request : TestGenerationRequest)
           (testType : jstr) : option GeneratedTest :=
  let languageKey := language request in
  match tableGet templates testType with
  | None => None
  | Some testTemplate =>
      let (content, filename) :=
        if Js.eqb testType `"bdd"
        then (orElse (tableGet testTemplate `"feature") [],
              `"generated-test.feature")
        else if Js.eqb testType `"performance"
        then (orElse (tableGet testTemplate `"jmx") [],
              `"performance-test.jmx")
        else (orElse (tableGet testTemplate languageKey)
                (orElse (tableGet testTemplate `"java") []),
              generateFilename testType (language request)
                (inputData request)) in
      match content with
      | [] => None
      | _ :: _ =>
          Some (mkTest testType content filename
                  (`"Template-based " ++ testType ++ `" test for "
                    ++ inputType request)
                  [`"Basic " ++ testType ++ `" testing";
                   `"Template-generated"; `"Fallback implementation"]
                  (getDefaultDependencies testType (language request))
                  (Some `"main"))
      end
  end.

(** [generateTestFromTemplate] (lines 1146-1153) *)
Definition generateTestFromTemplate (request : TestGenerationRequest)
           (testType : jstr) (analysis : value) : list GeneratedTest :=
  match generateBasicTestTemplate request testType with
  | Some template => [template]
  | None => []
  end.

(** ** The fallback analyses *)

(** [getFallbackAnalysis] (lines 1516-1524) *)
Definition getFallbackAnalysis (request : TestGenerationRequest) : value :=
  VObj [(`"complexity", VStr `"medium");
        (`"estimatedExecutionTime", VNum `"30");
        (`"riskAreas", Dyn.strs [`"Data validation"; `"Error handling"]);
        (`"recommendations",
         Dyn.strs [`"Add edge case testing"; `"Include negative scenarios"]);
        (`"testableComponents",
         Dyn.strs [`"main functionality"; `"error handling";
                   `"data validation"])].

(** [inferProjectStructure] (lines 1526-1554) *)
Definition inferProjectStructure (repoUrl : jstr) : value :=
  VObj [(`"structure",
         VObj [(`"projectType", VStr `"maven");
               (`"mainPackages",
                Dyn.strs [`"com.example.service"; `"com.example.controller"]);
               (`"testPackages", Dyn.strs [`"com.example.service.test"]);
               (`"configFiles", Dyn.strs [`"pom.xml"]);
               (`"sourceDirectories",
                Dyn.strs [`"src/main/java"; `"src/test/java"])]);
        (`"dependencies",
         Dyn.strs [`"spring-boot-starter"; `"junit-jupiter"; `"mockito-core"]);
        (`"frameworks", Dyn.strs [`"Spring Boot"; `"JPA"]);
        (`"testableClasses",
         VArr [VObj [(`"className", VStr `"UserService");
                     (`"package", VStr `"com.example.service");
                     (`"methods",
                      Dyn.strs [`"createUser"; `"findUser"; `"updateUser";
                                `"deleteUser"]);
                     (`"dependencies", Dyn.strs [`"UserRepository"])]]);
        (`"apiEndpoints",
         VArr [VObj [(`"path", VStr `"/api/users");
                     (`"method", VStr `"POST");
                     (`"controller", VStr `"UserController")]]);
        (`"complexity", VStr `"medium")].

(** [inferPageStructure] (lines 1556-1605) *)
Definition inferPageStructure (webUrl : jstr) : value :=
  VObj [(`"pageType", VStr `"login");
        (`"elements",
         VArr [VObj [(`"type", VStr `"input"); (`"id", VStr `"email");
                     (`"name", VStr `"email"); (`"selector", VStr `"#email");
                     (`"label", VStr `"Email Address");
                     (`"required", VBool true);
                     (`"validation", VStr `"email format")];
               VObj [(`"type", VStr `"input"); (`"id", VStr `"password");
                     (`"name", VStr `"password");
                     (`"selector", VStr `"#password");
                     (`"label", VStr `"Password");
                     (`"required", VBool true);
                     (`"validation", VStr `"minimum length")];
               VObj [(`"type", VStr `"button"); (`"id", VStr `"submit");
                     (`"selector", VStr `"#submit-btn");
                     (`"text", VStr `"Login");
                     (`"action", VStr `"submit form")]]);
        (`"workflows",
         VArr [VObj [(`"name", VStr `"User Login");
                     (`"steps",
                      Dyn.strs [`"Navigate to login page"; `"Enter email";
                                `"Enter password"; `"Click login button";
                                `"Verify successful login"])]]);
        (`"validations",
         Dyn.strs [`"Email field validation"; `"Password field validation";
                   `"Error message display"; `"Successful login redirect"])].

(** ** Uploaded files (lines 444-470, 1808-1840) *)

Definition getLanguageFromExtension (filename : jstr) : jstr :=
  if Js.endsWith filename `".java" then `"java"
  else if Js.endsWith filename `".py" then `"python"
  else if Js.endsWith filename `".js" || Js.endsWith filename `".jsx"
  then `"javascript"
  else if Js.endsWith filename `".ts" || Js.endsWith filename `".tsx"
  then `"typescript"
  else `"unknown".

Fixpoint takeWhile (f : N -> bool) (s : jstr) : jstr :=
  match s with
  | c :: r => if f c then c :: takeWhile f r else []
  | [] => []
  end.

(** [\s+] at the head of [s]: what follows the white space. *)
Definition afterSpaces (s : jstr) : option jstr :=
  match s with
  | c :: r => if Js.isWhiteSpace c
              then Some (Js.dropWhile Js.isWhiteSpace r) else None
  | [] => None
  end.

(** A match of [class\s+(\w+)] at the head of [s]: the captured name. *)
Definition classAt (s : jstr) : option jstr :=
  if Js.startsWith s `"class" then
    match afterSpaces (skipn 5 s) with
    | Some r => match takeWhile Js.isWordChar r with
                | [] => None
                | name => Some name
                end
    | None => None
    end
  else None.

(** A match of [public\s+class\s+(\w+)] at the head of [s]. *)
Definition publicClassAt (s : jstr) : option jstr :=
  if Js.startsWith s `"public" then
    match afterSpaces (skipn 6 s) with
    | Some r => classAt r
    | None => None
    end
  else None.

(** [content.match(re)], the first capture of the leftmost match. *)
Fixpoint search (at_ : jstr -> option jstr) (s : jstr) : option jstr :=
  match at_ s with
  | Some name => Some name
  | None => match s with
            | [] => None
            | _ :: r => search at_ r
            end
  end.

(** The method patterns of the three functions below hold [$$] before a
    [\{] that must still be read, so that they match no text and
    [methods] is always empty. *)
Definition extractJavaElements (content : jstr) : list jstr :=
  [match search publicClassAt content with
   | Some className => className
   | None => `"UnknownClass"
   end].

Definition extractPythonElements (content : jstr) : list jstr :=
  [match search classAt content with
   | Some className => className
   | None => `"UnknownClass"
   end].

Definition extractJavaScriptElements (content : jstr) : list jstr :=
  [match search classAt content with
   | Some className => className
   | None => `"UnknownClass"
   end].

Definition parseUploadedFiles (inputData : jstr) : list UploadedFile :=
  let fileBlocks := tl (Js.splitOn inputData `"// File:") in
  map (fun block =>
         let lines := Js.split (Js.trim block) NL in
         let fileName := Js.trim (hd [] lines) in
         let content := Js.join (tl lines) [NL] in
         mkUploadedFile fileName content
           (getLanguageFromExtension fileName)
           (length (filter (fun line => match Js.trim line with
                                        | [] => false
                                        | _ :: _ => true
                                        end)
                      (Js.split content NL)))
           (if Js.endsWith fileName `".java" then extractJavaElements content
            else if Js.endsWith fileName `".py"
                 then extractPythonElements content
                 else extractJavaScriptElements content)
           `"medium")
      fileBlocks.

(** The tally [languages] of [generateFallbackProjectAnalysis], in the
    order the languages first occur. *)
Fixpoint tally (acc : list (jstr * nat)) (lang : jstr) : list (jstr * nat) :=
  match acc with
  | [] => [(lang, 1)]
  | (k, n) :: rest => if Js.eqb k lang then (k, S n) :: rest
                      else (k, n) :: tally rest lang
  end.

(** The first entry of the largest count: [sort(...)[0]] of a stable sort. *)
Fixpoint firstMax (l : list (jstr * nat)) : option (jstr * nat) :=
  match l with
  | [] => None
  | (k, n) :: rest =>
      match firstMax rest with
      | Some (k', n') => if n <? n' then Some (k', n') else Some (k, n)
      | None => Some (k, n)
      end
  end.

(** [name.replace(/\.[^.]+$/, empty)]: the name without its extension *)
Definition stripExtension (name : jstr) : jstr :=
  match Js.lastIndexOf name 46%N with
  | Some i => if S i <? length name then firstn i name else name
  | None => name
  end.

(** [generateFallbackProjectAnalysis] (lines 409-442) *)
Definition generateFallbackProjectAnalysis (files : list UploadedFile) : value :=
  let languages := fold_left (fun acc file => tally acc (file_language file))
                             files [] in
  let mainLanguage :=
    match firstMax languages with
    | Some (k, _) => orElse (Some k) `"java"
    | None => `"java"
    end in
  let isJava := Js.eqb mainLanguage `"java" in
  let isPython := Js.eqb mainLanguage `"python" in
  VObj [(`"structure",
         VObj [(`"projectType",
                VStr (if isJava then `"maven"
                      else if isPython then `"pip" else `"npm"));
               (`"mainLanguage", VStr mainLanguage);
               (`"totalFiles", Dyn.ofNat (length files))]);
        (`"dependencies", Dyn.strs [`"junit"; `"mockito"; `"assertj"]);
        (`"frameworks",
         Dyn.strs [if isJava then `"Spring Boot"
                   else if isPython then `"Django" else `"Express.js"]);
        (`"testableClasses",
         VArr (firstn 20
                 (flat_map
                    (fun file =>
                       map (fun element =>
                              VObj [(`"className", VStr element);
                                    (`"package",
                                     VStr (stripExtension (file_name file)));
                                    (`"methods", Dyn.strs [`"testMethod"]);
                                    (`"complexity",
                                     VStr (file_complexity file))])
                           (file_testableElements file))
                    files)));
        (`"apiEndpoints", VArr []);
        (`"complexity",
         VStr (if 20 <? length files then `"high"
               else if 10 <? length files then `"medium" else `"low"))].

(** ** The analysis calls *)

(** [getAIModel] (lines 62-76): the name of the model, or the error of a
    missing key. *)
Definition getAIModel (w : World) (modelName : option jstr) : outcome jstr :=
  match GOOGLE_GENERATIVE_AI_API_KEY w with
  | Some (_ :: _) => Ok (orElse modelName `"gemini-1.5-flash")
  | _ =>
      Throw (JsError `"Google AI Studio API key not found. Please set GOOGLE_GENERATIVE_AI_API_KEY in your environment variables.")
  end.

(** [JSON.parse(extractJsonFromResponse(text))] *)
Definition parseResponse (text : jstr) : M value :=
  lift (Json.parse (extractJsonFromResponse text)).

(** [analyzeInput] (lines 172-198) *)
Definition analyzeInput (w : World) (request : TestGenerationRequest) : M value :=
  tryCatch
    (text <- generateText w AtAnalyzeInput ;;
     parseResponse text)
    (fun error => ret (getFallbackAnalysis request)).

(** [analyzeUploadedFiles] (lines 201-265) *)
Definition analyzeUploadedFiles (w : World) (files : list UploadedFile) : M value :=
  tryCatch
    (text <- generateText w AtAnalyzeUploadedFiles ;;
     analysis <- parseResponse text ;;
     structure <- lift (Dyn.get analysis `"structure") ;;
     testableClasses <- lift (Dyn.get analysis `"testableClasses") ;;
     complexity <- lift (Dyn.get analysis `"complexity") ;;
     ret (VObj [(`"structure", Dyn.or (engine w) structure (VObj []));
                (`"dependencies", Dyn.strs (extractDependencies w files));
                (`"frameworks", Dyn.strs (detectFrameworks w files));
                (`"testableClasses",
                 Dyn.or (engine w) testableClasses (VArr []));
                (`"apiEndpoints", VArr (extractApiEndpoints w files));
                (`"complexity",
                 Dyn.or (engine w) complexity (VStr `"medium"))]))
    (fun error => ret (generateFallbackProjectAnalysis files)).

(** [analyzeGitRepository] (lines 473-502) *)
Definition analyzeGitRepository (w : World) (repoUrl : jstr) : M value :=
  tryCatch
    (text <- generateText w AtAnalyzeGitRepository ;;
     parseResponse text)
    (fun error => ret (inferProjectStructure repoUrl)).

(** [analyzePostmanCollection] (lines 505-538); [parsedCollection] is
    only printed into the prompt. *)
Definition analyzePostmanCollection (w : World) (collectionData : jstr) : M value :=
  tryCatch
    (text <- generateText w AtAnalyzePostmanCollection ;;
     parseResponse text)
    (fun error => ret (VObj [(`"endpoints", VArr []);
                             (`"workflows", VArr [])])).

(** [analyzeWebPage] (lines 541-568) *)
Definition analyzeWebPage (w : World) (webUrl : jstr) : M value :=
  tryCatch
    (text <- generateText w AtAnalyzeWebPage ;;
     parseResponse text)
    (fun error => ret (inferPageStructure webUrl)).

(** ** Class templates and the suite runner (lines 728-962) *)

(** The tests of one method in the Java class template. *)
Definition classMethodJava (method cap lower : jstr) : jstr :=
  text [
     "    @Test";
     "    @DisplayName(" ++ Js.dq ++ "Should test " ]%string
  ++ method
  ++ text [
     " functionality" ++ Js.dq ++ ")";
     "    void test" ]%string
  ++ cap
  ++ text [
     "() {";
     "        // Arrange";
     "        // Set up test data and mock behavior";
     "        ";
     "        // Act";
     "        // Call the method under test";
     "        ";
     "        // Assert";
     "        // Verify the results and mock interactions";
     "        assertNotNull(" ]%string
  ++ lower
  ++ text [
     ");";
     "    }";
     "    ";
     "    @Test";
     "    @DisplayName(" ++ Js.dq ++ "Should handle " ]%string
  ++ method
  ++ text [
     " edge cases" ++ Js.dq ++ ")";
     "    void test" ]%string
  ++ cap
  ++ text [
     "EdgeCases() {";
     "        // Test edge cases and error scenarios";
     "        assertThrows(Exception.class, () -> {";
     "            // Test exception scenarios";
     "        });";
     "    }" ]%string.

(** The Java class template (from line 735). *)
Definition classTemplateJava (pkg cls lower methodsText : jstr) : jstr :=
  Js.lit ("package ")%string
  ++ pkg
  ++ text [
     ".test;";
     blank;
     "import org.junit.jupiter.api.Test;";
     "import org.junit.jupiter.api.BeforeEach;";
     "import org.junit.jupiter.api.DisplayName;";
     "import org.junit.jupiter.api.extension.ExtendWith;";
     "import org.mockito.Mock;";
     "import org.mockito.InjectMocks;";
     "import org.mockito.junit.jupiter.MockitoExtension;";
     "import static org.junit.jupiter.api.Assertions.*;";
     "import static org.mockito.Mockito.*;";
     blank;
     "@ExtendWith(MockitoExtension.class)";
     "@DisplayName(" ++ Js.dq ]%string
  ++ cls
  ++ text [
     " Unit Tests" ++ Js.dq ++ ")";
     "public class " ]%string
  ++ cls
  ++ text [
     "Test {";
     "    ";
     "    @Mock";
     "    private Object mockDependency;";
     "    ";
     "    @InjectMocks";
     "    private " ]%string
  ++ cls
  ++ Js.lit (" ")%string
  ++ lower
  ++ text [
     ";";
     "    ";
     "    @BeforeEach";
     "    void setUp() {";
     "        // Setup test data and mocks";
     "    }";
     "    ";
     blank ]%string
  ++ methodsText
  ++ text [
     blank;
     "}" ]%string.

(** The tests of one method in the Python class template. *)
Definition classMethodPython (method lower : jstr) : jstr :=
  Js.lit ("    def test_")%string
  ++ method
  ++ text [
     "(self):";
     "        " ++ Js.dq ++ Js.dq ++ Js.dq ++ "Test " ]%string
  ++ method
  ++ text [
     " functionality." ++ Js.dq ++ Js.dq ++ Js.dq;
     "        # Arrange";
     "        expected_result = " ++ Js.dq ++ "test_result" ++ Js.dq;
     "        ";
     "        # Act";
     "        result = self." ]%string
  ++ lower
  ++ Js.lit (".")%string
  ++ method
  ++ text [
     "()";
     "        ";
     "        # Assert";
     "        self.assertIsNotNone(result)";
     "        ";
     "    def test_" ]%string
  ++ method
  ++ text [
     "_edge_cases(self):";
     "        " ++ Js.dq ++ Js.dq ++ Js.dq ++ "Test " ]%string
  ++ method
  ++ text [
     " edge cases and error scenarios." ++ Js.dq ++ Js.dq ++ Js.dq;
     "        with self.assertRaises(Exception):";
     "            self." ]%string
  ++ lower
  ++ Js.lit (".")%string
  ++ method
  ++ Js.lit ("(None)")%string.

(** The Python class template (from line 790). *)
Definition classTemplatePython (cls lower methodsText : jstr) : jstr :=
  text [
     "import unittest";
     "from unittest.mock import Mock, patch, MagicMock";
     "import pytest";
     blank;
     "class Test" ]%string
  ++ cls
  ++ text [
     "(unittest.TestCase):";
     "    ";
     "    def setUp(self):";
     "        " ++ Js.dq ++ Js.dq ++ Js.dq ++ "Set up test fixtures before each test method." ++ Js.dq ++ Js.dq ++ Js.dq;
     "        self.mock_dependency = Mock()";
     "        self." ]%string
  ++ lower
  ++ Js.lit (" = ")%string
  ++ cls
  ++ text [
     "(self.mock_dependency)";
     "    ";
     blank ]%string
  ++ methodsText
  ++ text [
     blank;
     blank;
     "if __name__ == '__main__':";
     "    unittest.main()" ]%string.

(** The tests of one method in the JavaScript class template. *)
Definition classMethodJavaScript (method lower : jstr) : jstr :=
  Js.lit ("    describe('")%string
  ++ method
  ++ text [
     "', () => {";
     "        it('should test " ]%string
  ++ method
  ++ text [
     " functionality', () => {";
     "            // Arrange";
     "            const expectedResult = 'test_result';";
     "            ";
     "            // Act";
     "            const result = " ]%string
  ++ lower
  ++ Js.lit (".")%string
  ++ method
  ++ text [
     "();";
     "            ";
     "            // Assert";
     "            expect(result).toBeDefined();";
     "        });";
     "        ";
     "        it('should handle " ]%string
  ++ method
  ++ text [
     " edge cases', () => {";
     "            // Test edge cases and error scenarios";
     "            expect(() => {";
     "                " ]%string
  ++ lower
  ++ Js.lit (".")%string
  ++ method
  ++ text [
     "(null);";
     "            }).toThrow();";
     "        });";
     "    });" ]%string.

(** The JavaScript class template (from line 824). *)
Definition classTemplateJavaScript (cls lower methodsText : jstr) : jstr :=
  text [
     "const { describe, it, expect, beforeEach, jest } = require('@jest/globals');";
     blank;
     "describe('" ]%string
  ++ cls
  ++ text [
     "', () => {";
     "    let " ]%string
  ++ lower
  ++ text [
     ";";
     "    let mockDependency;";
     "    ";
     "    beforeEach(() => {";
     "        mockDependency = jest.fn();";
     "        " ]%string
  ++ lower
  ++ Js.lit (" = new ")%string
  ++ cls
  ++ text [
     "(mockDependency);";
     "    });";
     "    ";
     blank ]%string
  ++ methodsText
  ++ text [
     blank;
     "});" ]%string.

(** The Java suite (from line 881); [names] are the file names without [.java]. *)
Definition suiteJava (names : list jstr) : jstr :=
  text [
     "package com.example.test;";
     blank;
     "import org.junit.platform.suite.api.SelectClasses;";
     "import org.junit.platform.suite.api.Suite;";
     "import org.junit.platform.suite.api.SuiteDisplayName;";
     blank;
     "@Suite";
     "@SuiteDisplayName(" ++ Js.dq ++ "Complete Unit Test Suite" ++ Js.dq ++ ")";
     "@SelectClasses({";
     blank ]%string
  ++ Js.join (map (fun name => Js.lit ("    ")%string
      ++ name
      ++ Js.lit (".class")%string) names) (44 :: [10])%N
  ++ text [
     blank;
     "})";
     "public class UnitTestSuite {";
     "    // This class runs all unit tests in the project";
     "    // Execute with: mvn test -Dtest=UnitTestSuite";
     "}" ]%string.

(** The Python suite (from line 897); a module name is the file name without [.py], paired with its class name. *)
Definition suitePython (modules : list (jstr * jstr)) : jstr :=
  text [
     Js.dq ++ Js.dq ++ Js.dq;
     "Complete Unit Test Suite";
     "Run with: python -m pytest test_suite.py -v";
     Js.dq ++ Js.dq ++ Js.dq;
     blank;
     "import unittest";
     "import sys";
     "import os";
     blank;
     "# Import all test classes";
     blank ]%string
  ++ Js.join (map (fun m => Js.lit ("from ")%string
      ++ (fst m)
      ++ Js.lit (" import ")%string
      ++ (snd m)) modules) [10%N]
  ++ text [
     blank;
     blank;
     "def create_test_suite():";
     "    " ++ Js.dq ++ Js.dq ++ Js.dq ++ "Create a test suite containing all unit tests." ++ Js.dq ++ Js.dq ++ Js.dq;
     "    suite = unittest.TestSuite()";
     "    ";
     "    # Add all test classes";
     blank ]%string
  ++ Js.join (map (fun m => Js.lit ("    suite.addTest(unittest.makeSuite(")%string
      ++ (snd m)
      ++ Js.lit ("))")%string) modules) [10%N]
  ++ text [
     blank;
     "    ";
     "    return suite";
     blank;
     "if __name__ == '__main__':";
     "    runner = unittest.TextTestRunner(verbosity=2)";
     "    result = runner.run(create_test_suite())";
     "    ";
     "    # Exit with error code if tests failed";
     "    sys.exit(0 if result.wasSuccessful() else 1)" ]%string.

(** The JavaScript suite (from line 925); [names] are the file names. *)
Definition suiteJavaScript (names : list jstr) : jstr :=
  text [
     "/**";
     " * Complete Unit Test Suite";
     " * Run with: npm test";
     " */";
     blank;
     "// Import all test files";
     blank ]%string
  ++ Js.join (map (fun name => Js.lit ("require('./")%string
      ++ name
      ++ Js.lit ("');")%string) names) [10%N]
  ++ text [
     blank;
     blank;
     "// Jest will automatically discover and run all tests";
     "// Configuration in package.json:";
     "/*";
     "{";
     "  " ++ Js.dq ++ "scripts" ++ Js.dq ++ ": {";
     "    " ++ Js.dq ++ "test" ++ Js.dq ++ ": " ++ Js.dq ++ "jest" ++ Js.dq ++ ",";
     "    " ++ Js.dq ++ "test:coverage" ++ Js.dq ++ ": " ++ Js.dq ++ "jest --coverage" ++ Js.dq ++ ",";
     "    " ++ Js.dq ++ "test:watch" ++ Js.dq ++ ": " ++ Js.dq ++ "jest --watch" ++ Js.dq;
     "  },";
     "  " ++ Js.dq ++ "jest" ++ Js.dq ++ ": {";
     "    " ++ Js.dq ++ "testEnvironment" ++ Js.dq ++ ": " ++ Js.dq ++ "node" ++ Js.dq ++ ",";
     "    " ++ Js.dq ++ "collectCoverageFrom" ++ Js.dq ++ ": [";
     "      " ++ Js.dq ++ "src/**/*.{js,jsx}" ++ Js.dq ++ ",";
     "      " ++ Js.dq ++ "!src/index.js" ++ Js.dq;
     "    ]";
     "  }";
     "}";
     "*/" ]%string.

(** [method.charAt(0).toUpperCase() + method.slice(1)] *)
Definition capitalize (method : jstr) : jstr :=
  Js.toUpperCase (firstn 1 method) ++ skipn 1 method.

(** [generateClassSpecificTemplate] (lines 728-870). A [TypeError] is
    thrown where the source calls [toLowerCase], [map] or [charAt] on a
    value that has no such method, and where a template literal converts
    a value that has no conversion to a string. The class name is a
    string wherever the function returns, since [toLowerCase] is called
    on it in each of the three templates. *)
Definition generateClassSpecificTemplate (w : World)
           (request : TestGenerationRequest) (testableClass : value)
  : outcome (option GeneratedTest) :=
  let eng := engine w in
  match Dyn.get testableClass `"className",
        Dyn.get testableClass `"methods",
        Dyn.get testableClass `"package" with
  | Ok cn, Ok ms, Ok pk =>
      let className := Dyn.or eng cn (VStr `"TestClass") in
      let methods := Dyn.or eng ms (Dyn.strs [`"testMethod"]) in
      match className, methods with
      | VStr cls, VArr items =>
          let lower := Js.toLowerCase cls in
          let made :=
            if Js.eqb (language request) `"java" then
              andThen (Dyn.toStr eng (Dyn.or eng pk (VStr `"com.example")))
                (fun package =>
                   andThen
                     (mapO (fun method =>
                              match method with
                              | VStr m =>
                                  Ok (classMethodJava m (capitalize m) lower)
                              | _ => Throw TypeError
                              end) items)
                     (fun parts =>
                        Ok (classTemplateJava package cls lower
                              (Js.join parts [NL; NL]))))
            else if Js.eqb (language request) `"python" then
              andThen (mapO (Dyn.toStr eng) items)
                (fun names =>
                   Ok (classTemplatePython cls lower
                         (Js.join (map (fun method =>
                                          classMethodPython method lower)
                                       names) [NL; NL])))
            else
              andThen (mapO (Dyn.toStr eng) items)
                (fun names =>
                   Ok (classTemplateJavaScript cls lower
                         (Js.join (map (fun method =>
                                          classMethodJavaScript method lower)
                                       names) [NL; NL]))) in
          match made with
          | Ok content =>
              Ok (Some (mkTest `"unit" content
                          (cls ++ `"Test." ++ getFileExtension (language request))
                          (`"Template-based unit tests for " ++ cls)
                          [cls ++ `" methods"; `"Basic functionality";
                           `"Error handling"]
                          (getDefaultDependencies `"unit" (language request))
                          (Some `"main")))
          | Throw e => Throw e
          end
      | _, _ => Throw TypeError
      end
  | _, _, _ => Throw TypeError
  end.

(** [generateTestSuiteRunner] (lines 873-962) *)
Definition generateTestSuiteRunner (request : TestGenerationRequest)
           (tests : list GeneratedTest) (analysis : value)
  : option GeneratedTest :=
  let content :=
    if Js.eqb (language request) `"java" then
      suiteJava (map (fun test => Js.replaceFirst (filename test) `".java" [])
                     tests)
    else if Js.eqb (language request) `"python" then
      suitePython
        (map (fun test =>
                let module := Js.replaceFirst (filename test) `".py" [] in
                (module, Js.replaceFirst module `"test_" `"Test"))
             tests)
    else suiteJavaScript (map filename tests) in
  Some (mkTest `"unit" content
          (`"TestSuite." ++ getFileExtension (language request))
          `"Complete unit test suite runner"
          [`"All project classes"; `"Test execution"; `"Coverage reporting"]
          (getDefaultDependencies `"unit" (language request) ++ [`"test-runner"])
          (Some `"runner")).

(** ** Generation for one kind of test (lines 609-725, 975-1143) *)

(** What [for (const c of s)] yields: the code points of a string, a
    surrogate pair being one of them. *)
Fixpoint codePoints (s : jstr) : list jstr :=
  match s with
  | [] => []
  | c :: r =>
      match r with
      | d :: r' =>
          if Json.isHighSurrogate c && Json.isLowSurrogate d
          then [c; d] :: codePoints r'
          else [c] :: codePoints r
      | [] => [[c]]
      end
  end.

(** [tc.length > 1] *)
Definition lengthGtOne (eng : Engine) (tc : value) : bool :=
  match tc with
  | VArr items => 1 <? length items
  | VStr s => 1 <? length s
  | VObj props =>
      match Dyn.lookup props `"length" with
      | Some v => gtOne eng v
      | None => false
      end
  | _ => false
  end.

(** The values that [for (const x of tc.slice(0, 10))] runs over; an
    object has no [slice] method. *)
Definition sliceForOf (tc : value) : outcome (list value) :=
  match tc with
  | VArr items => Ok (firstn 10 items)
  | VStr s => Ok (map VStr (codePoints (firstn 10 s)))
  | _ => Throw TypeError
  end.

(** The conversion of [x || d] by a template literal; the default is a
    string. *)
Definition printedOr (eng : Engine) (x : value) (d : jstr) : outcome jstr :=
  Dyn.toStr eng (Dyn.or eng x (VStr d)).

(** The evaluation of the template literal [classPrompt] (lines
    655-678): only its exceptions are kept, those of the property reads,
    of the calls of [join] and of the conversions to a string. *)
Definition classPrompt (eng : Engine) (analysis testableClass : value)
  : outcome unit :=
  andThen (Dyn.get testableClass `"className") (fun cn =>
  andThen (Dyn.toStr eng cn) (fun _ =>
  andThen (Dyn.get testableClass `"package") (fun pk =>
  andThen (printedOr eng pk `"com.example") (fun _ =>
  andThen (Dyn.get testableClass `"methods") (fun ms =>
  andThen (Dyn.joinOpt eng ms `", ") (fun _ =>
  andThen (Dyn.get testableClass `"dependencies") (fun ds =>
  andThen (Dyn.joinOpt eng ds `", ") (fun _ =>
  andThen (Dyn.get testableClass `"complexity") (fun cx =>
  andThen (printedOr eng cx `"medium") (fun _ =>
  andThen (Dyn.get analysis `"frameworks") (fun fw =>
  andThen (Dyn.joinOpt eng fw `", ") (fun _ =>
  andThen (Dyn.get analysis `"dependencies") (fun dp =>
  andThen (Dyn.joinOpt eng dp `", ") (fun _ =>
  andThen (Dyn.get analysis `"structure") (fun structure =>
  andThen (printedOr eng (Dyn.getOpt structure `"architecture") `"Standard")
          (fun _ => Ok tt)))))))))))))))).

(** The body of the loop of [generateProjectLevelUnitTests]: what one
    class adds to [tests]. *)
Definition generateForClass (w : World) (request : TestGenerationRequest)
           (analysis testableClass : value) : M (list GeneratedTest) :=
  tryCatch
    (_ <- lift (classPrompt (engine w) analysis testableClass) ;;
     text <- generateText w AtProjectLevelUnit ;;
     cn <- lift (Dyn.get testableClass `"className") ;;
     className <- lift (Dyn.toStr (engine w) cn) ;;
     ret [mkTest `"unit" text
            (className ++ `"Test." ++ getFileExtension (language request))
            (`"Comprehensive unit tests for " ++ className)
            [`"All methods of " ++ className;
             `"Edge cases and error scenarios"; `"Dependency mocking";
             `"Exception handling"]
            (getDefaultDependencies `"unit" (language request))
            (Some `"main")])
    (fun error =>
       cn <- lift (Dyn.get testableClass `"className") ;;
       _ <- lift (Dyn.toStr (engine w) cn) ;;
       fallbackTest <- lift (generateClassSpecificTemplate w request
                                                           testableClass) ;;
       ret (match fallbackTest with
            | Some t => [t]
            | None => []
            end)).

Fixpoint generateForClasses (w : World) (request : TestGenerationRequest)
         (analysis : value) (classes : list value)
         (tests : list GeneratedTest) : M (list GeneratedTest) :=
  match classes with
  | [] => ret tests
  | testableClass :: rest =>
      more <- generateForClass w request analysis testableClass ;;
      generateForClasses w request analysis rest (tests ++ more)
  end.

(** [generateProjectLevelUnitTests] (lines 644-725) *)
Definition generateProjectLevelUnitTests (w : World)
           (request : TestGenerationRequest) (analysis : value)
  : M (list GeneratedTest) :=
  tc <- lift (Dyn.get analysis `"testableClasses") ;;
  classes <- lift (sliceForOf tc) ;;
  tests <- generateForClasses w request analysis classes [] ;;
  if 1 <? length tests
  then match generateTestSuiteRunner request tests analysis with
       | Some suiteTest => ret (tests ++ [suiteTest])
       | None => ret tests
       end
  else ret tests.

(** [generateSingleUnitTest], [generateSingleBDDTest],
    [generateSingleAPITest], [generateSingleUITest],
    [generateSinglePerformanceTest] (lines 975-1143): one call of the
    model, whose text is the content. *)
Definition generateSingle (w : World) (request : TestGenerationRequest)
           (site : CallSite) (kind label : jstr) (cov : list jstr)
  : M GeneratedTest :=
  text <- generateText w site ;;
  ret (mkTest kind text
         (generateFilename kind (language request) (inputData request))
         (label ++ inputType request)
         cov
         (getDefaultDependencies kind (language request))
         (Some `"main")).

Definition generateSingleUnitTest w request :=
  generateSingle w request AtSingleUnit `"unit" `"Unit test for "
    [`"Method functionality"; `"Edge cases"; `"Error handling"].

Definition generateSingleBDDTest w request :=
  generateSingle w request AtSingleBDD `"bdd" `"BDD scenarios for "
    [`"User workflows"; `"Business rules"; `"Integration scenarios"].

Definition generateSingleAPITest w request :=
  generateSingle w request AtSingleAPI `"api" `"API tests for "
    [`"HTTP methods"; `"Status codes"; `"Data validation"].

Definition generateSingleUITest w request :=
  generateSingle w request AtSingleUI `"ui" `"UI tests for "
    [`"User interactions"; `"Form validation"; `"Navigation"].

Definition generateSinglePerformanceTest w request :=
  generateSingle w request AtSinglePerformance `"performance"
    `"Performance tests for "
    [`"Load testing"; `"Stress testing"; `"Scalability"].

(** [generateSpecificTestType] (lines 609-641) *)
Definition generateSpecificTestType (w : World)
           (request : TestGenerationRequest) (testType : jstr)
           (analysis : value) : M (list GeneratedTest) :=
  if Js.eqb testType `"unit" then
    tc <- lift (Dyn.get analysis `"testableClasses") ;;
    if Dyn.truthy (engine w) tc && lengthGtOne (engine w) tc
    then generateProjectLevelUnitTests w request analysis
    else t <- generateSingleUnitTest w request ;; ret [t]
  else if Js.eqb testType `"bdd" then
    t <- generateSingleBDDTest w request ;; ret [t]
  else if Js.eqb testType `"api" then
    t <- generateSingleAPITest w request ;; ret [t]
  else if Js.eqb testType `"ui" then
    t <- generateSingleUITest w request ;; ret [t]
  else if Js.eqb testType `"performance" then
    t <- generateSinglePerformanceTest w request ;; ret [t]
  else ret [].

(** ** [generateTestCases] (lines 79-169) *)

(** Lines 87-119: the analysis and the flag [useAI]. *)
Definition analyze (w : World) (request : TestGenerationRequest)
  : M (value * bool) :=
  tryCatch
    (model <- lift (getAIModel w (aiModel request)) ;;
     analysis <-
       (if Js.eqb (inputType request) `"git_repo"
        then analyzeGitRepository w (inputData request)
        else if Js.eqb (inputType request) `"postman_collection"
        then analyzePostmanCollection w (inputData request)
        else if Js.eqb (inputType request) `"web_url"
        then analyzeWebPage w (inputData request)
        else if Js.eqb (inputType request) `"code"
        then if Js.includes (inputData request) `"// File:"
             then analyzeUploadedFiles w
                    (parseUploadedFiles (inputData request))
             else analyzeInput w request
        else analyzeInput w request) ;;
     ret (analysis, true))
    (fun error => ret (getFallbackAnalysis request, false)).

(** [error.message.includes("quota") || error.message.includes("429")];
    a [TypeError] when the thrown value has no [message] string. *)
Definition isQuotaError (error : exn) : outcome bool :=
  match message error with
  | Some msg => Ok (Js.includes msg `"quota" || Js.includes msg `"429")
  | None => Throw TypeError
  end.

(** Lines 123-151: the body of the loop over [request.testTypes]; the
    tests that one kind adds to [tests]. *)
Definition generateForType (w : World) (request : TestGenerationRequest)
           (useAI : bool) (analysis : value) (testType : jstr)
  : M (list GeneratedTest) :=
  tryCatch
    (if useAI then
       tryCatch
         (model <- lift (getAIModel w (aiModel request)) ;;
          generateSpecificTestType w request testType analysis)
         (fun error =>
            quota <- lift (isQuotaError error) ;;
            if quota
            then ret (generateTestFromTemplate request testType analysis)
            else throw error)
     else ret (generateTestFromTemplate request testType analysis))
    (fun error =>
       match generateBasicTestTemplate request testType with
       | Some fallbackTest => ret [fallbackTest]
       | None => ret []
       end).

Fixpoint generateForTypes (w : World) (request : TestGenerationRequest)
         (useAI : bool) (analysis : value) (types : list jstr)
         (tests : list GeneratedTest) : M (list GeneratedTest) :=
  match types with
  | [] => ret tests
  | testType :: rest =>
      generatedTests <- generateForType w request useAI analysis testType ;;
      generateForTypes w request useAI analysis rest (tests ++ generatedTests)
  end.

(** [request.testTypes[0]], read as a key: [undefined] is no key of
    [templates]. *)
Definition firstType (request : TestGenerationRequest) : jstr :=
  match testTypes request with
  | t :: _ => t
  | [] => `"undefined"
  end.

Definition generateTestCases (w : World) (request : TestGenerationRequest)
  : M (list GeneratedTest) :=
  _ <- enterPipeline ;;
  au <- analyze w request ;;
  let (analysis, useAI) := (au : value * bool) in
  tests <- generateForTypes w request useAI analysis (testTypes request) [] ;;
  match tests with
  | _ :: _ => ret tests
  | [] =>
      match generateBasicTestTemplate request (firstType request) with
      | Some basicTest => ret [basicTest]
      | None =>
          throw (JsError `"Unable to generate any tests. Please try again later or check your quota limits.")
      end
  end.

End AiService.

(* ===================================================================== *)
(** * Tokens ([lib/auth], src/app/settings/page.tsx lines 932-1009) *)
(* ===================================================================== *)

Module Auth.

(** [process.env.JWT_SECRET || "your-secret-key"] *)
Definition JWT_SECRET (w : World) : jstr :=
  orElse (JWT_SECRET_env w) `"your-secret-key".

(** The object that [generateToken] passes to [jwt.sign]. *)
Definition tokenPayload (user : AuthUser) : list (jstr * jstr) :=
  [(`"id", user_id user); (`"email", user_email user);
   (`"role", user_role user); (`"plan", user_plan user)].

Definition generateToken (w : World) (user : AuthUser) : M jstr :=
  now <- readClock w ;;
  ret (jwt_sign w now (tokenPayload user) (JWT_SECRET w) `"7d").

Definition verifyToken (w : World) (token : jstr) : M (option Decoded) :=
  tryCatch
    (now <- readClock w ;;
     decoded <- lift (jwt_verify w now token (JWT_SECRET w)) ;;
     ret (Some decoded))
    (fun _ => ret None).

(** The first lines of every handler: the bearer token of the
    [authorization] header, verified. [inl] is the response that ends
    the request. *)
Definition bearer (authHeader : option jstr) : option jstr :=
  match authHeader with
  | Some h => if Js.startsWith h `"Bearer " then Some (skipn 7 h) else None
  | None => None
  end.

End Auth.

(* ===================================================================== *)
(** * The database ([lib/database.ts]) *)
(* ===================================================================== *)

Module Database.

Definition SqliteError (msg : jstr) : exn := JsError msg.

Fixpoint digits36 (fuel : nat) (n : N) (acc : jstr) : jstr :=
  match fuel with
  | O => acc
  | S fuel =>
      let d := (n mod 36)%N in
      let c := if (d <? 10)%N then (48 + d)%N else (87 + d)%N in
      if (n / 36 =? 0)%N then c :: acc
      else digits36 fuel (n / 36)%N (c :: acc)
  end.

(** [n.toString(36)] for an integer [n] *)
Definition toString36 (n : N) : jstr := digits36 (S (N.to_nat (N.size n))) n [].

(** [r.toString(36).substring(2) + now.toString(36)] *)
Definition idOf (w : World) (r : Draw) (now : N) : jstr :=
  skipn 2 (fractionToString36 (engine w) (mant r) (expo r)) ++ toString36 now.

(** [generateId] (lines 188-190):
    [Math.random().toString(36).substring(2) + Date.now().toString(36)] *)
Definition generateId (w : World) : M jstr :=
  r <- mathRandom w ;;
  now <- readClock w ;;
  ret (idOf w r now).

(** The text that the driver hands to the database for a string bound
    to a statement. The database keeps text as UTF-8: a surrogate without
    its partner has no encoding and becomes U+FFFD. Every text of a row
    and every text compared with a column is of this form. *)
Fixpoint stored (s : jstr) : jstr :=
  match s with
  | [] => []
  | c :: r =>
      if Json.isHighSurrogate c then
        match r with
        | d :: r' =>
            if Json.isLowSurrogate d then c :: d :: stored r'
            else 65533%N :: stored r
        | [] => [65533%N]
        end
      else if Json.isLowSurrogate c then 65533%N :: stored r
      else c :: stored r
  end.

(** [SELECT plan FROM users WHERE id = ?], [.get(id)] *)
Definition selectUser (d : Db) (uid : jstr) : option UserRow :=
  find (fun u => Js.eqb (u_id u) (stored uid)) (users d).

(** [SELECT COUNT( * ) as count FROM test_cases WHERE created_by = ?] *)
Definition countTestCases (d : Db) (uid : jstr) : nat :=
  length (filter (fun t => Js.eqb (tc_created_by t) (stored uid))
                 (test_cases d)).

(** Whether a table has a row of the key that is bound. *)
Definition hasUser (d : Db) (uid : jstr) : bool :=
  existsb (fun u => Js.eqb (u_id u) (stored uid)) (users d).

Definition hasProject (d : Db) (pid : jstr) : bool :=
  existsb (fun p => Js.eqb (p_id p) (stored pid)) (projects d).

Definition hasTestCase (d : Db) (tid : jstr) : bool :=
  existsb (fun t => Js.eqb (tc_id t) (stored tid)) (test_cases d).

Definition hasExecution (d : Db) (eid : jstr) : bool :=
  existsb (fun e => Js.eqb (te_id e) (stored eid)) (test_executions d).

(** [datetime('now')], in seconds *)
Definition datetimeNow (w : World) : M N :=
  now <- readClock w ;;
  ret (now / 1000)%N.

(** [INSERT INTO test_cases (...) VALUES (...)], with the constraints of
    the table (lines 115-130): the primary key and the two foreign keys,
    which the driver enforces. *)
Definition insertTestCase (w : World) (tid : jstr) (project_id : option jstr)
           (name type content input_source ai_model_used created_by
              metadata : jstr) : M unit :=
  created_at <- datetimeNow w ;;
  fun st =>
    let d := db st in
    if hasTestCase d tid
    then (Throw (SqliteError `"UNIQUE constraint failed: test_cases.id"), st)
    else if negb (match project_id with
                  | Some pid => hasProject d pid
                  | None => true
                  end && hasUser d created_by)
    then (Throw (SqliteError `"FOREIGN KEY constraint failed"), st)
    else
      (Ok tt,
       setDb (mkDb (users d) (projects d)
                (test_cases d ++
                 [mkTestCaseRow (stored tid) (option_map stored project_id)
                    (stored name) (stored type) (stored content)
                    (stored input_source) (stored ai_model_used)
                    (stored created_by) (stored metadata) created_at])
                (test_executions d) (audit_logs d)) st).

(** [INSERT INTO audit_logs (...) VALUES (...)] (lines 150-160) *)
Definition insertAuditLog (uid action resource_type resource_id ip_address
                             user_agent : jstr) : M unit :=
  fun st =>
    let d := db st in
    if negb (hasUser d uid)
    then (Throw (SqliteError `"FOREIGN KEY constraint failed"), st)
    else
      (Ok tt,
       setDb (mkDb (users d) (projects d) (test_cases d) (test_executions d)
                (audit_logs d ++
                 [mkAuditRow (stored uid) (stored action)
                    (stored resource_type) (stored resource_id)
                    (stored ip_address) (stored user_agent)])) st).

(** [INSERT INTO test_executions (...) VALUES (...)] (lines 134-146) *)
Definition insertExecution (w : World) (eid test_case_id status : jstr)
           (duration : Z) (environment : option jstr)
           (triggered_by logs : jstr) : M unit :=
  created_at <- datetimeNow w ;;
  fun st =>
    let d := db st in
    if hasExecution d eid
    then (Throw (SqliteError `"UNIQUE constraint failed: test_executions.id"),
          st)
    else if negb (hasTestCase d test_case_id && hasUser d triggered_by)
    then (Throw (SqliteError `"FOREIGN KEY constraint failed"), st)
    else
      (Ok tt,
       setDb (mkDb (users d) (projects d) (test_cases d)
                (test_executions d ++
                 [mkExecutionRow (stored eid) (stored test_case_id)
                    (stored status) duration (option_map stored environment)
                    (stored triggered_by) (stored logs) created_at])
                (audit_logs d)) st).

(** Insertion of [x] into a list sorted by decreasing key, after the
    elements of the same key. *)
Fixpoint insertDesc {A} (key : A -> N) (x : A) (l : list A) : list A :=
  match l with
  | [] => [x]
  | y :: r => if (key y <? key x)%N then x :: y :: r
              else y :: insertDesc key x r
  end.

(** [ORDER BY key DESC]; rows of the same key stay in insertion order. *)
Definition orderByDesc {A} (key : A -> N) (l : list A) : list A :=
  fold_left (fun acc x => insertDesc key x acc) l [].

End Database.

(* ===================================================================== *)
(** * The route handlers *)
(* ===================================================================== *)

Module Routes.

Import AiService.

(** The headers that the handlers read. *)
Record Headers : Type := mkHeaders {
  authorization : option jstr;
  x_forwarded_for : option jstr;
  user_agent : option jstr
}.

(** A request: its headers and the result of [await request.json()],
    read at the type [B] that the handler destructures. An absent field
    is [None]. *)
Record Request (B : Type) : Type := mkRequest_ {
  headers : Headers;
  json : outcome B
}.

Record GenerateTestsBody : Type := mkGenerateTestsBody {
  b_inputType : option jstr;
  b_inputData : option jstr;
  b_testTypes : option (list jstr);
  b_language : option jstr;
  b_additionalContext : option jstr;
  b_framework : option jstr;
  b_testingLibrary : option jstr;
  b_projectId : option jstr;
  b_aiModel : option jstr
}.

Record ExecutionsBody : Type := mkExecutionsBody {
  b_testCaseIds : option (list jstr);
  b_environment : option jstr
}.

(** A saved test: [{ id, ...test }]. *)
Record SavedTest : Type := mkSavedTest {
  saved_id : jstr;
  saved_test : GeneratedTest
}.

(** A row of [GET /api/test-cases]: [tc.*] and [p.name as project_name]. *)
Record TestCaseView : Type := mkTestCaseView {
  row : TestCaseRow;
  project_name : option jstr
}.

(** An element of [executions] in the response of [POST /api/executions]. *)
Record Execution : Type := mkExecution {
  ex_id : jstr;
  ex_test_case_id : jstr;
  ex_status : jstr;
  ex_duration : Z;
  ex_environment : option jstr;
  ex_logs : jstr
}.

(** The limit of a plan: a number of tests or, for a plan that is named
    like a member that every object inherits, that member. *)
Inductive Limit : Type :=
| Tests (n : Z)
| NotANumber (m : inherited).

(** [usage] in the response; [remaining] is [None] when it is [NaN]. *)
Record Usage : Type := mkUsage {
  current : Z;
  limit : Limit;
  remaining : option Z
}.

(** The responses, by the shape of their JSON body. *)
Inductive Response : Type :=
(** [{ error }] with a status *)
| Error (status : Z) (error : jstr)
(** [{ error, limit, current }], 429 *)
| LimitReached (error : jstr) (limit : Limit) (current : Z)
(** [{ tests, message, usage, notice }], 200 *)
| TestsGenerated (tests : list SavedTest) (message : jstr) (usage : Usage)
                 (notice : jstr)
(** [{ error, fallbackUsed: true, suggestion }], 429 *)
| ModelQuotaExceeded (error suggestion : jstr)
(** [{ error, retryAfter }], 429 *)
| ModelRateLimited (error : jstr) (retryAfter : Z)
(** [{ error, details, fallbackUsed: true }], 500 *)
| GenerationFailed (error : jstr)
(** [{ testCases }], 200 *)
| TestCases (testCases : list TestCaseView)
(** [{ executions, message }], 200 *)
| Executed (executions : list Execution) (message : jstr).

Definition status (r : Response) : Z :=
  match r with
  | Error s _ => s
  | LimitReached _ _ _ => 429
  | TestsGenerated _ _ _ _ => 200
  | ModelQuotaExceeded _ _ => 429
  | ModelRateLimited _ _ => 429
  | GenerationFailed _ => 500
  | TestCases _ => 200
  | Executed _ _ => 200
  end.

Definition getDb : M Db := fun st => (Ok (db st), st).

(** An absent field read by the pipeline: [undefined] there is compared
    with literals, used as a key and printed, where it agrees with the
    string of its name. *)
Definition orUndefined (x : option jstr) : jstr :=
  match x with
  | Some s => s
  | None => `"undefined"
  end.

Definition optStr (x : option jstr) : value :=
  match x with
  | Some s => VStr s
  | None => VUndefined
  end.

(** ** [POST /api/generate-tests] (src/app/api/generate-tests/route.ts) *)
Module GenerateTests.

(** [planLimits[user.plan] || 100] (lines 49-56); a plan that is [NULL]
    is the key [null]. *)
Definition userLimit (plan : option jstr) : Limit :=
  let planLimits :=
    [(`"free", 100%Z); (`"basic", 1000%Z); (`"pro", 5000%Z);
     (`"enterprise", 999999%Z)] in
  match memberGet planLimits
          (match plan with Some p => p | None => `"null" end) with
  | Own n => Tests (if (n =? 0)%Z then 100%Z else n)
  | Inherited m => NotANumber m
  | Absent => Tests 100
  end.

(** [count >= userLimit] (line 61): a limit that is no number converts
    to [NaN], and the comparison is false. *)
Definition reached (count : Z) (userLimit : Limit) : bool :=
  match userLimit with
  | Tests n => (n <=? count)%Z
  | NotANumber _ => false
  end.

(** [userLimit - n] (line 145), [None] for [NaN] *)
Definition minus (userLimit : Limit) (n : Z) : option Z :=
  match userLimit with
  | Tests k => Some (k - n)%Z
  | NotANumber _ => None
  end.

(** The object given to [JSON.stringify] (lines 94-104). *)
Definition metadataObject (test : GeneratedTest) (body : GenerateTestsBody)
           (generatedAt : jstr) : value :=
  VObj [(`"description", VStr (description test));
        (`"coverage", Dyn.strs (coverage test));
        (`"dependencies", Dyn.strs (dependencies test));
        (`"language", optStr (b_language body));
        (`"framework", optStr (b_framework body));
        (`"testingLibrary", optStr (b_testingLibrary body));
        (`"inputType", optStr (b_inputType body));
        (`"generatedAt", VStr generatedAt);
        (`"quotaOptimized", VBool true)].

Definition stringifyObject (eng : Engine) (v : value) : jstr :=
  match Json.stringify eng v with
  | Some s => s
  | None => `"undefined"
  end.

(** The loop of lines 92-122. *)
Fixpoint saveTests (w : World) (body : GenerateTestsBody) (inputData : jstr)
         (uid : jstr) (generatedTests : list GeneratedTest)
         (savedTests : list SavedTest) : M (list SavedTest) :=
  match generatedTests with
  | [] => ret savedTests
  | test :: rest =>
      tid <- Database.generateId w ;;
      now <- readClock w ;;
      let metadata :=
        stringifyObject (engine w)
          (metadataObject test body (toISOString (engine w) now)) in
      _ <- Database.insertTestCase w tid
             (match b_projectId body with
              | Some ((_ :: _) as pid) => Some pid
              | _ => None
              end)
             (filename test) (type test) (content test)
             (Js.substring inputData 0 500)
             `"gemini-1.5-flash" uid metadata ;;
      saveTests w body inputData uid rest
        (savedTests ++ [mkSavedTest tid test])
  end.

(** The [catch] of the handler (lines 150-194). *)
Definition onError (error : exn) : Response :=
  let msg := match message error with Some m => m | None => [] end in
  if isError error && (Js.includes msg `"quota" || Js.includes msg `"429")
  then ModelQuotaExceeded
         `"Google AI Studio quota exceeded. Using template-based generation as fallback."
         `"Try again in a few minutes or upgrade your Google AI Studio plan for higher quotas."
  else if isError error && Js.includes msg `"rate limit"
  then ModelRateLimited
         `"AI service rate limit exceeded. Please try again in a few minutes."
         60
  else if isError error && Js.includes msg `"API key"
  then Error 500
         `"Google AI Studio API key not configured or invalid. Please contact support."
  else GenerationFailed `"Failed to generate tests. Using fallback templates.".

Definition POST (w : World) (request : Request GenerateTestsBody) : M Response :=
  tryCatch
    (match Auth.bearer (authorization (headers request)) with
     | None => ret (Error 401 `"No token provided")
     | Some token =>
         decoded <- Auth.verifyToken w token ;;
         match decoded with
         | None => ret (Error 401 `"Invalid token")
         | Some decoded =>
             body <- lift (json request) ;;
             match b_inputData body, b_testTypes body with
             | Some ((_ :: _) as inputData), Some ((_ :: _) as testTypes) =>
                 if 5000 <? length inputData
                 then ret (Error 400
                             `"Input data too large. Maximum 5,000 characters allowed to manage API quotas.")
                 else
                   d <- getDb ;;
                   match Database.selectUser d (id decoded) with
                   | None => throw TypeError
                   | Some user =>
                       let userLimit := userLimit (u_plan user) in
                       let count :=
                         Z.of_nat (Database.countTestCases d (id decoded)) in
                       if reached count userLimit
                       then ret (LimitReached
                                   `"Test generation limit reached. Upgrade your plan to generate more tests."
                                   userLimit count)
                       else
                         generatedTests <-
                           generateTestCases w
                             (mkRequest (orUndefined (b_inputType body))
                                inputData testTypes
                                (orUndefined (b_language body))
                                (b_additionalContext body)
                                (b_framework body)
                                (b_testingLibrary body)
                                (Some `"gemini-1.5-flash")) ;;
                         savedTests <-
                           saveTests w body inputData (id decoded)
                             generatedTests [] ;;
                         _ <- Database.insertAuditLog (id decoded)
                                `"test_generation" `"test_cases"
                                (Js.join (map saved_id savedTests) `",")
                                (orElse (x_forwarded_for (headers request))
                                   `"unknown")
                                (orElse (user_agent (headers request))
                                   `"unknown") ;;
                         let n := Z.of_nat (length generatedTests) in
                         ret (TestsGenerated savedTests
                                `"Tests generated successfully (quota-optimized)"
                                (mkUsage (count + n) userLimit
                                   (minus userLimit (count + n)))
                                `"Using efficient generation to manage API quotas. For more advanced AI features, consider upgrading your Google AI Studio plan.")
                   end
             | _, _ =>
                 ret (Error 400 `"Input data and test types are required")
             end
         end
     end)
    (fun error => ret (onError error)).

End GenerateTests.

(** ** [GET /api/test-cases] (src/app/api/test-cases/route.ts) *)
Module TestCasesRoute.

(** The query of lines 22-32. *)
Definition selectTestCases (d : Db) (uid : jstr) : list TestCaseView :=
  map (fun tc =>
         mkTestCaseView tc
           (match tc_project_id tc with
            | Some pid =>
                option_map p_name
                  (find (fun p => Js.eqb (p_id p) pid) (projects d))
            | None => None
            end))
    (Database.orderByDesc tc_created_at
       (filter (fun tc => Js.eqb (tc_created_by tc) (Database.stored uid))
               (test_cases d))).

Definition GET (w : World) (hdrs : Headers) : M Response :=
  tryCatch
    (match Auth.bearer (authorization hdrs) with
     | None => ret (Error 401 `"No token provided")
     | Some token =>
         decoded <- Auth.verifyToken w token ;;
         match decoded with
         | None => ret (Error 401 `"Invalid token")
         | Some decoded =>
             d <- getDb ;;
             ret (TestCases (selectTestCases d (id decoded)))
         end
     end)
    (fun error => ret (Error 500 `"Internal server error")).

End TestCasesRoute.

(** ** [POST /api/executions] (src/app/api/executions/route.ts) *)
Module Executions.

Definition mantissa (r : Draw) : N := (mant r mod 2 ^ 53)%N.
Definition scale (r : Draw) : N := (53 + expo r)%N.

(** A natural number rounded to 53 significant bits, to nearest and to
    even on a tie: the result is [q * 2^s] for the pair [(q, s)]. *)
Definition round53 (x : N) : N * N :=
  if (N.size x <=? 53)%N then (x, 0%N)
  else
    let s := (N.size x - 53)%N in
    let q := (x / 2 ^ s)%N in
    let rest := (x mod 2 ^ s)%N in
    let half := (2 ^ (s - 1))%N in
    if ((half <? rest) || ((rest =? half) && N.odd q))%N
    then ((q + 1)%N, s) else (q, s).

(** [Math.floor(r * 5000)]: the product is rounded as binary64 rounds
    it. (A product so small that binary64 makes it subnormal is below 1
    before and after rounding; its floor is 0.) *)
Definition floorTimes5000 (r : Draw) : N :=
  let (q, s) := round53 (mantissa r * 5000)%N in
  ((q * 2 ^ s) / 2 ^ scale r)%N.

(** [r > 0.2], where the literal is the double 3602879701896397 / 2^54 *)
Definition gtOneFifth (r : Draw) : bool :=
  (3602879701896397 * 2 ^ scale r <? mantissa r * 2 ^ 54)%N.

(** The loop of lines 72-93. *)
Fixpoint execute (w : World) (uid : jstr) (environment : option jstr)
         (testCaseIds : list jstr) (executions : list Execution)
  : M (list Execution) :=
  match testCaseIds with
  | [] => ret executions
  | testCaseId :: rest =>
      eid <- Database.generateId w ;;
      r1 <- mathRandom w ;;
      let duration := (Z.of_N (floorTimes5000 r1) + 1000)%Z in
      r2 <- mathRandom w ;;
      let status := if gtOneFifth r2 then `"passed" else `"failed" in
      let logs :=
        if Js.eqb status `"passed"
        then text ["Test executed successfully"; "All assertions passed";
                   "Execution completed"]%string
        else text ["Test failed";
                   "Assertion error: Expected value did not match";
                   "Execution failed"]%string in
      _ <- Database.insertExecution w eid testCaseId status duration
             environment uid logs ;;
      execute w uid environment rest
        (executions ++
         [mkExecution eid testCaseId status duration environment logs])
  end.

Definition POST (w : World) (request : Request ExecutionsBody) : M Response :=
  tryCatch
    (match Auth.bearer (authorization (headers request)) with
     | None => ret (Error 401 `"No token provided")
     | Some token =>
         decoded <- Auth.verifyToken w token ;;
         match decoded with
         | None => ret (Error 401 `"Invalid token")
         | Some decoded =>
             body <- lift (json request) ;;
             match b_testCaseIds body with
             | Some ((_ :: _) as testCaseIds) =>
                 executions <-
                   execute w (id decoded) (b_environment body)
                     testCaseIds [] ;;
                 ret (Executed executions `"Tests executed successfully")
             | _ => ret (Error 400 `"Test case IDs are required")
             end
         end
     end)
    (fun error => ret (Error 500 `"Failed to execute tests")).

End Executions.

End Routes.

(* ===================================================================== *)
(** * Properties *)
(* ===================================================================== *)

Import AiText AiService Routes.

Unset Implicit Arguments.

Definition validKind (k : jstr) : Prop :=
  In k [`"bdd"; `"unit"; `"api"; `"ui"; `"performance"].

(** ** C3 *)

Definition usesAnalyzeInput (request : TestGenerationRequest) : bool :=
  negb (Js.eqb (inputType request) `"git_repo")
  && negb (Js.eqb (inputType request) `"postman_collection")
  && negb (Js.eqb (inputType request) `"web_url")
  && negb (Js.eqb (inputType request) `"code"
           && Js.includes (inputData request) `"// File:").

Definition called (site : CallSite) (st : State) : State :=
  mkState (db st) (site :: modelCalls st) (randomDraws st) (clockReads st)
          (pipelineRuns st).

Definition entered (st : State) : State :=
  mkState (db st) (modelCalls st) (randomDraws st) (clockReads st)
          (S (pipelineRuns st)).

(** The call of the model that generates the test of one kind when the
    analysis names no classes. *)
Definition kindSite (kind : jstr) : CallSite :=
  if Js.eqb kind `"unit" then AtSingleUnit
  else if Js.eqb kind `"bdd" then AtSingleBDD
  else if Js.eqb kind `"api" then AtSingleAPI
  else if Js.eqb kind `"ui" then AtSingleUI
  else AtSinglePerformance.

(** One artifact for each kind, in the order of the kinds, each made by
    one call of the model: its content is the answer of the model, under
    the generated file name, or it is the basic template of the kind when
    the call throws. [st'] is the state after the calls. *)
Fixpoint generatedPerKind (w : World) (request : TestGenerationRequest)
         (kinds : list jstr) (st : State) (tests : list GeneratedTest)
         (st' : State) : Prop :=
  match kinds, tests with
  | [], [] => st' = st
  | k :: ks, t :: ts =>
      type t = k
      /\ match modelAnswer w (length (modelCalls st)) (kindSite k) with
         | Ok text =>
             content t = text
             /\ filename t
                = generateFilename k (language request) (inputData request)
         | Throw _ => generateBasicTestTemplate request k = Some t
         end
      /\ generatedPerKind w request ks (called (kindSite k) st) ts st'
  | _, _ => False
  end.

(** ** C4 *)

Fixpoint everyKindThrows (w : World) (request : TestGenerationRequest)
         (analysis : value) (kinds : list jstr) (st : State) : Prop :=
  match kinds with
  | [] => True
  | k :: ks =>
      exists e st',
        generateSpecificTestType w request k analysis st = (Throw e, st')
        /\ everyKindThrows w request analysis ks st'
  end.

(** The braces that one line opens, minus those it closes. *)
Definition lineDelta (line : jstr) : Z :=
  Z.of_nat (Js.countOf line LBRACE) - Z.of_nat (Js.countOf line RBRACE).

(** The running count after line [k] of [lines]. *)
Fixpoint runningCount (lines : list jstr) (k : nat) : Z :=
  match lines with
  | [] => 0
  | line :: rest =>
      lineDelta line + match k with
                       | O => 0
                       | S k' => runningCount rest k'
                       end
  end.

(** C9 as it is stated. *)
Definition braceRegionClaim (text : jstr) : Prop :=
  let cleaned := stripFences text in
  forall i j,
    Js.indexOf cleaned LBRACE = Some i ->
    i < j -> nth_error cleaned j = Some RBRACE ->
    exists k,
      let lines := Js.split (skipn i cleaned) NL in
      k < length lines
      /\ runningCount lines k = 0%Z
      /\ (forall k', k' < k -> runningCount lines k' <> 0%Z)
      /\ extractJsonFromResponse text = Js.join (firstn (S k) lines) [NL].

(** *** The loop *)

(** The first line after which the count, started at [count], is zero. *)
Fixpoint firstZero (lines : list jstr) (count : Z) : option nat :=
  match lines with
  | [] => None
  | line :: rest =>
      if (count + lineDelta line =? 0)%Z then Some 0
      else option_map S (firstZero rest (count + lineDelta line))
  end.

Definition ticked (st : State) : State :=
  mkState (db st) (modelCalls st) (randomDraws st) (S (clockReads st))
          (pipelineRuns st).


(** A request that passes the checks of lines 33-43. *)
Definition wellFormed (body : GenerateTestsBody) : Prop :=
  exists inputData testTypes,
    b_inputData body = Some inputData /\ inputData <> []
    /\ length inputData <= 5000
    /\ b_testTypes body = Some testTypes /\ testTypes <> [].




(** ** The pipeline does not write to the database *)

Definition preservesDb {A} (m : M A) : Prop :=
  forall st, db (snd (m st)) = db st.

(** ** Saving the generated tests *)

(** The row of a saved test: each text is in the form that the
    database keeps. *)
Definition savedAs (w : World) (uid : jstr) (body : GenerateTestsBody)
           (s : SavedTest) (r : TestCaseRow) : Prop :=
  tc_id r = Database.stored (saved_id s)
  /\ tc_created_by r = Database.stored uid
  /\ tc_name r = Database.stored (filename (saved_test s))
  /\ tc_type r = Database.stored (type (saved_test s))
  /\ tc_content r = Database.stored (content (saved_test s))
  /\ exists now,
      tc_metadata r
      = Database.stored
          (GenerateTests.stringifyObject (engine w)
             (GenerateTests.metadataObject (saved_test s) body
                (toISOString (engine w) now))).

(** ** The example scenario of the specification *)



(** ** A world, a database and requests to run the handlers on *)

Definition exampleEngine : Engine :=
  mkEngine (fun n => n) (fun n => Js.eqb n `"0") (fun _ => false)
           (fun ms => `"T" ++ Database.toString36 ms)
           (fun m e => `"0." ++ Database.toString36 m)
           (fun n => n).

Definition exampleDecoded : Decoded :=
  mkDecoded `"u1" `"ann@example.org" `"user" `"free".

(** A world over a given model: the token [good] is the one accepted. *)
Definition exampleWorld (model : nat -> CallSite -> outcome jstr) : World :=
  mkWorld exampleEngine (Some `"key") None model
          (fun n => mkDraw (N.of_nat n * 2 ^ 52 + 12345) 0)
          (fun n => 1700000000000 + N.of_nat n)%N
          (fun _ _ _ _ => `"good")
          (fun _ token _ =>
             if Js.eqb token `"good" then Ok exampleDecoded
             else Throw (JsError `"invalid token"))
          (fun _ => []) (fun _ => []) (fun _ => []).

(** A model that is down. *)
Definition modelDown (n : nat) (site : CallSite) : outcome jstr :=
  Throw (JsError `"fetch failed").

(** A model that answers every call with prose. *)
Definition modelProse (n : nat) (site : CallSite) : outcome jstr :=
  Ok `"Here are the tests you asked for.".

(** A model whose analysis names two classes. *)
Definition modelTwoClasses (n : nat) (site : CallSite) : outcome jstr :=
  match site with
  | AtAnalyzeInput =>
      Ok (text ["```json";
                "{" ++ Js.dq ++ "complexity" ++ Js.dq ++ ": "
                    ++ Js.dq ++ "low" ++ Js.dq ++ ",";
                " " ++ Js.dq ++ "testableClasses" ++ Js.dq ++ ": [{"
                    ++ Js.dq ++ "className" ++ Js.dq ++ ": "
                    ++ Js.dq ++ "LoginService" ++ Js.dq ++ "}, {"
                    ++ Js.dq ++ "className" ++ Js.dq ++ ": "
                    ++ Js.dq ++ "SessionStore" ++ Js.dq ++ "}]}";
                "```"]%string)
  | _ => Ok `"class GeneratedByModel {}"
  end.

Definition exampleRow (n : nat) : TestCaseRow :=
  mkTestCaseRow (`"t" ++ Database.toString36 (N.of_nat n)) None
                `"old.java" `"unit" `"// old" `"story" `"gemini-1.5-flash"
                `"u1" `"{}" 1600000000%N.

(** A database in which user [u1], on the free plan, owns [n] test cases. *)
Definition exampleDb (n : nat) : Db :=
  mkDb [mkUserRow `"u1" (Some `"free")] []
       (map exampleRow (seq 0 n)) [] [].

Definition exampleState (n : nat) : State :=
  mkState (exampleDb n) [] 0 0 0.


Definition exampleHeaders : Headers :=
  mkHeaders (Some `"Bearer good") None (Some `"curl/8").

Definition exampleBody : GenerateTestsBody :=
  mkGenerateTestsBody (Some `"user_story")
    (Some `"As a user, I want to login to the system")
    (Some [`"unit"]) (Some `"java") None None None None None.

Definition exampleRequest : Request GenerateTestsBody :=
  mkRequest_ exampleHeaders (Ok exampleBody).

Definition pipelineRequest : TestGenerationRequest :=
  mkRequest `"user_story" `"As a user, I want to login to the system"
            [`"unit"] `"java" None None None None.

(** ** The values of the metadata object *)

(** A string, an array of strings or a boolean. *)
Inductive simple : value -> Prop :=
| simple_str (s : jstr) : simple (VStr s)
| simple_strs (l : list jstr) : simple (Dyn.strs l)
| simple_bool (b : bool) : simple (VBool b).

Definition present (kv : jstr * value) : bool :=
  match snd kv with
  | VUndefined => false
  | _ => true
  end.

(** An object without the properties whose value is [undefined]. *)
Definition withoutUndefined (v : value) : value :=
  match v with
  | VObj props => VObj (filter present props)
  | _ => v
  end.

(** The member texts of a list of properties. *)
Definition members eng (props : list (jstr * value)) : list jstr :=
  Json.memberTexts (map (fun kv => (fst kv, Json.stringify eng (snd kv))) props).

(** ** Executions *)

(** The status and the duration that the claim C10 gives an execution. *)
Definition validExecution (e : Execution) : Prop :=
  (ex_status e = `"passed" \/ ex_status e = `"failed")
  /\ (1000 <= ex_duration e <= 5999)%Z.

(** The row of [test_executions] that holds the execution [e], run by
    the user [uid]: each text is in the form that the database keeps. *)
Definition rowOf (uid : jstr) (e : Execution) (r : ExecutionRow) : Prop :=
  te_id r = Database.stored (ex_id e)
  /\ te_test_case_id r = Database.stored (ex_test_case_id e)
  /\ te_status r = ex_status e
  /\ te_duration r = ex_duration e
  /\ te_environment r = option_map Database.stored (ex_environment e)
  /\ te_triggered_by r = Database.stored uid
  /\ te_logs r = ex_logs e.

(** The identifiers that [generateId] gives the executions of a request
    whose loop starts after [draws] draws and [reads] readings of the
    clock: each round of the loop draws three numbers and reads the clock
    twice. *)
Definition executionIds (w : World) (draws reads n : nat) : list jstr :=
  map (fun k => Database.idOf w (randomDraw w (draws + 3 * k))
                              (clock w (reads + 2 * k)))
      (seq 0 n).

(** C10 as it is stated, for one request in one state of one world. *)
Definition executionsClaim (w : World) (request : Request ExecutionsBody)
           (st : State) : Prop :=
  forall token decoded body testCaseIds,
    Auth.bearer (authorization (headers request)) = Some token ->
    jwt_verify w (clock w (clockReads st)) token (Auth.JWT_SECRET w)
    = Ok decoded ->
    json request = Ok body ->
    b_testCaseIds body = Some testCaseIds -> testCaseIds <> [] ->
    exists executions msg rows st',
      Executions.POST w request st = (Ok (Executed executions msg), st')
      /\ test_executions (db st') = test_executions (db st) ++ rows
      /\ map te_test_case_id rows = map Database.stored testCaseIds
      /\ Forall2 (rowOf (id decoded)) executions rows
      /\ Forall validExecution executions.

(** A request to execute the stored test [t0] and a test that is not
    stored. *)
Definition unknownIdRequest : Request ExecutionsBody :=
  mkRequest_ exampleHeaders
    (Ok (mkExecutionsBody (Some [`"t0"; `"nowhere"]) (Some `"staging"))).

(** A request to execute two stored tests, one of them twice. *)
Definition storedIdsRequest : Request ExecutionsBody :=
  mkRequest_ exampleHeaders
    (Ok (mkExecutionsBody (Some [`"t1"; `"t0"; `"t1"]) (Some `"staging"))).

(** An answer of the model in a fence, after a line of prose. *)
Definition fencedAnswer : jstr :=
  text ["Here is the analysis:"; "```json"; "{"; "  {}"; "}"; "```"]%string.

(** A unit that is no surrogate. A text of such units has an encoding
    in UTF-8, and the database keeps it as it is. *)
Definition plainUnit (c : N) : bool :=
  negb (Json.isHighSurrogate c || Json.isLowSurrogate c).

(** Evaluation of the comparisons of two literals. *)
Ltac eval_eqb :=
  repeat match goal with
    | |- context [Js.eqb ?a ?b] =>
        let v := eval vm_compute in (Js.eqb a b) in
        match v with
        | true => change (Js.eqb a b) with true
        | false => change (Js.eqb a b) with false
        end
    end.

(* ===================================================================== *)
(** * Further definitions: the other handlers and the properties of the code *)
(* ===================================================================== *)

(** ** Requests without a usable token *)

(** [!authHeader || !authHeader.startsWith("Bearer ")] *)
Definition noBearer (authHeader : option jstr) : Prop :=
  match authHeader with
  | None => True
  | Some h => Js.startsWith h `"Bearer " = false
  end.

(** A body that fails the check of lines 33-35 of the generation
    handler. *)
Definition missingInput (body : GenerateTestsBody) : Prop :=
  b_inputData body = None \/ b_inputData body = Some []
  \/ b_testTypes body = None \/ b_testTypes body = Some [].

Definition requiredMessage : jstr := `"Input data and test types are required".

Definition tooLargeMessage : jstr :=
  `"Input data too large. Maximum 5,000 characters allowed to manage API quotas.".

Definition failedMessage : jstr :=
  `"Failed to generate tests. Using fallback templates.".

Definition anonymousHeaders : Headers := mkHeaders None None None.

Definition forgedHeaders : Headers :=
  mkHeaders (Some `"Bearer forged") None None.

(** A body without input data and without test kinds. *)
Definition emptyBody : GenerateTestsBody :=
  mkGenerateTestsBody None None None None None None None None None.

(** The state of a database without users. *)
Definition noUsersState : State :=
  mkState (mkDb [] [] [] [] []) [] 0 0 0.

Definition generateStatuses : list Z := [200; 400; 401; 429; 500]%Z.
Definition listStatuses : list Z := [200; 401; 500]%Z.
Definition executeStatuses : list Z := [200; 400; 401; 500]%Z.

(** ** Listings *)

(** Keys in the order of [ORDER BY ... DESC]. *)
Fixpoint descending (l : list N) : Prop :=
  match l with
  | a :: ((b :: _) as r) => (b <= a)%N /\ descending r
  | _ => True
  end.

(** A database of two users: [u1] owns two test cases, [u2] one. *)
Definition otherRow : TestCaseRow :=
  mkTestCaseRow `"o0" None `"other.java" `"unit" `"// other" `"story"
                `"gemini-1.5-flash" `"u2" `"{}" 1650000000%N.

Definition sharedDb : Db :=
  mkDb [mkUserRow `"u1" (Some `"free"); mkUserRow `"u2" (Some `"pro")] []
       [exampleRow 0; otherRow; exampleRow 1] [] [].

Definition sharedState : State := mkState sharedDb [] 0 0 0.

(** ** [GET /api/executions] (src/app/api/executions/route.ts, lines 5-41) *)
Module ExecutionsList.

(** A row of the answer: [te.*] and [tc.name as test_name]. *)
Record ExecutionView : Type := mkExecutionView {
  execution : ExecutionRow;
  test_name : jstr
}.

Inductive Response : Type :=
(** [{ error }] with a status *)
| ListError (status : Z) (error : jstr)
(** [{ executions }], 200 *)
| ExecutionList (executions : list ExecutionView).

(** The query of lines 22-32: the executions joined with their test
    case, for the test cases that the user created. *)
Definition selectExecutions (d : Db) (uid : jstr) : list ExecutionView :=
  Database.orderByDesc (fun v => te_created_at (execution v))
    (flat_map
       (fun te =>
          map (fun tc => mkExecutionView te (tc_name tc))
              (filter (fun tc => Js.eqb (tc_id tc) (te_test_case_id te)
                                 && Js.eqb (tc_created_by tc)
                                           (Database.stored uid))
                      (test_cases d)))
       (test_executions d)).

Definition GET (w : World) (hdrs : Headers) : M Response :=
  tryCatch
    (match Auth.bearer (authorization hdrs) with
     | None => ret (ListError 401 `"No token provided")
     | Some token =>
         decoded <- Auth.verifyToken w token ;;
         match decoded with
         | None => ret (ListError 401 `"Invalid token")
         | Some decoded =>
             d <- getDb ;;
             ret (ExecutionList (selectExecutions d (id decoded)))
         end
     end)
    (fun error => ret (ListError 500 `"Internal server error")).

End ExecutionsList.

(** The two texts of [logs] (lines 79-82 of the execution handler). *)
Definition passedLogs : jstr :=
  text ["Test executed successfully"; "All assertions passed";
        "Execution completed"]%string.

Definition failedLogs : jstr :=
  text ["Test failed"; "Assertion error: Expected value did not match";
        "Execution failed"]%string.

(** The logs of an execution follow its status. *)
Definition logsAgree (e : Execution) : Prop :=
  (ex_status e = `"passed" /\ ex_logs e = passedLogs)
  \/ (ex_status e = `"failed" /\ ex_logs e = failedLogs).

(** A request of [u1] to execute the test case [o0] of [u2]. *)
Definition foreignIdRequest : Request ExecutionsBody :=
  mkRequest_ exampleHeaders
    (Ok (mkExecutionsBody (Some [`"o0"]) (Some `"staging"))).

(** Headers with the token of [u2], and a world that accepts it. *)
Definition otherHeaders : Headers :=
  mkHeaders (Some `"Bearer other") None None.

Definition otherDecoded : Decoded :=
  mkDecoded `"u2" `"bob@example.org" `"user" `"pro".

Definition twoUsersWorld : World :=
  mkWorld exampleEngine (Some `"key") None modelDown
          (fun n => mkDraw (N.of_nat n * 2 ^ 52 + 12345) 0)
          (fun n => 1700000000000 + N.of_nat n)%N
          (fun _ _ _ _ => `"good")
          (fun _ token _ =>
             if Js.eqb token `"good" then Ok exampleDecoded
             else if Js.eqb token `"other" then Ok otherDecoded
             else Throw (JsError `"invalid token"))
          (fun _ => []) (fun _ => []) (fun _ => []).

(** ** What a computation may change *)

(** Every run of [m] takes a state to a state related by [R]. *)
Definition steps (R : State -> State -> Prop) {A} (m : M A) : Prop :=
  forall st, R st (snd (m st)).

(** The pipeline: the database, the random source and the clock are not
    used; the log of the calls of the model only grows. *)
Definition pipelineStep (st st' : State) : Prop :=
  db st' = db st
  /\ randomDraws st' = randomDraws st
  /\ clockReads st' = clockReads st
  /\ exists calls, modelCalls st' = calls ++ modelCalls st.

(** The generation handler: it adds rows to [test_cases] and to
    [audit_logs], and changes no other table and no row that exists. *)
Definition generationStep (st st' : State) : Prop :=
  users (db st') = users (db st)
  /\ projects (db st') = projects (db st)
  /\ test_executions (db st') = test_executions (db st)
  /\ (exists rows, test_cases (db st') = test_cases (db st) ++ rows)
  /\ (exists logs, audit_logs (db st') = audit_logs (db st) ++ logs).

(** The execution handler: it adds rows to [test_executions], changes no
    other table and no row that exists, and calls no model. *)
Definition executionStep (st st' : State) : Prop :=
  users (db st') = users (db st)
  /\ projects (db st') = projects (db st)
  /\ test_cases (db st') = test_cases (db st)
  /\ audit_logs (db st') = audit_logs (db st)
  /\ modelCalls st' = modelCalls st
  /\ pipelineRuns st' = pipelineRuns st
  /\ exists rows, test_executions (db st') = test_executions (db st) ++ rows.

(** The listings: only the clock is read. *)
Definition readOnlyStep (st st' : State) : Prop :=
  db st' = db st /\ modelCalls st' = modelCalls st
  /\ randomDraws st' = randomDraws st /\ pipelineRuns st' = pipelineRuns st.

(** ** Bounds on a run of the pipeline *)

(** Between [st] and [st'] the model was called [n] times at most. *)
Definition callsWithin (n : nat) (st st' : State) : Prop :=
  exists calls,
    modelCalls st' = calls ++ modelCalls st /\ length calls <= n.

(** Every run of [m] calls the model [n] times at most. *)
Definition costs (n : nat) {A} (m : M A) : Prop :=
  forall st, callsWithin n st (snd (m st)).

(** Every list that [m] returns has [n] elements at most. *)
Definition yields (n : nat) {A} (m : M (list A)) : Prop :=
  forall st l st', m st = (Ok l, st') -> length l <= n.

(** ** Kinds that the pipeline does not know *)

(** A kind that is neither one of the five nor the name of a member that
    every object literal inherits: [templates[k]] is [undefined]. *)
Definition unknownKind (k : jstr) : Prop :=
  ~ validKind k /\ ~ In k objectPrototypeKeys.

Definition unableMessage : jstr :=
  `"Unable to generate any tests. Please try again later or check your quota limits.".

Definition quotaExceededMessage : jstr :=
  `"Google AI Studio quota exceeded. Using template-based generation as fallback.".

Definition quotaSuggestion : jstr :=
  `"Try again in a few minutes or upgrade your Google AI Studio plan for higher quotas.".

(** A request for a kind of test that does not exist. *)
Definition smokeBody : GenerateTestsBody :=
  mkGenerateTestsBody (Some `"user_story")
    (Some `"As a user, I want to login to the system")
    (Some [`"smoke"]) (Some `"java") None None None None None.

Definition smokeRequest : Request GenerateTestsBody :=
  mkRequest_ exampleHeaders (Ok smokeBody).

(** A world without a key for the model. *)
Definition keylessWorld : World :=
  mkWorld exampleEngine None None modelProse
          (fun n => mkDraw (N.of_nat n * 2 ^ 52 + 12345) 0)
          (fun n => 1700000000000 + N.of_nat n)%N
          (fun _ _ _ _ => `"good")
          (fun _ token _ =>
             if Js.eqb token `"good" then Ok exampleDecoded
             else Throw (JsError `"invalid token"))
          (fun _ => []) (fun _ => []) (fun _ => []).

(** [!googleApiKey] *)
Definition noApiKey (w : World) : Prop :=
  GOOGLE_GENERATIVE_AI_API_KEY w = None
  \/ GOOGLE_GENERATIVE_AI_API_KEY w = Some [].

(** ** The self-test ([testAIService], lines 4-25 of
    src/lib/test-ai-service.ts, and src/app/api/test-ai/route.ts) *)
Module TestAi.

Definition testRequest : TestGenerationRequest :=
  mkRequest `"user_story"
    `"As a user, I want to login to the system so that I can access my dashboard"
    [`"unit"] `"java" (Some `"Simple login functionality test")
    (Some `"Spring Boot") (Some `"JUnit 5") (Some `"gemini-1.5-pro").

Definition testAIService (w : World) : M (list GeneratedTest) :=
  tryCatch (generateTestCases w testRequest) (fun error => throw error).

(** [{ type, filename, description }] of the first test *)
Record Sample : Type := mkSample {
  sample_type : jstr;
  sample_filename : jstr;
  sample_description : jstr
}.

Inductive Response : Type :=
(** [{ success: true, message, testsGenerated, sample }], 200 *)
| Working (message : jstr) (testsGenerated : nat) (sample : option Sample)
(** [{ success: false, error, details }], 500; [error] is absent from
    the body when the message of the error is [undefined] *)
| Broken (error : option jstr).

Definition GET (w : World) : M Response :=
  tryCatch
    (result <- testAIService w ;;
     ret (Working `"AI service is working correctly" (length result)
            (match result with
             | t :: _ => Some (mkSample (type t) (filename t) (description t))
             | [] => None
             end)))
    (fun error =>
       ret (Broken (if isError error then message error
                    else Some `"Unknown error"))).

End TestAi.

(** ** File names *)

(** A lower-case letter, a digit, a hyphen or a dot. *)
Definition isFileNameUnit (c : N) : bool :=
  Js.isAsciiLower c || Js.isDigit c || (c =? 45)%N || (c =? 46)%N.

(** ** Answers of the model *)

(** A model that answers every call with a JSON array. *)
Definition modelArray (n : nat) (site : CallSite) : outcome jstr :=
  Ok `"[1, 2, 3]".

(** ** What the generation handler stores *)

(** [projectId || null] *)
Definition projectIdOf (body : GenerateTestsBody) : option jstr :=
  match b_projectId body with
  | Some ((_ :: _) as pid) => Some pid
  | _ => None
  end.

(** The columns of a saved row that do not come from the artifact, each
    in the form that the database keeps: a surrogate that the cut at 500
    units parts from its pair is kept as U+FFFD. *)
Definition storedBy (uid inputData : jstr) (body : GenerateTestsBody)
           (r : TestCaseRow) : Prop :=
  tc_created_by r = Database.stored uid
  /\ tc_input_source r = Database.stored (Js.substring inputData 0 500)
  /\ length (tc_input_source r) <= 500
  /\ tc_ai_model_used r = `"gemini-1.5-flash"
  /\ tc_project_id r = option_map Database.stored (projectIdOf body).

(** The row that the handler adds to [audit_logs]. *)
Definition auditOf (uid : jstr) (hdrs : Headers) (tests : list SavedTest)
  : AuditRow :=
  mkAuditRow (Database.stored uid) `"test_generation" `"test_cases"
             (Database.stored (Js.join (map saved_id tests) `","))
             (Database.stored (orElse (x_forwarded_for hdrs) `"unknown"))
             (Database.stored (orElse (user_agent hdrs) `"unknown")).

(** ** The analysis of a request *)

(** The call of the model that the analysis of a request makes. *)
Definition analysisSite (request : TestGenerationRequest) : CallSite :=
  if Js.eqb (inputType request) `"git_repo" then AtAnalyzeGitRepository
  else if Js.eqb (inputType request) `"postman_collection"
  then AtAnalyzePostmanCollection
  else if Js.eqb (inputType request) `"web_url" then AtAnalyzeWebPage
  else if Js.eqb (inputType request) `"code"
          && Js.includes (inputData request) `"// File:"
  then AtAnalyzeUploadedFiles
  else AtAnalyzeInput.

(** The analysis that stands in when that call fails. *)
Definition analysisFallback (request : TestGenerationRequest) : value :=
  if Js.eqb (inputType request) `"git_repo"
  then inferProjectStructure (inputData request)
  else if Js.eqb (inputType request) `"postman_collection"
  then VObj [(`"endpoints", VArr []); (`"workflows", VArr [])]
  else if Js.eqb (inputType request) `"web_url"
  then inferPageStructure (inputData request)
  else if Js.eqb (inputType request) `"code"
          && Js.includes (inputData request) `"// File:"
  then generateFallbackProjectAnalysis
         (parseUploadedFiles (inputData request))
  else getFallbackAnalysis request.

(** The answer of the model to the analysis is of no use: the call
    throws, or its text does not parse. *)
Definition analysisFails (w : World) (request : TestGenerationRequest)
           (st : State) : Prop :=
  match modelAnswer w (length (modelCalls st)) (analysisSite request) with
  | Throw _ => True
  | Ok text =>
      exists e, Json.parse (extractJsonFromResponse text) = Throw e
  end.

(** A request to test a repository. *)
Definition repoRequest : TestGenerationRequest :=
  mkRequest `"git_repo" `"https://example.org/shop.git"
            [`"unit"] `"java" None None None None.

(** ** Classes of a project *)

(** An entry of [testableClasses] with a name and, when it lists its
    methods or names its package, a list of strings and a string. *)
Definition namedClass (name : jstr) (c : value) : Prop :=
  exists props,
    c = VObj props
    /\ Dyn.lookup props `"className" = Some (VStr name)
    /\ name <> []
    /\ (Dyn.lookup props `"methods" = None
        \/ exists methods,
            Dyn.lookup props `"methods" = Some (Dyn.strs methods))
    /\ (Dyn.lookup props `"package" = None
        \/ exists package,
            Dyn.lookup props `"package" = Some (VStr package)).

(** The model fails whenever it is asked for the tests of a class. *)
Definition classCallsThrow (w : World) : Prop :=
  forall n, exists e, modelAnswer w n AtProjectLevelUnit = Throw e.

(** The name of the test file of a class. *)
Definition classTestFile (request : TestGenerationRequest) (name : jstr)
  : jstr :=
  name ++ `"Test." ++ getFileExtension (language request).

(** An analysis that names two classes. *)
Definition twoClassAnalysis : value :=
  VObj [(`"testableClasses",
         VArr [VObj [(`"className", VStr `"LoginService");
                     (`"methods", Dyn.strs [`"login"; `"logout"])];
               VObj [(`"className", VStr `"SessionStore")]])].

(** ** Uploaded files *)

Definition fileMarker : jstr := `"// File:".

(** What the upload form puts into the input data for one file
    (src/components/database-initializer.tsx, lines 747 and 918):
    [`// File: ${file.name}\n${file.content}\n\n`]. *)
Definition encodeFile (file : jstr * jstr) : jstr :=
  `"// File: " ++ fst file ++ [NL] ++ snd file ++ [NL; NL].

(** [files.map(...).join(...)], with the empty separator *)
Definition encodeFiles (files : list (jstr * jstr)) : jstr :=
  concat (map encodeFile files).

(** A file name without a line break and without white space around
    it, and a content, that do not hold the marker of a file. *)
Definition plainFile (file : jstr * jstr) : Prop :=
  fst file <> []
  /\ Js.trim (fst file) = fst file
  /\ ~ In NL (fst file)
  /\ Js.includes (fst file) fileMarker = false
  /\ Js.includes (snd file) fileMarker = false.

Definition nameAndContent (file : UploadedFile) : jstr * jstr :=
  (file_name file, file_content file).

(** A text that does not hold the marker and ends with a line break:
    no occurrence of the marker starts in it, whatever follows. *)
Definition closed (t : jstr) : Prop :=
  Js.includes t fileMarker = false /\ (t = [] \/ exists t', t = t' ++ [NL]).

(** What follows the marker of a file in the input data. *)
Definition fileBlock (file : jstr * jstr) : jstr :=
  [32%N] ++ fst file ++ [NL] ++ snd file ++ [NL; NL].

(** Two files, with some white space and a path. *)
Definition exampleUpload : list (jstr * jstr) :=
  [(`"src/Login Service.java", text ["public class LoginService {"; "}"; blank]%string);
   (`"util.py", `"def helper(): pass")].

(** How many of the files are in the language [lang]. *)
Definition languageCount (files : list UploadedFile) (lang : jstr) : nat :=
  length (filter (fun file => Js.eqb (file_language file) lang) files).

(** The count that a tally holds for a language. *)
Definition tallied (acc : list (jstr * nat)) (lang : jstr) : nat :=
  match find (fun entry => Js.eqb (fst entry) lang) acc with
  | Some entry => snd entry
  | None => 0
  end.

(** ** Requests that name a project *)

(** A request for a project that is not stored. *)
Definition strayProjectBody : GenerateTestsBody :=
  mkGenerateTestsBody (Some `"user_story")
    (Some `"As a user, I want to login to the system")
    (Some [`"unit"]) (Some `"java") None None None (Some `"p404") None.

Definition strayProjectRequest : Request GenerateTestsBody :=
  mkRequest_ exampleHeaders (Ok strayProjectBody).

(** A request for API tests in Python. *)
Definition pythonApiRequest : TestGenerationRequest :=
  mkRequest `"api_spec" `"GET /users returns the list of users"
            [`"api"] `"python" None None None None.

(** ** Accounts ([lib/auth], src/app/settings/page.tsx lines 947-953 and
    976-1009, and src/app/api/auth/register/route.ts) *)
Module Accounts.

(** A row of [users] (src/lib/database.ts, lines 88-97). *)
Record User : Type := mkUser {
  usr_id : jstr;
  usr_email : jstr;
  usr_name : jstr;
  usr_password_hash : jstr;
  usr_role : jstr;
  usr_plan : jstr;
  usr_created_at : N;
  usr_updated_at : N
}.

(** [bcryptjs]: the hash of the [n]-th call (the salt is drawn anew each
    time) at a cost, and the comparison of a password with a hash. *)
Record Bcrypt : Type := mkBcrypt {
  bcrypt_hash : nat -> jstr -> N -> jstr;
  bcrypt_compare : jstr -> jstr -> bool
}.

(** The full rows of [users], the number of hashes computed, and the
    state that the other handlers work on. The [users] of its [Db] are the
    [id] and [plan] columns of the same table, which is all those handlers
    read. *)
Record Store : Type := mkStore {
  accounts : list User;
  hashCalls : nat;
  base : State
}.

Definition planColumns (u : User) : UserRow :=
  mkUserRow (usr_id u) (Some (usr_plan u)).

Definition insertUser (u : User) (st : State) : State :=
  setDb (mkDb (users (db st) ++ [planColumns u]) (projects (db st))
              (test_cases (db st)) (test_executions (db st))
              (audit_logs (db st))) st.

(** [hashPassword]: [bcrypt.hash(password, 12)] *)
Definition hashPassword (b : Bcrypt) (password : jstr) (s : Store)
  : jstr * Store :=
  (bcrypt_hash b (hashCalls s) password 12,
   mkStore (accounts s) (S (hashCalls s)) (base s)).

(** [verifyPassword]: [bcrypt.compare(password, hash)] *)
Definition verifyPassword (b : Bcrypt) (password hash : jstr) : bool :=
  bcrypt_compare b password hash.

(** Whether a row has the identifier, or the email, that is bound. *)
Definition hasId (l : list User) (uid : jstr) : bool :=
  existsb (fun u => Js.eqb (usr_id u) (Database.stored uid)) l.

Definition hasEmail (l : list User) (email : jstr) : bool :=
  existsb (fun u => Js.eqb (usr_email u) (Database.stored email)) l.

(** [SELECT * FROM users WHERE id = ?], [.get(id)] *)
Definition selectById (l : list User) (uid : jstr) : option User :=
  find (fun u => Js.eqb (usr_id u) (Database.stored uid)) l.

(** [SELECT * FROM users WHERE email = ?], [.get(email)] *)
Definition selectByEmail (l : list User) (email : jstr) : option User :=
  find (fun u => Js.eqb (usr_email u) (Database.stored email)) l.

(** [createUser]: the insert, with the primary key, the unique email and
    the defaults of the table, and the row read back by its id. The row
    holds each text in the form that the database keeps. *)
Definition createUser (w : World) (b : Bcrypt) (email name password : jstr)
           (s : Store) : outcome (option User) * Store :=
  let (passwordHash, s1) := hashPassword b password s in
  match Database.generateId w (base s1) with
  | (Throw e, st1) => (Throw e, mkStore (accounts s1) (hashCalls s1) st1)
  | (Ok uid, st1) =>
      match Database.datetimeNow w st1 with
      | (Throw e, st2) => (Throw e, mkStore (accounts s1) (hashCalls s1) st2)
      | (Ok now, st2) =>
          if hasId (accounts s1) uid
          then (Throw (Database.SqliteError `"UNIQUE constraint failed: users.id"),
                mkStore (accounts s1) (hashCalls s1) st2)
          else if hasEmail (accounts s1) email
          then (Throw (Database.SqliteError
                         `"UNIQUE constraint failed: users.email"),
                mkStore (accounts s1) (hashCalls s1) st2)
          else
            let row :=
              mkUser (Database.stored uid) (Database.stored email)
                     (Database.stored name) (Database.stored passwordHash)
                     `"user" `"free" now now in
            let rows := accounts s1 ++ [row] in
            (Ok (selectById rows uid),
             mkStore rows (hashCalls s1) (insertUser row st2))
      end
  end.

(** [authenticateUser] *)
Definition authenticateUser (b : Bcrypt) (email password : jstr) (s : Store)
  : option User :=
  match selectByEmail (accounts s) email with
  | None => None
  | Some user =>
      if verifyPassword b password (usr_password_hash user)
      then Some user else None
  end.

(** [getUserById] *)
Definition getUserById (uid : jstr) (s : Store) : option User :=
  selectById (accounts s) uid.

(** The body of a registration, as the handler destructures it. *)
Record RegisterBody : Type := mkRegisterBody {
  r_email : option jstr;
  r_name : option jstr;
  r_password : option jstr
}.

Inductive Response : Type :=
(** [{ error }] with a status *)
| Refused (status : Z) (error : jstr)
(** [{ token, user }], 200 *)
| Registered (token : jstr) (user : AuthUser).

(** [POST /api/auth/register] *)
Definition POST (w : World) (b : Bcrypt) (json : outcome RegisterBody)
           (s : Store) : Response * Store :=
  let failed (error : exn) (s' : Store) :=
    (match message error with
     | Some ((_ :: _) as m) =>
         if Js.includes m `"UNIQUE constraint failed"
         then Refused 409 `"Email already exists"
         else Refused 500 `"Internal server error"
     | _ => Refused 500 `"Internal server error"
     end, s') in
  match json with
  | Throw e => failed e s
  | Ok body =>
      match r_email body, r_name body, r_password body with
      | Some ((_ :: _) as email), Some ((_ :: _) as name),
        Some ((_ :: _) as password) =>
          if length password <? 6
          then (Refused 400 `"Password must be at least 6 characters", s)
          else
            match createUser w b email name password s with
            | (Throw e, s1) => failed e s1
            | (Ok None, s1) => failed TypeError s1
            | (Ok (Some user), s1) =>
                let authUser :=
                  mkAuthUser (usr_id user) (usr_email user) (usr_name user)
                             (usr_role user) (usr_plan user) in
                match Auth.generateToken w authUser (base s1) with
                | (Throw e, st2) =>
                    failed e (mkStore (accounts s1) (hashCalls s1) st2)
                | (Ok token, st2) =>
                    (Registered token authUser,
                     mkStore (accounts s1) (hashCalls s1) st2)
                end
            end
      | _, _, _ =>
          (Refused 400 `"Email, name, and password are required", s)
      end
  end.

End Accounts.

(** A hash that keeps the password readable, for the examples. *)
Definition exampleBcrypt : Accounts.Bcrypt :=
  Accounts.mkBcrypt
    (fun n password cost => `"$2a$" ++ Database.toString36 (N.of_nat n)
                             ++ `"$" ++ password)
    (fun password hash => Js.endsWith hash (`"$" ++ password)).

Definition annAccount : Accounts.User :=
  Accounts.mkUser `"u1" `"ann@example.org" `"Ann" `"$2a$0$secret1"
                  `"user" `"free" 1600000000%N 1600000000%N.

Definition exampleStore : Accounts.Store :=
  Accounts.mkStore [annAccount] 1 (exampleState 0).

(** The [id] and [plan] columns that the other handlers read are those of
    the stored accounts. *)
Definition sameUsers (s : Accounts.Store) : Prop :=
  users (db (Accounts.base s)) = map Accounts.planColumns (Accounts.accounts s).

Definition registration (email name password : jstr) : Accounts.RegisterBody :=
  Accounts.mkRegisterBody (Some email) (Some name) (Some password).

(** A body from which a field is missing or empty, or whose password has
    fewer than six UTF-16 units. *)
Definition badRegistration (body : Accounts.RegisterBody) : Prop :=
  Accounts.r_email body = None \/ Accounts.r_email body = Some []
  \/ Accounts.r_name body = None \/ Accounts.r_name body = Some []
  \/ Accounts.r_password body = None
  \/ exists password,
       Accounts.r_password body = Some password /\ length password < 6.

(** The identifier that [generateId] would produce next is not in use. *)
Definition freshId (w : World) (s : Accounts.Store) : Prop :=
  forall uid st,
    Database.generateId w (Accounts.base s) = (Ok uid, st) ->
    Accounts.hasId (Accounts.accounts s) uid = false.

(* ===================================================================== *)
(** * Lemmas and theorems *)
(* ===================================================================== *)

Lemma orElse_nonempty (x : option jstr) (d : jstr) :
  d <> [] -> orElse x d <> [].
Proof.
  intros Hd. destruct x as [[|c s]|]; simpl; auto. discriminate.
Qed.


Lemma some_test_of_content (content : jstr) (f : jstr -> GeneratedTest) :
  content <> [] ->
  exists t, match content with
            | [] => None
            | _ :: _ => Some (f content)
            end = Some t.
Proof. destruct content; [congruence | eauto]. Qed.

Lemma java_fallback_nonempty (tpl : list (jstr * jstr)) lang java :
  tableGet tpl `"java" = Some java -> java <> [] ->
  orElse (tableGet tpl lang) (orElse (tableGet tpl `"java") []) <> [].
Proof.
  intros -> Hj. apply orElse_nonempty. destruct java; [congruence|]. simpl. discriminate.
Qed.

Lemma nonempty_templates :
  unit_java <> [] /\ bdd_feature <> [] /\ api_java <> [] /\ ui_java <> []
  /\ performance_jmx <> [].
Proof. repeat split; vm_compute; discriminate. Qed.

Lemma basic_template_exists request k :
  validKind k -> exists t, generateBasicTestTemplate request k = Some t.
Proof.
  destruct nonempty_templates as (Hu & Hb & Ha & Hi & Hp).
  intros Hk. unfold validKind in Hk. cbn [In] in Hk.
  destruct Hk as [<-|[<-|[<-|[<-|[<-|[]]]]]];
    unfold generateBasicTestTemplate.
  - replace (tableGet templates `"bdd") with (Some [(`"feature", bdd_feature)]) by reflexivity.
    eval_eqb. cbv beta iota.
    match goal with |- exists t, match ?c with _ => _ end = _ => cut (c <> []); [destruct c; [congruence | eauto] | ] end.
    replace (tableGet [(`"feature", bdd_feature)] `"feature") with (Some bdd_feature) by reflexivity.
    destruct bdd_feature; [congruence | simpl; discriminate].
  - replace (tableGet templates `"unit")
      with (Some [(`"java", unit_java); (`"python", unit_python);
                  (`"javascript", unit_javascript)]) by reflexivity.
    eval_eqb. cbv beta iota.
    match goal with |- exists t, match ?c with _ => _ end = _ => cut (c <> []); [destruct c; [congruence | eauto] | ] end.
    apply java_fallback_nonempty with (java := unit_java); [reflexivity | assumption].
  - replace (tableGet templates `"api") with (Some [(`"java", api_java)]) by reflexivity.
    eval_eqb. cbv beta iota.
    match goal with |- exists t, match ?c with _ => _ end = _ => cut (c <> []); [destruct c; [congruence | eauto] | ] end.
    apply java_fallback_nonempty with (java := api_java); [reflexivity | assumption].
  - replace (tableGet templates `"ui") with (Some [(`"java", ui_java)]) by reflexivity.
    eval_eqb. cbv beta iota.
    match goal with |- exists t, match ?c with _ => _ end = _ => cut (c <> []); [destruct c; [congruence | eauto] | ] end.
    apply java_fallback_nonempty with (java := ui_java); [reflexivity | assumption].
  - replace (tableGet templates `"performance") with (Some [(`"jmx", performance_jmx)]) by reflexivity.
    eval_eqb. cbv beta iota.
    match goal with |- exists t, match ?c with _ => _ end = _ => cut (c <> []); [destruct c; [congruence | eauto] | ] end.
    replace (tableGet [(`"jmx", performance_jmx)] `"jmx") with (Some performance_jmx) by reflexivity.
    destruct performance_jmx; [congruence | simpl; discriminate].
Qed.

Lemma tryCatch_returns {A} (m : M A) (h : exn -> M A) st :
  (forall e st1, exists a st2, h e st1 = (Ok a, st2)) ->
  exists a st2, tryCatch m h st = (Ok a, st2).
Proof.
  intros Hh. unfold tryCatch. destruct (m st) as [[a|e] st1]; eauto.
Qed.

Lemma generateForType_returns w request useAI analysis k st :
  exists ts st', generateForType w request useAI analysis k st = (Ok ts, st').
Proof.
  unfold generateForType. apply tryCatch_returns.
  intros e st1. destruct (generateBasicTestTemplate request k); unfold ret; eauto.
Qed.

Lemma generateForTypes_returns w request useAI analysis ks :
  forall tests st,
  exists ts st',
    generateForTypes w request useAI analysis ks tests st = (Ok ts, st').
Proof.
  induction ks as [|k ks IH]; intros tests st; simpl.
  - unfold ret; eauto.
  - unfold bind.
    destruct (generateForType_returns w request useAI analysis k st)
      as (g & st1 & ->).
    apply IH.
Qed.

Lemma analyze_returns w request st :
  exists analysis useAI st', analyze w request st = (Ok (analysis, useAI), st').
Proof.
  unfold analyze.
  destruct (tryCatch_returns
              (model <- lift (getAIModel w (aiModel request));;
               analysis <-
               (if Js.eqb (inputType request) `"git_repo"
                then analyzeGitRepository w (inputData request)
                else
                 if Js.eqb (inputType request) `"postman_collection"
                 then analyzePostmanCollection w (inputData request)
                 else
                  if Js.eqb (inputType request) `"web_url"
                  then analyzeWebPage w (inputData request)
                  else
                   if Js.eqb (inputType request) `"code"
                   then
                    if Js.includes (inputData request) `"// File:"
                    then
                     analyzeUploadedFiles w
                       (parseUploadedFiles (inputData request))
                    else analyzeInput w request
                   else analyzeInput w request);; 
               ret (analysis, true))
              (fun _ => ret (getFallbackAnalysis request, false)) st)
    as ([a u] & st' & H).
  - intros e st1. unfold ret. eauto.
  - eauto.
Qed.

(** C1: for a request whose kinds are non-empty and valid and whose
    input is non-empty, [generateTestCases] returns a non-empty list of
    artifacts and does not throw, in every world: whatever the model
    answers and however it fails. *)
Theorem generateTestCases_nonempty_result w request st :
  testTypes request <> [] ->
  Forall validKind (testTypes request) ->
  inputData request <> [] ->
  exists tests st',
    generateTestCases w request st = (Ok tests, st') /\ tests <> [].
Proof.
  intros Hne Hvalid _.
  unfold generateTestCases, bind, enterPipeline.
  destruct (analyze_returns w request
              (mkState (db st) (modelCalls st) (randomDraws st)
                 (clockReads st) (S (pipelineRuns st))))
    as (analysis & useAI & st1 & ->).
  destruct (generateForTypes_returns w request useAI analysis
              (testTypes request) [] st1) as (tests & st2 & ->).
  destruct tests as [|t tests].
  - destruct (testTypes request) as [|k ks] eqn:Hk; [congruence|].
    unfold firstType. rewrite Hk.
    inversion Hvalid as [|? ? Hk0 _]; subst.
    destruct (basic_template_exists request k Hk0) as (t & ->).
    unfold ret. eexists _, _. split; [reflexivity | discriminate].
  - unfold ret. eexists _, _. split; [reflexivity | discriminate].
Qed.

Lemma analyzeInput_malformed w request st text e :
  modelAnswer w (length (modelCalls st)) AtAnalyzeInput = Ok text ->
  Json.parse (AiText.extractJsonFromResponse text) = Throw e ->
  analyzeInput w request st
  = (Ok (getFallbackAnalysis request), called AtAnalyzeInput st).
Proof.
  intros Hm Hp.
  unfold analyzeInput, tryCatch, bind, generateText, parseResponse, lift.
  rewrite Hm, Hp. reflexivity.
Qed.

Lemma analyze_by_analyzeInput w request st c key :
  GOOGLE_GENERATIVE_AI_API_KEY w = Some (c :: key) ->
  usesAnalyzeInput request = true ->
  analyze w request st
  = match analyzeInput w request st with
    | (Ok a, st') => (Ok (a, true), st')
    | (Throw _, st') => (Ok (getFallbackAnalysis request, false), st')
    end.
Proof.
  intros Hkey Hu. unfold usesAnalyzeInput in Hu.
  repeat (apply andb_prop in Hu; destruct Hu as [Hu ?]).
  unfold analyze, tryCatch, bind, lift, getAIModel. rewrite Hkey.
  destruct (Js.eqb (inputType request) `"git_repo"); [discriminate|].
  destruct (Js.eqb (inputType request) `"postman_collection"); [discriminate|].
  destruct (Js.eqb (inputType request) `"web_url"); [discriminate|].
  destruct (Js.eqb (inputType request) `"code");
    [destruct (Js.includes (inputData request) `"// File:"); [discriminate|]|];
    destruct (analyzeInput w request st) as [[a|e] st']; reflexivity.
Qed.

Lemma eqb_eq (a b : jstr) : Js.eqb a b = true -> a = b.
Proof.
  revert b. induction a as [|x a IH]; intros [|y b]; simpl; try discriminate; auto.
  intros H. apply andb_prop in H. destruct H as [H1 H2].
  apply N.eqb_eq in H1. f_equal; auto.
Qed.

Lemma eqb_refl (s : jstr) : Js.eqb s s = true.
Proof. induction s as [|x s IH]; cbn; [reflexivity|]. now rewrite N.eqb_refl. Qed.

Lemma basic_template_type request k t :
  generateBasicTestTemplate request k = Some t -> type t = k.
Proof.
  unfold generateBasicTestTemplate.
  destruct (tableGet templates k); [|discriminate].
  destruct (if Js.eqb k `"bdd" then _ else _) as [[|c content] name];
    [discriminate|].
  intros [= <-]. reflexivity.
Qed.

(** The generation for one valid kind on an analysis that names no
    classes: one call of the model, one artifact. *)
Lemma generateForType_single w request analysis k st model :
  getAIModel w (aiModel request) = Ok model ->
  Dyn.get analysis `"testableClasses" = Ok VUndefined ->
  validKind k ->
  exists t,
    generateForType w request true analysis k st
    = (Ok [t], called (kindSite k) st)
    /\ type t = k
    /\ match modelAnswer w (length (modelCalls st)) (kindSite k) with
       | Ok text =>
           content t = text
           /\ filename t
              = generateFilename k (language request) (inputData request)
       | Throw _ => generateBasicTestTemplate request k = Some t
       end.
Proof.
  intros Hm Htc Hk.
  destruct (basic_template_exists request k Hk) as (tpl & Htpl).
  pose proof (basic_template_type request k tpl Htpl) as Htype.
  assert (Hsingle :
    forall site label cov,
      kindSite k = site ->
      generateSpecificTestType w request k analysis st
      = (match generateSingle w request site k label cov st with
         | (Ok t, st1) => (Ok [t], st1)
         | (Throw e, st1) => (Throw e, st1)
         end) ->
      exists t,
        generateForType w request true analysis k st
        = (Ok [t], called (kindSite k) st)
        /\ type t = k
        /\ match modelAnswer w (length (modelCalls st)) (kindSite k) with
           | Ok text =>
               content t = text
               /\ filename t
                  = generateFilename k (language request) (inputData request)
           | Throw _ => generateBasicTestTemplate request k = Some t
           end).
  { intros site label cov Hsite Hgen.
    unfold generateForType, tryCatch, bind, lift. rewrite Hm, Hgen, Hsite.
    unfold generateSingle, bind, generateText, ret.
    fold (called site st).
    destruct (modelAnswer w (length (modelCalls st)) site) as [text|e].
    - eexists. split; [reflexivity|]. repeat split.
    - exists tpl. split; [|split; assumption].
      unfold isQuotaError, generateTestFromTemplate, throw, ret. rewrite Htpl.
      destruct (message e) as [msg|]; [|reflexivity].
      destruct (Js.includes msg `"quota" || Js.includes msg `"429");
        reflexivity. }
  unfold validKind in Hk. cbn [In] in Hk.
  destruct Hk as [<-|[<-|[<-|[<-|[<-|[]]]]]].
  - eapply Hsingle; [reflexivity|].
    unfold generateSpecificTestType, generateSingleBDDTest, bind.
    eval_eqb. cbv beta iota.
    unfold ret. reflexivity.
  - eapply Hsingle; [reflexivity|].
    unfold generateSpecificTestType, generateSingleUnitTest, bind, lift.
    eval_eqb. cbv beta iota. rewrite Htc. cbn [Dyn.truthy andb].
    unfold ret. reflexivity.
  - eapply Hsingle; [reflexivity|].
    unfold generateSpecificTestType, generateSingleAPITest, bind.
    eval_eqb. cbv beta iota.
    unfold ret. reflexivity.
  - eapply Hsingle; [reflexivity|].
    unfold generateSpecificTestType, generateSingleUITest, bind.
    eval_eqb. cbv beta iota.
    unfold ret. reflexivity.
  - eapply Hsingle; [reflexivity|].
    unfold generateSpecificTestType, generateSinglePerformanceTest, bind.
    eval_eqb. cbv beta iota.
    unfold ret. reflexivity.
Qed.

Lemma generateForTypes_single w request analysis model :
  getAIModel w (aiModel request) = Ok model ->
  Dyn.get analysis `"testableClasses" = Ok VUndefined ->
  forall kinds st tests,
    Forall validKind kinds ->
    exists ts st',
      generateForTypes w request true analysis kinds tests st
      = (Ok (tests ++ ts), st')
      /\ generatedPerKind w request kinds st ts st'.
Proof.
  intros Hm Htc. induction kinds as [|k ks IH]; intros st tests Hv.
  - exists [], st. cbn. rewrite app_nil_r. split; reflexivity.
  - inversion Hv as [|? ? Hk Hks]; subst.
    destruct (generateForType_single w request analysis k st model Hm Htc Hk)
      as (t & Hg & Hty & Hmade).
    destruct (IH (called (kindSite k) st) (tests ++ [t]) Hks)
      as (ts & st' & Hrest & Hper).
    exists (t :: ts), st'. cbn [generateForTypes generatedPerKind].
    unfold bind. rewrite Hg, Hrest, <- app_assoc.
    split; [reflexivity|]. repeat split; assumption.
Qed.

Lemma generatedPerKind_length w request kinds :
  forall st tests st',
    generatedPerKind w request kinds st tests st' ->
    length tests = length kinds.
Proof.
  induction kinds as [|k ks IH]; intros st [|t ts] st' H; cbn in *;
    try reflexivity; try contradiction.
  destruct H as (_ & _ & H). f_equal. exact (IH _ _ _ H).
Qed.

Lemma generatedPerKind_calls w request kinds :
  forall st tests st',
    generatedPerKind w request kinds st tests st' ->
    modelCalls st' = rev (map kindSite kinds) ++ modelCalls st
    /\ db st' = db st.
Proof.
  induction kinds as [|k ks IH]; intros st [|t ts] st' H; cbn in *;
    try contradiction.
  - subst. split; reflexivity.
  - destruct H as (_ & _ & H). destruct (IH _ _ _ H) as [Hc Hd].
    rewrite Hc, Hd. cbn [modelCalls db called]. rewrite <- app_assoc.
    split; reflexivity.
Qed.

(** C3: when the model answers the analysis with a text whose cleaned
    form [JSON.parse] rejects, [analyzeInput] returns the fallback
    analysis and the generation runs on it for every requested kind:
    [generateTestCases] calls the model once for each kind, in the order
    of the request, and returns one artifact for each of them -- the
    answer of the model to that call under the generated file name, or
    the basic template of the kind when the call throws. *)
Theorem malformed_analysis_falls_back w request st text e c key :
  GOOGLE_GENERATIVE_AI_API_KEY w = Some (c :: key) ->
  usesAnalyzeInput request = true ->
  modelAnswer w (length (modelCalls st)) AtAnalyzeInput = Ok text ->
  Json.parse (AiText.extractJsonFromResponse text) = Throw e ->
  testTypes request <> [] ->
  Forall validKind (testTypes request) ->
  analyzeInput w request (entered st)
  = (Ok (getFallbackAnalysis request), called AtAnalyzeInput (entered st))
  /\ exists tests st',
      generateTestCases w request st = (Ok tests, st')
      /\ tests <> []
      /\ length tests = length (testTypes request)
      /\ generatedPerKind w request (testTypes request)
           (called AtAnalyzeInput (entered st)) tests st'
      /\ modelCalls st'
         = rev (map kindSite (testTypes request))
           ++ AtAnalyzeInput :: modelCalls st.
Proof.
  intros Hkey Hu Hm Hp Hne Hvalid.
  assert (Ha : analyzeInput w request (entered st)
               = (Ok (getFallbackAnalysis request),
                  called AtAnalyzeInput (entered st))).
  { apply analyzeInput_malformed with (text := text) (e := e); assumption. }
  split; [exact Ha|].
  assert (Hmodel : exists model, getAIModel w (aiModel request) = Ok model).
  { unfold getAIModel. rewrite Hkey. eauto. }
  destruct Hmodel as (model & Hmodel).
  destruct (generateForTypes_single w request (getFallbackAnalysis request)
              model Hmodel eq_refl (testTypes request)
              (called AtAnalyzeInput (entered st)) [] Hvalid)
    as (tests & st' & Hg & Hper).
  cbn [app] in Hg.
  pose proof (generatedPerKind_length _ _ _ _ _ _ Hper) as Hlen.
  exists tests, st'.
  unfold generateTestCases, bind, enterPipeline. fold (entered st).
  rewrite (analyze_by_analyzeInput w request (entered st) c key Hkey Hu), Ha, Hg.
  destruct tests as [|t ts].
  - destruct (testTypes request); [congruence|discriminate Hlen].
  - unfold ret. split; [reflexivity|]. split; [discriminate|].
    split; [exact Hlen|]. split; [exact Hper|].
    destruct (generatedPerKind_calls _ _ _ _ _ _ Hper) as [Hc _].
    exact Hc.
Qed.

Lemma throws_only_for_valid_kind w request k analysis st e st' :
  generateSpecificTestType w request k analysis st = (Throw e, st') ->
  validKind k.
Proof.
  unfold generateSpecificTestType, validKind. cbn [In].
  destruct (Js.eqb k `"unit") eqn:E1; [apply eqb_eq in E1; auto|].
  destruct (Js.eqb k `"bdd") eqn:E2; [apply eqb_eq in E2; auto|].
  destruct (Js.eqb k `"api") eqn:E3; [apply eqb_eq in E3; auto|].
  destruct (Js.eqb k `"ui") eqn:E4; [apply eqb_eq in E4; auto|].
  destruct (Js.eqb k `"performance") eqn:E5; [apply eqb_eq in E5; auto 10|].
  unfold ret. discriminate.
Qed.

Lemma useAI_means_model w request st analysis st' :
  analyze w request st = (Ok (analysis, true), st') ->
  exists model, getAIModel w (aiModel request) = Ok model.
Proof.
  unfold analyze, tryCatch, bind, lift.
  destruct (getAIModel w (aiModel request)) as [m|e]; [eauto|].
  unfold ret. intros H. inversion H.
Qed.

Lemma generateForType_when_throws w request analysis k st e st' model :
  getAIModel w (aiModel request) = Ok model ->
  generateSpecificTestType w request k analysis st = (Throw e, st') ->
  exists t, generateBasicTestTemplate request k = Some t
            /\ generateForType w request true analysis k st = (Ok [t], st').
Proof.
  intros Hm Hg.
  destruct (basic_template_exists request k
              (throws_only_for_valid_kind _ _ _ _ _ _ _ Hg)) as (t & Ht).
  exists t. split; [exact Ht|].
  unfold generateForType, tryCatch, bind, lift. rewrite Hm, Hg.
  unfold isQuotaError, generateTestFromTemplate. rewrite Ht.
  destruct (message e) as [msg|]; [|reflexivity].
  destruct (Js.includes msg `"quota" || Js.includes msg `"429"); reflexivity.
Qed.

Lemma generateForTypes_when_throw w request analysis model :
  getAIModel w (aiModel request) = Ok model ->
  forall kinds st tests,
    everyKindThrows w request analysis kinds st ->
    exists ts st',
      generateForTypes w request true analysis kinds tests st
      = (Ok (tests ++ ts), st')
      /\ map Some ts = map (generateBasicTestTemplate request) kinds.
Proof.
  intros Hm. induction kinds as [|k ks IH]; intros st tests H; simpl in *.
  - exists [], st. rewrite app_nil_r. split; reflexivity.
  - destruct H as (e & st1 & Hg & Hrest).
    destruct (generateForType_when_throws _ _ _ _ _ _ _ _ Hm Hg) as (t & Ht & Hf).
    unfold bind. rewrite Hf.
    destruct (IH st1 (tests ++ [t]) Hrest) as (ts & st' & Hts & Hmap).
    exists (t :: ts), st'. split.
    + rewrite Hts, <- app_assoc. reflexivity.
    + simpl. rewrite Ht, Hmap. reflexivity.
Qed.

(** C4: when the generation throws for every requested kind,
    [generateTestCases] returns the basic templates of the requested
    kinds, the first of them that of the first kind. *)
Theorem all_kinds_fail_first_template w request st analysis st1 k ks :
  analyze w request (entered st) = (Ok (analysis, true), st1) ->
  everyKindThrows w request analysis (testTypes request) st1 ->
  testTypes request = k :: ks ->
  exists tests st' t,
    generateTestCases w request st = (Ok tests, st')
    /\ generateBasicTestTemplate request k = Some t
    /\ hd_error tests = Some t
    /\ map Some tests = map (generateBasicTestTemplate request) (testTypes request).
Proof.
  intros Ha He Hk.
  destruct (useAI_means_model _ _ _ _ _ Ha) as (model & Hm).
  destruct (generateForTypes_when_throw w request analysis model Hm
              (testTypes request) st1 [] He) as (ts & st' & Hts & Hmap).
  simpl in Hts.
  unfold generateTestCases, bind, enterPipeline. fold (entered st).
  rewrite Ha, Hts.
  rewrite Hk in Hmap. destruct ts as [|t ts]; [discriminate|].
  simpl in Hmap. injection Hmap as Ht Hmap.
  exists (t :: ts), st', t. unfold ret. rewrite Hk. simpl.
  repeat split; try congruence.
Qed.

(** C9, as stated, fails on an object followed by one more closing
    brace: the running count is zero on no line. *)
Lemma extra_closing_brace : ~ braceRegionClaim `"{}}".
Proof.
  intros H. destruct (H 0 1) as (k & Hk & Hz & _); try reflexivity; [lia|].
  vm_compute in Hk. assert (k = 0) by lia. subst k.
  vm_compute in Hz. discriminate.
Qed.

(** *** Lists of lines *)

Lemma split_not_nil s c : Js.split s c <> [].
Proof.
  induction s as [|x s IH]; simpl; [discriminate|].
  destruct (N.eqb x c); [discriminate|].
  destruct (Js.split s c); [contradiction | discriminate].
Qed.

Lemma join_split s c : Js.join (Js.split s c) [c] = s.
Proof.
  induction s as [|x s IH]; simpl; [reflexivity|].
  destruct (N.eqb x c) eqn:E.
  - apply N.eqb_eq in E. subst x.
    destruct (Js.split s c) as [|l ls] eqn:Hs; [now apply split_not_nil in Hs|].
    change (Js.join ([] :: l :: ls) [c]) with ([] ++ [c] ++ Js.join (l :: ls) [c]).
    rewrite IH. reflexivity.
  - destruct (Js.split s c) as [|l ls] eqn:Hs; [now apply split_not_nil in Hs|].
    destruct ls as [|l' ls'].
    + simpl in *. now rewrite IH.
    + change (Js.join ((x :: l) :: l' :: ls') [c])
        with (x :: (l ++ [c] ++ Js.join (l' :: ls') [c])).
      change (Js.join (l :: l' :: ls') [c])
        with (l ++ [c] ++ Js.join (l' :: ls') [c]) in IH.
      now rewrite IH.
Qed.

Lemma split_head x s c :
  N.eqb x c = false ->
  exists l ls, Js.split (x :: s) c = (x :: l) :: ls.
Proof.
  intros E. simpl. rewrite E.
  destruct (Js.split s c) as [|l ls] eqn:Hs; [now apply split_not_nil in Hs|].
  eauto.
Qed.

Lemma collect_found lines :
  forall count,
    collectJsonLines lines count true
    = match firstZero lines count with
      | Some k => firstn (S k) lines
      | None => lines
      end.
Proof.
  induction lines as [|line rest IH]; intros count; [reflexivity|].
  cbn [collectJsonLines firstZero orb].
  replace (count + Z.of_nat (Js.countOf line LBRACE)
           - Z.of_nat (Js.countOf line RBRACE))%Z
    with (count + lineDelta line)%Z by (unfold lineDelta; lia).
  destruct (count + lineDelta line =? 0)%Z; [reflexivity|].
  rewrite IH. destruct (firstZero rest (count + lineDelta line)); reflexivity.
Qed.

Lemma collect_first line rest count :
  Js.includes line [LBRACE] = true ->
  collectJsonLines (line :: rest) count false
  = collectJsonLines (line :: rest) count true.
Proof. intros H. cbn [collectJsonLines orb]. rewrite H. reflexivity. Qed.

Lemma firstZero_Some lines :
  forall count k,
    firstZero lines count = Some k <->
    (k < length lines
     /\ (count + runningCount lines k = 0)%Z
     /\ forall k', k' < k -> (count + runningCount lines k' <> 0)%Z).
Proof.
  induction lines as [|line rest IH]; intros count k; simpl.
  - split; [discriminate | intros (H & _); lia].
  - destruct (count + lineDelta line =? 0)%Z eqn:E.
    + apply Z.eqb_eq in E. split.
      * intros [= <-]. repeat split; [lia | lia | intros; lia].
      * intros (Hk & Hz & Hmin). destruct k as [|k]; [reflexivity|].
        exfalso. apply (Hmin 0); lia.
    + apply Z.eqb_neq in E.
      destruct (firstZero rest (count + lineDelta line)) as [m|] eqn:F; simpl.
      * apply IH in F. destruct F as (Hm & Hz & Hmin). split.
        -- intros [= <-]. repeat split; [lia | lia |].
           intros [|k'] Hk'; [lia|]. specialize (Hmin k'). lia.
        -- intros (Hk & Hz' & Hmin'). destruct k as [|k]; [lia|].
           f_equal. f_equal.
           destruct (Nat.lt_trichotomy k m) as [H|[H|H]]; [|lia|].
           ++ exfalso. apply (Hmin k H). lia.
           ++ exfalso. apply (Hmin' (S m)); lia.
      * split; [discriminate|].
        intros (Hk & Hz & Hmin). destruct k as [|k]; [lia|]. exfalso.
        assert (firstZero rest (count + lineDelta line) = Some k) as F'.
        { apply IH. repeat split; [lia | lia |].
          intros k' Hk'. specialize (Hmin (S k')). simpl in Hmin. lia. }
        congruence.
Qed.

Lemma firstZero_None lines :
  forall count,
    firstZero lines count = None <->
    forall k, k < length lines -> (count + runningCount lines k <> 0)%Z.
Proof.
  induction lines as [|line rest IH]; intros count; simpl.
  - split; [intros _ k Hk; lia | reflexivity].
  - destruct (count + lineDelta line =? 0)%Z eqn:E.
    + apply Z.eqb_eq in E. split; [discriminate|].
      intros H. exfalso. apply (H 0); lia.
    + apply Z.eqb_neq in E.
      destruct (firstZero rest (count + lineDelta line)) as [m|] eqn:F; simpl.
      * split; [discriminate|]. intros H. exfalso.
        apply firstZero_Some in F. destruct F as (Hm & Hz & _).
        apply (H (S m)); [lia|]. lia.
      * split; [|reflexivity]. intros _ [|k] Hk; [lia|].
        pose proof (proj1 (IH _) F k). lia.
Qed.

(** *** Trimming *)

Lemma trimStart_head c s :
  Js.isWhiteSpace c = false -> Js.trimStart (c :: s) = c :: s.
Proof. intros H. unfold Js.trimStart. simpl. now rewrite H. Qed.

Lemma trimEnd_last s c :
  Js.isWhiteSpace c = false -> Js.trimEnd (s ++ [c]) = s ++ [c].
Proof.
  intros H. unfold Js.trimEnd. rewrite rev_app_distr. simpl. rewrite H.
  simpl. now rewrite rev_involutive.
Qed.

(** *** First and last occurrence *)

Lemma indexOf_Some s c i :
  Js.indexOf s c = Some i -> exists post, skipn i s = c :: post.
Proof.
  revert i. induction s as [|x s IH]; intros i; simpl; [discriminate|].
  destruct (N.eqb x c) eqn:E.
  - intros [= <-]. apply N.eqb_eq in E. subst. simpl. eauto.
  - destruct (Js.indexOf s c) as [n|]; simpl; [|discriminate].
    intros [= <-]. simpl. apply IH. reflexivity.
Qed.

Lemma lastIndexOf_Some s c j :
  Js.lastIndexOf s c = Some j ->
  exists pre post, s = pre ++ c :: post /\ length pre = j.
Proof.
  revert j. induction s as [|x s IH]; intros j; simpl; [discriminate|].
  destruct (Js.lastIndexOf s c) as [n|].
  - intros [= <-]. destruct (IH n eq_refl) as (pre & post & -> & Hl).
    exists (x :: pre), post. simpl. split; [reflexivity | lia].
  - destruct (N.eqb x c) eqn:E; [|discriminate].
    intros [= <-]. apply N.eqb_eq in E. subst. exists [], s. split; reflexivity.
Qed.

(** The region between the first [{] and the last [}] begins with the
    one and ends with the other. *)
Lemma region_shape s i j :
  Js.indexOf s LBRACE = Some i -> Js.lastIndexOf s RBRACE = Some j -> i < j ->
  exists mid, Js.substring s i (j + 1) = LBRACE :: mid ++ [RBRACE].
Proof.
  intros Hi Hj Hij.
  destruct (indexOf_Some _ _ _ Hi) as (post & Hpost).
  destruct (lastIndexOf_Some _ _ _ Hj) as (pre & post' & Hs & Hl).
  unfold Js.substring.
  assert (Hskip : skipn i s = skipn i pre ++ RBRACE :: post').
  { rewrite Hs, skipn_app. replace (i - length pre) with 0 by lia. reflexivity. }
  assert (Hlen : length (skipn i pre) = j - i) by (rewrite length_skipn; lia).
  rewrite Hskip in Hpost.
  destruct (skipn i pre) as [|x mid] eqn:Hpre; [simpl in Hlen; lia|].
  simpl in Hpost. injection Hpost as -> _.
  exists mid. rewrite Hskip.
  replace (j + 1 - i) with (S (length mid) + 1) by (simpl in Hlen; lia).
  change (LBRACE :: mid ++ RBRACE :: post') with ((LBRACE :: mid) ++ RBRACE :: post').
  rewrite firstn_app.
  replace (S (length mid) + 1 - length (LBRACE :: mid)) with 1 by (simpl; lia).
  rewrite firstn_all2 by (simpl; lia). reflexivity.
Qed.

Lemma dropWhile_keeps_last f l c :
  f c = false -> Js.dropWhile f (l ++ [c]) = Js.dropWhile f l ++ [c].
Proof.
  intros H. induction l as [|x l IH]; simpl; [now rewrite H|].
  destruct (f x); [exact IH | reflexivity].
Qed.

Lemma trimEnd_head c s :
  Js.isWhiteSpace c = false -> exists r, Js.trimEnd (c :: s) = c :: r.
Proof.
  intros H. unfold Js.trimEnd. simpl.
  rewrite (dropWhile_keeps_last _ _ _ H), rev_app_distr. simpl. eauto.
Qed.

Lemma join_head c l ls sep :
  exists r, Js.join ((c :: l) :: ls) sep = c :: r.
Proof. destruct ls; simpl; eauto. Qed.

(** C9, amended: when the text without fences has its first opening
    brace before its last closing brace, the result starts with that
    opening brace; it is the region between the two braces up to the
    first line on which the running count is zero, without trailing
    white space, or the whole region when the count is zero on no
    line. *)
Theorem extractJson_brace_region text i j :
  Js.indexOf (stripFences text) LBRACE = Some i ->
  Js.lastIndexOf (stripFences text) RBRACE = Some j ->
  i < j ->
  let region := Js.substring (stripFences text) i (j + 1) in
  let lines := Js.split region NL in
  (exists rest, extractJsonFromResponse text = LBRACE :: rest)
  /\ (forall k,
         k < length lines ->
         runningCount lines k = 0%Z ->
         (forall k', k' < k -> runningCount lines k' <> 0%Z) ->
         extractJsonFromResponse text
         = Js.trimEnd (Js.join (firstn (S k) lines) [NL]))
  /\ ((forall k, k < length lines -> runningCount lines k <> 0%Z) ->
      extractJsonFromResponse text = region).
Proof.
  intros Hi Hj Hij region lines.
  destruct (region_shape _ _ _ Hi Hj Hij) as (mid & Hreg). fold region in Hreg.
  assert (Hbr : braceRegion (stripFences text) = region).
  { unfold braceRegion. rewrite Hi, Hj.
    destruct (Nat.ltb_spec i j); [reflexivity | lia]. }
  destruct (split_head LBRACE (mid ++ [RBRACE]) NL eq_refl) as (l & ls & Hsplit).
  rewrite <- Hreg in Hsplit. fold lines in Hsplit.
  assert (Hres : extractJsonFromResponse text
                 = Js.trim (Js.join match firstZero lines 0 with
                                    | Some k => firstn (S k) lines
                                    | None => lines
                                    end [NL])).
  { unfold extractJsonFromResponse. rewrite Hbr. fold lines.
    rewrite Hsplit, collect_first by reflexivity.
    rewrite collect_found. reflexivity. }
  assert (Hsome : forall k, firstZero lines 0 = Some k ->
                  extractJsonFromResponse text
                  = Js.trimEnd (Js.join (firstn (S k) lines) [NL])).
  { intros k F. rewrite Hres, F, Hsplit. cbn [firstn].
    destruct (join_head LBRACE l (firstn k ls) [NL]) as (r & Hr).
    unfold Js.trim. f_equal.
    transitivity (Js.trimStart (LBRACE :: r)); [apply f_equal; exact Hr|].
    rewrite trimStart_head by reflexivity. symmetry; exact Hr. }
  assert (Hnone : firstZero lines 0 = None ->
                  extractJsonFromResponse text = region).
  { intros F. rewrite Hres, F. unfold lines. rewrite join_split, Hreg.
    unfold Js.trim. rewrite trimStart_head by reflexivity.
    change (LBRACE :: mid ++ [RBRACE]) with ((LBRACE :: mid) ++ [RBRACE]).
    now rewrite trimEnd_last. }
  split; [|split].
  - destruct (firstZero lines 0) as [k|] eqn:F.
    + rewrite (Hsome k eq_refl), Hsplit. cbn [firstn].
      destruct (join_head LBRACE l (firstn k ls) [NL]) as (r & Hr).
      destruct (trimEnd_head LBRACE r eq_refl) as (r' & Hr').
      exists r'. etransitivity; [apply f_equal; exact Hr | exact Hr'].
    + rewrite (Hnone eq_refl), Hreg. eauto.
  - intros k Hk Hz Hmin. apply Hsome. apply firstZero_Some.
    repeat split; [assumption | lia | intros k' Hk'; specialize (Hmin k' Hk'); lia].
  - intros Hall. apply Hnone. apply firstZero_None.
    intros k Hk. specialize (Hall k Hk). lia.
Qed.

(** C8: [generateToken] signs the fields id, email, role and plan of the
    user with the secret and the expiry 7d; [verifyToken] returns the
    decoded payload when the verification succeeds and null whenever it
    throws. *)
Theorem token_signing_and_fail_closed w user token st :
  fst (Auth.generateToken w user st)
  = Ok (jwt_sign w (clock w (clockReads st))
          [(`"id", user_id user); (`"email", user_email user);
           (`"role", user_role user); (`"plan", user_plan user)]
          (Auth.JWT_SECRET w) `"7d")
  /\ fst (Auth.verifyToken w token st)
     = Ok (match jwt_verify w (clock w (clockReads st)) token
                   (Auth.JWT_SECRET w) with
           | Ok decoded => Some decoded
           | Throw _ => None
           end).
Proof.
  split; [reflexivity|].
  unfold Auth.verifyToken, tryCatch, bind, readClock, lift. cbn [fst].
  destruct (jwt_verify w (clock w (clockReads st)) token (Auth.JWT_SECRET w));
    reflexivity.
Qed.

Lemma verifyToken_run w token st :
  Auth.verifyToken w token st
  = (Ok (match jwt_verify w (clock w (clockReads st)) token
                 (Auth.JWT_SECRET w) with
         | Ok decoded => Some decoded
         | Throw _ => None
         end), ticked st).
Proof.
  unfold Auth.verifyToken, tryCatch, bind, readClock, lift.
  destruct (jwt_verify w (clock w (clockReads st)) token (Auth.JWT_SECRET w));
    reflexivity.
Qed.


Lemma eqb_false_neq (a b : jstr) : Js.eqb a b = false -> a <> b.
Proof.
  intros H ->. revert H. induction b as [|x b IH]; cbn; [discriminate|].
  rewrite N.eqb_refl. exact IH.
Qed.

Lemma inheritedGet_None key :
  ~ In key objectPrototypeKeys -> inheritedGet key = None.
Proof.
  intros H. unfold inheritedGet.
  destruct (existsb (Js.eqb key) objectPrototypeKeys) eqn:E; [|reflexivity].
  apply existsb_exists in E. destruct E as (k & Hin & Hk).
  apply eqb_eq in Hk. subst. contradiction.
Qed.

Lemma inheritedGet_Some key :
  In key objectPrototypeKeys -> exists m, inheritedGet key = Some m.
Proof.
  intros H. unfold inheritedGet.
  destruct (existsb (Js.eqb key) objectPrototypeKeys) eqn:E; [eauto|].
  exfalso.
  assert (Ht : existsb (Js.eqb key) objectPrototypeKeys = true).
  { apply existsb_exists. exists key. split; [exact H|].
    clear. induction key as [|x key IH]; cbn; [reflexivity|].
    now rewrite N.eqb_refl. }
  congruence.
Qed.

(** The own keys of the tables of the source are no inherited names. *)
Lemma memberGet_own {A} (table : list (jstr * A)) key v :
  tableGet table key = Some v -> memberGet table key = Own v.
Proof. unfold memberGet. now intros ->. Qed.


Lemma memberGet_inherited {A} (table : list (jstr * A)) key :
  tableGet table key = None -> In key objectPrototypeKeys ->
  exists m, memberGet table key = Inherited m.
Proof.
  unfold memberGet. intros -> H.
  destruct (inheritedGet_Some key H) as (m & ->). eauto.
Qed.







Lemma pres_ret {A} (a : A) : preservesDb (ret a).
Proof. intros st. reflexivity. Qed.

Lemma pres_throw {A} e : preservesDb (@throw A e).
Proof. intros st. reflexivity. Qed.

Lemma pres_lift {A} (o : outcome A) : preservesDb (lift o).
Proof. intros st. reflexivity. Qed.

Lemma pres_bind {A B} (m : M A) (k : A -> M B) :
  preservesDb m -> (forall a, preservesDb (k a)) -> preservesDb (bind m k).
Proof.
  intros Hm Hk st. unfold bind. specialize (Hm st).
  destruct (m st) as [[a|e] st1]; simpl in *; [|assumption].
  rewrite Hk. assumption.
Qed.

Lemma pres_tryCatch {A} (m : M A) (h : exn -> M A) :
  preservesDb m -> (forall e, preservesDb (h e)) -> preservesDb (tryCatch m h).
Proof.
  intros Hm Hh st. unfold tryCatch. specialize (Hm st).
  destruct (m st) as [[a|e] st1]; simpl in *; [assumption|].
  rewrite Hh. assumption.
Qed.

Lemma pres_generateText w site : preservesDb (generateText w site).
Proof. intros st. reflexivity. Qed.

Lemma pres_enterPipeline : preservesDb enterPipeline.
Proof. intros st. reflexivity. Qed.

Lemma pres_readClock w : preservesDb (readClock w).
Proof. intros st. reflexivity. Qed.

Lemma pres_mathRandom w : preservesDb (mathRandom w).
Proof. intros st. reflexivity. Qed.

Create HintDb pres.

#[local] Hint Resolve pres_ret pres_throw pres_lift pres_generateText
  pres_enterPipeline pres_readClock pres_mathRandom : pres.

Ltac pres :=
  repeat first
    [ progress auto with pres
    | apply pres_bind; [|intros]
    | apply pres_tryCatch; [|intros]
    | match goal with
      | |- preservesDb (if ?b then _ else _) => destruct b
      | |- preservesDb (match ?x with _ => _ end) => destruct x
      | |- preservesDb (let (_, _) := ?x in _) => destruct x
      end ].

Lemma pres_parseResponse text : preservesDb (parseResponse text).
Proof. unfold parseResponse. pres. Qed.

#[local] Hint Resolve pres_parseResponse : pres.

Lemma pres_analyze w request : preservesDb (analyze w request).
Proof.
  unfold analyze, analyzeGitRepository, analyzePostmanCollection,
    analyzeWebPage, analyzeUploadedFiles, analyzeInput. pres.
Qed.

Lemma pres_generateForClasses w request analysis classes :
  forall tests, preservesDb (generateForClasses w request analysis classes tests).
Proof.
  induction classes as [|c cs IH]; intros tests; simpl; [pres|].
  apply pres_bind; [unfold generateForClass; pres | intros; apply IH].
Qed.

Lemma pres_generateSpecificTestType w request k analysis :
  preservesDb (generateSpecificTestType w request k analysis).
Proof.
  unfold generateSpecificTestType, generateProjectLevelUnitTests,
    generateSingleUnitTest, generateSingleBDDTest, generateSingleAPITest,
    generateSingleUITest, generateSinglePerformanceTest, generateSingle.
  pres; apply pres_generateForClasses.
Qed.

Lemma pres_generateForTypes w request useAI analysis kinds :
  forall tests,
    preservesDb (generateForTypes w request useAI analysis kinds tests).
Proof.
  induction kinds as [|k ks IH]; intros tests; simpl; [pres|].
  apply pres_bind; [|intros; apply IH].
  unfold generateForType. pres; apply pres_generateSpecificTestType.
Qed.

Lemma pres_generateTestCases w request :
  preservesDb (generateTestCases w request).
Proof.
  unfold generateTestCases.
  apply pres_bind; [pres|intros _].
  apply pres_bind; [apply pres_analyze|intros [analysis useAI]].
  apply pres_bind; [apply pres_generateForTypes|intros tests].
  pres.
Qed.

Lemma generateTestCases_nonempty w request st tests st' :
  generateTestCases w request st = (Ok tests, st') -> tests <> [].
Proof.
  unfold generateTestCases, bind, enterPipeline.
  destruct (analyze w request _) as [[[analysis useAI]|e] st1]; [|discriminate].
  destruct (generateForTypes w request useAI analysis (testTypes request) [] st1)
    as [[ts|e] st2]; [|discriminate].
  destruct ts as [|t ts].
  - destruct (generateBasicTestTemplate request (firstType request));
      unfold ret, throw; intros [= <- _]; discriminate.
  - unfold ret. intros [= <- _]. discriminate.
Qed.

(** ** The form in which the database keeps a text *)

Lemma surrogate_not_replacement c :
  Json.isHighSurrogate c = true \/ Json.isLowSurrogate c = true ->
  c <> 65533%N.
Proof.
  unfold Json.isHighSurrogate, Json.isLowSurrogate.
  intros [H|H] ->; discriminate H.
Qed.

Lemma stored_app_len n :
  forall a b, length a <= n -> Database.stored a = a ->
              Database.stored (a ++ b) = a ++ Database.stored b.
Proof.
  induction n as [|n IH]; intros [|c r] b Hlen Ha; try reflexivity;
    cbn [length] in Hlen; [lia|].
  cbn [Database.stored app] in *.
  destruct (Json.isHighSurrogate c) eqn:Hh.
  - destruct r as [|d r'].
    + injection Ha as Ha. exfalso.
      apply (surrogate_not_replacement c); auto.
    + cbn [app]. destruct (Json.isLowSurrogate d) eqn:Hl.
      * injection Ha as Ha. rewrite (IH r' b); [reflexivity| |exact Ha].
        cbn [length] in Hlen. lia.
      * injection Ha as Ha _. exfalso.
        apply (surrogate_not_replacement c); auto.
  - destruct (Json.isLowSurrogate c) eqn:Hl.
    + injection Ha as Ha _. exfalso.
      apply (surrogate_not_replacement c); auto.
    + injection Ha as Ha. rewrite (IH r b); [reflexivity|lia|exact Ha].
Qed.

Lemma stored_app a b :
  Database.stored a = a -> Database.stored (a ++ b) = a ++ Database.stored b.
Proof. apply (stored_app_len (length a)). lia. Qed.

Lemma stored_idem_len n :
  forall s, length s <= n ->
            Database.stored (Database.stored s) = Database.stored s.
Proof.
  induction n as [|n IH]; intros [|c r] Hlen; try reflexivity;
    cbn [length] in Hlen; [lia|].
  cbn [Database.stored].
  destruct (Json.isHighSurrogate c) eqn:Hh.
  - destruct r as [|d r']; [reflexivity|].
    destruct (Json.isLowSurrogate d) eqn:Hl.
    + cbn [Database.stored]. rewrite Hh, Hl, IH; [reflexivity|].
      cbn [length] in Hlen. lia.
    + change (Database.stored (65533%N :: Database.stored (d :: r')))
        with (65533%N :: Database.stored (Database.stored (d :: r'))).
      rewrite IH; [reflexivity|lia].
  - destruct (Json.isLowSurrogate c) eqn:Hl.
    + change (Database.stored (65533%N :: Database.stored r))
        with (65533%N :: Database.stored (Database.stored r)).
      rewrite IH; [reflexivity|lia].
    + cbn [Database.stored]. rewrite Hh, Hl, IH; [reflexivity|lia].
Qed.

Lemma stored_idem s :
  Database.stored (Database.stored s) = Database.stored s.
Proof. apply (stored_idem_len (length s)). lia. Qed.

Lemma length_stored_len n :
  forall s, length s <= n -> length (Database.stored s) = length s.
Proof.
  induction n as [|n IH]; intros [|c r] Hlen; try reflexivity;
    cbn [length] in Hlen; [lia|].
  cbn [Database.stored].
  destruct (Json.isHighSurrogate c).
  - destruct r as [|d r']; [reflexivity|].
    destruct (Json.isLowSurrogate d); cbn [length].
    + rewrite IH; [reflexivity|]. cbn [length] in Hlen. lia.
    + rewrite IH; [reflexivity|lia].
  - destruct (Json.isLowSurrogate c); cbn [length]; rewrite IH; lia.
Qed.

Lemma length_stored s : length (Database.stored s) = length s.
Proof. apply (length_stored_len (length s)). lia. Qed.

Lemma hasTestCase_stored d tid :
  Database.hasTestCase d (Database.stored tid) = Database.hasTestCase d tid.
Proof. unfold Database.hasTestCase. now rewrite stored_idem. Qed.

Lemma insertTestCase_Ok w tid pid name ty content src model uid meta st st' :
  Database.insertTestCase w tid pid name ty content src model uid meta st
  = (Ok tt, st') ->
  Database.hasTestCase (db st) tid = false
  /\ users (db st') = users (db st)
  /\ projects (db st') = projects (db st)
  /\ test_executions (db st') = test_executions (db st)
  /\ exists at_,
      test_cases (db st')
      = test_cases (db st)
        ++ [mkTestCaseRow (Database.stored tid)
              (option_map Database.stored pid) (Database.stored name)
              (Database.stored ty) (Database.stored content)
              (Database.stored src) (Database.stored model)
              (Database.stored uid) (Database.stored meta) at_].
Proof.
  unfold Database.insertTestCase, Database.datetimeNow, bind, readClock, ret.
  cbn [db].
  destruct (Database.hasTestCase (db st) tid); [discriminate|].
  destruct (negb _); [discriminate|].
  intros [= <-]. cbn. repeat split; eauto.
Qed.

Lemma generateId_run w st :
  exists tid st',
    Database.generateId w st = (Ok tid, st') /\ db st' = db st.
Proof. unfold Database.generateId, bind, mathRandom, readClock, ret. cbn. eauto. Qed.

Lemma hasTestCase_app d rows tid :
  Database.hasTestCase
    (mkDb (users d) (projects d) (test_cases d ++ rows) (test_executions d)
       (audit_logs d)) tid
  = Database.hasTestCase d tid
    || existsb (fun t => Js.eqb (tc_id t) (Database.stored tid)) rows.
Proof. unfold Database.hasTestCase. cbn. apply existsb_app. Qed.

Lemma saveTests_spec w body inputData uid generated :
  forall savedTests st out st',
    GenerateTests.saveTests w body inputData uid generated savedTests st
    = (Ok out, st') ->
    exists new rows,
      out = savedTests ++ new
      /\ map saved_test new = generated
      /\ test_cases (db st') = test_cases (db st) ++ rows
      /\ Forall2 (savedAs w uid body) new rows
      /\ users (db st') = users (db st)
      /\ projects (db st') = projects (db st)
      /\ NoDup (map tc_id rows)
      /\ Forall (fun r => Database.hasTestCase (db st) (tc_id r) = false) rows.
Proof.
  induction generated as [|test rest IH]; intros savedTests st out st'.
  - cbn. unfold ret. intros [= <- <-]. exists [], [].
    rewrite !app_nil_r. repeat split; constructor.
  - cbn [GenerateTests.saveTests]. unfold bind at 1.
    destruct (generateId_run w st) as (tid & st1 & -> & Hdb1).
    unfold bind at 1, readClock at 1.
    set (st2 := mkState (db st1) (modelCalls st1) (randomDraws st1)
                  (S (clockReads st1)) (pipelineRuns st1)).
    unfold bind at 1.
    destruct (Database.insertTestCase _ _ _ _ _ _ _ _ _ _ st2)
      as [[[]|e] st3] eqn:Hins; [|discriminate].
    apply insertTestCase_Ok in Hins.
    destruct Hins as (Hfresh & Hu & Hp & He & at_ & Htc).
    intros Hrest. apply IH in Hrest.
    destruct Hrest as (new & rows & -> & Hmap & Htc' & Hf2 & Hu' & Hp' & Hnd & Hfr).
    cbn [db st2] in *.
    match type of Htc with
    | _ = _ ++ [?r] => exists (mkSavedTest tid test :: new), (r :: rows)
    end.
    split; [|split; [|split; [|split; [|split; [|split; [|split]]]]]].
    + rewrite <- app_assoc. reflexivity.
    + cbn. rewrite Hmap. reflexivity.
    + rewrite Htc', Htc, Hdb1, <- app_assoc. reflexivity.
    + constructor; [|exact Hf2]. unfold savedAs. cbn.
      do 5 (split; [reflexivity|]). eexists. reflexivity.
    + congruence.
    + congruence.
    + cbn. constructor; [|exact Hnd].
      intros Hin. apply in_map_iff in Hin. destruct Hin as (r & Hr & Hin).
      rewrite Forall_forall in Hfr. specialize (Hfr r Hin).
      unfold Database.hasTestCase in Hfr. rewrite Htc, existsb_app in Hfr.
      apply orb_false_elim in Hfr. destruct Hfr as [_ Hfr].
      cbn [existsb tc_id] in Hfr.
      rewrite Hr, stored_idem, eqb_refl in Hfr. discriminate.
    + constructor.
      * cbn [tc_id]. rewrite hasTestCase_stored, <- Hdb1. exact Hfresh.
      * rewrite Forall_forall in *. intros r Hin. specialize (Hfr r Hin).
        unfold Database.hasTestCase in *. rewrite Htc, existsb_app in Hfr.
        apply orb_false_elim in Hfr. rewrite <- Hdb1. apply Hfr.
Qed.

Lemma insertAuditLog_Ok uid a rt rid ip ua st st' :
  Database.insertAuditLog uid a rt rid ip ua st = (Ok tt, st') ->
  users (db st') = users (db st)
  /\ projects (db st') = projects (db st)
  /\ test_cases (db st') = test_cases (db st).
Proof.
  unfold Database.insertAuditLog.
  destruct (negb _); [discriminate|].
  intros [= <-]. cbn. repeat split.
Qed.



(** What a 200 response of [POST /api/generate-tests] says about the run. *)
Lemma POST_generated w request st tests msg usage notice st' :
  GenerateTests.POST w request st
  = (Ok (TestsGenerated tests msg usage notice), st') ->
  exists token decoded body inputData testTypes user generated st1 st2,
    Auth.bearer (authorization (headers request)) = Some token
    /\ jwt_verify w (clock w (clockReads st)) token (Auth.JWT_SECRET w)
       = Ok decoded
    /\ json request = Ok body
    /\ b_inputData body = Some inputData
    /\ b_testTypes body = Some testTypes
    /\ Database.selectUser (db st) (id decoded) = Some user
    /\ generateTestCases w
         (mkRequest (orUndefined (b_inputType body)) inputData testTypes
            (orUndefined (b_language body)) (b_additionalContext body)
            (b_framework body) (b_testingLibrary body)
            (Some `"gemini-1.5-flash"))
         (ticked st)
       = (Ok generated, st1)
    /\ GenerateTests.saveTests w body inputData (id decoded) generated [] st1
       = (Ok tests, st2)
    /\ users (db st') = users (db st2)
    /\ projects (db st') = projects (db st2)
    /\ test_cases (db st') = test_cases (db st2)
    /\ GenerateTests.reached
         (Z.of_nat (Database.countTestCases (db st) (id decoded)))
         (GenerateTests.userLimit (u_plan user)) = false
    /\ usage
       = let count := Z.of_nat (Database.countTestCases (db st) (id decoded)) in
         let n := Z.of_nat (length generated) in
         let userLimit := GenerateTests.userLimit (u_plan user) in
         mkUsage (count + n) userLimit
                 (GenerateTests.minus userLimit (count + n)).
Proof.
  unfold GenerateTests.POST, tryCatch, bind.
  assert (Hno : forall e (s : State),
             (Ok (GenerateTests.onError e), s)
             <> (Ok (TestsGenerated tests msg usage notice), st')).
  { intros e s. unfold GenerateTests.onError.
    repeat match goal with |- context [if ?b then _ else _] => destruct b end;
      discriminate. }
  destruct (Auth.bearer _) as [token|]; [|discriminate].
  rewrite verifyToken_run.
  destruct (jwt_verify _ _ _ _) as [decoded|e] eqn:Hv; [|discriminate].
  unfold lift, getDb, ret, throw.
  destruct (json request) as [body|e]; [|intros H; now apply Hno in H].
  destruct (b_inputData body) as [[|c d]|] eqn:Hi; try discriminate.
  destruct (b_testTypes body) as [[|k ks]|] eqn:Ht; try discriminate.
  destruct (5000 <? length (c :: d)); [discriminate|].
  change (db (ticked st)) with (db st).
  destruct (Database.selectUser (db st) (id decoded)) as [user|] eqn:Hu;
    [|intros H; now apply Hno in H].
  destruct (GenerateTests.reached _ _) eqn:Hreached; [discriminate|].
  destruct (generateTestCases _ _ _) as [[generated|e] st1] eqn:Hg;
    [|intros H; now apply Hno in H].
  destruct (GenerateTests.saveTests _ _ _ _ _ _ _) as [[saved|e] st2] eqn:Hs;
    [|intros H; now apply Hno in H].
  destruct (Database.insertAuditLog _ _ _ _ _ _ _) as [[[]|e] st3] eqn:Ha;
    [|intros H; now apply Hno in H].
  intros [= <- <- <- <- <-].
  apply insertAuditLog_Ok in Ha. destruct Ha as (Hu3 & Hp3 & Ht3).
  exists token, decoded, body, (c :: d), (k :: ks), user, generated, st1, st2.
  repeat split; assumption || reflexivity.
Qed.



(** ** [JSON.parse] after [JSON.stringify] *)

Lemma hexVal_hexDigit (n : N) :
  (n < 16)%N -> Json.hexVal (Json.hexDigit n) = Some n.
Proof.
  intros H.
  assert (Hn : In n (map N.of_nat (seq 0 16))).
  { apply in_map_iff. exists (N.to_nat n). split; [lia|]. apply in_seq. lia. }
  cbn in Hn. repeat (destruct Hn as [<-|Hn]; [reflexivity|]). contradiction.
Qed.

Lemma hex4_escapeU (c : N) :
  (c < 65536)%N ->
  Json.hex4 (Json.hexDigit (c / 4096 mod 16)) (Json.hexDigit (c / 256 mod 16))
            (Json.hexDigit (c / 16 mod 16)) (Json.hexDigit (c mod 16))
  = Some c.
Proof.
  intros H. unfold Json.hex4.
  rewrite !hexVal_hexDigit by (apply N.mod_lt; discriminate).
  f_equal.
  pose proof (N.div_mod c 16 ltac:(discriminate)) as H0.
  pose proof (N.div_mod (c / 16) 16 ltac:(discriminate)) as H1.
  pose proof (N.div_mod (c / 256) 16 ltac:(discriminate)) as H2.
  rewrite (N.Div0.div_div c 16 16) in H1.
  rewrite (N.Div0.div_div c 256 16) in H2.
  change (16 * 16)%N with 256%N in H1. change (256 * 16)%N with 4096%N in H2.
  assert (H3 : (c / 4096 < 16)%N)
    by (apply N.Div0.div_lt_upper_bound; lia).
  rewrite (N.mod_small (c / 4096) 16 H3). lia.
Qed.

Lemma pChars_escapeU c s :
  (c < 65536)%N ->
  Json.pChars (Json.escapeU c ++ s)
  = match Json.pChars s with
    | Some (cs, rest) => Some (c :: cs, rest)
    | None => None
    end.
Proof.
  intros H. unfold Json.escapeU. cbn [app Json.pChars].
  change (Json.BACKSLASH =? Json.QUOTE)%N with false.
  change (Json.BACKSLASH =? Json.BACKSLASH)%N with true.
  change (117 =? 117)%N with true. cbv iota.
  rewrite (hex4_escapeU c H). reflexivity.
Qed.

Lemma pChars_raw c s :
  (c =? Json.QUOTE)%N = false -> (c =? Json.BACKSLASH)%N = false ->
  (c <? 32)%N = false ->
  Json.pChars (c :: s)
  = match Json.pChars s with
    | Some (cs, rest) => Some (c :: cs, rest)
    | None => None
    end.
Proof. intros H1 H2 H3. cbn [Json.pChars]. now rewrite H1, H2, H3. Qed.

Lemma pChars_quoteUnit c s :
  Json.isHighSurrogate c = false -> Json.isLowSurrogate c = false ->
  Json.pChars (Json.quoteUnit c ++ s)
  = match Json.pChars s with
    | Some (cs, rest) => Some (c :: cs, rest)
    | None => None
    end.
Proof.
  intros _ _. unfold Json.quoteUnit.
  destruct (c =? 34)%N eqn:E1; [apply N.eqb_eq in E1; subst; reflexivity|].
  destruct (c =? 92)%N eqn:E2; [apply N.eqb_eq in E2; subst; reflexivity|].
  destruct (c =? 8)%N eqn:E3; [apply N.eqb_eq in E3; subst; reflexivity|].
  destruct (c =? 12)%N eqn:E4; [apply N.eqb_eq in E4; subst; reflexivity|].
  destruct (c =? 10)%N eqn:E5; [apply N.eqb_eq in E5; subst; reflexivity|].
  destruct (c =? 13)%N eqn:E6; [apply N.eqb_eq in E6; subst; reflexivity|].
  destruct (c =? 9)%N eqn:E7; [apply N.eqb_eq in E7; subst; reflexivity|].
  destruct (c <? 32)%N eqn:E8.
  - apply N.ltb_lt in E8. apply pChars_escapeU. lia.
  - apply pChars_raw; assumption.
Qed.

Lemma surrogate_raw c s :
  Json.isHighSurrogate c = true \/ Json.isLowSurrogate c = true ->
  Json.pChars (c :: s)
  = match Json.pChars s with
    | Some (cs, rest) => Some (c :: cs, rest)
    | None => None
    end.
Proof.
  intros H. unfold Json.isHighSurrogate, Json.isLowSurrogate in H.
  apply pChars_raw; unfold Json.QUOTE, Json.BACKSLASH;
    [apply N.eqb_neq | apply N.eqb_neq | apply N.ltb_ge];
    destruct H as [H|H]; apply andb_prop in H; destruct H as [H1 H2];
    apply N.leb_le in H1, H2; lia.
Qed.

Lemma surrogate_small c :
  Json.isHighSurrogate c = true \/ Json.isLowSurrogate c = true ->
  (c < 65536)%N.
Proof.
  unfold Json.isHighSurrogate, Json.isLowSurrogate.
  intros [H|H]; apply andb_prop in H; destruct H as [H1 H2];
    apply N.leb_le in H1, H2; lia.
Qed.

Lemma pChars_quoteBody s :
  forall rest, Json.pChars (Json.quoteBody s ++ Json.QUOTE :: rest) = Some (s, rest).
Proof.
  remember (length s) as n eqn:Hn. revert s Hn.
  induction n as [n IH] using lt_wf_ind. intros s Hn rest.
  destruct s as [|c r]; [reflexivity|].
  cbn [Json.quoteBody].
  destruct (Json.isHighSurrogate c) eqn:Eh.
  - destruct r as [|d r'].
    + rewrite pChars_escapeU by (apply surrogate_small; auto). reflexivity.
    + destruct (Json.isLowSurrogate d) eqn:El.
      * cbn [app]. rewrite surrogate_raw by auto. rewrite surrogate_raw by auto.
        rewrite (IH (length r')) by (subst; cbn; lia || reflexivity).
        reflexivity.
      * rewrite <- app_assoc, pChars_escapeU by (apply surrogate_small; auto).
        rewrite (IH (length (d :: r'))) by (subst; cbn; lia || reflexivity).
        reflexivity.
  - destruct (Json.isLowSurrogate c) eqn:El.
    + rewrite <- app_assoc, pChars_escapeU by (apply surrogate_small; auto).
      rewrite (IH (length r)) by (subst; cbn; lia || reflexivity). reflexivity.
    + rewrite <- app_assoc, pChars_quoteUnit by assumption.
      rewrite (IH (length r)) by (subst; cbn; lia || reflexivity). reflexivity.
Qed.

Lemma skipWs_head c s :
  Json.isJsonSpace c = false -> Json.skipWs (c :: s) = c :: s.
Proof. intros H. unfold Json.skipWs. cbn. now rewrite H. Qed.

Lemma length_quote s : 2 <= length (Json.quote s).
Proof. unfold Json.quote. cbn. rewrite length_app. cbn. lia. Qed.

Lemma pValue_string s f rest :
  0 < f -> Json.pValue f (Json.quote s ++ rest) = Some (VStr s, rest).
Proof.
  intros Hf. destruct f as [|f]; [lia|].
  unfold Json.quote. cbn [app Json.pValue].
  rewrite skipWs_head by reflexivity.
  change (Json.QUOTE =? 123)%N with false.
  change (Json.QUOTE =? 91)%N with false.
  change (Json.QUOTE =? Json.QUOTE)%N with true. cbv iota.
  rewrite <- app_assoc. cbn [app]. now rewrite pChars_quoteBody.
Qed.

Lemma pElements_strings l :
  forall f rest,
    l <> [] ->
    length (Js.join (map Json.quote l) [44%N]) < f ->
    Json.pElements f (Js.join (map Json.quote l) [44%N] ++ 93%N :: rest)
    = Some (map VStr l, rest).
Proof.
  induction l as [|s l IH]; intros f rest Hne Hf; [congruence|].
  destruct f as [|f]; [lia|].
  destruct l as [|s2 l].
  - cbn [map Js.join] in *. pose proof (length_quote s).
    cbn [Json.pElements]. rewrite pValue_string by lia.
    rewrite skipWs_head by reflexivity. reflexivity.
  - change (Js.join (map Json.quote (s :: s2 :: l)) [44%N])
      with (Json.quote s ++ [44%N] ++ Js.join (map Json.quote (s2 :: l)) [44%N]) in *.
    rewrite !length_app in Hf. pose proof (length_quote s).
    cbn [length] in Hf.
    cbn [Json.pElements]. rewrite <- !app_assoc. rewrite pValue_string by lia.
    cbn [app Js.lit]. rewrite skipWs_head by reflexivity.
    change (44 =? 44)%N with true. cbv iota.
    rewrite IH by (try discriminate; lia). reflexivity.
Qed.

Lemma stringify_strs eng l :
  Json.stringify eng (Dyn.strs l)
  = Some (91%N :: Js.join (map Json.quote l) [44%N] ++ [93%N]).
Proof.
  unfold Dyn.strs. cbn [Json.stringify]. rewrite map_map. reflexivity.
Qed.

Lemma join_quote_head s l sep :
  exists r, Js.join (map Json.quote (s :: l)) sep = Json.QUOTE :: r.
Proof.
  destruct l; cbn [map Js.join]; unfold Json.quote; cbn [app];
    eexists; reflexivity.
Qed.

Lemma skipWs_quote_head (x r y : jstr) :
  x = Json.QUOTE :: r -> Json.skipWs (x ++ y) = Json.QUOTE :: r ++ y.
Proof. intros ->. reflexivity. Qed.

Lemma pValue_simple eng v t f rest :
  simple v -> Json.stringify eng v = Some t -> length t < f ->
  Json.pValue f (t ++ rest) = Some (v, rest).
Proof.
  intros Hs Ht Hf. destruct Hs as [s|l|b].
  - cbn in Ht. injection Ht as <-. apply pValue_string. lia.
  - rewrite stringify_strs in Ht. injection Ht as <-.
    destruct f as [|f]; [lia|].
    cbn [app Json.pValue]. rewrite skipWs_head by reflexivity.
    change (91 =? 123)%N with false.
    change (91 =? 91)%N with true. cbv iota.
    destruct l as [|s l].
    + reflexivity.
    + destruct (join_quote_head s l [44%N]) as (r & Hr).
      rewrite <- app_assoc. rewrite (skipWs_quote_head _ r _ Hr).
      change (Json.QUOTE =? 93)%N with false. cbv iota.
      cbn [app].
      rewrite (pElements_strings (s :: l) f rest); [reflexivity | discriminate |].
      cbn [length] in Hf. rewrite !length_app in Hf. cbn [length] in Hf. lia.
  - destruct f as [|f]; [lia|]. destruct b; cbn in Ht; injection Ht as <-; reflexivity.
Qed.


Lemma simple_stringify eng v : simple v -> exists t, Json.stringify eng v = Some t /\ t <> [].
Proof.
  intros [s|l|b].
  - eexists. split; [reflexivity|]. discriminate.
  - rewrite stringify_strs. eexists. split; [reflexivity|]. discriminate.
  - destruct b; eexists; (split; [reflexivity|discriminate]).
Qed.

Lemma members_nil eng props :
  Forall (fun kv => simple (snd kv) \/ snd kv = VUndefined) props ->
  members eng props = [] -> filter present props = [].
Proof.
  induction 1 as [|[k v] props [Hs|Hu] _ IH]; [reflexivity| |]; cbn in *.
  - destruct (simple_stringify eng v Hs) as (t & Ht & _).
    unfold members. cbn. rewrite Ht. discriminate.
  - subst v. unfold members, present. cbn. exact IH.
Qed.

Lemma members_head eng k v t props sep :
  Json.stringify eng v = Some t ->
  exists r, Js.join (members eng ((k, v) :: props)) sep = Json.QUOTE :: r.
Proof.
  intros Ht. unfold members. cbn. rewrite Ht.
  destruct (Json.memberTexts _); cbn; eauto.
Qed.

Lemma pMembers_simple eng props :
  Forall (fun kv => simple (snd kv) \/ snd kv = VUndefined) props ->
  forall f rest,
    members eng props <> [] ->
    length (Js.join (members eng props) [44%N]) < f ->
    Json.pMembers f (Js.join (members eng props) [44%N] ++ 125%N :: rest)
    = Some (filter present props, rest).
Proof.
  induction 1 as [|[k v] props [Hs|Hu] Hall IH]; intros f rest Hne Hf;
    [exfalso; apply Hne; reflexivity| |].
  - cbn [snd] in Hs. destruct (simple_stringify eng v Hs) as (t & Ht & Htne).
    assert (Hp : present (k, v) = true) by (destruct Hs; reflexivity).
    cbn [filter]. rewrite Hp.
    unfold members in *. cbn [map fst snd Json.memberTexts] in *. rewrite Ht in *.
    fold (members eng props) in *. change (Js.lit ":") with [58%N] in *.
    destruct f as [|f]; [lia|].
    destruct (members eng props) as [|m ms] eqn:Hm.
    + (* the last member *)
      rewrite (members_nil eng props Hall Hm).
      cbn [Js.join] in *. unfold Json.quote in *.
      rewrite !length_app in Hf. cbn [length Js.lit] in Hf.
      cbn [app Json.pMembers]. rewrite skipWs_head by reflexivity.
      change (Json.QUOTE =? Json.QUOTE)%N with true. cbv iota.
      rewrite <- !app_assoc. cbn [app]. rewrite pChars_quoteBody.
      cbn [app]. rewrite skipWs_head by reflexivity.
      change (58 =? 58)%N with true. cbv iota.
      rewrite (pValue_simple eng v t f (125%N :: rest) Hs Ht) by lia.
      rewrite skipWs_head by reflexivity. reflexivity.
    + change (Js.join ((Json.quote k ++ [58%N] ++ t) :: m :: ms) [44%N])
        with ((Json.quote k ++ [58%N] ++ t) ++ [44%N] ++ Js.join (m :: ms) [44%N]) in *.
      unfold Json.quote in *.
      rewrite !length_app in Hf. cbn [length] in Hf.
      cbn [length] in Hf.
      rewrite !length_app in Hf. cbn [length] in Hf.
      cbn [app Json.pMembers]. rewrite skipWs_head by reflexivity.
      change (Json.QUOTE =? Json.QUOTE)%N with true. cbv iota.
      rewrite <- !app_assoc. cbn [app]. rewrite pChars_quoteBody.
      cbn [app]. rewrite skipWs_head by reflexivity.
      change (58 =? 58)%N with true. cbv iota.
      rewrite (pValue_simple eng v t f _ Hs Ht) by lia.
      rewrite skipWs_head by reflexivity.
      change (44 =? 44)%N with true. cbv iota.
      rewrite IH; [reflexivity | discriminate | lia].
  - cbn [snd] in Hu. subst v. unfold members in *. cbn in *.
    apply IH; assumption.
Qed.

Lemma parse_stringify_object eng props :
  Forall (fun kv => simple (snd kv) \/ snd kv = VUndefined) props ->
  members eng props <> [] ->
  Json.parse (GenerateTests.stringifyObject eng (VObj props))
  = Ok (VObj (filter present props)).
Proof.
  intros Hall Hne. unfold GenerateTests.stringifyObject. cbn [Json.stringify].
  fold (members eng props). change (Js.lit ",") with [44%N].
  unfold Json.parse.
  set (body := Js.join (members eng props) [44%N]).
  change (`"{" ++ body ++ `"}") with (123%N :: body ++ [125%N]).
  assert (Hlen : length (123%N :: body ++ [125%N]) = S (length body + 1)).
  { cbn. rewrite length_app. reflexivity. }
  rewrite Hlen.
  replace (2 * S (length body + 1) + 2) with (S (2 * length body + 5)) by lia.
  cbn [Json.pValue]. rewrite skipWs_head by reflexivity.
  change (123 =? 123)%N with true. cbv iota.
  assert (exists r, body = Json.QUOTE :: r) as (r & Hr).
  { unfold body. clear - Hall Hne. unfold members in *.
    revert Hne.
    induction Hall as [|[k' v'] ps [Hs|Hu] _ IH];
      [intros Hne; exfalso; apply Hne; reflexivity| |]; cbn [map fst snd] in *.
    - destruct (simple_stringify eng v' Hs) as (t & Ht & _). rewrite Ht.
      intros _. cbn [Json.memberTexts]. unfold Json.quote.
      destruct (Json.memberTexts _); cbn [Js.join app]; eexists; reflexivity.
    - subst v'. cbn [Json.stringify Json.memberTexts]. exact IH. }
  rewrite (skipWs_quote_head _ r _ Hr).
  change (Json.QUOTE =? 125)%N with false. cbv iota.
  pose proof (pMembers_simple eng props Hall (2 * length body + 5) [] Hne) as Hm.
  fold body in Hm. rewrite Hm by lia. reflexivity.
Qed.

Lemma optStr_simple x : simple (optStr x) \/ optStr x = VUndefined.
Proof. destruct x; [left; constructor | right; reflexivity]. Qed.

Lemma metadata_parses eng test body generatedAt :
  Json.parse (GenerateTests.stringifyObject eng
                (GenerateTests.metadataObject test body generatedAt))
  = Ok (withoutUndefined (GenerateTests.metadataObject test body generatedAt)).
Proof.
  unfold GenerateTests.metadataObject, withoutUndefined.
  apply parse_stringify_object.
  - repeat (apply Forall_cons; [cbn [snd]; first [apply optStr_simple | left; constructor]|]).
    apply Forall_nil.
  - unfold members. cbn. discriminate.
Qed.

Lemma metadata_fields test body generatedAt :
  let parsed :=
    withoutUndefined (GenerateTests.metadataObject test body generatedAt) in
  Dyn.get parsed `"description" = Ok (VStr (description test))
  /\ Dyn.get parsed `"coverage" = Ok (Dyn.strs (coverage test))
  /\ Dyn.get parsed `"dependencies" = Ok (Dyn.strs (dependencies test)).
Proof.
  unfold GenerateTests.metadataObject, withoutUndefined.
  destruct (b_language body), (b_framework body), (b_testingLibrary body),
    (b_inputType body); repeat split; reflexivity.
Qed.

Lemma in_insertDesc {A} (key : A -> N) x l y :
  In y (Database.insertDesc key x l) <-> y = x \/ In y l.
Proof.
  induction l as [|z l IH]; cbn.
  - intuition.
  - destruct (key z <? key x)%N; cbn; [intuition|]. rewrite IH. intuition.
Qed.

Lemma in_orderByDesc {A} (key : A -> N) l y :
  In y (Database.orderByDesc key l) <-> In y l.
Proof.
  unfold Database.orderByDesc.
  assert (H : forall acc, In y (fold_left (fun acc x => Database.insertDesc key x acc) l acc)
                          <-> In y acc \/ In y l).
  { induction l as [|x l IH]; intros acc; cbn; [intuition|].
    rewrite IH, in_insertDesc. intuition. }
  rewrite H. cbn. intuition.
Qed.

Lemma in_selectTestCases d uid view :
  In view (TestCasesRoute.selectTestCases d uid)
  <-> exists r, In r (test_cases d) /\ tc_created_by r = Database.stored uid
                /\ view = mkTestCaseView r
                            (match tc_project_id r with
                             | Some pid =>
                                 option_map p_name
                                   (find (fun p => Js.eqb (p_id p) pid) (projects d))
                             | None => None
                             end).
Proof.
  unfold TestCasesRoute.selectTestCases. rewrite in_map_iff. split.
  - intros (r & <- & Hin). apply in_orderByDesc, filter_In in Hin.
    destruct Hin as [Hin Heq]. apply eqb_eq in Heq. eauto.
  - intros (r & Hin & Hu & ->). exists r. split; [reflexivity|].
    apply in_orderByDesc, filter_In. split; [exact Hin|].
    rewrite Hu. apply eqb_refl.
Qed.

Lemma GET_run w hdrs st token decoded :
  Auth.bearer (authorization hdrs) = Some token ->
  jwt_verify w (clock w (clockReads st)) token (Auth.JWT_SECRET w) = Ok decoded ->
  TestCasesRoute.GET w hdrs st
  = (Ok (TestCases (TestCasesRoute.selectTestCases (db st) (id decoded))),
     ticked st).
Proof.
  intros Hb Hv. unfold TestCasesRoute.GET, tryCatch, bind.
  rewrite Hb, verifyToken_run, Hv. reflexivity.
Qed.

Lemma hasTestCase_false d tid r :
  Database.hasTestCase d tid = false -> In r (test_cases d) ->
  tc_id r <> Database.stored tid.
Proof.
  unfold Database.hasTestCase. intros H Hin Heq.
  assert (existsb (fun t => Js.eqb (tc_id t) (Database.stored tid))
                  (test_cases d) = true).
  { apply existsb_exists. exists r. split; [exact Hin|]. rewrite Heq. apply eqb_refl. }
  congruence.
Qed.

(** *** A serialised value is kept as it is *)

Lemma stored_plain s : forallb plainUnit s = true -> Database.stored s = s.
Proof.
  induction s as [|c r IH]; [reflexivity|]. cbn [forallb].
  intros H. apply andb_prop in H. destruct H as [Hc Hr].
  unfold plainUnit in Hc. apply negb_true_iff, orb_false_elim in Hc.
  destruct Hc as [Hh Hl]. cbn [Database.stored]. rewrite Hh, Hl.
  now rewrite IH.
Qed.

Lemma hexDigit_plain n : (n < 16)%N -> plainUnit (Json.hexDigit n) = true.
Proof.
  intros H.
  assert (Hn : In n (map N.of_nat (seq 0 16))).
  { apply in_map_iff. exists (N.to_nat n). split; [lia|]. apply in_seq. lia. }
  cbn in Hn. repeat (destruct Hn as [<-|Hn]; [reflexivity|]). contradiction.
Qed.

Lemma stored_escapeU c : Database.stored (Json.escapeU c) = Json.escapeU c.
Proof.
  apply stored_plain. unfold Json.escapeU. cbn [forallb].
  rewrite !hexDigit_plain by (apply N.mod_lt; discriminate). reflexivity.
Qed.

Lemma stored_quoteUnit c :
  plainUnit c = true -> Database.stored (Json.quoteUnit c) = Json.quoteUnit c.
Proof.
  intros H. unfold Json.quoteUnit.
  repeat match goal with
         | |- context [if ?b then _ else _] => destruct b
         end; try reflexivity.
  - apply stored_escapeU.
  - apply stored_plain. cbn [forallb]. now rewrite H.
Qed.

Lemma stored_quoteBody_len n :
  forall s, length s <= n ->
            Database.stored (Json.quoteBody s) = Json.quoteBody s.
Proof.
  induction n as [|n IH]; intros [|c r] Hlen; try reflexivity;
    cbn [length] in Hlen; [lia|].
  cbn [Json.quoteBody].
  destruct (Json.isHighSurrogate c) eqn:Hh.
  - destruct r as [|d r']; [apply stored_escapeU|].
    destruct (Json.isLowSurrogate d) eqn:Hl.
    + cbn [Database.stored]. rewrite Hh, Hl, IH; [reflexivity|].
      cbn [length] in Hlen. lia.
    + rewrite stored_app by apply stored_escapeU. rewrite IH; [reflexivity|lia].
  - destruct (Json.isLowSurrogate c) eqn:Hl.
    + rewrite stored_app by apply stored_escapeU. rewrite IH; [reflexivity|lia].
    + rewrite stored_app.
      * rewrite IH; [reflexivity|lia].
      * apply stored_quoteUnit. unfold plainUnit. now rewrite Hh, Hl.
Qed.

Lemma stored_quote s : Database.stored (Json.quote s) = Json.quote s.
Proof.
  unfold Json.quote.
  change (Json.QUOTE :: Json.quoteBody s ++ [Json.QUOTE])
    with ([Json.QUOTE] ++ Json.quoteBody s ++ [Json.QUOTE]).
  rewrite stored_app by reflexivity.
  rewrite stored_app by (apply (stored_quoteBody_len (length s)); lia).
  reflexivity.
Qed.

Lemma stored_join l sep :
  Forall (fun t => Database.stored t = t) l -> Database.stored sep = sep ->
  Database.stored (Js.join l sep) = Js.join l sep.
Proof.
  intros Hl Hsep. induction Hl as [|t l Ht Hl IH]; [reflexivity|].
  destruct l as [|u l]; [exact Ht|].
  change (Js.join (t :: u :: l) sep) with (t ++ sep ++ Js.join (u :: l) sep).
  now rewrite (stored_app t) by exact Ht; rewrite (stored_app sep) by exact Hsep;
    rewrite IH.
Qed.

Lemma stored_wrap a b c :
  Database.stored a = a -> Database.stored b = b -> Database.stored c = c ->
  Database.stored (a ++ b ++ c) = a ++ b ++ c.
Proof.
  intros Ha Hb Hc. now rewrite (stored_app a) by exact Ha;
    rewrite (stored_app b) by exact Hb; rewrite Hc.
Qed.

Lemma stored_stringify_simple eng v t :
  simple v -> Json.stringify eng v = Some t -> Database.stored t = t.
Proof.
  intros Hv. destruct Hv as [x|l|[|]]; cbn [Json.stringify Dyn.strs].
  - intros [= <-]. apply stored_quote.
  - intros [= <-].
    apply (stored_wrap `"[" _ `"]"); [reflexivity| |reflexivity].
    apply stored_join; [|reflexivity].
    rewrite map_map. apply Forall_forall. intros u Hu.
    apply in_map_iff in Hu. destruct Hu as (x & <- & _).
    cbn [Json.stringify Json.elementText]. apply stored_quote.
  - intros [= <-]. reflexivity.
  - intros [= <-]. reflexivity.
Qed.

Lemma stored_members eng props :
  Forall (fun kv => simple (snd kv) \/ snd kv = VUndefined) props ->
  Forall (fun t => Database.stored t = t) (members eng props).
Proof.
  unfold members. induction 1 as [|[k v] props Hkv _ IH]; [constructor|].
  cbn [map fst snd Json.memberTexts] in *.
  destruct Hkv as [Hv| ->].
  - destruct (simple_stringify eng v Hv) as (t & Ht & _). rewrite Ht.
    constructor; [|exact IH].
    apply (stored_wrap (Json.quote k) `":" t);
      [apply stored_quote | reflexivity
      | exact (stored_stringify_simple eng v t Hv Ht)].
  - cbn [Json.stringify]. exact IH.
Qed.

Lemma stored_metadata eng test body generatedAt :
  Database.stored
    (GenerateTests.stringifyObject eng
       (GenerateTests.metadataObject test body generatedAt))
  = GenerateTests.stringifyObject eng
      (GenerateTests.metadataObject test body generatedAt).
Proof.
  unfold GenerateTests.stringifyObject, GenerateTests.metadataObject.
  cbn [Json.stringify].
  apply (stored_wrap `"{" _ `"}"); [reflexivity| |reflexivity].
  apply stored_join; [|reflexivity].
  apply (stored_members eng).
  repeat (apply Forall_cons;
          [cbn [snd]; first [apply optStr_simple | left; constructor]|]).
  apply Forall_nil.
Qed.

Lemma NoDup_map_inj {A B} (f : A -> B) l x y :
  NoDup (map f l) -> In x l -> In y l -> f x = f y -> x = y.
Proof.
  induction l as [|z l IH]; cbn; [contradiction|].
  intros Hnd [<-|Hx] [<-|Hy] Heq; auto; inversion Hnd as [|? ? Hnin Hnd']; subst.
  - exfalso. apply Hnin. rewrite Heq. now apply in_map.
  - exfalso. apply Hnin. rewrite <- Heq. now apply in_map.
  - now apply IH.
Qed.

Lemma Forall2_In_left {A B} (R : A -> B -> Prop) l l' x :
  Forall2 R l l' -> In x l -> exists y, In y l' /\ R x y.
Proof.
  induction 1 as [|a b l l' Hab _ IH]; cbn; [contradiction|].
  intros [<-|Hin]; [eauto|]. destruct (IH Hin) as (y & Hy & Hr). eauto.
Qed.

(** C6: a successful generation has saved the artifacts that the
    pipeline generated, one at least, each in one new row of its own
    identifier whose metadata is the serialised metadata object. A read
    of the test cases by the same user then finds, for every saved
    artifact, exactly one row with its identifier; the metadata of the
    row parses back to that object without its undefined properties,
    with the description, the coverage and the dependencies as they
    were. *)
Theorem metadata_round_trip
        w request st tests msg usage notice st' token decoded body
        hdrs token' decoded' :
  GenerateTests.POST w request st
  = (Ok (TestsGenerated tests msg usage notice), st') ->
  Auth.bearer (authorization (headers request)) = Some token ->
  jwt_verify w (clock w (clockReads st)) token (Auth.JWT_SECRET w)
  = Ok decoded ->
  json request = Ok body ->
  Auth.bearer (authorization hdrs) = Some token' ->
  jwt_verify w (clock w (clockReads st')) token' (Auth.JWT_SECRET w)
  = Ok decoded' ->
  id decoded' = id decoded ->
  exists inputData testTypes generated rows views,
    (* what was saved is what the pipeline generated *)
    b_inputData body = Some inputData
    /\ b_testTypes body = Some testTypes
    /\ fst (generateTestCases w
              (mkRequest (orUndefined (b_inputType body)) inputData testTypes
                 (orUndefined (b_language body)) (b_additionalContext body)
                 (b_framework body) (b_testingLibrary body)
                 (Some `"gemini-1.5-flash"))
              (ticked st))
       = Ok generated
    /\ generated <> []
    /\ map saved_test tests = generated
    (* one new row for each saved test, with the serialised metadata *)
    /\ test_cases (db st') = test_cases (db st) ++ rows
    /\ Forall2
         (fun saved r =>
            tc_id r = Database.stored (saved_id saved)
            /\ exists now,
                tc_metadata r
                = GenerateTests.stringifyObject (engine w)
                    (GenerateTests.metadataObject (saved_test saved) body
                       (toISOString (engine w) now)))
         tests rows
    /\ NoDup (map tc_id rows)
    (* the read *)
    /\ fst (TestCasesRoute.GET w hdrs st') = Ok (TestCases views)
    /\ forall saved,
        In saved tests ->
        exists view now,
          In view views
          /\ tc_id (row view) = Database.stored (saved_id saved)
          /\ (forall view',
                 In view' views ->
                 tc_id (row view') = Database.stored (saved_id saved) ->
                 view' = view)
          /\ let meta :=
               GenerateTests.metadataObject (saved_test saved) body
                 (toISOString (engine w) now) in
             tc_metadata (row view)
             = GenerateTests.stringifyObject (engine w) meta
             /\ exists parsed,
                 Json.parse (tc_metadata (row view)) = Ok parsed
                 /\ parsed = withoutUndefined meta
                 /\ Dyn.get parsed `"description"
                    = Ok (VStr (description (saved_test saved)))
                 /\ Dyn.get parsed `"coverage"
                    = Ok (Dyn.strs (coverage (saved_test saved)))
                 /\ Dyn.get parsed `"dependencies"
                    = Ok (Dyn.strs (dependencies (saved_test saved))).
Proof.
  intros Hpost Hb Hv Hj Hb' Hv' Hid.
  destruct (POST_generated _ _ _ _ _ _ _ _ Hpost)
    as (token1 & decoded1 & body1 & inputData & testTypes & user1 & generated
        & st1 & st2 & Hb1 & Hv1 & Hj1 & Hi & Ht & Hu1 & Hg & Hs & Hus & Hps
        & Htc & _ & Husage).
  rewrite Hb in Hb1. injection Hb1 as <-.
  rewrite Hv in Hv1. injection Hv1 as <-.
  rewrite Hj in Hj1. injection Hj1 as <-.
  destruct (saveTests_spec _ _ _ _ _ _ _ _ _ Hs)
    as (new & rows & Hnew & Hmap & Htc2 & Hf2 & Hus2 & Hps2 & Hnd & Hfresh).
  cbn [app] in Hnew. subst new.
  match type of Hg with
  | generateTestCases _ ?rq _ = _ =>
      pose proof (pres_generateTestCases w rq (ticked st)) as Hdb1
  end.
  rewrite Hg in Hdb1. cbn [snd db ticked] in Hdb1.
  rewrite (GET_run w hdrs st' token' decoded' Hb' Hv'). cbn [fst].
  exists inputData, testTypes, generated, rows. eexists.
  split; [exact Hi|]. split; [exact Ht|].
  split; [rewrite Hg; reflexivity|].
  split; [exact (generateTestCases_nonempty _ _ _ _ _ Hg)|].
  split; [exact Hmap|].
  split; [now rewrite Htc, Htc2, Hdb1|].
  split.
  { clear - Hf2. induction Hf2 as [|saved r ss rs Hsr _ IH];
      constructor; [|exact IH].
    destruct Hsr as (Hrid & _ & _ & _ & _ & now & Hmeta).
    split; [exact Hrid|]. exists now. now rewrite Hmeta, stored_metadata. }
  split; [exact Hnd|].
  split; [reflexivity|].
  intros saved Hin.
  destruct (Forall2_In_left _ _ _ _ Hf2 Hin) as (r & Hr & Hsr).
  destruct Hsr as (Hrid & Hruid & _ & _ & _ & now & Hmeta).
  rewrite stored_metadata in Hmeta.
  assert (Hrin : In r (test_cases (db st'))).
  { rewrite Htc, Htc2. apply in_or_app. now right. }
  set (view := mkTestCaseView r
                 (match tc_project_id r with
                  | Some pid =>
                      option_map p_name
                        (find (fun p => Js.eqb (p_id p) pid) (projects (db st')))
                  | None => None
                  end)).
  exists view, now. split; [|split; [|split]].
  - apply in_selectTestCases. exists r. repeat split; congruence.
  - exact Hrid.
  - intros view' Hin' Hid'. apply in_selectTestCases in Hin'.
    destruct Hin' as (r' & Hr'in & _ & ->). cbn [row] in Hid'.
    assert (r' = r); [|subst r'; reflexivity].
    rewrite Htc, Htc2 in Hr'in. apply in_app_or in Hr'in.
    destruct Hr'in as [Hold|Hnew].
    + exfalso. rewrite Forall_forall in Hfresh.
      apply (hasTestCase_false (db st1) (tc_id r) r' (Hfresh r Hr) Hold).
      rewrite Hrid, stored_idem. congruence.
    + apply (NoDup_map_inj tc_id rows r' r Hnd Hnew Hr). congruence.
  - cbn zeta. cbn [row view]. split; [exact Hmeta|].
    eexists. rewrite Hmeta. split; [apply metadata_parses|].
    split; [reflexivity|]. apply metadata_fields.
Qed.

Lemma size_le_66 x : (x < 2 ^ 66)%N -> (N.size x <= 66)%N.
Proof.
  intros H. destruct (N.eq_dec x 0) as [->|Hx]; [cbn; lia|].
  rewrite N.size_log2 by exact Hx.
  assert (N.log2 x < 66)%N by (apply N.log2_lt_pow2; lia). lia.
Qed.

Lemma round53_bound x q s :
  (x <= 5000 * (2 ^ 53 - 1))%N ->
  Executions.round53 x = (q, s) ->
  (q * 2 ^ s < 5000 * 2 ^ 53)%N.
Proof.
  intros Hx. unfold Executions.round53.
  destruct (N.size x <=? 53)%N eqn:Hsz.
  - intros [= <- <-]. apply N.leb_le in Hsz.
    assert (x < 2 ^ 53)%N.
    { destruct (N.eq_dec x 0) as [->|Hx0]; [cbn; lia|].
      apply N.log2_lt_pow2; [lia|].
      rewrite N.size_log2 in Hsz by exact Hx0. lia. }
    cbn in *. lia.
  - apply N.leb_gt in Hsz.
    assert (Hs66 : (N.size x <= 66)%N) by (apply size_le_66; cbn in *; lia).
    set (s0 := (N.size x - 53)%N).
    assert (Hs1 : (1 <= s0 <= 13)%N) by (unfold s0; lia).
    assert (Hpow : (2 ^ s0 = 2 * 2 ^ (s0 - 1))%N).
    { rewrite <- N.pow_succ_r'. f_equal. lia. }
    assert (Hhalf : (2 ^ (s0 - 1) <= 4096)%N).
    { change 4096%N with (2 ^ 12)%N. apply N.pow_le_mono_r; lia. }
    pose proof (N.Div0.div_mod x (2 ^ s0)) as Hdm.
    assert (Hpos : (2 ^ s0 <> 0)%N) by (apply N.pow_nonzero; lia).
    pose proof (N.mod_lt x (2 ^ s0) Hpos) as Hlt.
    set (qq := (x / 2 ^ s0)%N) in *. set (rest := (x mod 2 ^ s0)%N) in *.
    set (half := (2 ^ (s0 - 1))%N) in *.
    destruct ((half <? rest)%N || (rest =? half)%N && N.odd qq) eqn:Hup;
      intros [= <- <-].
    + assert (half <= rest)%N.
      { apply orb_true_iff in Hup. destruct Hup as [H|H].
        - apply N.ltb_lt in H. lia.
        - apply andb_true_iff in H. destruct H as [H _].
          apply N.eqb_eq in H. lia. }
      cbn in Hx |- *. nia.
    + cbn in Hx |- *. nia.
Qed.

Lemma floorTimes5000_bound r : (Executions.floorTimes5000 r < 5000)%N.
Proof.
  unfold Executions.floorTimes5000.
  destruct (Executions.round53 (Executions.mantissa r * 5000)) as [q s] eqn:Hr.
  assert (Hm : (Executions.mantissa r < 2 ^ 53)%N).
  { unfold Executions.mantissa. apply N.mod_lt. discriminate. }
  assert (Hb : (q * 2 ^ s < 5000 * 2 ^ 53)%N).
  { apply (round53_bound (Executions.mantissa r * 5000)); [|exact Hr].
    cbn in Hm |- *. lia. }
  apply N.Div0.div_lt_upper_bound.
  unfold Executions.scale. rewrite N.pow_add_r.
  assert (1 <= 2 ^ expo r)%N.
  { assert (2 ^ expo r <> 0)%N by (apply N.pow_nonzero; lia). lia. }
  nia.
Qed.

Lemma mathRandom_run w st :
  exists r st', mathRandom w st = (Ok r, st') /\ db st' = db st.
Proof. unfold mathRandom. eauto. Qed.

Lemma insertExecution_run w eid tid status dur env uid logs st :
  (exists e st',
      Database.insertExecution w eid tid status dur env uid logs st
      = (Throw e, st')
      /\ db st' = db st
      /\ randomDraws st' = randomDraws st
      /\ clockReads st' = S (clockReads st)
      /\ (Database.hasExecution (db st) eid = true
          \/ Database.hasTestCase (db st) tid = false
          \/ Database.hasUser (db st) uid = false))
  \/ (exists st' at_,
         Database.insertExecution w eid tid status dur env uid logs st
         = (Ok tt, st')
         /\ users (db st') = users (db st)
         /\ test_cases (db st') = test_cases (db st)
         /\ test_executions (db st')
            = test_executions (db st)
              ++ [mkExecutionRow (Database.stored eid) (Database.stored tid)
                    (Database.stored status) dur
                    (option_map Database.stored env) (Database.stored uid)
                    (Database.stored logs) at_]
         /\ randomDraws st' = randomDraws st
         /\ clockReads st' = S (clockReads st)
         /\ Database.hasTestCase (db st) tid = true
         /\ Database.hasUser (db st) uid = true).
Proof.
  unfold Database.insertExecution, Database.datetimeNow, bind, readClock, ret.
  cbn [db].
  destruct (Database.hasExecution (db st) eid) eqn:He;
    [left; do 2 eexists; cbn; repeat split; auto|].
  destruct (Database.hasTestCase (db st) tid) eqn:Ht;
    [|left; do 2 eexists; cbn; repeat split; auto].
  destruct (Database.hasUser (db st) uid) eqn:Hu;
    [|left; do 2 eexists; cbn; repeat split; auto].
  right. cbn. do 2 eexists. repeat split.
Qed.

Lemma generateId_at w st :
  Database.generateId w st
  = (Ok (Database.idOf w (randomDraw w (randomDraws st))
                       (clock w (clockReads st))),
     mkState (db st) (modelCalls st) (S (randomDraws st))
             (S (clockReads st)) (pipelineRuns st)).
Proof. reflexivity. Qed.

Lemma executionIds_S w draws reads n :
  executionIds w draws reads (S n)
  = Database.idOf w (randomDraw w draws) (clock w reads)
    :: executionIds w (draws + 3) (reads + 2) n.
Proof.
  unfold executionIds. cbn [seq map].
  rewrite !Nat.add_0_r. f_equal.
  rewrite <- seq_shift, map_map. apply map_ext. intros k.
  f_equal; f_equal; lia.
Qed.

Lemma hasExecution_in d eid :
  Database.hasExecution d eid = true ->
  In (Database.stored eid) (map te_id (test_executions d)).
Proof.
  unfold Database.hasExecution. intros H.
  apply existsb_exists in H. destruct H as (r & Hin & Heq).
  apply eqb_eq in Heq. rewrite <- Heq. now apply in_map.
Qed.

Lemma in_hasExecution d eid :
  In (Database.stored eid) (map te_id (test_executions d)) ->
  Database.hasExecution d eid = true.
Proof.
  unfold Database.hasExecution. intros H.
  apply in_map_iff in H. destruct H as (r & Heq & Hin).
  apply existsb_exists. exists r. split; [exact Hin|].
  rewrite Heq. apply eqb_refl.
Qed.

(** The loop of the execution handler: the executions made before the
    first insert that the database refuses, their rows, and the cause of
    a refusal. *)
Lemma execute_spec w uid env :
  forall testCaseIds acc st out st',
    Executions.execute w uid env testCaseIds acc st = (out, st') ->
    exists executions rows,
      test_executions (db st') = test_executions (db st) ++ rows
      /\ users (db st') = users (db st)
      /\ test_cases (db st') = test_cases (db st)
      /\ Forall2 (rowOf uid) executions rows
      /\ Forall validExecution executions
      /\ Forall (fun e => ex_environment e = env) executions
      /\ map ex_test_case_id executions
         = firstn (length executions) testCaseIds
      /\ map ex_id executions
         = firstn (length executions)
             (executionIds w (randomDraws st) (clockReads st)
                (length testCaseIds))
      /\ ((out = Ok (acc ++ executions)
           /\ length executions = length testCaseIds
           /\ Forall (fun tid => Database.hasTestCase (db st) tid = true)
                testCaseIds
           /\ (testCaseIds <> [] -> Database.hasUser (db st) uid = true))
          \/ (exists e tid eid,
                 out = Throw e
                 /\ nth_error testCaseIds (length executions) = Some tid
                 /\ nth_error
                      (executionIds w (randomDraws st) (clockReads st)
                         (length testCaseIds))
                      (length executions) = Some eid
                 /\ (Database.hasTestCase (db st) tid = false
                     \/ Database.hasUser (db st) uid = false
                     \/ In (Database.stored eid)
                          (map te_id (test_executions (db st) ++ rows))))).
Proof.
  induction testCaseIds as [|tid rest IH]; intros acc st out st'.
  - cbn. unfold ret. intros [= <- <-]. exists [], [].
    rewrite !app_nil_r. do 3 (split; [reflexivity|]).
    do 3 (split; [constructor|]). do 2 (split; [reflexivity|]).
    left. repeat split; [constructor | congruence].
  - cbn [Executions.execute length]. rewrite executionIds_S.
    unfold bind at 1. rewrite generateId_at.
    set (eid := Database.idOf w (randomDraw w (randomDraws st))
                              (clock w (clockReads st))).
    unfold bind at 1, mathRandom at 1. cbn [randomDraws].
    unfold bind at 1, mathRandom at 1.
    cbn [randomDraws db modelCalls clockReads pipelineRuns].
    unfold bind at 1.
    set (r1 := randomDraw w (S (randomDraws st))).
    set (r2 := randomDraw w (S (S (randomDraws st)))).
    set (duration := (Z.of_N (Executions.floorTimes5000 r1) + 1000)%Z).
    set (status := if Executions.gtOneFifth r2 then `"passed" else `"failed").
    set (logs := if Js.eqb status `"passed" then _ else _).
    set (st3 := mkState (db st) (modelCalls st) (S (S (S (randomDraws st))))
                        (S (clockReads st)) (pipelineRuns st)).
    assert (Hdb : db st3 = db st) by reflexivity.
    assert (Hstatus : Database.stored status = status)
      by (unfold status; destruct (Executions.gtOneFifth r2); reflexivity).
    assert (Hlogs : Database.stored logs = logs).
    { unfold logs, status.
      destruct (Executions.gtOneFifth r2); vm_compute; reflexivity. }
    destruct (insertExecution_run w eid tid status duration env uid logs st3)
      as [(e & st4 & -> & Hdb4 & _ & _ & Hcause)
         |(st4 & at_ & -> & Hus & Htc & Hte & Hrd & Hcr & Hht & Hhu)].
    + intros [= <- <-]. exists [], []. rewrite app_nil_r.
      rewrite Hdb4, Hdb. do 3 (split; [reflexivity|]).
      do 3 (split; [constructor|]). do 2 (split; [reflexivity|]).
      right. exists e, tid, eid. do 3 (split; [reflexivity|]).
      rewrite Hdb in Hcause.
      destruct Hcause as [Hc|[Hc|Hc]]; auto.
      right; right. now apply hasExecution_in.
    + intros Hrest. apply IH in Hrest.
      destruct Hrest as (executions & rows & Hte' & Hus' & Htc' & Hf2 & Hv
                         & Henv & Hmt & Hmi & Hout).
      set (ex := mkExecution eid tid status duration env logs) in *.
      match type of Hte with
      | _ = _ ++ [?r] => exists (ex :: executions), (r :: rows)
      end.
      rewrite Hdb in *.
      assert (Hcounters : randomDraws st4 = randomDraws st + 3
                          /\ clockReads st4 = clockReads st + 2).
      { rewrite Hrd, Hcr. unfold st3. cbn [randomDraws clockReads]. lia. }
      destruct Hcounters as [Hrd4 Hcr4]. rewrite Hrd4, Hcr4 in *.
      split; [rewrite Hte', Hte, <- app_assoc; reflexivity|].
      split; [congruence|]. split; [congruence|].
      split.
      { constructor; [|exact Hf2]. unfold rowOf, ex.
        cbn [te_id te_test_case_id te_status te_duration te_environment
             te_triggered_by te_logs ex_id ex_test_case_id ex_status
             ex_duration ex_environment ex_logs].
        repeat split; assumption. }
      split.
      { constructor; [|exact Hv]. split.
        - cbn. unfold status. destruct (Executions.gtOneFifth r2); auto.
        - cbn. unfold duration.
          pose proof (floorTimes5000_bound r1). lia. }
      split; [constructor; [reflexivity|exact Henv]|].
      split; [cbn [map length firstn ex ex_test_case_id]; now rewrite Hmt|].
      split; [cbn [map length firstn ex ex_id]; now rewrite Hmi|].
      destruct Hout as [(-> & Hlen & Hall & _)
                       |(e & tid' & eid' & -> & Hnt & Hni & Hcause)].
      * left. rewrite <- app_assoc. split; [reflexivity|].
        split; [cbn [length]; now rewrite Hlen|].
        split; [|intros _; exact Hhu].
        constructor; [exact Hht|].
        revert Hall. apply Forall_impl. intros a.
        unfold Database.hasTestCase. now rewrite Htc.
      * right. exists e, tid', eid'. split; [reflexivity|].
        cbn [length nth_error]. do 2 (split; [assumption|]).
        destruct Hcause as [Hc|[Hc|Hc]].
        -- left. unfold Database.hasTestCase in *. now rewrite <- Htc.
        -- right; left. unfold Database.hasUser in *. now rewrite <- Hus.
        -- right; right. rewrite Hte, <- app_assoc in Hc. exact Hc.
Qed.

Lemma rowOf_ids uid executions rows :
  Forall2 (rowOf uid) executions rows ->
  map te_id rows = map Database.stored (map ex_id executions).
Proof.
  induction 1 as [|e r es rs Her _ IH]; [reflexivity|].
  cbn [map]. rewrite IH. f_equal. apply Her.
Qed.

Lemma firstn_map' {A B} (f : A -> B) k (l : list A) :
  firstn k (map f l) = map f (firstn k l).
Proof.
  revert l. induction k as [|k IH]; intros [|x l]; cbn; try reflexivity.
  now rewrite IH.
Qed.

Lemma NoDup_nth_not_before {A} (l : list A) k x :
  NoDup l -> nth_error l k = Some x -> ~ In x (firstn k l).
Proof.
  revert k. induction l as [|y l IH]; intros [|k] Hnd Hn; cbn in *;
    try discriminate; [tauto|].
  inversion Hnd as [|? ? Hnin Hnd']; subst.
  intros [->|Hin].
  - apply Hnin. eapply nth_error_In; exact Hn.
  - exact (IH k Hnd' Hn Hin).
Qed.

(** C10, as stated, fails: a request that names a test case which is not
    stored is answered with status 500, and the row of the identifier
    before it stays. *)
Lemma unknown_test_case_rejected :
  ~ executionsClaim (exampleWorld modelDown) unknownIdRequest (exampleState 2).
Proof.
  intros H.
  destruct (H `"good" exampleDecoded
              (mkExecutionsBody (Some [`"t0"; `"nowhere"]) (Some `"staging"))
              [`"t0"; `"nowhere"] eq_refl eq_refl eq_refl eq_refl
              ltac:(discriminate))
    as (executions & msg & rows & st' & Hpost & _).
  vm_compute in Hpost. discriminate.
Qed.

(** C10, amended: an authenticated request with a non-empty list of
    identifiers makes one execution for each identifier, in the order of
    the list, until the database refuses an insert. Each execution made
    is stored in one new row, under the identifier that [generateId]
    gave it, with status passed or failed and a duration from 1000 to
    5999, and the rows stay. The answer is the list of the executions
    when no insert was refused, and then every identifier names a stored
    test case and the user of the token is stored; it is status 500 when
    an insert was refused, and then the identifier at that place names
    no stored test case, or the user is not stored, or the generated
    identifier is in use. When every identifier names a stored test
    case, the user is stored and the generated identifiers are distinct
    and not in use, no insert is refused. *)
Theorem executions_created_or_rejected
        w request st token decoded body testCaseIds :
  Auth.bearer (authorization (headers request)) = Some token ->
  jwt_verify w (clock w (clockReads st)) token (Auth.JWT_SECRET w)
  = Ok decoded ->
  json request = Ok body ->
  b_testCaseIds body = Some testCaseIds -> testCaseIds <> [] ->
  let ids := executionIds w (randomDraws st) (S (clockReads st))
               (length testCaseIds) in
  exists response st' executions rows,
    Executions.POST w request st = (Ok response, st')
    /\ test_executions (db st') = test_executions (db st) ++ rows
    /\ Forall2 (rowOf (id decoded)) executions rows
    /\ Forall validExecution executions
    /\ Forall (fun e => ex_environment e = b_environment body) executions
    /\ map ex_test_case_id executions
       = firstn (length executions) testCaseIds
    /\ map ex_id executions = firstn (length executions) ids
    /\ ((response = Executed executions `"Tests executed successfully"
         /\ map ex_test_case_id executions = testCaseIds
         /\ Forall (fun tid => Database.hasTestCase (db st) tid = true)
              testCaseIds
         /\ Database.hasUser (db st) (id decoded) = true)
        \/ (response = Error 500 `"Failed to execute tests"
            /\ exists tid eid,
                nth_error testCaseIds (length executions) = Some tid
                /\ nth_error ids (length executions) = Some eid
                /\ (Database.hasTestCase (db st) tid = false
                    \/ Database.hasUser (db st) (id decoded) = false
                    \/ In (Database.stored eid)
                         (map te_id (test_executions (db st) ++ rows)))))
    /\ (Forall (fun tid => Database.hasTestCase (db st) tid = true)
          testCaseIds ->
        Database.hasUser (db st) (id decoded) = true ->
        NoDup (map Database.stored ids) ->
        Forall (fun eid => Database.hasExecution (db st) eid = false) ids ->
        response = Executed executions `"Tests executed successfully"
        /\ map ex_test_case_id executions = testCaseIds).
Proof.
  intros Hb Hv Hj Hids Hne ids.
  unfold Executions.POST, tryCatch, bind.
  rewrite Hb, verifyToken_run, Hv. unfold lift. rewrite Hj, Hids.
  destruct testCaseIds as [|tid rest]; [congruence|].
  destruct (Executions.execute w (id decoded) (b_environment body)
              (tid :: rest) [] (ticked st)) as [out st'] eqn:He.
  destruct (execute_spec _ _ _ _ _ _ _ _ He)
    as (executions & rows & Hte & _ & _ & Hf2 & Hval & Henv & Hmt & Hmi
        & Hout).
  change (db (ticked st)) with (db st) in *.
  change (randomDraws (ticked st)) with (randomDraws st) in *.
  change (clockReads (ticked st)) with (S (clockReads st)) in *.
  fold ids in Hmi, Hout.
  assert (Hfull : length executions = length (tid :: rest) ->
                  map ex_test_case_id executions = tid :: rest).
  { intros Hlen. rewrite Hmt, Hlen. apply firstn_all. }
  destruct Hout as [(-> & Hlen & Hall & Hu)
                   |(e & tid' & eid & -> & Hnt & Hni & Hcause)].
  - exists (Executed executions `"Tests executed successfully"), st',
      executions, rows.
    cbn [app]. unfold ret. do 7 (split; [assumption || reflexivity|]).
    split; [|intros _ _ _ _; split; auto].
    left. repeat split; auto.
  - exists (Error 500 `"Failed to execute tests"), st', executions, rows.
    unfold ret. do 7 (split; [assumption || reflexivity|]).
    split.
    { right. split; [reflexivity|]. exists tid', eid. auto. }
    intros Hall Hu Hnd Hfree. exfalso.
    destruct Hcause as [Hc|[Hc|Hc]].
    + rewrite Forall_forall in Hall.
      rewrite (Hall tid' (nth_error_In _ _ Hnt)) in Hc. discriminate.
    + congruence.
    + rewrite map_app in Hc. apply in_app_or in Hc. destruct Hc as [Hc|Hc].
      * apply in_hasExecution in Hc. rewrite Forall_forall in Hfree.
        rewrite (Hfree eid (nth_error_In _ _ Hni)) in Hc. discriminate.
      * rewrite (rowOf_ids _ _ _ Hf2), Hmi, <- firstn_map' in Hc.
        apply (NoDup_nth_not_before (map Database.stored ids)
                 (length executions) (Database.stored eid) Hnd);
          [|exact Hc].
        now apply map_nth_error.
Qed.

Lemma executions_created_or_rejected_witness :
  exists executions st',
    Executions.POST (exampleWorld modelDown) storedIdsRequest (exampleState 2)
    = (Ok (Executed executions `"Tests executed successfully"), st')
    /\ map ex_test_case_id executions = [`"t1"; `"t0"; `"t1"].
Proof.
  destruct (executions_created_or_rejected (exampleWorld modelDown)
              storedIdsRequest (exampleState 2) `"good" exampleDecoded
              (mkExecutionsBody (Some [`"t1"; `"t0"; `"t1"]) (Some `"staging"))
              [`"t1"; `"t0"; `"t1"] eq_refl eq_refl eq_refl eq_refl
              ltac:(discriminate))
    as (response & st' & executions & rows & Hpost & _ & _ & _ & _ & _ & _
        & _ & Hsuccess).
  destruct Hsuccess as [-> Hmap].
  - repeat constructor.
  - reflexivity.
  - vm_compute. repeat constructor; cbn; intuition discriminate.
  - repeat constructor.
  - exists executions, st'. split; assumption.
Defined.

Lemma extractBaseName_nonempty inputData testType :
  extractBaseName inputData testType <> [].
Proof.
  unfold extractBaseName. apply orElse_nonempty.
  destruct testType; discriminate.
Qed.

(** C5: equal kinds, languages and inputs give the same base name and
    the same filename. The filename is the base name between a prefix
    and an extension that the kind and the language fix: the extension
    is one of six, or the text of the member that every object inherits
    under the name of the language. The artifact of a call of the model
    and the basic template carry this name whatever the world and the
    state are. *)
Theorem generateFilename_deterministic
        testType language inputData testType' language' inputData' :
  testType = testType' -> language = language' -> inputData = inputData' ->
  extractBaseName inputData testType = extractBaseName inputData' testType'
  /\ generateFilename testType language inputData
     = generateFilename testType' language' inputData'
  /\ extractBaseName inputData testType <> []
  /\ (exists prefix extension,
        generateFilename testType language inputData
        = prefix ++ extractBaseName inputData testType ++ extension
        /\ (In extension
               [`".feature"; `".jmx"; `".java"; `".py"; `".js"; `".txt"]
            \/ exists m,
                 inheritedGet language = Some m
                 /\ extension = inheritedText m)
        /\ forall inputData2,
            generateFilename testType language inputData2
            = prefix ++ extractBaseName inputData2 testType ++ extension)
  /\ (forall w request site label cov st t st',
        AiService.language request = language ->
        AiService.inputData request = inputData ->
        generateSingle w request site testType label cov st = (Ok t, st') ->
        filename t = generateFilename testType language inputData)
  /\ (forall request t,
        AiService.language request = language ->
        AiService.inputData request = inputData ->
        generateBasicTestTemplate request testType = Some t ->
        testType <> `"bdd" -> testType <> `"performance" ->
        filename t = generateFilename testType language inputData).
Proof.
  intros <- <- <-. do 2 (split; [reflexivity|]).
  split; [apply extractBaseName_nonempty|].
  split; [|split].
  - unfold generateFilename.
    destruct (Js.eqb testType `"bdd").
    { exists [], `".feature". cbn [app In]. auto. }
    destruct (Js.eqb testType `"performance").
    { exists [], `".jmx". cbn [app In]. auto 6. }
    eexists (_ ++ `"-"), _. split; [rewrite <- app_assoc; reflexivity|].
    split; [|intros; rewrite <- app_assoc; reflexivity].
    unfold memberGet. cbn [tableGet].
    destruct (Js.eqb `"java" language); [cbn; auto 10|].
    destruct (Js.eqb `"python" language); [cbn; auto 10|].
    destruct (Js.eqb `"javascript" language); [cbn; auto 10|].
    destruct (inheritedGet language) as [m|]; cbn [textOr]; [|cbn; auto 10].
    right. exists m. split; reflexivity.
  - intros w request site label cov st t st' <- <-.
    unfold generateSingle, bind, generateText, ret.
    destruct (modelAnswer w _ site); [|discriminate].
    intros [= <- _]. reflexivity.
  - intros request t <- <- Ht Hb Hp.
    unfold generateBasicTestTemplate in Ht.
    destruct (tableGet templates testType) as [tpl|]; [|discriminate].
    destruct (Js.eqb testType `"bdd") eqn:Eb;
      [apply eqb_eq in Eb; contradiction|].
    destruct (Js.eqb testType `"performance") eqn:Ep;
      [apply eqb_eq in Ep; contradiction|].
    destruct (orElse _ _); [discriminate|].
    injection Ht as <-. reflexivity.
Qed.

Lemma generateFilename_deterministic_witness :
  extractBaseName `"As a user, I want to login" `"unit" <> []
  /\ exists prefix extension,
      generateFilename `"unit" `"java" `"As a user, I want to login"
      = prefix ++ extractBaseName `"As a user, I want to login" `"unit"
          ++ extension.
Proof.
  destruct (generateFilename_deterministic
              `"unit" `"java" `"As a user, I want to login"
              `"unit" `"java" `"As a user, I want to login"
              eq_refl eq_refl eq_refl)
    as (_ & _ & Hne & (prefix & extension & Hname & _ & _) & _).
  split; [exact Hne|]. exists prefix, extension. exact Hname.
Defined.

Lemma generateTestCases_nonempty_result_witness :
  exists tests st',
    generateTestCases (exampleWorld modelDown) pipelineRequest (exampleState 0)
    = (Ok tests, st')
    /\ tests <> [].
Proof.
  apply (generateTestCases_nonempty_result (exampleWorld modelDown)
           pipelineRequest (exampleState 0)).
  - discriminate.
  - constructor; [right; left; reflexivity | constructor].
  - discriminate.
Defined.


Lemma malformed_analysis_falls_back_witness :
  analyzeInput (exampleWorld modelProse) pipelineRequest
    (entered (exampleState 0))
  = (Ok (getFallbackAnalysis pipelineRequest),
     called AtAnalyzeInput (entered (exampleState 0)))
  /\ exists tests st',
      generateTestCases (exampleWorld modelProse) pipelineRequest
        (exampleState 0)
      = (Ok tests, st')
      /\ tests <> []
      /\ length tests = length (testTypes pipelineRequest)
      /\ generatedPerKind (exampleWorld modelProse) pipelineRequest
           (testTypes pipelineRequest)
           (called AtAnalyzeInput (entered (exampleState 0))) tests st'
      /\ modelCalls st'
         = rev (map kindSite (testTypes pipelineRequest))
           ++ AtAnalyzeInput :: modelCalls (exampleState 0).
Proof.
  eapply (malformed_analysis_falls_back (exampleWorld modelProse)
            pipelineRequest (exampleState 0)
            `"Here are the tests you asked for.").
  - reflexivity.
  - reflexivity.
  - reflexivity.
  - vm_compute. reflexivity.
  - discriminate.
  - constructor; [right; left; reflexivity | constructor].
Defined.

Lemma all_kinds_fail_first_template_witness :
  exists tests st' t,
    generateTestCases (exampleWorld modelDown) pipelineRequest (exampleState 0)
    = (Ok tests, st')
    /\ generateBasicTestTemplate pipelineRequest `"unit" = Some t
    /\ hd_error tests = Some t
    /\ map Some tests
       = map (generateBasicTestTemplate pipelineRequest)
           (testTypes pipelineRequest).
Proof.
  eapply (all_kinds_fail_first_template (exampleWorld modelDown)
            pipelineRequest (exampleState 0)).
  - vm_compute. reflexivity.
  - cbn [everyKindThrows testTypes pipelineRequest].
    do 2 eexists. split; [vm_compute; reflexivity | exact I].
  - reflexivity.
Defined.

Lemma example_generation n :
  n = 0 \/ n = 99 ->
  exists tests msg usage notice st',
    GenerateTests.POST (exampleWorld modelDown) exampleRequest (exampleState n)
    = (Ok (TestsGenerated tests msg usage notice), st').
Proof.
  intros [->| ->]; vm_compute; eexists _, _, _, _, _; reflexivity.
Qed.

Lemma metadata_round_trip_witness :
  exists tests st',
    (exists msg usage notice,
        GenerateTests.POST (exampleWorld modelDown) exampleRequest
          (exampleState 0)
        = (Ok (TestsGenerated tests msg usage notice), st'))
    /\ tests <> []
    /\ exists rows views,
        test_cases (db st') = test_cases (db (exampleState 0)) ++ rows
        /\ length rows = length tests
        /\ fst (TestCasesRoute.GET (exampleWorld modelDown) exampleHeaders st')
           = Ok (TestCases views)
        /\ forall saved,
            In saved tests ->
            exists view parsed,
              In view views
              /\ tc_id (row view) = Database.stored (saved_id saved)
              /\ Json.parse (tc_metadata (row view)) = Ok parsed
              /\ Dyn.get parsed `"description"
                 = Ok (VStr (description (saved_test saved)))
              /\ Dyn.get parsed `"coverage"
                 = Ok (Dyn.strs (coverage (saved_test saved)))
              /\ Dyn.get parsed `"dependencies"
                 = Ok (Dyn.strs (dependencies (saved_test saved))).
Proof.
  destruct (example_generation 0 (or_introl eq_refl))
    as (tests & msg & usage & notice & st' & Hpost).
  exists tests, st'. split; [eauto|].
  destruct (metadata_round_trip (exampleWorld modelDown) exampleRequest
              (exampleState 0) tests msg usage notice st' `"good"
              exampleDecoded exampleBody exampleHeaders `"good" exampleDecoded
              Hpost eq_refl eq_refl eq_refl eq_refl eq_refl eq_refl)
    as (inputData & testTypes & generated & rows & views & _ & _ & _ & Hne
        & Hmap & Hrows & Hf2 & _ & Hget & Hread).
  split.
  { intros ->. apply Hne. now rewrite <- Hmap. }
  exists rows, views. split; [exact Hrows|].
  split; [symmetry; exact (Forall2_length Hf2)|].
  split; [exact Hget|].
  intros saved Hin.
  destruct (Hread saved Hin)
    as (view & now & Hv & Hid & _ & _ & parsed & Hp & _ & Hd & Hc & Hdep).
  exists view, parsed. repeat split; assumption.
Defined.



Lemma extractJson_brace_region_witness :
  extractJsonFromResponse fencedAnswer = text ["{"; "  {}"; "}"]%string.
Proof.
  pose proof (extractJson_brace_region fencedAnswer 22 29
                ltac:(vm_compute; reflexivity) ltac:(vm_compute; reflexivity)
                ltac:(lia)) as H.
  cbn zeta in H. destruct H as (_ & H & _).
  rewrite (H 2); [vm_compute; reflexivity | vm_compute; lia | reflexivity |].
  intros k' Hk. destruct k' as [|[|k']]; [discriminate | discriminate | lia].
Defined.

(* ===================================================================== *)
(** * Further properties of the code *)
(* ===================================================================== *)

Lemma noBearer_bearer h : noBearer h -> Auth.bearer h = None.
Proof.
  unfold noBearer, Auth.bearer. destruct h as [h|]; [|reflexivity].
  intros ->. reflexivity.
Qed.

(** X1: a request without a bearer token is answered with status 401 by
    the three handlers, and nothing at all happens: the clock is not
    read, the model is not called, the database is not touched. *)
Theorem no_token_no_work w st hdrs (body : outcome GenerateTestsBody)
        (body' : outcome ExecutionsBody) :
  noBearer (authorization hdrs) ->
  GenerateTests.POST w (mkRequest_ hdrs body) st
  = (Ok (Error 401 `"No token provided"), st)
  /\ TestCasesRoute.GET w hdrs st = (Ok (Error 401 `"No token provided"), st)
  /\ Executions.POST w (mkRequest_ hdrs body') st
     = (Ok (Error 401 `"No token provided"), st).
Proof.
  intros H. apply noBearer_bearer in H.
  unfold GenerateTests.POST, TestCasesRoute.GET, Executions.POST, tryCatch.
  cbn [headers]. rewrite H. repeat split.
Qed.

Lemma no_token_no_work_witness :
  GenerateTests.POST (exampleWorld modelDown)
    (mkRequest_ anonymousHeaders (Ok exampleBody)) (exampleState 0)
  = (Ok (Error 401 `"No token provided"), exampleState 0)
  /\ TestCasesRoute.GET (exampleWorld modelDown) anonymousHeaders
       (exampleState 0)
     = (Ok (Error 401 `"No token provided"), exampleState 0)
  /\ Executions.POST (exampleWorld modelDown)
       (mkRequest_ anonymousHeaders
          (Ok (mkExecutionsBody (Some [`"t0"]) None))) (exampleState 0)
     = (Ok (Error 401 `"No token provided"), exampleState 0).
Proof.
  apply (no_token_no_work (exampleWorld modelDown) (exampleState 0)
           anonymousHeaders (Ok exampleBody)
           (Ok (mkExecutionsBody (Some [`"t0"]) None))).
  exact I.
Defined.

(** X2: a bearer token that [jwt.verify] refuses is answered with status
    401 by the three handlers; the body of the request is not read, the
    model is not called and the database is not touched: only the clock
    was read, once. *)
Theorem invalid_token_no_work w st hdrs token e
        (body : outcome GenerateTestsBody) (body' : outcome ExecutionsBody) :
  Auth.bearer (authorization hdrs) = Some token ->
  jwt_verify w (clock w (clockReads st)) token (Auth.JWT_SECRET w) = Throw e ->
  GenerateTests.POST w (mkRequest_ hdrs body) st
  = (Ok (Error 401 `"Invalid token"), ticked st)
  /\ TestCasesRoute.GET w hdrs st = (Ok (Error 401 `"Invalid token"), ticked st)
  /\ Executions.POST w (mkRequest_ hdrs body') st
     = (Ok (Error 401 `"Invalid token"), ticked st).
Proof.
  intros Hb Hv.
  unfold GenerateTests.POST, TestCasesRoute.GET, Executions.POST, tryCatch, bind.
  cbn [headers]. rewrite Hb, verifyToken_run, Hv. repeat split.
Qed.

Lemma invalid_token_no_work_witness :
  GenerateTests.POST (exampleWorld modelDown)
    (mkRequest_ forgedHeaders (Ok exampleBody)) (exampleState 0)
  = (Ok (Error 401 `"Invalid token"), ticked (exampleState 0))
  /\ TestCasesRoute.GET (exampleWorld modelDown) forgedHeaders (exampleState 0)
     = (Ok (Error 401 `"Invalid token"), ticked (exampleState 0))
  /\ Executions.POST (exampleWorld modelDown)
       (mkRequest_ forgedHeaders
          (Ok (mkExecutionsBody (Some [`"t0"]) None))) (exampleState 0)
     = (Ok (Error 401 `"Invalid token"), ticked (exampleState 0)).
Proof.
  apply (invalid_token_no_work (exampleWorld modelDown) (exampleState 0)
           forgedHeaders `"forged" (JsError `"invalid token") (Ok exampleBody)
           (Ok (mkExecutionsBody (Some [`"t0"]) None)));
    reflexivity.
Defined.

(** X3: an authenticated generation request without input data or
    without test kinds is answered with status 400, and one whose input
    data is longer than 5000 units with status 400 too; in both cases
    neither the database is read nor the pipeline entered. *)
Theorem invalid_body_rejected w st request token decoded body :
  Auth.bearer (authorization (headers request)) = Some token ->
  jwt_verify w (clock w (clockReads st)) token (Auth.JWT_SECRET w)
  = Ok decoded ->
  json request = Ok body ->
  (missingInput body ->
   GenerateTests.POST w request st
   = (Ok (Error 400 requiredMessage), ticked st))
  /\ (forall inputData,
         ~ missingInput body ->
         b_inputData body = Some inputData -> 5000 < length inputData ->
         GenerateTests.POST w request st
         = (Ok (Error 400 tooLargeMessage), ticked st)).
Proof.
  intros Hb Hv Hj.
  unfold GenerateTests.POST, tryCatch, bind.
  rewrite Hb, verifyToken_run, Hv. unfold lift. rewrite Hj.
  split.
  - intros [H|[H|[H|H]]]; rewrite H; try reflexivity;
      destruct (b_inputData body) as [[|c d]|]; reflexivity.
  - intros inputData Hm Hi Hlen. rewrite Hi.
    destruct inputData as [|c d]; [cbn in Hlen; lia|].
    destruct (b_testTypes body) as [[|k ks]|] eqn:Ht.
    + exfalso. apply Hm. unfold missingInput. auto.
    + destruct (Nat.ltb_spec 5000 (length (c :: d))); [reflexivity | lia].
    + exfalso. apply Hm. unfold missingInput. auto.
Qed.

Lemma invalid_body_rejected_witness :
  GenerateTests.POST (exampleWorld modelDown)
    (mkRequest_ exampleHeaders (Ok emptyBody)) (exampleState 0)
  = (Ok (Error 400 requiredMessage), ticked (exampleState 0)).
Proof.
  apply (proj1 (invalid_body_rejected (exampleWorld modelDown) (exampleState 0)
                  (mkRequest_ exampleHeaders (Ok emptyBody)) `"good"
                  exampleDecoded emptyBody eq_refl eq_refl eq_refl)).
  left. reflexivity.
Defined.

(** X4: a valid token whose user has no row in [users] makes the
    generation handler fail on [user.plan]: the answer is status 500
    with the generic message, and the pipeline is not entered. *)
Theorem missing_user_row_fails w st request token decoded body :
  Auth.bearer (authorization (headers request)) = Some token ->
  jwt_verify w (clock w (clockReads st)) token (Auth.JWT_SECRET w)
  = Ok decoded ->
  json request = Ok body ->
  wellFormed body ->
  Database.selectUser (db st) (id decoded) = None ->
  GenerateTests.POST w request st
  = (Ok (GenerationFailed failedMessage), ticked st)
  /\ status (GenerationFailed failedMessage) = 500%Z.
Proof.
  intros Hb Hv Hj (inputData & testTypes & Hi & Hne & Hlen & Ht & Hne') Hu.
  split; [|reflexivity].
  unfold GenerateTests.POST, tryCatch, bind.
  rewrite Hb, verifyToken_run, Hv. unfold lift. rewrite Hj, Hi, Ht.
  destruct inputData as [|c d]; [congruence|].
  destruct testTypes as [|k ks]; [congruence|].
  destruct (Nat.ltb_spec 5000 (length (c :: d))); [lia|].
  unfold getDb. cbn [db ticked]. rewrite Hu. reflexivity.
Qed.

Lemma missing_user_row_fails_witness :
  GenerateTests.POST (exampleWorld modelDown) exampleRequest noUsersState
  = (Ok (GenerationFailed failedMessage), ticked noUsersState)
  /\ status (GenerationFailed failedMessage) = 500%Z.
Proof.
  apply (missing_user_row_fails (exampleWorld modelDown) noUsersState
           exampleRequest `"good" exampleDecoded exampleBody
           eq_refl eq_refl eq_refl);
    [|reflexivity].
  exists `"As a user, I want to login to the system", [`"unit"].
  repeat split; try discriminate. vm_compute. lia.
Defined.

Lemma onError_status e :
  In (status (GenerateTests.onError e)) [429; 500]%Z.
Proof.
  unfold GenerateTests.onError.
  destruct (isError e && _); [cbn; auto|].
  destruct (isError e && _); [cbn; auto|].
  destruct (isError e && _); cbn; auto.
Qed.

(** X5: no handler throws. Whatever the request, the world and the
    state, each of the three handlers returns a response; the status of
    the generation handler is 200, 400, 401, 429 or 500, that of the
    listing 200, 401 or 500, that of the execution handler 200, 400, 401
    or 500. *)
Theorem handlers_always_answer w st (request : Request GenerateTestsBody)
        hdrs (request' : Request ExecutionsBody) :
  (exists r st', GenerateTests.POST w request st = (Ok r, st')
                 /\ In (status r) generateStatuses)
  /\ (exists r st', TestCasesRoute.GET w hdrs st = (Ok r, st')
                    /\ In (status r) listStatuses)
  /\ (exists r st', Executions.POST w request' st = (Ok r, st')
                    /\ In (status r) executeStatuses).
Proof.
  split; [|split].
  - unfold GenerateTests.POST, tryCatch.
    match goal with
    | |- context [match ?m st with _ => _ end] => destruct (m st) as [[r|e] st'] eqn:Hm
    end.
    + exists r, st'. split; [reflexivity|].
      revert Hm. unfold bind, ret, throw, lift, getDb.
      destruct (Auth.bearer _); [|intros [= <- <-]; cbn; auto].
      rewrite verifyToken_run.
      destruct (jwt_verify _ _ _ _); [|intros [= <- <-]; cbn; auto].
      destruct (json request) as [body|]; [|discriminate].
      destruct (b_inputData body) as [[|c d]|]; try (intros [= <- <-]; cbn; auto 10).
      destruct (b_testTypes body) as [[|k ks]|]; try (intros [= <- <-]; cbn; auto 10).
      destruct (5000 <? _); [intros [= <- <-]; cbn; auto|].
      destruct (Database.selectUser _ _); [|discriminate].
      destruct (GenerateTests.reached _ _); [intros [= <- <-]; cbn; auto 10|].
      destruct (generateTestCases _ _ _) as [[g|] s1]; [|discriminate].
      destruct (GenerateTests.saveTests _ _ _ _ _ _ _) as [[sv|] s2]; [|discriminate].
      destruct (Database.insertAuditLog _ _ _ _ _ _ _) as [[[]|] s3]; [|discriminate].
      intros [= <- <-]. cbn. auto.
    + unfold ret. exists (GenerateTests.onError e), st'. split; [reflexivity|].
      pose proof (onError_status e) as H. cbn in H |- *. intuition.
  - unfold TestCasesRoute.GET, tryCatch, bind, ret, getDb.
    destruct (Auth.bearer _); [|do 2 eexists; split; [reflexivity|cbn; auto]].
    rewrite verifyToken_run.
    destruct (jwt_verify _ _ _ _); do 2 eexists; (split; [reflexivity|cbn; auto]).
  - unfold Executions.POST, tryCatch.
    match goal with
    | |- context [match ?m st with _ => _ end] => destruct (m st) as [[r|e] st'] eqn:Hm
    end.
    + exists r, st'. split; [reflexivity|].
      revert Hm. unfold bind, ret, lift.
      destruct (Auth.bearer _); [|intros [= <- <-]; cbn; auto].
      rewrite verifyToken_run.
      destruct (jwt_verify _ _ _ _); [|intros [= <- <-]; cbn; auto].
      destruct (json request') as [body|]; [|discriminate].
      destruct (b_testCaseIds body) as [[|k ks]|]; try (intros [= <- <-]; cbn; auto 10).
      destruct (Executions.execute _ _ _ _ _ _) as [[ex|] s1]; [|discriminate].
      intros [= <- <-]. cbn. auto.
    + unfold ret. do 2 eexists. split; [reflexivity|cbn; auto].
Qed.

Lemma length_insertDesc {A} (key : A -> N) x l :
  length (Database.insertDesc key x l) = S (length l).
Proof.
  induction l as [|y l IH]; cbn; [reflexivity|].
  destruct (key y <? key x)%N; cbn; [reflexivity|]. now rewrite IH.
Qed.

Lemma length_orderByDesc {A} (key : A -> N) l :
  length (Database.orderByDesc key l) = length l.
Proof.
  unfold Database.orderByDesc.
  assert (H : forall acc,
             length (fold_left (fun acc x => Database.insertDesc key x acc) l acc)
             = length acc + length l).
  { induction l as [|x l IH]; intros acc; cbn; [lia|].
    rewrite IH, length_insertDesc. lia. }
  rewrite H. reflexivity.
Qed.

Lemma descending_cons a l :
  descending (a :: l) <->
  (match l with b :: _ => (b <= a)%N | [] => True end) /\ descending l.
Proof. destruct l; cbn; tauto. Qed.

Lemma insertDesc_descending {A} (key : A -> N) x l :
  descending (map key l) -> descending (map key (Database.insertDesc key x l)).
Proof.
  induction l as [|y l IH]; [cbn; auto|].
  intros Hd. cbn [Database.insertDesc].
  destruct (N.ltb_spec (key y) (key x)) as [Hlt|Hge].
  - cbn [map]. apply descending_cons. split; [lia|exact Hd].
  - cbn [map] in *. apply descending_cons in Hd. destruct Hd as [Hh Hd].
    apply descending_cons. split; [|apply IH; exact Hd].
    destruct l as [|z l]; cbn; [exact Hge|].
    destruct (key z <? key x)%N; cbn; [exact Hge|exact Hh].
Qed.

Lemma orderByDesc_descending {A} (key : A -> N) l :
  descending (map key (Database.orderByDesc key l)).
Proof.
  unfold Database.orderByDesc.
  assert (H : forall acc,
             descending (map key acc) ->
             descending
               (map key (fold_left (fun acc x => Database.insertDesc key x acc)
                           l acc))).
  { induction l as [|x l IH]; intros acc Hacc; cbn; [exact Hacc|].
    apply IH, insertDesc_descending, Hacc. }
  apply H. exact I.
Qed.

(** X6: the listing of test cases answers an
    authenticated user with the rows that this user created -- those
    whose creator is the identifier of the token, in the form that the
    database keeps --, all of them and no other, the latest first, and
    leaves the database as it is. *)
Theorem own_test_cases_listed w hdrs st token decoded :
  Auth.bearer (authorization hdrs) = Some token ->
  jwt_verify w (clock w (clockReads st)) token (Auth.JWT_SECRET w)
  = Ok decoded ->
  exists views,
    TestCasesRoute.GET w hdrs st = (Ok (TestCases views), ticked st)
    /\ (forall r,
           In r (map row views)
           <-> In r (test_cases (db st))
               /\ tc_created_by r = Database.stored (id decoded))
    /\ length views = Database.countTestCases (db st) (id decoded)
    /\ descending (map (fun v => tc_created_at (row v)) views).
Proof.
  intros Hb Hv. rewrite (GET_run w hdrs st token decoded Hb Hv).
  eexists. split; [reflexivity|]. split; [|split].
  - intros r. rewrite in_map_iff. split.
    + intros (v & <- & Hin). apply in_selectTestCases in Hin.
      destruct Hin as (r & Hin & Hu & ->). auto.
    + intros [Hin Hu]. eexists. split; [|apply in_selectTestCases; eauto].
      reflexivity.
  - unfold TestCasesRoute.selectTestCases, Database.countTestCases.
    now rewrite length_map, length_orderByDesc.
  - unfold TestCasesRoute.selectTestCases. rewrite map_map. cbn [row].
    apply orderByDesc_descending.
Qed.

Lemma own_test_cases_listed_witness :
  exists views,
    TestCasesRoute.GET (exampleWorld modelDown) exampleHeaders sharedState
    = (Ok (TestCases views), ticked sharedState)
    /\ (forall r,
           In r (map row views)
           <-> In r (test_cases (db sharedState))
               /\ tc_created_by r = id exampleDecoded)
    /\ length views
       = Database.countTestCases (db sharedState) (id exampleDecoded)
    /\ descending (map (fun v => tc_created_at (row v)) views).
Proof.
  apply (own_test_cases_listed (exampleWorld modelDown) exampleHeaders
           sharedState `"good" exampleDecoded);
    reflexivity.
Defined.

(** ** The execution handler *)

Lemma POST_executed w request st executions msg st' :
  Executions.POST w request st = (Ok (Executed executions msg), st') ->
  exists token decoded body testCaseIds,
    Auth.bearer (authorization (headers request)) = Some token
    /\ jwt_verify w (clock w (clockReads st)) token (Auth.JWT_SECRET w)
       = Ok decoded
    /\ json request = Ok body
    /\ b_testCaseIds body = Some testCaseIds
    /\ Executions.execute w (id decoded) (b_environment body) testCaseIds []
         (ticked st)
       = (Ok executions, st').
Proof.
  unfold Executions.POST, tryCatch, bind, ret, lift.
  destruct (Auth.bearer _) as [token|] eqn:Hb; [|discriminate].
  rewrite verifyToken_run.
  destruct (jwt_verify _ _ _ _) as [decoded|] eqn:Hv; [|discriminate].
  destruct (json request) as [body|] eqn:Hj; [|discriminate].
  destruct (b_testCaseIds body) as [[|k ks]|] eqn:Hi; try discriminate.
  destruct (Executions.execute _ _ _ _ _ _) as [[ex|] s1] eqn:He; [|discriminate].
  intros [= <- <- <-]. exists token, decoded, body, (k :: ks). auto.
Qed.

Lemma execute_logs w uid env :
  forall testCaseIds acc st out st',
    Executions.execute w uid env testCaseIds acc st = (Ok out, st') ->
    Forall logsAgree acc -> Forall logsAgree out.
Proof.
  induction testCaseIds as [|tid rest IH]; intros acc st out st'.
  - cbn. unfold ret. intros [= <- <-]. auto.
  - cbn [Executions.execute]. unfold bind at 1.
    destruct (generateId_run w st) as (eid & st1 & -> & Hdb1).
    unfold bind at 1.
    destruct (mathRandom_run w st1) as (r1 & st2 & -> & Hdb2).
    unfold bind at 1.
    destruct (mathRandom_run w st2) as (r2 & st3 & -> & Hdb3).
    unfold bind at 1.
    match goal with
    | |- context [Database.insertExecution ?a ?b ?c ?d ?e ?f ?g ?h ?s] =>
        destruct (Database.insertExecution a b c d e f g h s) as [[[]|] st4]
    end; [|discriminate].
    intros Hrest Hacc. apply (IH _ _ _ _ Hrest).
    apply Forall_app. split; [exact Hacc|]. constructor; [|constructor].
    unfold logsAgree. cbn [ex_status ex_logs].
    destruct (Executions.gtOneFifth r2); [left|right]; split; reflexivity.
Qed.

Lemma in_selectExecutions d uid v :
  In v (ExecutionsList.selectExecutions d uid)
  <-> exists te tc,
      In te (test_executions d) /\ In tc (test_cases d)
      /\ tc_id tc = te_test_case_id te
      /\ tc_created_by tc = Database.stored uid
      /\ v = ExecutionsList.mkExecutionView te (tc_name tc).
Proof.
  unfold ExecutionsList.selectExecutions.
  rewrite in_orderByDesc, in_flat_map. split.
  - intros (te & Hte & Hin). apply in_map_iff in Hin.
    destruct Hin as (tc & <- & Hin). apply filter_In in Hin.
    destruct Hin as [Htc Hb]. apply andb_true_iff in Hb.
    destruct Hb as [H1 H2]. apply eqb_eq in H1. apply eqb_eq in H2.
    exists te, tc. auto.
  - intros (te & tc & Hte & Htc & H1 & H2 & ->).
    exists te. split; [exact Hte|]. apply in_map_iff. exists tc.
    split; [reflexivity|]. apply filter_In. split; [exact Htc|].
    rewrite H1, H2, !eqb_refl. reflexivity.
Qed.

Lemma list_GET_run w hdrs st token decoded :
  Auth.bearer (authorization hdrs) = Some token ->
  jwt_verify w (clock w (clockReads st)) token (Auth.JWT_SECRET w) = Ok decoded ->
  ExecutionsList.GET w hdrs st
  = (Ok (ExecutionsList.ExecutionList
           (ExecutionsList.selectExecutions (db st) (id decoded))),
     ticked st).
Proof.
  intros Hb Hv. unfold ExecutionsList.GET, tryCatch, bind.
  rewrite Hb, verifyToken_run, Hv. reflexivity.
Qed.

(** X7: the execution handler does not ask who
    owns a test case. After a successful request, each execution that it
    created is listed, with the user who triggered it, for every user
    who created the test case that was executed; and a listing shows a
    user only executions of test cases that this user created, the
    latest first. Identifiers are compared in the form that the
    database keeps. *)
Theorem executions_follow_owner
        w request st executions msg st' token decoded hdrs token' viewer :
  Executions.POST w request st = (Ok (Executed executions msg), st') ->
  Auth.bearer (authorization (headers request)) = Some token ->
  jwt_verify w (clock w (clockReads st)) token (Auth.JWT_SECRET w)
  = Ok decoded ->
  Auth.bearer (authorization hdrs) = Some token' ->
  jwt_verify w (clock w (clockReads st')) token' (Auth.JWT_SECRET w)
  = Ok viewer ->
  exists views,
    ExecutionsList.GET w hdrs st'
    = (Ok (ExecutionsList.ExecutionList views), ticked st')
    /\ (forall v,
           In v views ->
           exists tc,
             In tc (test_cases (db st))
             /\ tc_id tc = te_test_case_id (ExecutionsList.execution v)
             /\ tc_created_by tc = Database.stored (id viewer)
             /\ ExecutionsList.test_name v = tc_name tc)
    /\ (forall e tc,
           In e executions ->
           In tc (test_cases (db st)) ->
           tc_id tc = Database.stored (ex_test_case_id e) ->
           tc_created_by tc = Database.stored (id viewer) ->
           exists v,
             In v views
             /\ te_id (ExecutionsList.execution v)
                = Database.stored (ex_id e)
             /\ te_triggered_by (ExecutionsList.execution v)
                = Database.stored (id decoded)
             /\ ExecutionsList.test_name v = tc_name tc)
    /\ descending
         (map (fun v => te_created_at (ExecutionsList.execution v)) views).
Proof.
  intros Hpost Hb Hv Hb' Hv'.
  destruct (POST_executed _ _ _ _ _ _ Hpost)
    as (token1 & decoded1 & body & ids & Hb1 & Hv1 & Hj & Hi & He).
  rewrite Hb in Hb1. injection Hb1 as <-.
  rewrite Hv in Hv1. injection Hv1 as <-.
  destruct (execute_spec _ _ _ _ _ _ _ _ He)
    as (execs & rows & Hte & _ & Htc & Hf2 & _ & _ & _ & _ & Hout).
  change (db (ticked st)) with (db st) in *.
  destruct Hout as [(Heq & _)|(e & tid & eid & Heq & _)]; [|discriminate].
  injection Heq as Heq. cbn [app] in Heq. subst execs.
  rewrite (list_GET_run w hdrs st' token' viewer Hb' Hv').
  eexists. split; [reflexivity|]. split; [|split].
  - intros v Hin. apply in_selectExecutions in Hin.
    destruct Hin as (te & tc & _ & Hin & H1 & H2 & ->).
    exists tc. rewrite <- Htc. auto.
  - intros e tc Hin Htcin Hid Hown.
    destruct (Forall2_In_left _ _ _ _ Hf2 Hin) as (r & Hr & Hrow).
    destruct Hrow as (H1 & H2 & _ & _ & _ & H6 & _).
    exists (ExecutionsList.mkExecutionView r (tc_name tc)).
    split; [|cbn; auto].
    apply in_selectExecutions. exists r, tc.
    repeat split; try congruence.
    rewrite Hte. apply in_or_app. now right.
  - unfold ExecutionsList.selectExecutions.
    apply (orderByDesc_descending
             (fun v => te_created_at (ExecutionsList.execution v))).
Qed.

Lemma executions_follow_owner_witness :
  exists executions st',
    (exists msg,
        Executions.POST twoUsersWorld foreignIdRequest sharedState
        = (Ok (Executed executions msg), st'))
    /\ executions <> []
    /\ (forall e, In e executions ->
          exists views v,
            ExecutionsList.GET twoUsersWorld otherHeaders st'
            = (Ok (ExecutionsList.ExecutionList views), ticked st')
            /\ In v views
            /\ te_id (ExecutionsList.execution v)
               = Database.stored (ex_id e)
            /\ te_triggered_by (ExecutionsList.execution v) = `"u1")
    /\ exists views,
        ExecutionsList.GET twoUsersWorld exampleHeaders st'
        = (Ok (ExecutionsList.ExecutionList views), ticked st')
        /\ forall v, In v views ->
             te_test_case_id (ExecutionsList.execution v) <> `"o0".
Proof.
  assert (Hrun : exists executions msg st',
             Executions.POST twoUsersWorld foreignIdRequest sharedState
             = (Ok (Executed executions msg), st')
             /\ map ex_test_case_id executions = [`"o0"]).
  { vm_compute. do 3 eexists. split; reflexivity. }
  destruct Hrun as (executions & msg & st' & Hpost & Hids).
  exists executions, st'. split; [eauto|].
  split; [destruct executions; [discriminate Hids|discriminate]|].
  split.
  - intros e Hin.
    destruct (executions_follow_owner twoUsersWorld foreignIdRequest
                sharedState executions msg st' `"good" exampleDecoded
                otherHeaders `"other" otherDecoded Hpost
                eq_refl eq_refl eq_refl eq_refl)
      as (views & Hget & _ & Hlisted & _).
    destruct (Hlisted e otherRow Hin) as (v & Hv & H1 & H2 & _).
    + cbn. auto.
    + destruct executions as [|e0 [|e1 l]]; try discriminate Hids.
      injection Hids as Hids. destruct Hin as [<-|[]]. cbn. now rewrite Hids.
    + reflexivity.
    + exists views, v. auto.
  - destruct (executions_follow_owner twoUsersWorld foreignIdRequest
                sharedState executions msg st' `"good" exampleDecoded
                exampleHeaders `"good" exampleDecoded Hpost
                eq_refl eq_refl eq_refl eq_refl)
      as (views & Hget & Honly & _).
    exists views. split; [exact Hget|].
    intros v Hin Heq. destruct (Honly v Hin) as (tc & Htc & Hid & Hown & _).
    rewrite Heq in Hid. cbn in Htc.
    destruct Htc as [<-|[<-|[<-|[]]]]; vm_compute in Hid, Hown; discriminate.
Defined.

Section Steps.

Variable R : State -> State -> Prop.
Hypothesis R_refl : forall st, R st st.
Hypothesis R_trans : forall a b c, R a b -> R b c -> R a c.

Lemma steps_ret {A} (a : A) : steps R (ret a).
Proof. intros st. apply R_refl. Qed.

Lemma steps_throw {A} e : steps R (@throw A e).
Proof. intros st. apply R_refl. Qed.

Lemma steps_lift {A} (o : outcome A) : steps R (lift o).
Proof. intros st. apply R_refl. Qed.

Lemma steps_getDb : steps R getDb.
Proof. intros st. apply R_refl. Qed.

Lemma steps_bind {A B} (m : M A) (k : A -> M B) :
  steps R m -> (forall a, steps R (k a)) -> steps R (bind m k).
Proof.
  intros Hm Hk st. unfold bind. specialize (Hm st).
  destruct (m st) as [[a|e] st1]; cbn [snd] in *; [|assumption].
  eapply R_trans; [exact Hm|apply Hk].
Qed.

Lemma steps_tryCatch {A} (m : M A) (h : exn -> M A) :
  steps R m -> (forall e, steps R (h e)) -> steps R (tryCatch m h).
Proof.
  intros Hm Hh st. unfold tryCatch. specialize (Hm st).
  destruct (m st) as [[a|e] st1]; cbn [snd] in *; [assumption|].
  eapply R_trans; [exact Hm|apply Hh].
Qed.

Ltac steps_tac :=
  repeat first
    [ apply steps_ret | apply steps_throw | apply steps_lift
    | apply steps_getDb | assumption
    | apply steps_bind; [|intros]
    | apply steps_tryCatch; [|intros]
    | match goal with
      | H : forall x, steps R _ |- _ => apply H
      | H : forall x y, steps R _ |- _ => apply H
      | |- steps R (if ?b then _ else _) => destruct b
      | |- steps R (match ?x with _ => _ end) => destruct x
      | |- steps R (let (_, _) := ?x in _) => destruct x
      end ].

(** The pipeline acts on the state by calls of the model only. *)
Hypothesis R_call : forall w site, steps R (generateText w site).
Hypothesis R_enter : steps R enterPipeline.

Lemma steps_analyze w request : steps R (analyze w request).
Proof.
  unfold analyze, analyzeGitRepository, analyzePostmanCollection,
    analyzeWebPage, analyzeUploadedFiles, analyzeInput, parseResponse.
  steps_tac.
Qed.

Lemma steps_generateForClasses w request analysis classes :
  forall tests, steps R (generateForClasses w request analysis classes tests).
Proof.
  induction classes as [|c cs IH]; intros tests; cbn [generateForClasses];
    [steps_tac|].
  apply steps_bind; [unfold generateForClass; steps_tac | intros; apply IH].
Qed.

Lemma steps_generateSpecificTestType w request k analysis :
  steps R (generateSpecificTestType w request k analysis).
Proof.
  unfold generateSpecificTestType, generateProjectLevelUnitTests,
    generateSingleUnitTest, generateSingleBDDTest, generateSingleAPITest,
    generateSingleUITest, generateSinglePerformanceTest, generateSingle.
  steps_tac; apply steps_generateForClasses.
Qed.

Lemma steps_generateForTypes w request useAI analysis kinds :
  forall tests,
    steps R (generateForTypes w request useAI analysis kinds tests).
Proof.
  induction kinds as [|k ks IH]; intros tests; cbn [generateForTypes];
    [steps_tac|].
  apply steps_bind; [|intros; apply IH].
  unfold generateForType. steps_tac; apply steps_generateSpecificTestType.
Qed.

Lemma steps_generateTestCases w request :
  steps R (generateTestCases w request).
Proof.
  unfold generateTestCases.
  apply steps_bind; [exact R_enter|intros _].
  apply steps_bind; [apply steps_analyze|intros [analysis useAI]].
  apply steps_bind; [apply steps_generateForTypes|intros tests].
  steps_tac.
Qed.

End Steps.

Lemma pipelineStep_refl st : pipelineStep st st.
Proof. repeat split. exists []. reflexivity. Qed.

Lemma pipelineStep_trans a b c :
  pipelineStep a b -> pipelineStep b c -> pipelineStep a c.
Proof.
  intros (H1 & H2 & H3 & l & H4) (K1 & K2 & K3 & l' & K4).
  repeat split; try congruence.
  exists (l' ++ l). rewrite K4, H4, app_assoc. reflexivity.
Qed.

(** X8: [generateTestCases] has no effect but
    its calls of the model: it does not touch the database, draws no
    random number and does not read the clock, and the log of the calls
    made before is kept. *)
Theorem pipeline_only_calls_model w request st :
  pipelineStep st (snd (generateTestCases w request st)).
Proof.
  revert st. change (steps pipelineStep (generateTestCases w request)).
  apply steps_generateTestCases.
  - exact pipelineStep_refl.
  - exact pipelineStep_trans.
  - intros w' site st. repeat split. exists [site]. reflexivity.
  - intros st. repeat split. exists []. reflexivity.
Qed.

(** ** The handlers *)

Ltac frame Hrefl Htrans :=
  repeat first
    [ apply (steps_ret _ Hrefl) | apply (steps_throw _ Hrefl)
    | apply (steps_lift _ Hrefl) | apply (steps_getDb _ Hrefl)
    | assumption
    | apply (steps_bind _ Htrans); [|intros]
    | apply (steps_tryCatch _ Htrans); [|intros]
    | match goal with
      | |- steps _ (if ?b then _ else _) => destruct b
      | |- steps _ (match ?x with _ => _ end) => destruct x
      end ].

Lemma generationStep_same st st' : db st' = db st -> generationStep st st'.
Proof.
  intros H. unfold generationStep. rewrite H.
  repeat split; exists []; now rewrite app_nil_r.
Qed.

Lemma generationStep_trans a b c :
  generationStep a b -> generationStep b c -> generationStep a c.
Proof.
  intros (H1 & H2 & H3 & (r & H4) & (l & H5))
         (K1 & K2 & K3 & (r' & K4) & (l' & K5)).
  repeat split; try congruence.
  - exists (r ++ r'). rewrite K4, H4, app_assoc. reflexivity.
  - exists (l ++ l'). rewrite K5, H5, app_assoc. reflexivity.
Qed.

Lemma generation_readClock w : steps generationStep (readClock w).
Proof. intros st. now apply generationStep_same. Qed.

Lemma generation_mathRandom w : steps generationStep (mathRandom w).
Proof. intros st. now apply generationStep_same. Qed.

Lemma generation_pipeline w request :
  steps generationStep (generateTestCases w request).
Proof.
  intros st. apply generationStep_same.
  apply (pres_generateTestCases w request st).
Qed.

Lemma generation_insertTestCase w tid pid name ty content src model uid meta :
  steps generationStep
    (Database.insertTestCase w tid pid name ty content src model uid meta).
Proof.
  intros st.
  unfold Database.insertTestCase, Database.datetimeNow, bind, readClock, ret.
  cbn [db].
  destruct (Database.hasTestCase (db st) tid);
    [now apply generationStep_same|].
  destruct (negb _); [now apply generationStep_same|].
  cbn. repeat split; [eexists; reflexivity|exists []; now rewrite app_nil_r].
Qed.

Lemma generation_insertAuditLog uid action rt rid ip ua :
  steps generationStep (Database.insertAuditLog uid action rt rid ip ua).
Proof.
  intros st. unfold Database.insertAuditLog.
  destruct (negb _); [now apply generationStep_same|].
  cbn. repeat split; [exists []; now rewrite app_nil_r|eexists; reflexivity].
Qed.

Lemma generation_verifyToken w token :
  steps generationStep (Auth.verifyToken w token).
Proof.
  intros st. rewrite verifyToken_run. now apply generationStep_same.
Qed.

Lemma generation_generateId w : steps generationStep (Database.generateId w).
Proof.
  intros st. destruct (generateId_run w st) as (tid & st' & -> & H).
  now apply generationStep_same.
Qed.

Lemma generation_saveTests w body inputData uid generated :
  forall saved,
    steps generationStep
      (GenerateTests.saveTests w body inputData uid generated saved).
Proof.
  pose proof (fun st => generationStep_same st st eq_refl) as Hrefl.
  induction generated as [|t rest IH]; intros saved;
    cbn [GenerateTests.saveTests]; [frame Hrefl generationStep_trans|].
  apply (steps_bind _ generationStep_trans);
    [apply generation_generateId|intros tid].
  apply (steps_bind _ generationStep_trans);
    [apply generation_readClock|intros now].
  apply (steps_bind _ generationStep_trans);
    [apply generation_insertTestCase|intros _]. apply IH.
Qed.

(** X9: whatever its answer, the generation
    handler only adds rows to [test_cases] and [audit_logs]: the rows
    that exist stay as they are, in their order, and the users, the
    projects and the executions are not touched. *)
Theorem generation_only_appends w request st :
  generationStep st (snd (GenerateTests.POST w request st)).
Proof.
  pose proof (fun st => generationStep_same st st eq_refl) as Hrefl.
  revert st. change (steps generationStep (GenerateTests.POST w request)).
  unfold GenerateTests.POST.
  apply (steps_tryCatch _ generationStep_trans);
    [|intros; apply (steps_ret _ Hrefl)].
  destruct (Auth.bearer _); [|apply (steps_ret _ Hrefl)].
  apply (steps_bind _ generationStep_trans);
    [apply generation_verifyToken|intros [decoded|]];
    [|apply (steps_ret _ Hrefl)].
  apply (steps_bind _ generationStep_trans);
    [apply (steps_lift _ Hrefl)|intros body].
  destruct (b_inputData body) as [[|c d]|]; try apply (steps_ret _ Hrefl).
  destruct (b_testTypes body) as [[|k ks]|]; try apply (steps_ret _ Hrefl).
  destruct (5000 <? _); [apply (steps_ret _ Hrefl)|].
  apply (steps_bind _ generationStep_trans);
    [apply (steps_getDb _ Hrefl)|intros d0].
  destruct (Database.selectUser _ _); [|apply (steps_throw _ Hrefl)].
  destruct (GenerateTests.reached _ _); [apply (steps_ret _ Hrefl)|].
  apply (steps_bind _ generationStep_trans);
    [apply generation_pipeline|intros generated].
  apply (steps_bind _ generationStep_trans);
    [apply generation_saveTests|intros saved].
  apply (steps_bind _ generationStep_trans);
    [apply generation_insertAuditLog|intros _].
  apply (steps_ret _ Hrefl).
Qed.

Lemma executionStep_same st st' :
  db st' = db st -> modelCalls st' = modelCalls st ->
  pipelineRuns st' = pipelineRuns st -> executionStep st st'.
Proof.
  intros H1 H2 H3. unfold executionStep. rewrite H1, H2, H3.
  repeat split. exists []. now rewrite app_nil_r.
Qed.

Lemma executionStep_trans a b c :
  executionStep a b -> executionStep b c -> executionStep a c.
Proof.
  intros (H1 & H2 & H3 & H4 & H5 & H6 & (r & H7))
         (K1 & K2 & K3 & K4 & K5 & K6 & (r' & K7)).
  repeat split; try congruence.
  exists (r ++ r'). rewrite K7, H7, app_assoc. reflexivity.
Qed.

Lemma execution_insertExecution w eid tid status dur env uid logs :
  steps executionStep
    (Database.insertExecution w eid tid status dur env uid logs).
Proof.
  intros st.
  unfold Database.insertExecution, Database.datetimeNow, bind, readClock, ret.
  cbn [db].
  destruct (Database.hasExecution (db st) eid);
    [now apply executionStep_same|].
  destruct (negb _); [now apply executionStep_same|].
  cbn. repeat split. eexists. reflexivity.
Qed.

Lemma execution_execute w uid env ids :
  forall acc, steps executionStep (Executions.execute w uid env ids acc).
Proof.
  pose proof (fun st => executionStep_same st st eq_refl eq_refl eq_refl)
    as Hrefl.
  induction ids as [|tid rest IH]; intros acc; cbn [Executions.execute];
    [apply (steps_ret _ Hrefl)|].
  apply (steps_bind _ executionStep_trans).
  { intros st. unfold Database.generateId, bind, mathRandom, readClock, ret.
    now apply executionStep_same. }
  intros eid.
  apply (steps_bind _ executionStep_trans).
  { intros st. now apply executionStep_same. }
  intros r1.
  apply (steps_bind _ executionStep_trans).
  { intros st. now apply executionStep_same. }
  intros r2.
  apply (steps_bind _ executionStep_trans);
    [apply execution_insertExecution|intros _]. apply IH.
Qed.

(** X10: whatever its answer, the execution handler
    only adds rows to [test_executions]: the rows that exist stay as
    they are, no other table is touched, and no model is called. *)
Theorem execution_only_appends w request st :
  executionStep st (snd (Executions.POST w request st)).
Proof.
  pose proof (fun st => executionStep_same st st eq_refl eq_refl eq_refl)
    as Hrefl.
  revert st. change (steps executionStep (Executions.POST w request)).
  unfold Executions.POST.
  apply (steps_tryCatch _ executionStep_trans);
    [|intros; apply (steps_ret _ Hrefl)].
  destruct (Auth.bearer _); [|apply (steps_ret _ Hrefl)].
  apply (steps_bind _ executionStep_trans).
  { intros st. rewrite verifyToken_run. now apply executionStep_same. }
  intros [decoded|]; [|apply (steps_ret _ Hrefl)].
  apply (steps_bind _ executionStep_trans);
    [apply (steps_lift _ Hrefl)|intros body].
  destruct (b_testCaseIds body) as [[|k ks]|]; try apply (steps_ret _ Hrefl).
  apply (steps_bind _ executionStep_trans);
    [apply execution_execute|intros ex]. apply (steps_ret _ Hrefl).
Qed.

(** X11: every execution that the handler
    returns carries the log text of its status: the three lines of a
    passed test when it passed, those of a failed one when it failed. *)
Theorem execution_logs_follow_status w request st executions msg st' :
  Executions.POST w request st = (Ok (Executed executions msg), st') ->
  Forall logsAgree executions
  /\ msg = `"Tests executed successfully"
  /\ executions <> [].
Proof.
  intros Hpost.
  pose proof Hpost as Hmsg.
  destruct (POST_executed _ _ _ _ _ _ Hpost)
    as (token & decoded & body & ids & Hb & Hv & Hj & Hi & He).
  split; [apply (execute_logs _ _ _ _ _ _ _ _ He); constructor|].
  revert Hmsg. unfold Executions.POST, tryCatch, bind, ret, lift.
  rewrite Hb, verifyToken_run, Hv, Hj, Hi.
  destruct ids as [|k ks]; [discriminate|]. rewrite He.
  intros [= <-]. split; [reflexivity|].
  destruct (execute_spec _ _ _ _ _ _ _ _ He)
    as (execs & rows & _ & _ & _ & _ & _ & _ & _ & _ & Hout).
  destruct Hout as [(Heq & Hlen & _)|(e & tid & eid & Heq & _)];
    [|discriminate].
  injection Heq as ->. cbn [app]. destruct execs; [discriminate|discriminate].
Qed.

Lemma execution_logs_follow_status_witness :
  exists executions msg st',
    Executions.POST (exampleWorld modelDown) storedIdsRequest (exampleState 2)
    = (Ok (Executed executions msg), st')
    /\ Forall logsAgree executions
    /\ msg = `"Tests executed successfully"
    /\ executions <> [].
Proof.
  assert (Hrun : exists executions msg st',
             Executions.POST (exampleWorld modelDown) storedIdsRequest
               (exampleState 2)
             = (Ok (Executed executions msg), st')).
  { vm_compute. do 3 eexists. reflexivity. }
  destruct Hrun as (executions & msg & st' & Hpost).
  exists executions, msg, st'. split; [exact Hpost|].
  apply (execution_logs_follow_status (exampleWorld modelDown)
           storedIdsRequest (exampleState 2) executions msg st' Hpost).
Defined.

(** ** Calls of the model *)

Lemma costs_weaken {A} a b (m : M A) : a <= b -> costs a m -> costs b m.
Proof.
  intros Hab Hm st. destruct (Hm st) as (l & Hl & Hlen).
  exists l. split; [exact Hl|lia].
Qed.

Lemma costs_ret {A} (a : A) : costs 0 (ret a).
Proof. intros st. exists []. split; [reflexivity|cbn; lia]. Qed.

Lemma costs_throw {A} e : costs 0 (@throw A e).
Proof. intros st. exists []. split; [reflexivity|cbn; lia]. Qed.

Lemma costs_lift {A} (o : outcome A) : costs 0 (lift o).
Proof. intros st. exists []. split; [reflexivity|cbn; lia]. Qed.

Lemma costs_generateText w site : costs 1 (generateText w site).
Proof. intros st. exists [site]. split; [reflexivity|cbn; lia]. Qed.

Lemma costs_bind {A B} a b (m : M A) (k : A -> M B) :
  costs a m -> (forall x, costs b (k x)) -> costs (a + b) (bind m k).
Proof.
  intros Hm Hk st. unfold bind. specialize (Hm st).
  destruct (m st) as [[x|e] st1]; cbn [snd] in *.
  - destruct Hm as (l & Hl & Hlen). destruct (Hk x st1) as (l' & Hl' & Hlen').
    exists (l' ++ l). rewrite Hl', Hl, app_assoc, length_app.
    split; [reflexivity|lia].
  - destruct Hm as (l & Hl & Hlen). exists l. split; [exact Hl|lia].
Qed.

Lemma costs_tryCatch {A} a b (m : M A) (h : exn -> M A) :
  costs a m -> (forall e, costs b (h e)) -> costs (a + b) (tryCatch m h).
Proof.
  intros Hm Hh st. unfold tryCatch. specialize (Hm st).
  destruct (m st) as [[x|e] st1]; cbn [snd] in *.
  - destruct Hm as (l & Hl & Hlen). exists l. split; [exact Hl|lia].
  - destruct Hm as (l & Hl & Hlen). destruct (Hh e st1) as (l' & Hl' & Hlen').
    exists (l' ++ l). rewrite Hl', Hl, app_assoc, length_app.
    split; [reflexivity|lia].
Qed.

(** An analysis is one call of the model followed by a parse. *)
Lemma costs_answer w site (fallback : value) :
  costs 1 (tryCatch (text <- generateText w site ;; parseResponse text)
                    (fun _ => ret fallback)).
Proof.
  apply (costs_tryCatch 1 0); [|intros; apply costs_ret].
  apply (costs_bind 1 0); [apply costs_generateText|].
  intros text. apply costs_lift.
Qed.

Lemma costs_analyzeUploadedFiles w files :
  costs 1 (analyzeUploadedFiles w files).
Proof.
  unfold analyzeUploadedFiles.
  apply (costs_tryCatch 1 0); [|intros; apply costs_ret].
  apply (costs_bind 1 0); [apply costs_generateText|intros text].
  apply (costs_bind 0 0); [apply costs_lift|intros analysis].
  apply (costs_bind 0 0); [apply costs_lift|intros s].
  apply (costs_bind 0 0); [apply costs_lift|intros t].
  apply (costs_bind 0 0); [apply costs_lift|intros c].
  apply costs_ret.
Qed.

Lemma costs_analyze w request : costs 1 (analyze w request).
Proof.
  unfold analyze.
  apply (costs_tryCatch 1 0); [|intros; apply costs_ret].
  apply (costs_bind 0 1); [apply costs_lift|intros model].
  apply (costs_bind 1 0); [|intros; apply costs_ret].
  unfold analyzeGitRepository, analyzePostmanCollection, analyzeWebPage,
    analyzeInput.
  repeat match goal with
         | |- costs _ (if ?b then _ else _) => destruct b
         end;
    first [apply costs_answer | apply costs_analyzeUploadedFiles].
Qed.

Lemma costs_generateForClass w request analysis c :
  costs 1 (generateForClass w request analysis c).
Proof.
  unfold generateForClass.
  apply (costs_tryCatch 1 0).
  - apply (costs_bind 0 1); [apply costs_lift|intros _].
    apply (costs_bind 1 0); [apply costs_generateText|intros text].
    apply (costs_bind 0 0); [apply costs_lift|intros cn].
    apply (costs_bind 0 0); [apply costs_lift|intros className].
    apply costs_ret.
  - intros e.
    apply (costs_bind 0 0); [apply costs_lift|intros cn].
    apply (costs_bind 0 0); [apply costs_lift|intros _].
    apply (costs_bind 0 0); [apply costs_lift|intros t]. apply costs_ret.
Qed.

Lemma costs_generateForClasses w request analysis classes :
  forall tests,
    costs (length classes)
      (generateForClasses w request analysis classes tests).
Proof.
  induction classes as [|c cs IH]; intros tests; cbn [generateForClasses length].
  - apply costs_ret.
  - apply (costs_bind 1 (length cs)); [apply costs_generateForClass|].
    intros more. apply IH.
Qed.

Lemma length_codePoints s : length (codePoints s) <= length s.
Proof.
  remember (length s) as n eqn:Hn. revert s Hn.
  induction n as [n IH] using lt_wf_ind. intros s ->.
  destruct s as [|c [|d r]]; [cbn; lia | cbn; lia |].
  change (codePoints (c :: d :: r))
    with (if Json.isHighSurrogate c && Json.isLowSurrogate d
          then [c; d] :: codePoints r else [c] :: codePoints (d :: r)).
  destruct (Json.isHighSurrogate c && Json.isLowSurrogate d); cbn [length].
  - specialize (IH (length r) ltac:(cbn; lia) r eq_refl). lia.
  - specialize (IH (length (d :: r)) ltac:(cbn; lia) (d :: r) eq_refl).
    cbn [length] in IH. lia.
Qed.

Lemma sliceForOf_length tc classes :
  sliceForOf tc = Ok classes -> length classes <= 10.
Proof.
  unfold sliceForOf. destruct tc as [| | | |j|l|]; try discriminate;
    intros Heq; apply (f_equal (fun o => match o with
                                         | Ok c => length c
                                         | Throw _ => 0
                                         end)) in Heq;
    cbv beta iota in Heq; rewrite <- Heq.
  - rewrite length_map.
    pose proof (length_codePoints (firstn 10 j)) as H.
    pose proof (length_firstn 10 j) as H'. lia.
  - pose proof (length_firstn 10 l) as H'. lia.
Qed.

Lemma costs_projectLevel w request analysis :
  costs 10 (generateProjectLevelUnitTests w request analysis).
Proof.
  unfold generateProjectLevelUnitTests.
  apply (costs_bind 0 10); [apply costs_lift|intros tc].
  intros st. unfold bind at 1, lift at 1.
  destruct (sliceForOf tc) as [classes|e] eqn:Hs;
    [|exists []; split; [reflexivity|cbn; lia]].
  apply sliceForOf_length in Hs. revert st.
  change (costs 10
            (tests <- generateForClasses w request analysis classes [] ;;
             (if 1 <? length tests
              then match generateTestSuiteRunner request tests analysis with
                   | Some suiteTest => ret (tests ++ [suiteTest])
                   | None => ret tests
                   end
              else ret tests))).
  apply (costs_weaken (length classes + 0)); [lia|].
  apply costs_bind; [apply costs_generateForClasses|intros tests].
  destruct (1 <? length tests); [|apply costs_ret].
  destruct (generateTestSuiteRunner _ _ _); apply costs_ret.
Qed.

Lemma costs_generateSingle w request site kind label cov :
  costs 1 (t <- generateSingle w request site kind label cov ;; ret [t]).
Proof.
  apply (costs_bind 1 0); [|intros; apply costs_ret].
  unfold generateSingle.
  apply (costs_bind 1 0); [apply costs_generateText|intros; apply costs_ret].
Qed.

Lemma costs_generateSpecificTestType w request k analysis :
  costs 10 (generateSpecificTestType w request k analysis).
Proof.
  unfold generateSpecificTestType, generateSingleUnitTest,
    generateSingleBDDTest, generateSingleAPITest, generateSingleUITest,
    generateSinglePerformanceTest.
  destruct (Js.eqb k `"unit").
  { apply (costs_bind 0 10); [apply costs_lift|intros tc].
    destruct (_ && _); [apply costs_projectLevel|].
    apply (costs_weaken 1); [lia|apply costs_generateSingle]. }
  repeat match goal with
         | |- costs _ (if ?b then _ else _) => destruct b
         end;
    first [ apply (costs_weaken 1); [lia|apply costs_generateSingle]
          | apply (costs_weaken 0); [lia|apply costs_ret] ].
Qed.

Lemma costs_generateForType w request useAI analysis k :
  costs 10 (generateForType w request useAI analysis k).
Proof.
  unfold generateForType.
  apply (costs_tryCatch 10 0).
  - destruct useAI; [|apply (costs_weaken 0); [lia|apply costs_ret]].
    apply (costs_tryCatch 10 0).
    + apply (costs_bind 0 10); [apply costs_lift|intros model].
      apply costs_generateSpecificTestType.
    + intros e. apply (costs_bind 0 0); [apply costs_lift|intros q].
      destruct q; [apply costs_ret|apply costs_throw].
  - intros e. destruct (generateBasicTestTemplate request k); apply costs_ret.
Qed.

Lemma costs_generateForTypes w request useAI analysis kinds :
  forall tests,
    costs (10 * length kinds)
      (generateForTypes w request useAI analysis kinds tests).
Proof.
  induction kinds as [|k ks IH]; intros tests; cbn [generateForTypes length].
  - apply costs_ret.
  - apply (costs_weaken (10 + 10 * length ks)); [lia|].
    apply costs_bind; [apply costs_generateForType|]. intros more. apply IH.
Qed.

(** X12: one run of [generateTestCases] calls the
    model once for the analysis at most, and ten times at most for each
    requested kind; the calls made before stay in the log. *)
Theorem model_calls_bounded w request st :
  callsWithin (1 + 10 * length (testTypes request)) st
    (snd (generateTestCases w request st)).
Proof.
  revert st.
  change (costs (1 + 10 * length (testTypes request))
            (generateTestCases w request)).
  unfold generateTestCases.
  apply (costs_bind 0 (1 + 10 * length (testTypes request))).
  { intros st. exists []. split; [reflexivity|cbn; lia]. }
  intros _.
  apply costs_bind; [apply costs_analyze|intros [analysis useAI]].
  apply (costs_weaken (10 * length (testTypes request) + 0)); [lia|].
  apply costs_bind; [apply costs_generateForTypes|intros tests].
  destruct tests; [|apply costs_ret].
  destruct (generateBasicTestTemplate _ _); [apply costs_ret|apply costs_throw].
Qed.

(** ** Number of artifacts *)

Lemma yields_weaken {A} a b (m : M (list A)) :
  a <= b -> yields a m -> yields b m.
Proof. intros Hab Hm st l st' H. specialize (Hm st l st' H). lia. Qed.

Lemma yields_ret {A} n (l : list A) : length l <= n -> yields n (ret l).
Proof. intros H st l' st'. unfold ret. intros [= <- <-]. exact H. Qed.

Lemma yields_throw {A} n e : yields n (@throw (list A) e).
Proof. intros st l st'. unfold throw. discriminate. Qed.

Lemma yields_bind {A B} n (m : M A) (k : A -> M (list B)) :
  (forall x, yields n (k x)) -> yields n (bind m k).
Proof.
  intros Hk st l st'. unfold bind.
  destruct (m st) as [[x|e] st1]; [apply Hk|discriminate].
Qed.

Lemma yields_tryCatch {A} n (m : M (list A)) h :
  yields n m -> (forall e, yields n (h e)) -> yields n (tryCatch m h).
Proof.
  intros Hm Hh st l st'. unfold tryCatch.
  destruct (m st) as [[x|e] st1] eqn:E.
  - intros [= <- <-]. apply (Hm _ _ _ E).
  - apply Hh.
Qed.

Lemma yields_generateForClass w request analysis c :
  yields 1 (generateForClass w request analysis c).
Proof.
  unfold generateForClass. apply yields_tryCatch.
  - do 4 (apply yields_bind; intros ?). apply yields_ret. reflexivity.
  - intros e. do 2 (apply yields_bind; intros ?).
    apply yields_bind; intros t.
    apply yields_ret. destruct t; cbn; lia.
Qed.

Lemma yields_generateForClasses w request analysis classes :
  forall tests,
    yields (length tests + length classes)
      (generateForClasses w request analysis classes tests).
Proof.
  induction classes as [|c cs IH]; intros tests; cbn [generateForClasses length].
  - apply yields_ret. lia.
  - intros st l st'. unfold bind.
    destruct (generateForClass w request analysis c st) as [[more|e] st1] eqn:E;
      [|discriminate].
    apply yields_generateForClass in E. intros H. apply IH in H.
    rewrite length_app in H. lia.
Qed.

Lemma yields_projectLevel w request analysis :
  yields 11 (generateProjectLevelUnitTests w request analysis).
Proof.
  unfold generateProjectLevelUnitTests.
  apply yields_bind; intros tc. intros st l st'. unfold bind at 1, lift at 1.
  destruct (sliceForOf tc) as [classes|e] eqn:Hs; [|discriminate].
  apply sliceForOf_length in Hs. unfold bind.
  destruct (generateForClasses w request analysis classes [] st)
    as [[tests|e] st1] eqn:E; [|discriminate].
  apply yields_generateForClasses in E. cbn [length] in E.
  destruct (1 <? length tests).
  - destruct (generateTestSuiteRunner _ _ _); unfold ret; intros [= <- <-];
      rewrite ?length_app; cbn [length]; lia.
  - unfold ret. intros [= <- <-]. lia.
Qed.

Lemma yields_generateSpecificTestType w request k analysis :
  yields 11 (generateSpecificTestType w request k analysis).
Proof.
  unfold generateSpecificTestType.
  destruct (Js.eqb k `"unit").
  { apply yields_bind; intros tc.
    destruct (_ && _); [apply yields_projectLevel|].
    apply yields_bind; intros t. apply yields_ret. cbn; lia. }
  repeat match goal with
         | |- yields _ (if ?b then _ else _) => destruct b
         end;
    try (apply yields_bind; intros t); apply yields_ret; cbn; lia.
Qed.

Lemma length_fromTemplate request k analysis :
  length (generateTestFromTemplate request k analysis) <= 1.
Proof.
  unfold generateTestFromTemplate.
  destruct (generateBasicTestTemplate request k); cbn; lia.
Qed.

Lemma yields_generateForType w request useAI analysis k :
  yields 11 (generateForType w request useAI analysis k).
Proof.
  unfold generateForType. apply yields_tryCatch.
  - destruct useAI.
    + apply yields_tryCatch.
      * apply yields_bind; intros model. apply yields_generateSpecificTestType.
      * intros e. apply yields_bind; intros q.
        destruct q; [|apply yields_throw].
        apply yields_ret. pose proof (length_fromTemplate request k analysis). lia.
    + apply yields_ret. pose proof (length_fromTemplate request k analysis). lia.
  - intros e. destruct (generateBasicTestTemplate request k);
      apply yields_ret; cbn; lia.
Qed.

Lemma yields_generateForTypes w request useAI analysis kinds :
  forall tests,
    yields (length tests + 11 * length kinds)
      (generateForTypes w request useAI analysis kinds tests).
Proof.
  induction kinds as [|k ks IH]; intros tests; cbn [generateForTypes length].
  - apply yields_ret. lia.
  - intros st l st'. unfold bind.
    destruct (generateForType w request useAI analysis k st)
      as [[more|e] st1] eqn:E; [|discriminate].
    apply yields_generateForType in E. intros H. apply IH in H.
    rewrite length_app in H. lia.
Qed.

(** X13: a run of [generateTestCases] that returns gives
    one artifact at least and, for a request that names a kind, eleven
    artifacts at most for each requested kind (ten classes and the suite
    runner). *)
Theorem artifacts_bounded w request st tests st' :
  testTypes request <> [] ->
  generateTestCases w request st = (Ok tests, st') ->
  1 <= length tests <= 11 * length (testTypes request).
Proof.
  intros Hne H. split.
  - apply generateTestCases_nonempty in H. destruct tests; [congruence|cbn; lia].
  - revert H. unfold generateTestCases, bind, enterPipeline.
    destruct (analyze w request _) as [[[analysis useAI]|e] st1];
      [|discriminate].
    destruct (generateForTypes w request useAI analysis (testTypes request) []
                st1) as [[ts|e] st2] eqn:E; [|discriminate].
    apply yields_generateForTypes in E. cbn [length] in E.
    assert (1 <= length (testTypes request))
      by (destruct (testTypes request); [congruence|cbn; lia]).
    destruct ts as [|t ts].
    + destruct (generateBasicTestTemplate _ _); [|discriminate].
      unfold ret. intros [= <- <-]. cbn [length]. lia.
    + unfold ret. intros [= <- <-]. lia.
Qed.

Lemma artifacts_bounded_witness :
  exists tests st',
    generateTestCases (exampleWorld modelTwoClasses) pipelineRequest
      (exampleState 0)
    = (Ok tests, st')
    /\ 1 <= length tests <= 11 * length (testTypes pipelineRequest).
Proof.
  assert (Hrun : exists tests st',
             generateTestCases (exampleWorld modelTwoClasses) pipelineRequest
               (exampleState 0)
             = (Ok tests, st')).
  { vm_compute. do 2 eexists. reflexivity. }
  destruct Hrun as (tests & st' & Hrun).
  exists tests, st'. split; [exact Hrun|].
  apply (artifacts_bounded (exampleWorld modelTwoClasses) pipelineRequest
           (exampleState 0) tests st'); [discriminate|exact Hrun].
Defined.

Lemma eqb_neq a b : a <> b -> Js.eqb a b = false.
Proof.
  intros H. destruct (Js.eqb a b) eqn:E; [|reflexivity].
  apply eqb_eq in E. contradiction.
Qed.

Lemma invalid_kind_eqb k :
  ~ validKind k ->
  Js.eqb k `"unit" = false /\ Js.eqb k `"bdd" = false
  /\ Js.eqb k `"api" = false /\ Js.eqb k `"ui" = false
  /\ Js.eqb k `"performance" = false.
Proof.
  unfold validKind. cbn [In]. intros H.
  repeat split; apply eqb_neq; intros ->; apply H; auto 10.
Qed.

Lemma eqb_sym a b : Js.eqb a b = Js.eqb b a.
Proof.
  destruct (Js.eqb a b) eqn:E.
  - apply eqb_eq in E. subst. symmetry. apply eqb_refl.
  - destruct (Js.eqb b a) eqn:E'; [|reflexivity].
    apply eqb_eq in E'. subst. rewrite eqb_refl in E. discriminate.
Qed.

Lemma no_template_for_invalid_kind request k :
  ~ validKind k -> generateBasicTestTemplate request k = None.
Proof.
  intros H. destruct (invalid_kind_eqb k H) as (H1 & H2 & H3 & H4 & H5).
  unfold generateBasicTestTemplate, templates, tableGet. cbn [find fst snd].
  rewrite ?(eqb_sym _ k), H1, H2, H3, H4, H5. reflexivity.
Qed.

Lemma generateSpecificTestType_invalid w request k analysis :
  ~ validKind k ->
  generateSpecificTestType w request k analysis = ret [].
Proof.
  intros H. destruct (invalid_kind_eqb k H) as (H1 & H2 & H3 & H4 & H5).
  unfold generateSpecificTestType. rewrite H1, H2, H3, H4, H5. reflexivity.
Qed.

Lemma generateForType_invalid w request useAI analysis k st :
  ~ validKind k ->
  generateForType w request useAI analysis k st = (Ok [], st).
Proof.
  intros H. unfold generateForType, generateTestFromTemplate.
  rewrite (no_template_for_invalid_kind request k H).
  rewrite (generateSpecificTestType_invalid w request k analysis H).
  destruct useAI; [|reflexivity].
  unfold tryCatch, bind, lift, ret, throw.
  destruct (getAIModel w (aiModel request)) as [model|e]; [reflexivity|].
  destruct (isQuotaError e) as [[|]|e']; reflexivity.
Qed.

Lemma generateForTypes_invalid w request useAI analysis kinds :
  Forall (fun k => ~ validKind k) kinds ->
  forall tests st,
    generateForTypes w request useAI analysis kinds tests st = (Ok tests, st).
Proof.
  induction 1 as [|k ks Hk _ IH]; intros tests st; cbn [generateForTypes];
    [reflexivity|].
  unfold bind. rewrite (generateForType_invalid _ _ _ _ _ _ Hk).
  rewrite app_nil_r. apply IH.
Qed.

Lemma firstType_invalid request :
  Forall (fun k => ~ validKind k) (testTypes request) ->
  ~ validKind (firstType request).
Proof.
  unfold firstType. intros H. destruct (testTypes request) as [|k ks].
  - unfold validKind. cbn [In]. intros [E|[E|[E|[E|[E|[]]]]]]; discriminate E.
  - now inversion H.
Qed.

Lemma unknownKinds_invalid kinds :
  Forall unknownKind kinds -> Forall (fun k => ~ validKind k) kinds.
Proof. apply Forall_impl. intros k [H _]. exact H. Qed.

Lemma unknown_kinds_run w request st :
  Forall unknownKind (testTypes request) ->
  exists st',
    generateTestCases w request st = (Throw (JsError unableMessage), st')
    /\ st' = snd (analyze w request (entered st))
    /\ callsWithin 1 st st'.
Proof.
  intros Hk. apply unknownKinds_invalid in Hk.
  unfold generateTestCases, bind, enterPipeline. fold (entered st).
  destruct (analyze_returns w request (entered st))
    as (analysis & useAI & st1 & Ha).
  rewrite Ha. rewrite (generateForTypes_invalid _ _ _ _ _ Hk).
  rewrite (no_template_for_invalid_kind _ _ (firstType_invalid _ Hk)).
  exists st1. split; [reflexivity|]. split; [reflexivity|].
  pose proof (costs_analyze w request (entered st)) as Hc.
  rewrite Ha in Hc. exact Hc.
Qed.

(** X14: for a request that names only kinds of test
    that the pipeline does not know, [generateTestCases] generates
    nothing for any of them, without a word, and then throws the error
    of an exhausted quota; the only call of the model it makes is the
    one of the analysis. *)
Theorem unknown_kinds_throw w request st :
  Forall unknownKind (testTypes request) ->
  exists st',
    generateTestCases w request st = (Throw (JsError unableMessage), st')
    /\ st' = snd (analyze w request (entered st))
    /\ callsWithin 1 st st'.
Proof. apply unknown_kinds_run. Qed.

Lemma smoke_unknown : Forall unknownKind [`"smoke"].
Proof.
  constructor; [|constructor]. split.
  - unfold validKind. cbn [In]. intros [E|[E|[E|[E|[E|[]]]]]]; discriminate E.
  - unfold objectPrototypeKeys. cbn [In].
    intros H. repeat (destruct H as [H|H]; [discriminate H|]). exact H.
Qed.

Lemma unknown_kinds_throw_witness :
  exists st',
    generateTestCases (exampleWorld modelProse)
      (mkRequest `"user_story" `"As a user, I want to login to the system"
                 [`"smoke"] `"java" None None None None)
      (exampleState 0)
    = (Throw (JsError unableMessage), st')
    /\ st' = snd (analyze (exampleWorld modelProse)
                    (mkRequest `"user_story"
                       `"As a user, I want to login to the system"
                       [`"smoke"] `"java" None None None None)
                    (entered (exampleState 0)))
    /\ callsWithin 1 (exampleState 0) st'.
Proof.
  apply (unknown_kinds_throw (exampleWorld modelProse)
           (mkRequest `"user_story" `"As a user, I want to login to the system"
                      [`"smoke"] `"java" None None None None)
           (exampleState 0)).
  exact smoke_unknown.
Defined.

(** X15: the generation handler does not
    check the kinds of test. A request of a user for whom the check of
    the limit does not fire ([reached] is false: the count is below the
    limit, or the limit is no number) that names only unknown kinds is
    answered with status 429 and the message of an exceeded quota of the
    model, and no row is written. *)
Theorem unknown_kinds_reported_as_quota
        w request st token decoded body user inputData testTypes :
  Auth.bearer (authorization (headers request)) = Some token ->
  jwt_verify w (clock w (clockReads st)) token (Auth.JWT_SECRET w)
  = Ok decoded ->
  json request = Ok body ->
  b_inputData body = Some inputData -> inputData <> [] ->
  length inputData <= 5000 ->
  b_testTypes body = Some testTypes -> testTypes <> [] ->
  Forall unknownKind testTypes ->
  Database.selectUser (db st) (id decoded) = Some user ->
  GenerateTests.reached
    (Z.of_nat (Database.countTestCases (db st) (id decoded)))
    (GenerateTests.userLimit (u_plan user)) = false ->
  fst (GenerateTests.POST w request st)
  = Ok (ModelQuotaExceeded quotaExceededMessage quotaSuggestion)
  /\ status (ModelQuotaExceeded quotaExceededMessage quotaSuggestion) = 429%Z
  /\ db (snd (GenerateTests.POST w request st)) = db st.
Proof.
  intros Hb Hv Hj Hi Hne Hlen Ht Hne' Hk Hu Hq.
  unfold GenerateTests.POST, tryCatch, bind.
  rewrite Hb, verifyToken_run, Hv. unfold lift. rewrite Hj, Hi, Ht.
  destruct inputData as [|c d]; [congruence|].
  destruct testTypes as [|k ks]; [congruence|].
  destruct (Nat.ltb_spec 5000 (length (c :: d))); [lia|].
  unfold getDb. cbn [db ticked]. rewrite Hu.
  rewrite Hq.
  match goal with
  | |- context [generateTestCases ?w ?r ?s] =>
      destruct (unknown_kinds_run w r s Hk) as (st' & Hg & Hst & _);
      pose proof (pres_generateTestCases w r s) as Hdb
  end.
  rewrite Hg in Hdb |- *. cbn [snd] in Hdb.
  repeat split. exact Hdb.
Qed.

Lemma unknown_kinds_reported_as_quota_witness :
  fst (GenerateTests.POST (exampleWorld modelProse) smokeRequest
         (exampleState 0))
  = Ok (ModelQuotaExceeded quotaExceededMessage quotaSuggestion)
  /\ status (ModelQuotaExceeded quotaExceededMessage quotaSuggestion) = 429%Z
  /\ db (snd (GenerateTests.POST (exampleWorld modelProse) smokeRequest
                (exampleState 0)))
     = db (exampleState 0).
Proof.
  apply (unknown_kinds_reported_as_quota (exampleWorld modelProse)
           smokeRequest (exampleState 0) `"good" exampleDecoded smokeBody
           (mkUserRow `"u1" (Some `"free"))
           `"As a user, I want to login to the system" [`"smoke"]
           eq_refl eq_refl eq_refl eq_refl);
    [discriminate | vm_compute; lia | reflexivity | discriminate
    | exact smoke_unknown | reflexivity | vm_compute; reflexivity].
Defined.

(** ** Without a key for the model *)

Lemma getAIModel_noApiKey w name :
  noApiKey w -> exists e, getAIModel w name = Throw e.
Proof. unfold getAIModel. intros [-> | ->]; eauto. Qed.

Lemma analyze_noApiKey w request st :
  noApiKey w ->
  analyze w request st = (Ok (getFallbackAnalysis request, false), st).
Proof.
  intros H. destruct (getAIModel_noApiKey w (aiModel request) H) as (e & He).
  unfold analyze, tryCatch, bind, lift. rewrite He. reflexivity.
Qed.

Lemma generateForTypes_templates w request analysis kinds :
  Forall validKind kinds ->
  forall tests st,
    exists more,
      generateForTypes w request false analysis kinds tests st
      = (Ok (tests ++ more), st)
      /\ map Some more = map (generateBasicTestTemplate request) kinds.
Proof.
  induction 1 as [|k ks Hk _ IH]; intros tests st; cbn [generateForTypes].
  - exists []. rewrite app_nil_r. split; reflexivity.
  - destruct (basic_template_exists request k Hk) as (t & Ht).
    unfold bind, generateForType, tryCatch, ret, generateTestFromTemplate.
    rewrite Ht.
    destruct (IH (tests ++ [t]) st) as (more & Hrun & Hmap).
    exists (t :: more). rewrite Hrun, <- app_assoc. cbn [app map].
    rewrite Ht, Hmap. split; reflexivity.
Qed.

(** X16: when no key for the model is configured,
    [generateTestCases] does not call the model at all; for a request of
    valid kinds it returns the basic template of each requested kind, in
    the order of the request, and changes nothing in the state. *)
Theorem no_key_no_model_call w request st :
  noApiKey w ->
  testTypes request <> [] ->
  Forall validKind (testTypes request) ->
  exists tests,
    generateTestCases w request st = (Ok tests, entered st)
    /\ map Some tests
       = map (generateBasicTestTemplate request) (testTypes request)
    /\ modelCalls (entered st) = modelCalls st
    /\ db (entered st) = db st.
Proof.
  intros Hkey Hne Hk.
  unfold generateTestCases, bind, enterPipeline. fold (entered st).
  rewrite (analyze_noApiKey w request (entered st) Hkey).
  destruct (generateForTypes_templates w request (getFallbackAnalysis request)
              (testTypes request) Hk [] (entered st)) as (tests & Hrun & Hmap).
  rewrite Hrun. cbn [app]. exists tests.
  destruct tests as [|t ts].
  - destruct (testTypes request); [congruence|discriminate Hmap].
  - repeat split. exact Hmap.
Qed.

Lemma no_key_no_model_call_witness :
  exists tests,
    generateTestCases keylessWorld pipelineRequest (exampleState 0)
    = (Ok tests, entered (exampleState 0))
    /\ map Some tests
       = map (generateBasicTestTemplate pipelineRequest)
           (testTypes pipelineRequest)
    /\ modelCalls (entered (exampleState 0)) = modelCalls (exampleState 0)
    /\ db (entered (exampleState 0)) = db (exampleState 0).
Proof.
  apply (no_key_no_model_call keylessWorld pipelineRequest (exampleState 0)).
  - left. reflexivity.
  - discriminate.
  - constructor; [right; left; reflexivity | constructor].
Defined.

(** ** The self-test *)

Lemma testRequest_returns w st :
  exists tests st',
    generateTestCases w TestAi.testRequest st = (Ok tests, st')
    /\ tests <> [].
Proof.
  unfold generateTestCases, bind, enterPipeline.
  destruct (analyze_returns w TestAi.testRequest (entered st))
    as (analysis & useAI & st1 & Ha).
  fold (entered st). rewrite Ha.
  destruct (generateForTypes_returns w TestAi.testRequest useAI analysis
              (testTypes TestAi.testRequest) [] st1) as (ts & st2 & Hts).
  rewrite Hts. destruct ts as [|t ts].
  - destruct (basic_template_exists TestAi.testRequest `"unit") as (t & Ht).
    { right; left; reflexivity. }
    change (firstType TestAi.testRequest) with (`"unit" : jstr).
    rewrite Ht. unfold ret. do 2 eexists. split; [reflexivity|discriminate].
  - unfold ret. do 2 eexists. split; [reflexivity|discriminate].
Qed.

(** X17: the self-test of the model service never
    reports a failure: whatever the model answers, and also when it is
    down or no key is configured, [testAIService] returns one test at
    least, and the route answers that the service is working, with the
    number of tests and the first test as the sample. *)
Theorem self_test_cannot_fail w st :
  exists tests st' t,
    TestAi.testAIService w st = (Ok tests, st')
    /\ hd_error tests = Some t
    /\ TestAi.GET w st
       = (Ok (TestAi.Working `"AI service is working correctly" (length tests)
                (Some (TestAi.mkSample (type t) (filename t)
                         (description t)))),
          st')
    /\ 1 <= length tests <= 11.
Proof.
  destruct (testRequest_returns w st) as (tests & st' & Hrun & Hne).
  destruct tests as [|t ts]; [congruence|].
  exists (t :: ts), st', t.
  unfold TestAi.GET, TestAi.testAIService, tryCatch, bind. rewrite Hrun.
  repeat split; [cbn; lia|].
  assert (H : length (t :: ts) <= 11 * length (testTypes TestAi.testRequest)).
  { revert Hrun. unfold generateTestCases, bind, enterPipeline.
    destruct (analyze w _ _) as [[[analysis useAI]|e] st1]; [|discriminate].
    destruct (generateForTypes w _ useAI analysis _ [] st1)
      as [[l|e] st2] eqn:E; [|discriminate].
    apply yields_generateForTypes in E. cbn [length] in E.
    destruct l as [|x l].
    - destruct (generateBasicTestTemplate _ _); [|discriminate].
      unfold ret. intros [= <- <-]. cbn. lia.
    - unfold ret. intros [= <- <-]. exact E. }
  cbn [length testTypes TestAi.testRequest] in H |- *. lia.
Qed.

(** ** File names *)

Lemma forallb_join f l sep :
  forallb (forallb f) l = true -> forallb f sep = true ->
  forallb f (Js.join l sep) = true.
Proof.
  intros Hl Hs. induction l as [|x l IH]; [reflexivity|].
  cbn [forallb] in Hl. apply andb_true_iff in Hl. destruct Hl as [Hx Hl].
  cbn [Js.join]. destruct l as [|y l]; [exact Hx|].
  rewrite !forallb_app, Hx, Hs, (IH Hl). reflexivity.
Qed.

Lemma forallb_firstn {A} (f : A -> bool) n l :
  forallb f l = true -> forallb f (firstn n l) = true.
Proof.
  revert n. induction l as [|x l IH]; intros [|n]; cbn; auto.
  intros H. apply andb_true_iff in H. destruct H as [-> H]. now apply IH.
Qed.

Lemma forallb_filter {A} (f g : A -> bool) l :
  forallb f l = true -> forallb f (filter g l) = true.
Proof.
  induction l as [|x l IH]; cbn; auto.
  intros H. apply andb_true_iff in H. destruct H as [Hx H].
  destruct (g x); cbn; [rewrite Hx|]; now apply IH.
Qed.

Lemma forallb_rev' {A} (f : A -> bool) l :
  forallb f (rev l) = forallb f l.
Proof.
  induction l as [|x l IH]; [reflexivity|].
  cbn [rev forallb]. rewrite forallb_app, IH. cbn. rewrite andb_true_r.
  apply andb_comm.
Qed.

Lemma splitSpaces_go_words f s :
  forallb (fun c => f c || Js.isWhiteSpace c) s = true ->
  forall cur inws,
    forallb f cur = true ->
    forallb (forallb f) (Js.splitSpaces_go cur inws s) = true.
Proof.
  induction s as [|c r IH]; intros Hs cur inws Hcur; cbn [Js.splitSpaces_go].
  - cbn. rewrite forallb_rev', Hcur. reflexivity.
  - cbn [forallb] in Hs. apply andb_true_iff in Hs. destruct Hs as [Hc Hr].
    destruct (Js.isWhiteSpace c) eqn:Hw.
    + destruct inws; [apply IH; assumption|].
      cbn [forallb]. rewrite forallb_rev', Hcur. apply (IH Hr). reflexivity.
    + apply (IH Hr). cbn [forallb]. rewrite orb_false_r in Hc.
      now rewrite Hc, Hcur.
Qed.

Lemma baseName_units inputData testType :
  forallb isFileNameUnit testType = true ->
  forallb isFileNameUnit (extractBaseName inputData testType) = true.
Proof.
  intros Ht. unfold extractBaseName.
  set (keep := fun c : N => if Js.isAsciiLower c || Js.isDigit c
                                 || Js.isWhiteSpace c then c else 32%N).
  set (words := Js.join _ _).
  assert (Hw : forallb isFileNameUnit words = true).
  { apply forallb_join; [|reflexivity].
    apply forallb_firstn, forallb_filter.
    apply splitSpaces_go_words; [|reflexivity].
    apply forallb_forall. intros c Hin. apply in_map_iff in Hin.
    destruct Hin as (c0 & <- & _). unfold keep, isFileNameUnit.
    destruct (Js.isAsciiLower c0) eqn:E1; [cbn [orb]; now rewrite E1|].
    destruct (Js.isDigit c0) eqn:E2;
      [cbn [orb]; rewrite E1, E2; reflexivity|].
    destruct (Js.isWhiteSpace c0) eqn:E3; [|reflexivity].
    cbn [orb]. rewrite E3. apply orb_true_r. }
  unfold orElse. destruct words as [|c r]; [|exact Hw].
  rewrite forallb_app, Ht. reflexivity.
Qed.

Lemma inheritedText_not_plain m :
  forallb isFileNameUnit (inheritedText m) = false.
Proof.
  destruct m as [name|]; [|reflexivity].
  unfold inheritedText. rewrite forallb_app. reflexivity.
Qed.

Lemma prefix_plain testType :
  validKind testType ->
  let prefix :=
    textOr (memberGet [(`"bdd", `"feature"); (`"unit", `"test");
                       (`"api", `"api-test"); (`"ui", `"ui-test");
                       (`"performance", `"perf-test")] testType) `"test" in
  prefix <> [] /\ forallb isFileNameUnit prefix = true.
Proof.
  unfold validKind. cbn [In].
  intros [<-|[<-|[<-|[<-|[<-|[]]]]]]; split; (discriminate || reflexivity).
Qed.

Lemma extension_plain language :
  ~ In language objectPrototypeKeys ->
  forallb isFileNameUnit
    (textOr (memberGet [(`"java", `".java"); (`"python", `".py");
                        (`"javascript", `".js")] language) `".txt") = true.
Proof.
  intros H. unfold memberGet. rewrite (inheritedGet_None language H).
  unfold tableGet.
  repeat match goal with
         | |- context [Js.eqb ?a ?b] => destruct (Js.eqb a b)
         end; reflexivity.
Qed.

Lemma extension_inherited language :
  In language objectPrototypeKeys ->
  forallb isFileNameUnit
    (textOr (memberGet [(`"java", `".java"); (`"python", `".py");
                        (`"javascript", `".js")] language) `".txt") = false.
Proof.
  intros H.
  assert (Hmiss : tableGet [(`"java", `".java"); (`"python", `".py");
                            (`"javascript", `".js")] language = None).
  { unfold objectPrototypeKeys in H. cbn [In] in H.
    repeat (destruct H as [<-|H]; [reflexivity|]). destruct H. }
  destruct (memberGet_inherited _ _ Hmiss H) as (m & ->).
  apply inheritedText_not_plain.
Qed.

(** X18: the name that [generateFilename]
    gives to an artifact of a valid kind is never empty. It holds
    nothing but lower-case letters, digits, hyphens and dots, whatever
    the input is (no separator of a path, no white space, no character
    of the input other than its letters and digits), when the kind is
    [bdd] or [performance] or the language is not the name of an
    inherited member of an object; for a language that is such a name
    (as [constructor]) the other kinds get a name that ends in the
    printed member, with spaces and brackets. *)
Theorem generated_filenames_are_plain testType language inputData :
  validKind testType ->
  generateFilename testType language inputData <> []
  /\ (testType = `"bdd" \/ testType = `"performance"
      \/ ~ In language objectPrototypeKeys ->
      forallb isFileNameUnit (generateFilename testType language inputData)
      = true)
  /\ (testType <> `"bdd" -> testType <> `"performance" ->
      In language objectPrototypeKeys ->
      forallb isFileNameUnit (generateFilename testType language inputData)
      = false
      /\ exists m stem,
           inheritedGet language = Some m
           /\ generateFilename testType language inputData
              = stem ++ inheritedText m).
Proof.
  intros Hk.
  assert (Ht : forallb isFileNameUnit testType = true).
  { unfold validKind in Hk. cbn [In] in Hk.
    destruct Hk as [<-|[<-|[<-|[<-|[<-|[]]]]]]; reflexivity. }
  pose proof (baseName_units inputData testType Ht) as Hb.
  pose proof (extractBaseName_nonempty inputData testType) as Hn.
  destruct (prefix_plain testType Hk) as [Hpn Hpu].
  unfold generateFilename.
  destruct (Js.eqb testType `"bdd") eqn:Ebdd.
  { apply eqb_eq in Ebdd.
    split; [destruct (extractBaseName _ _); [congruence|discriminate]|].
    split; [|congruence].
    intros _. rewrite forallb_app, Hb. reflexivity. }
  destruct (Js.eqb testType `"performance") eqn:Eperf.
  { apply eqb_eq in Eperf.
    split; [destruct (extractBaseName _ _); [congruence|discriminate]|].
    split; [|congruence].
    intros _. rewrite forallb_app, Hb. reflexivity. }
  apply eqb_false_neq in Ebdd, Eperf. cbv zeta.
  split; [|split].
  - intros H. apply app_eq_nil in H. destruct H as [H _]. exact (Hpn H).
  - intros [H|[H|H]]; [contradiction|contradiction|].
    rewrite !forallb_app, Hpu, Hb, (extension_plain language H). reflexivity.
  - intros _ _ H. split.
    + rewrite !forallb_app, (extension_inherited language H).
      rewrite !andb_false_r. reflexivity.
    + assert (Hmiss : tableGet [(`"java", `".java"); (`"python", `".py");
                                (`"javascript", `".js")] language = None).
      { unfold objectPrototypeKeys in H. cbn [In] in H.
        repeat (destruct H as [<-|H]; [reflexivity|]). destruct H. }
      destruct (inheritedGet_Some language H) as (m & Hm).
      exists m. eexists. split; [exact Hm|].
      unfold memberGet at 2. rewrite Hmiss, Hm. cbn [textOr].
      rewrite !app_assoc. reflexivity.
Qed.

Lemma generated_filenames_are_plain_witness :
  (generateFilename `"api" `"python" `"GET /users/../../etc/passwd HTTP" <> []
   /\ forallb isFileNameUnit
        (generateFilename `"api" `"python"
           `"GET /users/../../etc/passwd HTTP") = true)
  /\ forallb isFileNameUnit
       (generateFilename `"unit" `"constructor" `"abc") = false.
Proof.
  split.
  - destruct (generated_filenames_are_plain `"api" `"python"
                `"GET /users/../../etc/passwd HTTP") as (Hne & Hplain & _).
    { right; right; left; reflexivity. }
    split; [exact Hne|]. apply Hplain. right; right.
    unfold objectPrototypeKeys. cbn [In].
    intros H. repeat (destruct H as [H|H]; [discriminate H|]). exact H.
  - destruct (generated_filenames_are_plain `"unit" `"constructor" `"abc")
      as (_ & _ & Hodd).
    { right; left; reflexivity. }
    apply Hodd; [discriminate|discriminate|].
    unfold objectPrototypeKeys. cbn [In]. auto.
Defined.

(** ** Answers without an object *)

Lemma in_removeWithSpace_go p c :
  forall s skip ws, In c (Js.removeWithSpace_go p skip ws s) -> In c s.
Proof.
  induction s as [|x r IH]; intros skip ws; cbn [Js.removeWithSpace_go];
    [auto|].
  destruct skip as [|n]; [|intros H; right; eapply IH; exact H].
  destruct (ws && Js.isWhiteSpace x); [intros H; right; eapply IH; exact H|].
  destruct (Js.startsWith (x :: r) p); [intros H; right; eapply IH; exact H|].
  intros [H|H]; [left; exact H|right; eapply IH; exact H].
Qed.

Lemma in_stripFences c text : In c (stripFences text) -> In c text.
Proof.
  unfold stripFences, Js.removeWithSpace. intros H.
  apply in_removeWithSpace_go in H. apply in_removeWithSpace_go in H. exact H.
Qed.

Lemma indexOf_None s c : ~ In c s -> Js.indexOf s c = None.
Proof.
  induction s as [|x r IH]; [reflexivity|]. intros H. cbn [Js.indexOf].
  destruct (N.eqb_spec x c) as [->|Hne]; [exfalso; apply H; now left|].
  rewrite IH; [reflexivity|]. intros Hin. apply H. now right.
Qed.

Lemma in_split c s sep :
  forall line, In line (Js.split s sep) -> In c line -> In c s.
Proof.
  induction s as [|x r IH]; intros line; cbn [Js.split].
  - intros [<-|[]] [].
  - destruct (N.eqb x sep).
    + intros [<-|H] Hc; [destruct Hc|right; eapply IH; eassumption].
    + destruct (Js.split r sep) as [|l ls] eqn:E.
      * intros [<-|[]] [<-|[]]. now left.
      * intros [<-|H] Hc.
        -- destruct Hc as [<-|Hc]; [now left|right].
           apply (IH l); [now left|exact Hc].
        -- right. apply (IH line); [now right|exact Hc].
Qed.

Lemma includes_unit s c : ~ In c s -> Js.includes s [c] = false.
Proof.
  induction s as [|x r IH]; intros H; cbn [Js.includes Js.startsWith];
    [reflexivity|].
  destruct (N.eqb_spec c x) as [->|Hne]; [exfalso; apply H; now left|].
  cbn [andb orb]. apply IH. intros Hin. apply H. now right.
Qed.

Lemma collect_nothing lines count :
  (forall line, In line lines -> ~ In LBRACE line) ->
  collectJsonLines lines count false = [].
Proof.
  induction lines as [|line rest IH]; intros H; [reflexivity|].
  cbn [collectJsonLines]. rewrite (includes_unit line LBRACE).
  - cbn [orb]. apply IH. intros l Hl. apply H. now right.
  - apply H. now left.
Qed.

Lemma extract_without_brace text :
  ~ In LBRACE text -> extractJsonFromResponse text = [].
Proof.
  intros H.
  assert (Hc : ~ In LBRACE (stripFences text))
    by (intros Hin; apply H, in_stripFences, Hin).
  unfold extractJsonFromResponse, braceRegion.
  rewrite (indexOf_None _ _ Hc).
  rewrite collect_nothing; [reflexivity|].
  intros line Hl Hin. apply Hc. exact (in_split _ _ _ line Hl Hin).
Qed.

(** X19: of an answer of the model that
    holds no opening brace, [extractJsonFromResponse] keeps nothing: the
    result is the empty string, also when the answer is valid JSON (an
    array, a number, a string). The parse that follows fails, so that
    [analyzeInput] returns the fallback analysis. *)
Theorem answer_without_object_is_dropped w request st text :
  ~ In LBRACE text ->
  modelAnswer w (length (modelCalls st)) AtAnalyzeInput = Ok text ->
  extractJsonFromResponse text = []
  /\ Json.parse (extractJsonFromResponse text) = Throw SyntaxError
  /\ analyzeInput w request st
     = (Ok (getFallbackAnalysis request), called AtAnalyzeInput st).
Proof.
  intros H Hm. pose proof (extract_without_brace text H) as He.
  assert (Hp : Json.parse (extractJsonFromResponse text) = Throw SyntaxError)
    by (rewrite He; reflexivity).
  repeat split; [exact He | exact Hp |].
  exact (analyzeInput_malformed w request st text SyntaxError Hm Hp).
Qed.

Lemma answer_without_object_is_dropped_witness :
  extractJsonFromResponse `"[1, 2, 3]" = []
  /\ Json.parse (extractJsonFromResponse `"[1, 2, 3]") = Throw SyntaxError
  /\ analyzeInput (exampleWorld modelArray) pipelineRequest (exampleState 0)
     = (Ok (getFallbackAnalysis pipelineRequest),
        called AtAnalyzeInput (exampleState 0)).
Proof.
  apply (answer_without_object_is_dropped (exampleWorld modelArray)
           pipelineRequest (exampleState 0) `"[1, 2, 3]");
    [|reflexivity].
  cbn. intros H. repeat (destruct H as [H|H]; [discriminate H|]). exact H.
Defined.

(** ** What the generation handler stores *)

Lemma insertTestCase_row w tid pid name ty content src model uid meta st st' :
  Database.insertTestCase w tid pid name ty content src model uid meta st
  = (Ok tt, st') ->
  audit_logs (db st') = audit_logs (db st)
  /\ exists at_,
      test_cases (db st')
      = test_cases (db st)
        ++ [mkTestCaseRow (Database.stored tid)
              (option_map Database.stored pid) (Database.stored name)
              (Database.stored ty) (Database.stored content)
              (Database.stored src) (Database.stored model)
              (Database.stored uid) (Database.stored meta) at_].
Proof.
  unfold Database.insertTestCase, Database.datetimeNow, bind, readClock, ret.
  cbn [db].
  destruct (Database.hasTestCase (db st) tid); [discriminate|].
  destruct (negb _); [discriminate|].
  intros [= <-]. cbn. split; eauto.
Qed.

Lemma saveTests_rows w body inputData uid generated :
  forall savedTests st out st',
    GenerateTests.saveTests w body inputData uid generated savedTests st
    = (Ok out, st') ->
    exists new rows,
      out = savedTests ++ new
      /\ test_cases (db st') = test_cases (db st) ++ rows
      /\ map tc_id rows = map Database.stored (map saved_id new)
      /\ Forall (storedBy uid inputData body) rows
      /\ audit_logs (db st') = audit_logs (db st).
Proof.
  induction generated as [|test rest IH]; intros savedTests st out st'.
  - cbn. unfold ret. intros [= <- <-]. exists [], [].
    rewrite !app_nil_r. repeat split; constructor.
  - cbn [GenerateTests.saveTests]. unfold bind at 1.
    destruct (generateId_run w st) as (tid & st1 & -> & Hdb1).
    unfold bind at 1, readClock at 1.
    set (st2 := mkState (db st1) (modelCalls st1) (randomDraws st1)
                  (S (clockReads st1)) (pipelineRuns st1)).
    unfold bind at 1.
    destruct (Database.insertTestCase _ _ _ _ _ _ _ _ _ _ st2)
      as [[[]|e] st3] eqn:Hins; [|discriminate].
    apply insertTestCase_row in Hins. destruct Hins as (Hal & at_ & Htc).
    intros Hrest. apply IH in Hrest.
    destruct Hrest as (new & rows & -> & Htc' & Hids & Hall & Hal').
    cbn [db st2] in *.
    match type of Htc with
    | _ = _ ++ [?r] => exists (mkSavedTest tid test :: new), (r :: rows)
    end.
    split; [rewrite <- app_assoc; reflexivity|].
    split; [rewrite Htc', Htc, Hdb1, <- app_assoc; reflexivity|].
    split; [cbn; now rewrite Hids|].
    split; [|congruence].
    constructor; [|exact Hall].
    unfold storedBy, projectIdOf.
    cbn [tc_created_by tc_input_source tc_ai_model_used tc_project_id].
    repeat split. rewrite length_stored. unfold Js.substring.
    pose proof (length_firstn (500 - 0) (skipn 0 inputData)). lia.
Qed.

Lemma insertAuditLog_row uid a rt rid ip ua st st' :
  Database.insertAuditLog uid a rt rid ip ua st = (Ok tt, st') ->
  test_cases (db st') = test_cases (db st)
  /\ audit_logs (db st')
     = audit_logs (db st)
       ++ [mkAuditRow (Database.stored uid) (Database.stored a)
             (Database.stored rt) (Database.stored rid)
             (Database.stored ip) (Database.stored ua)].
Proof.
  unfold Database.insertAuditLog.
  destruct (negb _); [discriminate|].
  intros [= <-]. cbn. split; reflexivity.
Qed.


(** X20: a successful generation stores one row for
    each saved test, in their order, under the identifier that the
    answer gives; each row is owned by the user of the token, keeps the
    first 500 units of the input data and no more, names the model
    gemini-1.5-flash, and has the project of the request or none. One
    row is added to the audit log: it lists the identifiers, separated
    by commas, with the address and the agent of the request, or
    [unknown]. Every text is kept in the form of the database
    ([Database.stored]): a surrogate without its partner, as the cut at
    500 units leaves when it parts a pair, is kept as U+FFFD; a text
    without lone surrogates is kept as it is. *)
Theorem saved_rows_and_audit
        w request st tests msg usage notice st' token decoded body inputData :
  GenerateTests.POST w request st
  = (Ok (TestsGenerated tests msg usage notice), st') ->
  Auth.bearer (authorization (headers request)) = Some token ->
  jwt_verify w (clock w (clockReads st)) token (Auth.JWT_SECRET w)
  = Ok decoded ->
  json request = Ok body ->
  b_inputData body = Some inputData ->
  exists rows,
    test_cases (db st') = test_cases (db st) ++ rows
    /\ map tc_id rows = map Database.stored (map saved_id tests)
    /\ Forall (storedBy (id decoded) inputData body) rows
    /\ audit_logs (db st')
       = audit_logs (db st) ++ [auditOf (id decoded) (headers request) tests]
    /\ (forallb plainUnit (Js.substring inputData 0 500) = true ->
        Forall (fun r => tc_input_source r = Js.substring inputData 0 500)
          rows).
Proof.
  intros Hpost Hb Hv Hj Hi. revert Hpost.
  unfold GenerateTests.POST, tryCatch, bind.
  assert (Hno : forall e (s : State),
             (Ok (GenerateTests.onError e), s)
             <> (Ok (TestsGenerated tests msg usage notice), st')).
  { intros e s. unfold GenerateTests.onError.
    repeat match goal with |- context [if ?b then _ else _] => destruct b end;
      discriminate. }
  rewrite Hb, verifyToken_run, Hv.
  unfold lift, getDb, ret, throw. rewrite Hj, Hi.
  destruct inputData as [|c d]; [discriminate|].
  destruct (b_testTypes body) as [[|k ks]|] eqn:Ht; try discriminate.
  destruct (5000 <? length (c :: d)); [discriminate|].
  change (db (ticked st)) with (db st).
  destruct (Database.selectUser (db st) (id decoded)) as [user|] eqn:Hu;
    [|intros H; now apply Hno in H].
  destruct (GenerateTests.reached _ _); [discriminate|].
  match goal with
  | |- context [generateTestCases ?w ?r ?s] =>
      pose proof (pres_generateTestCases w r s) as Hdb;
      destruct (generateTestCases w r s) as [[generated|e] st1] eqn:Hg;
      [|intros H; now apply Hno in H]
  end.
  cbn [snd] in Hdb. change (db (ticked st)) with (db st) in Hdb.
  destruct (GenerateTests.saveTests _ _ _ _ _ _ _) as [[saved|e] st2] eqn:Hs;
    [|intros H; now apply Hno in H].
  destruct (Database.insertAuditLog _ _ _ _ _ _ _) as [[[]|e] st3] eqn:Ha;
    [|intros H; now apply Hno in H].
  intros [= <- <- <- <- <-].
  apply saveTests_rows in Hs.
  destruct Hs as (new & rows & Heq & Htc & Hids & Hall & Hal).
  cbn [app] in Heq. subst new.
  apply insertAuditLog_row in Ha. destruct Ha as (Htc3 & Hal3).
  exists rows. rewrite Htc3, Htc, Hal3, Hal, Hdb.
  split; [reflexivity|]. split; [exact Hids|]. split; [exact Hall|].
  split; [reflexivity|].
  intros Hplain. revert Hall. apply Forall_impl.
  intros r (_ & Hsrc & _). now rewrite Hsrc, (stored_plain _ Hplain).
Qed.

Lemma saved_rows_and_audit_witness :
  exists tests st' rows,
    (exists msg usage notice,
        GenerateTests.POST (exampleWorld modelDown) exampleRequest
          (exampleState 0)
        = (Ok (TestsGenerated tests msg usage notice), st'))
    /\ test_cases (db st') = test_cases (db (exampleState 0)) ++ rows
    /\ map tc_id rows = map Database.stored (map saved_id tests)
    /\ Forall (storedBy `"u1" `"As a user, I want to login to the system"
                 exampleBody) rows
    /\ audit_logs (db st')
       = audit_logs (db (exampleState 0))
         ++ [auditOf `"u1" exampleHeaders tests]
    /\ Forall (fun r => tc_input_source r
                        = `"As a user, I want to login to the system") rows.
Proof.
  destruct (example_generation 0 (or_introl eq_refl))
    as (tests & msg & usage & notice & st' & Hpost).
  destruct (saved_rows_and_audit (exampleWorld modelDown) exampleRequest
              (exampleState 0) tests msg usage notice st' `"good"
              exampleDecoded exampleBody
              `"As a user, I want to login to the system" Hpost
              eq_refl eq_refl eq_refl eq_refl)
    as (rows & Htc & Hids & Hall & Hal & Hsrc).
  exists tests, st', rows. split; [eauto|].
  split; [exact Htc|]. split; [exact Hids|]. split; [exact Hall|].
  split; [exact Hal|]. apply Hsrc. reflexivity.
Defined.

(** ** The analysis *)

Lemma answer_run w site (fallback : value) st :
  exists analysis,
    tryCatch (text <- generateText w site ;; parseResponse text)
             (fun _ => ret fallback) st
    = (Ok analysis, called site st)
    /\ (match modelAnswer w (length (modelCalls st)) site with
        | Throw _ => True
        | Ok text =>
            exists e, Json.parse (extractJsonFromResponse text) = Throw e
        end -> analysis = fallback).
Proof.
  unfold tryCatch, bind, generateText, parseResponse, lift, ret.
  fold (called site st).
  destruct (modelAnswer w (length (modelCalls st)) site) as [text|e].
  - destruct (Json.parse (extractJsonFromResponse text)) as [v|e] eqn:Hp.
    + exists v. split; [reflexivity|]. intros (e & He). discriminate.
    + exists fallback. split; [reflexivity|auto].
  - exists fallback. split; [reflexivity|auto].
Qed.

Lemma uploaded_run w files st :
  exists analysis,
    analyzeUploadedFiles w files st
    = (Ok analysis, called AtAnalyzeUploadedFiles st)
    /\ (match modelAnswer w (length (modelCalls st)) AtAnalyzeUploadedFiles with
        | Throw _ => True
        | Ok text =>
            exists e, Json.parse (extractJsonFromResponse text) = Throw e
        end -> analysis = generateFallbackProjectAnalysis files).
Proof.
  unfold analyzeUploadedFiles, tryCatch, bind, generateText, parseResponse,
    lift, ret.
  fold (called AtAnalyzeUploadedFiles st).
  destruct (modelAnswer w (length (modelCalls st)) AtAnalyzeUploadedFiles)
    as [text|e]; [|eexists; split; [reflexivity|auto]].
  destruct (Json.parse (extractJsonFromResponse text)) as [v|e] eqn:Hp;
    [|eexists; split; [reflexivity|auto]].
  destruct (Dyn.get v `"structure");
    [|eexists; split; [reflexivity|intros (e' & He); discriminate]].
  destruct (Dyn.get v `"testableClasses");
    [|eexists; split; [reflexivity|intros (e' & He); discriminate]].
  destruct (Dyn.get v `"complexity");
    eexists; (split; [reflexivity|intros (e' & He); discriminate]).
Qed.

(** X21: with a key configured, the analysis of
    a request calls the model exactly once, at the call that belongs to
    the input type, never throws, and leaves the generation by the model
    switched on; when the call throws or its answer does not parse, the
    analysis is the fixed fallback of the input type. *)
Theorem analysis_calls_model_once w request st c key :
  GOOGLE_GENERATIVE_AI_API_KEY w = Some (c :: key) ->
  exists analysis,
    analyze w request st
    = (Ok (analysis, true), called (analysisSite request) st)
    /\ (analysisFails w request st -> analysis = analysisFallback request).
Proof.
  intros Hkey.
  unfold analyze, analysisFails, analysisSite, analysisFallback, getAIModel.
  rewrite Hkey.
  unfold analyzeGitRepository, analyzePostmanCollection, analyzeWebPage,
    analyzeInput.
  assert (Hlift : forall (m : M value) site fallback,
             (exists analysis,
                 m st = (Ok analysis, called site st)
                 /\ (match modelAnswer w (length (modelCalls st)) site with
                     | Throw _ => True
                     | Ok text =>
                         exists e,
                           Json.parse (extractJsonFromResponse text) = Throw e
                     end -> analysis = fallback)) ->
             exists analysis,
               tryCatch
                 (model <- lift (Ok (orElse (aiModel request)
                                       `"gemini-1.5-flash")) ;;
                  analysis <- m ;; ret (analysis, true))
                 (fun _ => ret (getFallbackAnalysis request, false)) st
               = (Ok (analysis, true), called site st)
               /\ (match modelAnswer w (length (modelCalls st)) site with
                   | Throw _ => True
                   | Ok text =>
                       exists e,
                         Json.parse (extractJsonFromResponse text) = Throw e
                   end -> analysis = fallback)).
  { intros m site fallback (analysis & Hm & Hf). exists analysis.
    unfold tryCatch, bind, lift, ret. rewrite Hm. split; [reflexivity|exact Hf]. }
  destruct (Js.eqb (inputType request) `"git_repo");
    [apply Hlift, answer_run|].
  destruct (Js.eqb (inputType request) `"postman_collection");
    [apply Hlift, answer_run|].
  destruct (Js.eqb (inputType request) `"web_url");
    [apply Hlift, answer_run|].
  destruct (Js.eqb (inputType request) `"code"); cbn [andb];
    [|apply Hlift, answer_run].
  destruct (Js.includes (inputData request) `"// File:");
    [apply Hlift, uploaded_run|apply Hlift, answer_run].
Qed.

Lemma analysis_calls_model_once_witness :
  exists analysis,
    analyze (exampleWorld modelDown) repoRequest (exampleState 0)
    = (Ok (analysis, true), called AtAnalyzeGitRepository (exampleState 0))
    /\ analysis = inferProjectStructure `"https://example.org/shop.git".
Proof.
  destruct (analysis_calls_model_once (exampleWorld modelDown) repoRequest
              (exampleState 0) 107%N `"ey" eq_refl) as (analysis & Hrun & Hf).
  exists analysis. split; [exact Hrun|]. apply Hf. exact I.
Defined.

(** ** Classes of a project, with the model down *)

Lemma mapO_strs {B} (f : jstr -> B) (g : value -> outcome B) ms :
  (forall m, g (VStr m) = Ok (f m)) ->
  mapO g (map VStr ms) = Ok (map f ms).
Proof.
  intros Hg. induction ms as [|m ms IH]; [reflexivity|].
  cbn [map mapO]. rewrite Hg, IH. reflexivity.
Qed.

Lemma template_for_named_class w request name c :
  namedClass name c ->
  exists t,
    generateClassSpecificTemplate w request c = Ok (Some t)
    /\ filename t = classTestFile request name
    /\ type t = `"unit".
Proof.
  intros (props & -> & Hn & Hne & Hm & Hp).
  unfold generateClassSpecificTemplate, Dyn.get. rewrite Hn.
  assert (Hor : Dyn.or (engine w) (VStr name) (VStr `"TestClass") = VStr name).
  { unfold Dyn.or, Dyn.truthy. destruct name; [congruence|reflexivity]. }
  rewrite Hor.
  assert (Hpk : exists package,
             Dyn.or (engine w)
               match Dyn.lookup props `"package" with
               | Some x => x
               | None => VUndefined
               end (VStr `"com.example")
             = VStr package).
  { destruct Hp as [-> |(package & ->)]; [eexists; reflexivity|].
    unfold Dyn.or, Dyn.truthy. destruct package; eexists; reflexivity. }
  destruct Hpk as (package & ->).
  assert (Hms : exists ms,
             Dyn.or (engine w)
               match Dyn.lookup props `"methods" with
               | Some x => x
               | None => VUndefined
               end (Dyn.strs [`"testMethod"])
             = VArr (map VStr ms)).
  { destruct Hm as [-> |(ms & ->)]; [exists [`"testMethod"]|exists ms];
      reflexivity. }
  destruct Hms as (ms & ->).
  destruct (Js.eqb (language request) `"java").
  - cbn [Dyn.toStr andThen].
    rewrite (mapO_strs
               (fun m => classMethodJava m (capitalize m) (Js.toLowerCase name))
               _ ms (fun m => eq_refl)).
    eexists. split; [reflexivity|]. split; reflexivity.
  - rewrite (mapO_strs (fun m => m) (Dyn.toStr (engine w)) ms
               (fun m => eq_refl)).
    destruct (Js.eqb (language request) `"python");
      eexists; (split; [reflexivity|]); split; reflexivity.
Qed.

Lemma generateForClass_down w request analysis name c st :
  classCallsThrow w -> namedClass name c ->
  exists t st',
    generateForClass w request analysis c st = (Ok [t], st')
    /\ filename t = classTestFile request name
    /\ type t = `"unit".
Proof.
  intros Hdown Hc.
  destruct (template_for_named_class w request name c Hc) as (t & Ht & Hf & Hty).
  destruct Hc as (props & -> & Hn & _).
  unfold generateForClass, tryCatch, bind, lift, generateText, ret.
  destruct (classPrompt (engine w) analysis (VObj props)) as [[]|e].
  - destruct (Hdown (length (modelCalls st))) as (e & ->).
    cbn [Dyn.get]. rewrite Hn. cbn [Dyn.toStr]. rewrite Ht. eauto.
  - cbn [Dyn.get]. rewrite Hn. cbn [Dyn.toStr]. rewrite Ht. eauto.
Qed.

Lemma generateForClasses_down w request analysis names classes :
  classCallsThrow w ->
  Forall2 namedClass names classes ->
  forall tests st,
    exists more st',
      generateForClasses w request analysis classes tests st
      = (Ok (tests ++ more), st')
      /\ map filename more = map (classTestFile request) names
      /\ Forall (fun t => type t = `"unit") more.
Proof.
  intros Hdown. induction 1 as [|name c names classes Hc _ IH];
    intros tests st; cbn [generateForClasses].
  - exists [], st. rewrite app_nil_r. repeat split. constructor.
  - destruct (generateForClass_down w request analysis name c st Hdown Hc)
      as (t & st1 & Hrun & Hf & Hty).
    unfold bind. rewrite Hrun.
    destruct (IH (tests ++ [t]) st1) as (more & st' & Hrest & Hfs & Htys).
    exists (t :: more), st'. rewrite Hrest, <- app_assoc.
    split; [reflexivity|]. split; [cbn; now rewrite Hf, Hfs|].
    constructor; assumption.
Qed.

Lemma Forall2_firstn {A B} (R : A -> B -> Prop) n l l' :
  Forall2 R l l' -> Forall2 R (firstn n l) (firstn n l').
Proof.
  intros H. revert n. induction H; intros [|n]; cbn; constructor; auto.
Qed.

(** X22: when the analysis names
    two classes or more and every call of the model for a class fails,
    the unit tests of the request are one template for each of the
    first ten classes, in a file named after the class, followed by the
    suite runner. The classes are those with a name that is a string
    and not empty, with methods that are a list of strings, or none,
    and with a package that is a string, or none. The extension of the
    files is the one that [getFileExtension] gives to the language,
    which for the name of an inherited member is that member printed. *)
Theorem classes_get_templates_when_model_is_down
        w request analysis names classes st :
  classCallsThrow w ->
  Dyn.get analysis `"testableClasses" = Ok (VArr classes) ->
  Forall2 namedClass names classes ->
  2 <= length classes ->
  exists tests st',
    generateSpecificTestType w request `"unit" analysis st = (Ok tests, st')
    /\ map filename tests
       = map (classTestFile request) (firstn 10 names)
         ++ [`"TestSuite." ++ getFileExtension (language request)]
    /\ Forall (fun t => type t = `"unit") tests
    /\ length tests = Nat.min 10 (length names) + 1.
Proof.
  intros Hdown Hget Hnamed Hlen.
  pose proof (Forall2_length Hnamed) as Hlens.
  unfold generateSpecificTestType.
  change (Js.eqb `"unit" `"unit") with true. cbv iota.
  unfold bind at 1, lift at 1. rewrite Hget.
  assert (Hgt : Dyn.truthy (engine w) (VArr classes)
                && lengthGtOne (engine w) (VArr classes) = true).
  { cbn [Dyn.truthy lengthGtOne andb]. apply Nat.ltb_lt. lia. }
  rewrite Hgt.
  unfold generateProjectLevelUnitTests, bind, lift. rewrite Hget.
  cbn [sliceForOf].
  destruct (generateForClasses_down w request analysis (firstn 10 names)
              (firstn 10 classes) Hdown (Forall2_firstn _ 10 _ _ Hnamed) [] st)
    as (more & st' & Hrun & Hfs & Htys).
  rewrite Hrun. cbn [app].
  assert (Hmore : length more = Nat.min 10 (length names)).
  { rewrite <- (length_map filename), Hfs, length_map, length_firstn.
    reflexivity. }
  destruct (Nat.ltb_spec 1 (length more)) as [_|Hle]; [|lia].
  unfold generateTestSuiteRunner, ret.
  eexists _, st'. split; [reflexivity|].
  split; [rewrite map_app, Hfs; reflexivity|].
  split; [apply Forall_app; split; [exact Htys|repeat constructor]|].
  rewrite length_app, Hmore. reflexivity.
Qed.

Lemma classes_get_templates_when_model_is_down_witness :
  exists tests st',
    generateSpecificTestType (exampleWorld modelDown) pipelineRequest `"unit"
      twoClassAnalysis (exampleState 0)
    = (Ok tests, st')
    /\ map filename tests
       = [`"LoginServiceTest.java"; `"SessionStoreTest.java";
          `"TestSuite.java"].
Proof.
  destruct (classes_get_templates_when_model_is_down
              (exampleWorld modelDown) pipelineRequest twoClassAnalysis
              [`"LoginService"; `"SessionStore"]
              [VObj [(`"className", VStr `"LoginService");
                     (`"methods", Dyn.strs [`"login"; `"logout"])];
               VObj [(`"className", VStr `"SessionStore")]]
              (exampleState 0))
    as (tests & st' & Hrun & Hfiles & _).
  - intros n. eexists. reflexivity.
  - reflexivity.
  - constructor; [|constructor; [|constructor]].
    + eexists. split; [reflexivity|]. split; [reflexivity|].
      split; [discriminate|]. split; [|left; reflexivity].
      right. eexists. reflexivity.
    + eexists. split; [reflexivity|]. split; [reflexivity|].
      split; [discriminate|]. split; left; reflexivity.
  - cbn. lia.
  - exists tests, st'. split; [exact Hrun|]. rewrite Hfiles. reflexivity.
Defined.

(** ** Uploaded files *)

(** *** Occurrences of a pattern *)

Lemma startsWith_app_cases p :
  forall u v,
    Js.startsWith (u ++ v) p = true ->
    Js.startsWith u p = true
    \/ exists p2, p = u ++ p2 /\ p2 <> [] /\ Js.startsWith v p2 = true.
Proof.
  induction p as [|x p IH]; intros u v H; [left; reflexivity|].
  destruct u as [|y u].
  - right. exists (x :: p). split; [reflexivity|]. split; [discriminate|exact H].
  - cbn [app Js.startsWith] in H |- *.
    apply andb_true_iff in H. destruct H as [Hxy H].
    destruct (IH u v H) as [Hu|(p2 & -> & Hne & Hv)].
    + left. now rewrite Hxy, Hu.
    + right. exists p2. apply N.eqb_eq in Hxy. subst y. auto.
Qed.

Lemma startsWith_self p rest : Js.startsWith (p ++ rest) p = true.
Proof.
  induction p as [|x p IH]; [reflexivity|].
  cbn [app Js.startsWith]. now rewrite N.eqb_refl, IH.
Qed.

Lemma startsWith_head x p c s :
  Js.startsWith (c :: s) (x :: p) = true -> c = x.
Proof.
  cbn [Js.startsWith]. intros H. apply andb_true_iff in H.
  destruct H as [H _]. apply N.eqb_eq in H. now subst.
Qed.

Lemma includes_skipn s p :
  Js.includes s p = false ->
  forall i, i < length s -> Js.startsWith (skipn i s) p = false.
Proof.
  induction s as [|c s IH]; intros H i Hi; [cbn in Hi; lia|].
  cbn [Js.includes] in H. apply orb_false_iff in H. destruct H as [H1 H2].
  destruct i as [|i]; [exact H1|]. cbn [skipn]. apply IH; [exact H2|].
  cbn in Hi. lia.
Qed.

(** A unit that the pattern does not hold cuts every occurrence. *)
Lemma includes_cut x c y p :
  p <> [] -> ~ In c p ->
  Js.includes x p = false -> Js.includes y p = false ->
  Js.includes (x ++ c :: y) p = false.
Proof.
  intros Hp Hc Hx Hy. induction x as [|a x IH]; cbn [app Js.includes].
  - rewrite Hy, orb_false_r.
    destruct p as [|q p]; [congruence|].
    destruct (Js.startsWith (c :: y) (q :: p)) eqn:E; [|reflexivity].
    apply startsWith_head in E. subst. exfalso. apply Hc. now left.
  - cbn [Js.includes] in Hx. apply orb_false_iff in Hx.
    destruct Hx as [Hx1 Hx2]. rewrite (IH Hx2), orb_false_r.
    destruct (Js.startsWith (a :: x ++ c :: y) p) eqn:E; [|reflexivity].
    change (a :: x ++ c :: y) with ((a :: x) ++ c :: y) in E.
    apply startsWith_app_cases in E.
    destruct E as [E|(p2 & -> & Hne & E)]; [congruence|].
    destruct p2 as [|q p2]; [congruence|].
    apply startsWith_head in E. subst. exfalso. apply Hc.
    apply in_or_app. right. now left.
Qed.

Lemma NL_not_in_marker : ~ In NL fileMarker.
Proof.
  cbn. intros H. repeat (destruct H as [H|H]; [discriminate H|]). exact H.
Qed.

Lemma closed_no_match t rest i :
  closed t -> i < length t ->
  Js.startsWith (skipn i (t ++ rest)) fileMarker = false.
Proof.
  intros [Hinc Hend] Hi.
  destruct Hend as [->|(t' & ->)]; [cbn in Hi; lia|].
  rewrite length_app in Hi. cbn [length] in Hi.
  rewrite skipn_app.
  assert (Hs : skipn i (t' ++ [NL]) = skipn i t' ++ [NL]).
  { rewrite skipn_app. replace (i - length t') with 0 by lia. reflexivity. }
  rewrite Hs.
  destruct (Js.startsWith ((skipn i t' ++ [NL]) ++ skipn _ rest) fileMarker)
    eqn:E; [|reflexivity].
  apply startsWith_app_cases in E.
  destruct E as [E|(p2 & Hp & _)].
  - rewrite <- Hs in E.
    rewrite (includes_skipn _ _ Hinc i) in E; [discriminate|].
    rewrite length_app. cbn. lia.
  - exfalso. apply NL_not_in_marker. rewrite Hp.
    apply in_or_app. left. apply in_or_app. right. now left.
Qed.

(** *** [split] at the marker *)

Lemma splitOn_skip sep x :
  forall n cur b,
    length x = n ->
    Js.splitOn_go sep n cur (x ++ b) = Js.splitOn_go sep 0 cur b.
Proof.
  induction x as [|c x IH]; intros n cur b Hn.
  - cbn in Hn. subst n. reflexivity.
  - destruct n as [|n]; [discriminate Hn|].
    cbn [app Js.splitOn_go]. apply IH. cbn in Hn. lia.
Qed.

Lemma splitOn_no_match sep a :
  forall cur rest,
    (forall i, i < length a ->
               Js.startsWith (skipn i (a ++ rest)) sep = false) ->
    Js.splitOn_go sep 0 cur (a ++ rest)
    = Js.splitOn_go sep 0 (rev a ++ cur) rest.
Proof.
  induction a as [|c a IH]; intros cur rest H; [reflexivity|].
  cbn [app Js.splitOn_go].
  pose proof (H 0 ltac:(cbn; lia)) as H0. cbn [skipn app] in H0.
  rewrite H0. rewrite IH.
  - cbn [rev]. now rewrite <- app_assoc.
  - intros i Hi. apply (H (S i)). cbn. lia.
Qed.

Lemma splitOn_at_marker cur b :
  Js.splitOn_go fileMarker 0 cur (fileMarker ++ b)
  = rev cur :: Js.splitOn_go fileMarker 0 [] b.
Proof.
  pose proof (startsWith_self fileMarker b) as H.
  unfold fileMarker at 2. cbn [Js.lit app]. 
  change (Js.splitOn_go fileMarker 0 cur (fileMarker ++ b)
          = rev cur :: Js.splitOn_go fileMarker 0 [] b).
  remember (fileMarker ++ b) as s eqn:Hs.
  destruct s as [|c r]; [discriminate Hs|].
  cbn [Js.splitOn_go]. rewrite H. f_equal.
  change (length fileMarker - 1) with 7.
  assert (Hr : r = tl fileMarker ++ b) by (injection Hs as _ Hs; exact Hs).
  rewrite Hr. apply splitOn_skip. reflexivity.
Qed.

Lemma splitOn_closed_then_marker t b :
  closed t ->
  Js.splitOn_go fileMarker 0 [] (t ++ fileMarker ++ b)
  = t :: Js.splitOn_go fileMarker 0 [] b.
Proof.
  intros Ht. rewrite splitOn_no_match.
  - rewrite splitOn_at_marker, app_nil_r, rev_involutive. reflexivity.
  - intros i Hi. now apply closed_no_match.
Qed.

Lemma splitOn_closed_end t :
  closed t -> Js.splitOn_go fileMarker 0 [] t = [t].
Proof.
  intros Ht. rewrite <- (app_nil_r t) at 1. rewrite splitOn_no_match.
  - cbn. now rewrite app_nil_r, rev_involutive.
  - intros i Hi. now apply closed_no_match.
Qed.

(** *** The blocks of the files *)

Lemma encodeFile_block file : encodeFile file = fileMarker ++ fileBlock file.
Proof. reflexivity. Qed.

Lemma marker_facts :
  fileMarker <> [] /\ Js.includes [NL] fileMarker = false
  /\ Js.includes [] fileMarker = false.
Proof. repeat split. discriminate. Qed.

Lemma closed_block file : plainFile file -> closed (fileBlock file).
Proof.
  intros (_ & _ & _ & Hn & Hc). destruct marker_facts as (Hm & Hnl & Hnil).
  split.
  - unfold fileBlock. cbn [app].
    cbn [Js.includes]. apply orb_false_iff. split.
    { destruct (fst file); reflexivity. }
    apply includes_cut; [exact Hm|exact NL_not_in_marker|exact Hn|].
    apply includes_cut; [exact Hm|exact NL_not_in_marker|exact Hc|exact Hnl].
  - right. exists ([32%N] ++ fst file ++ [NL] ++ snd file ++ [NL]).
    unfold fileBlock. now rewrite <- !app_assoc.
Qed.

Lemma split_blocks files :
  Forall plainFile files ->
  forall t,
    closed t ->
    Js.splitOn_go fileMarker 0 [] (t ++ encodeFiles files)
    = t :: map fileBlock files.
Proof.
  induction 1 as [|file files Hf _ IH]; intros t Ht.
  - cbn. rewrite app_nil_r. now apply splitOn_closed_end.
  - unfold encodeFiles. cbn [map concat]. fold (encodeFiles files).
    rewrite encodeFile_block, <- app_assoc.
    rewrite (splitOn_closed_then_marker t _ Ht).
    cbn [map]. f_equal. apply IH. now apply closed_block.
Qed.

(** *** One block *)

Lemma length_dropWhile f s : length (Js.dropWhile f s) <= length s.
Proof.
  induction s as [|c s IH]; cbn; [lia|]. destruct (f c); cbn; lia.
Qed.

Lemma dropWhile_fixed f c s :
  Js.dropWhile f (c :: s) = c :: s -> f c = false.
Proof.
  cbn. destruct (f c); [|reflexivity]. intros H.
  pose proof (length_dropWhile f s) as Hl. rewrite H in Hl. cbn in Hl. lia.
Qed.

Lemma trim_fixed s :
  Js.trim s = s -> Js.trimStart s = s /\ Js.trimEnd s = s.
Proof.
  unfold Js.trim, Js.trimEnd, Js.trimStart. intros H.
  assert (Hlen : length (Js.dropWhile Js.isWhiteSpace s) = length s).
  { pose proof (length_dropWhile Js.isWhiteSpace s).
    pose proof (length_dropWhile Js.isWhiteSpace
                  (rev (Js.dropWhile Js.isWhiteSpace s))) as H'.
    rewrite length_rev in H'.
    apply (f_equal (@length N)) in H. rewrite length_rev in H. lia. }
  assert (Hs : Js.dropWhile Js.isWhiteSpace s = s).
  { destruct s as [|c s]; [reflexivity|]. cbn in Hlen |- *.
    destruct (Js.isWhiteSpace c); [|reflexivity].
    pose proof (length_dropWhile Js.isWhiteSpace s). lia. }
  split; [exact Hs|]. now rewrite Hs in H.
Qed.

Lemma dropWhile_app f a b :
  Js.dropWhile f (a ++ b)
  = match Js.dropWhile f a with
    | [] => Js.dropWhile f b
    | d => d ++ b
    end.
Proof.
  induction a as [|c a IH]; cbn [app Js.dropWhile].
  - destruct (Js.dropWhile f b); reflexivity.
  - destruct (f c); [exact IH|reflexivity].
Qed.

Lemma trim_block file :
  plainFile file ->
  Js.trim (fileBlock file)
  = fst file ++ match Js.trimEnd (snd file) with
                | [] => []
                | c => NL :: c
                end.
Proof.
  intros (Hne & Htrim & _). destruct file as [name content]. cbn [fst snd] in *.
  destruct (trim_fixed name Htrim) as [Hs He].
  assert (Hc : exists c r, name = c :: r /\ Js.isWhiteSpace c = false).
  { destruct name as [|c r]; [congruence|]. exists c, r.
    split; [reflexivity|]. exact (dropWhile_fixed _ _ _ Hs). }
  destruct Hc as (c & r & Hname & Hc).
  unfold Js.trim, fileBlock. cbn [fst snd].
  assert (H1 : Js.trimStart ([32%N] ++ name ++ [NL] ++ content ++ [NL; NL])
               = name ++ [NL] ++ content ++ [NL; NL]).
  { unfold Js.trimStart. rewrite Hname. cbn [app Js.dropWhile].
    change (Js.isWhiteSpace 32) with true. cbv iota. now rewrite Hc. }
  rewrite H1. clear H1 Hname Hc c r. unfold Js.trimEnd in *.
  assert (Hrev : rev (name ++ [NL] ++ content ++ [NL; NL])
                 = [NL; NL] ++ (rev content ++ ([NL] ++ rev name))).
  { rewrite !rev_app_distr. cbn [rev app]. now rewrite <- !app_assoc. }
  rewrite Hrev.
  change (Js.dropWhile Js.isWhiteSpace
            ([NL; NL] ++ (rev content ++ ([NL] ++ rev name))))
    with (Js.dropWhile Js.isWhiteSpace (rev content ++ ([NL] ++ rev name))).
  rewrite dropWhile_app.
  assert (Hn : Js.dropWhile Js.isWhiteSpace (rev name) = rev name).
  { apply (f_equal (@rev N)) in He. now rewrite rev_involutive in He. }
  destruct (Js.dropWhile Js.isWhiteSpace (rev content)) as [|d ds] eqn:Hd.
  - change (Js.dropWhile Js.isWhiteSpace ([NL] ++ rev name))
      with (Js.dropWhile Js.isWhiteSpace (rev name)).
    rewrite Hn, rev_involutive. cbn [rev]. now rewrite app_nil_r.
  - rewrite !rev_app_distr, rev_involutive.
    change (rev [NL]) with [NL].
    destruct (rev (d :: ds)) as [|x xs] eqn:Hx.
    + apply (f_equal (@length N)) in Hx. rewrite length_rev in Hx.
      discriminate Hx.
    + rewrite <- app_assoc. reflexivity.
Qed.

Lemma split_no_sep s c : ~ In c s -> Js.split s c = [s].
Proof.
  induction s as [|x s IH]; intros H; [reflexivity|].
  cbn [Js.split]. destruct (N.eqb_spec x c) as [->|Hne];
    [exfalso; apply H; now left|].
  rewrite IH; [reflexivity|]. intros Hin. apply H. now right.
Qed.

Lemma split_first s c r :
  ~ In c s -> Js.split (s ++ c :: r) c = s :: Js.split r c.
Proof.
  induction s as [|x s IH]; intros H.
  - cbn [app Js.split]. now rewrite N.eqb_refl.
  - cbn [app Js.split]. destruct (N.eqb_spec x c) as [->|Hne];
      [exfalso; apply H; now left|].
    rewrite IH; [reflexivity|]. intros Hin. apply H. now right.
Qed.

Lemma parse_block file :
  plainFile file ->
  let lines := Js.split (Js.trim (fileBlock file)) NL in
  Js.trim (hd [] lines) = fst file
  /\ Js.join (tl lines) [NL] = Js.trimEnd (snd file).
Proof.
  intros Hf. pose proof (trim_block file Hf) as Ht.
  destruct Hf as (Hne & Htrim & Hnl & _). cbv zeta. rewrite Ht.
  destruct (Js.trimEnd (snd file)) as [|c cs].
  - rewrite app_nil_r, (split_no_sep _ _ Hnl). cbn. split; [exact Htrim|reflexivity].
  - rewrite (split_first _ _ _ Hnl). cbn [hd tl].
    split; [exact Htrim|apply join_split].
Qed.

(** X23: the files that the upload form writes
    into the input data are read back by [parseUploadedFiles]: after any
    text that does not hold the marker of a file, it finds the files in
    their order, each with its name and with its content, without the
    white space at the end of the content. *)
Theorem uploaded_files_round_trip prefix files :
  Js.includes prefix fileMarker = false ->
  Forall plainFile files ->
  map nameAndContent
      (parseUploadedFiles (prefix ++ [NL; NL] ++ encodeFiles files))
  = map (fun file => (fst file, Js.trimEnd (snd file))) files.
Proof.
  intros Hp Hall. unfold parseUploadedFiles, Js.splitOn.
  assert (Hc : closed (prefix ++ [NL; NL])).
  { destruct marker_facts as (Hm & Hnl & Hnil). split.
    - apply includes_cut; [exact Hm|exact NL_not_in_marker|exact Hp|exact Hnl].
    - right. exists (prefix ++ [NL]). now rewrite <- app_assoc. }
  fold fileMarker. rewrite app_assoc, (split_blocks files Hall _ Hc). cbn [tl].
  rewrite !map_map. apply map_ext_Forall.
  revert Hall. apply Forall_impl. intros file Hf.
  destruct (parse_block file Hf) as [Hn Hcont].
  unfold nameAndContent. cbn [file_name file_content].
  now rewrite Hn, Hcont.
Qed.

Lemma uploaded_files_round_trip_witness :
  map nameAndContent
      (parseUploadedFiles
         (`"Please test these files." ++ [NL; NL] ++ encodeFiles exampleUpload))
  = [(`"src/Login Service.java", text ["public class LoginService {"; "}"]%string);
     (`"util.py", `"def helper(): pass")].
Proof.
  rewrite (uploaded_files_round_trip `"Please test these files." exampleUpload).
  - reflexivity.
  - reflexivity.
  - repeat constructor; try discriminate; try reflexivity;
      cbn; intros H; repeat (destruct H as [H|H]; [discriminate H|]); exact H.
Defined.

(** ** The fallback analysis of an upload *)

Lemma tallied_tally acc lang k :
  tallied (tally acc lang) k
  = tallied acc k + (if Js.eqb lang k then 1 else 0).
Proof.
  unfold tallied. induction acc as [|[k0 n0] rest IH]; cbn [tally find fst snd].
  - destruct (Js.eqb lang k); reflexivity.
  - destruct (Js.eqb k0 lang) eqn:E; cbn [find fst snd].
    + apply eqb_eq in E. subst k0.
      destruct (Js.eqb lang k); cbn [snd]; lia.
    + destruct (Js.eqb k0 k) eqn:E'; [|exact IH].
      apply eqb_eq in E'. subst k0. rewrite eqb_sym, E. cbn [snd]. lia.
Qed.

Lemma tallied_fold files :
  forall acc k,
    tallied (fold_left (fun acc file => tally acc (file_language file))
               files acc) k
    = tallied acc k + languageCount files k.
Proof.
  unfold languageCount.
  induction files as [|f files IH]; intros acc k; cbn [fold_left filter length];
    [lia|].
  rewrite IH, tallied_tally.
  destruct (Js.eqb (file_language f) k); cbn [length]; lia.
Qed.

Lemma keys_tally acc lang :
  NoDup (map fst acc) -> NoDup (map fst (tally acc lang))
  /\ (forall k, In k (map fst (tally acc lang))
                <-> In k (map fst acc) \/ k = lang).
Proof.
  induction acc as [|[k0 n0] rest IH]; intros Hnd; cbn [tally map fst].
  - split; [repeat constructor; intros []|]. intros k. cbn. intuition.
  - inversion Hnd as [|? ? Hnin Hnd']; subst.
    destruct (Js.eqb k0 lang) eqn:E; cbn [map fst].
    + apply eqb_eq in E. subst k0. split; [exact Hnd|].
      intros k. cbn. intuition.
    + destruct (IH Hnd') as [Hnd'' Hkeys]. split.
      * constructor; [|exact Hnd'']. intros Hin. apply Hkeys in Hin.
        destruct Hin as [Hin| ->]; [contradiction|].
        rewrite eqb_refl in E. discriminate.
      * intros k. cbn. rewrite Hkeys. intuition.
Qed.

Lemma keys_fold files :
  forall acc,
    NoDup (map fst acc) ->
    NoDup (map fst (fold_left (fun acc file => tally acc (file_language file))
                      files acc)).
Proof.
  induction files as [|f files IH]; intros acc Hnd; cbn [fold_left];
    [exact Hnd|].
  apply IH. now apply keys_tally.
Qed.

Lemma tallied_entry acc k n :
  NoDup (map fst acc) -> In (k, n) acc -> tallied acc k = n.
Proof.
  unfold tallied. induction acc as [|[k0 n0] rest IH]; intros Hnd Hin;
    [destruct Hin|].
  inversion Hnd as [|? ? Hnin Hnd']; subst. cbn [find fst].
  destruct Hin as [[= -> ->]|Hin]; [now rewrite eqb_refl|].
  destruct (Js.eqb k0 k) eqn:E; [|now apply IH].
  apply eqb_eq in E. subst k0. exfalso. apply Hnin.
  apply in_map_iff. exists (k, n). auto.
Qed.

Lemma tallied_positive acc k :
  0 < tallied acc k -> exists n, In (k, n) acc.
Proof.
  unfold tallied.
  destruct (find (fun entry => Js.eqb (fst entry) k) acc) as [[k' n]|] eqn:E;
    [|cbn; lia].
  intros _. apply find_some in E. destruct E as [Hin E].
  apply eqb_eq in E. cbn in E. subst k'. eauto.
Qed.

Lemma firstMax_max l :
  match firstMax l with
  | Some (k, n) => In (k, n) l /\ forall k' n', In (k', n') l -> n' <= n
  | None => l = []
  end.
Proof.
  induction l as [|[k n] rest IH]; [reflexivity|]. cbn [firstMax].
  destruct (firstMax rest) as [[k' n']|].
  - destruct IH as [Hin Hmax].
    destruct (Nat.ltb_spec n n').
    + split; [now right|]. intros k2 n2 [[= <- <-]|H2]; [lia|].
      apply (Hmax k2 n2 H2).
    + split; [now left|]. intros k2 n2 [[= <- <-]|H2]; [lia|].
      specialize (Hmax k2 n2 H2). lia.
  - subst rest. split; [now left|]. intros k2 n2 [[= <- <-]|[]]. lia.
Qed.

Lemma language_nonempty name : getLanguageFromExtension name <> [].
Proof.
  unfold getLanguageFromExtension.
  repeat match goal with
         | |- context [if ?b then _ else _] => destruct b
         end; discriminate.
Qed.

Lemma parsed_language inputData file :
  In file (parseUploadedFiles inputData) ->
  file_language file = getLanguageFromExtension (file_name file)
  /\ exists element, file_testableElements file = [element].
Proof.
  unfold parseUploadedFiles. intros H. apply in_map_iff in H.
  destruct H as (block & <- & _). cbn [file_language file_name file_testableElements].
  split; [reflexivity|].
  unfold extractJavaElements, extractPythonElements, extractJavaScriptElements.
  repeat match goal with
         | |- context [if ?b then _ else _] => destruct b
         end; eauto.
Qed.

Lemma one_class_per_file {A} (g : UploadedFile -> jstr -> A) files :
  Forall (fun file => exists element, file_testableElements file = [element])
         files ->
  length (flat_map (fun file => map (g file) (file_testableElements file))
                   files)
  = length files.
Proof.
  induction 1 as [|f files (element & He) _ IH]; [reflexivity|].
  cbn [flat_map]. rewrite length_app, He, IH. reflexivity.
Qed.

(** X24: the fallback analysis of an upload lists
    one testable class for each file, for twenty files at most, and
    takes as the main language a language that no other language has
    more files of; without any file the main language is java. *)
Theorem upload_fallback_analysis inputData :
  let files := parseUploadedFiles inputData in
  let analysis := generateFallbackProjectAnalysis files in
  exists structure main classes,
    Dyn.get analysis `"structure" = Ok structure
    /\ Dyn.get structure `"mainLanguage" = Ok (VStr main)
    /\ Dyn.get analysis `"testableClasses" = Ok (VArr classes)
    /\ length classes = Nat.min 20 (length files)
    /\ (files = [] -> main = `"java")
    /\ (forall file,
           In file files ->
           1 <= languageCount files (file_language file)
                <= languageCount files main).
Proof.
  intros files analysis. subst analysis.
  unfold generateFallbackProjectAnalysis.
  set (languages := fold_left (fun acc file => tally acc (file_language file))
                              files []).
  set (main := match firstMax languages with
               | Some (k, _) => orElse (Some k) `"java"
               | None => `"java"
               end).
  eexists _, main, _.
  split; [reflexivity|]. split; [reflexivity|]. split; [reflexivity|].
  split; [|split].
  - rewrite length_firstn, one_class_per_file; [reflexivity|].
    apply Forall_forall. intros f Hf.
    exact (proj2 (parsed_language inputData f Hf)).
  - intros Hnil. unfold main, languages. rewrite Hnil. reflexivity.
  - intros f Hf.
    assert (Hcount : forall k, tallied languages k = languageCount files k).
    { intros k. unfold languages. rewrite tallied_fold. reflexivity. }
    assert (Hnd : NoDup (map fst languages))
      by (apply keys_fold; constructor).
    assert (Hpos : 1 <= languageCount files (file_language f)).
    { unfold languageCount. clear - Hf.
      induction files as [|g gs IH]; [destruct Hf|].
      cbn [filter]. destruct Hf as [-> |Hf].
      - rewrite eqb_refl. cbn. lia.
      - specialize (IH Hf). destruct (Js.eqb _ _); cbn [length]; lia. }
    split; [exact Hpos|].
    destruct (tallied_positive languages (file_language f)) as (n & Hn);
      [rewrite Hcount; lia|].
    pose proof (firstMax_max languages) as Hmax. unfold main.
    destruct (firstMax languages) as [[k m]|];
      [|rewrite Hmax in Hn; destruct Hn].
    destruct Hmax as [Hin Hmax].
    assert (Hk : orElse (Some k) `"java" = k).
    { destruct k as [|c r]; [|reflexivity].
      exfalso. pose proof (tallied_entry _ _ _ Hnd Hin) as Hm.
      rewrite Hcount in Hm.
      assert (Hz : languageCount files [] = 0).
      { unfold languageCount. clear - inputData.
        assert (H : forall g, In g files -> Js.eqb (file_language g) [] = false).
        { intros g Hg. destruct (parsed_language inputData g Hg) as [-> _].
          pose proof (language_nonempty (file_name g)).
          destruct (getLanguageFromExtension (file_name g)); [congruence|reflexivity]. }
        induction files as [|g gs IH]; [reflexivity|].
        cbn [filter]. rewrite (H g (or_introl eq_refl)). apply IH.
        intros g' Hg'. apply H. now right. }
      pose proof (Hmax _ _ Hn) as Hle.
      pose proof (tallied_entry _ _ _ Hnd Hn) as Hn'.
      rewrite Hcount in Hn'. lia. }
    rewrite Hk.
    rewrite <- (Hcount (file_language f)), <- (Hcount k).
    rewrite (tallied_entry _ _ _ Hnd Hn), (tallied_entry _ _ _ Hnd Hin).
    apply (Hmax _ _ Hn).
Qed.

(** ** A project that is not stored *)

Lemma generateTestCases_valid_returns w request st :
  testTypes request <> [] ->
  Forall validKind (testTypes request) ->
  exists t ts st',
    generateTestCases w request st = (Ok (t :: ts), st').
Proof.
  intros Hne Hk.
  unfold generateTestCases, bind, enterPipeline. fold (entered st).
  destruct (analyze_returns w request (entered st))
    as (analysis & useAI & st1 & Ha).
  rewrite Ha.
  destruct (generateForTypes_returns w request useAI analysis
              (testTypes request) [] st1) as (ts & st2 & Hts).
  rewrite Hts. destruct ts as [|t ts]; [|unfold ret; eauto].
  unfold firstType. destruct (testTypes request) as [|k ks]; [congruence|].
  inversion Hk as [|? ? Hk1 _]; subst.
  destruct (basic_template_exists request k Hk1) as (t & ->).
  unfold ret. eauto.
Qed.

Lemma pipeline_runs_once w request st :
  pipelineRuns (snd (generateTestCases w request st)) = S (pipelineRuns st).
Proof.
  unfold generateTestCases, bind, enterPipeline.
  set (R := fun a b : State => pipelineRuns b = pipelineRuns a).
  assert (Hrefl : forall a, R a a) by (intros a; reflexivity).
  assert (Htrans : forall a b c, R a b -> R b c -> R a c)
    by (unfold R; intros a b c H1 H2; congruence).
  assert (Hcall : forall w site, steps R (generateText w site))
    by (intros w' site a; reflexivity).
  match goal with
  | |- context [analyze ?w ?r ?s] =>
      pose proof (steps_analyze R Hrefl Htrans Hcall w r s) as Ha;
      destruct (analyze w r s) as [[[analysis useAI]|e] s1];
      unfold R in Ha; cbn [snd pipelineRuns] in Ha; [|exact Ha]
  end.
  match goal with
  | |- context [generateForTypes ?w ?r ?u ?a ?k ?t ?s] =>
      pose proof (steps_generateForTypes R Hrefl Htrans Hcall w r u a k t s)
        as Hf;
      destruct (generateForTypes w r u a k t s) as [[l|e] s2];
      unfold R in Hf; cbn [snd] in Hf; [|cbn [snd]; congruence]
  end.
  destruct l; [destruct (generateBasicTestTemplate _ _)|];
    cbn [snd ret throw]; unfold ret, throw; cbn [snd]; congruence.
Qed.

Lemma saveTests_stray w body inputData uid t ts saved st pid :
  b_projectId body = Some pid -> pid <> [] ->
  Database.hasProject (db st) pid = false ->
  exists e st',
    GenerateTests.saveTests w body inputData uid (t :: ts) saved st
    = (Throw e, st')
    /\ GenerateTests.onError e = GenerationFailed failedMessage
    /\ db st' = db st
    /\ pipelineRuns st' = pipelineRuns st.
Proof.
  intros Hp Hne Hproj. cbn [GenerateTests.saveTests].
  unfold bind, Database.generateId, mathRandom, readClock, ret,
    Database.insertTestCase, Database.datetimeNow, bind, readClock, ret.
  cbn [db]. rewrite Hp. destruct pid as [|p ps]; [congruence|].
  rewrite Hproj. cbn [andb negb].
  destruct (Database.hasTestCase (db st) _);
    do 2 eexists; (split; [reflexivity|]); repeat split.
Qed.

(** X25: the generation handler does
    not look up the project of a request before it generates. When the
    project is not stored, the tests are generated first, the first
    insert is then refused, and the answer is status 500 with the
    generic message; no row is written. *)
Theorem stray_project_fails_after_generation
        w request st token decoded body user inputData testTypes pid :
  Auth.bearer (authorization (headers request)) = Some token ->
  jwt_verify w (clock w (clockReads st)) token (Auth.JWT_SECRET w)
  = Ok decoded ->
  json request = Ok body ->
  b_inputData body = Some inputData -> inputData <> [] ->
  length inputData <= 5000 ->
  b_testTypes body = Some testTypes -> testTypes <> [] ->
  Forall validKind testTypes ->
  Database.selectUser (db st) (id decoded) = Some user ->
  GenerateTests.reached
    (Z.of_nat (Database.countTestCases (db st) (id decoded)))
    (GenerateTests.userLimit (u_plan user)) = false ->
  b_projectId body = Some pid -> pid <> [] ->
  Database.hasProject (db st) pid = false ->
  fst (GenerateTests.POST w request st) = Ok (GenerationFailed failedMessage)
  /\ status (GenerationFailed failedMessage) = 500%Z
  /\ db (snd (GenerateTests.POST w request st)) = db st
  /\ pipelineRuns (snd (GenerateTests.POST w request st))
     = S (pipelineRuns st).
Proof.
  intros Hb Hv Hj Hi Hne Hlen Ht Hne' Hk Hu Hq Hp Hpne Hproj.
  unfold GenerateTests.POST, tryCatch, bind.
  rewrite Hb, verifyToken_run, Hv. unfold lift. rewrite Hj, Hi, Ht.
  destruct inputData as [|c d]; [congruence|].
  destruct testTypes as [|k ks]; [congruence|].
  destruct (Nat.ltb_spec 5000 (length (c :: d))); [lia|].
  unfold getDb. cbn [db ticked]. rewrite Hu.
  rewrite Hq.
  match goal with
  | |- context [generateTestCases ?w ?r ?s] =>
      destruct (generateTestCases_valid_returns w r s) as (t & ts & st1 & Hg);
      [discriminate | exact Hk |];
      pose proof (pres_generateTestCases w r s) as Hdb;
      pose proof (pipeline_runs_once w r s) as Hruns
  end.
  rewrite Hg in Hdb, Hruns |- *. cbn [snd] in Hdb, Hruns.
  change (db (ticked st)) with (db st) in Hdb.
  change (pipelineRuns (ticked st)) with (pipelineRuns st) in Hruns.
  destruct (saveTests_stray w body (c :: d) (id decoded) t ts [] st1 pid
              Hp Hpne) as (e & st2 & Hs & He & Hdb2 & Hr2);
    [rewrite Hdb; exact Hproj|].
  rewrite Hs. unfold ret. cbn [fst snd]. rewrite He.
  repeat split; congruence.
Qed.

Lemma stray_project_fails_after_generation_witness :
  fst (GenerateTests.POST (exampleWorld modelDown) strayProjectRequest
         (exampleState 0))
  = Ok (GenerationFailed failedMessage)
  /\ status (GenerationFailed failedMessage) = 500%Z
  /\ db (snd (GenerateTests.POST (exampleWorld modelDown) strayProjectRequest
                (exampleState 0)))
     = db (exampleState 0)
  /\ pipelineRuns (snd (GenerateTests.POST (exampleWorld modelDown)
                          strayProjectRequest (exampleState 0)))
     = S (pipelineRuns (exampleState 0)).
Proof.
  apply (stray_project_fails_after_generation (exampleWorld modelDown)
           strayProjectRequest (exampleState 0) `"good" exampleDecoded
           strayProjectBody (mkUserRow `"u1" (Some `"free"))
           `"As a user, I want to login to the system" [`"unit"] `"p404"
           eq_refl eq_refl eq_refl eq_refl);
    [discriminate | vm_compute; lia | reflexivity | discriminate
    | constructor; [right; left; reflexivity | constructor]
    | reflexivity | vm_compute; reflexivity | reflexivity | discriminate
    | reflexivity].
Defined.

(** ** The language of a template *)

Lemma endsWith_app s p : Js.endsWith (s ++ p) p = true.
Proof. unfold Js.endsWith. rewrite rev_app_distr. apply startsWith_self. Qed.

(** X26: there is a basic template for API
    tests and for UI tests in Java only, and it is used for every
    language that is not the name of a member which every object
    inherits; the name of the file still follows the language of the
    request, so that a request in Python gets the Java text in a file
    that ends in [.py]. *)
Theorem api_and_ui_templates_are_java request kind :
  kind = `"api" \/ kind = `"ui" ->
  ~ In (language request) objectPrototypeKeys ->
  exists t,
    generateBasicTestTemplate request kind = Some t
    /\ content t = (if Js.eqb kind `"api" then api_java else ui_java)
    /\ filename t
       = generateFilename kind (language request) (inputData request)
    /\ (language request = `"python" ->
        Js.endsWith (filename t) `".py" = true).
Proof.
  intros Hk _.
  assert (Hc : forall l, orElse (tableGet [(`"java", api_java)] l)
                           (orElse (tableGet [(`"java", api_java)] `"java") [])
                         = api_java).
  { intros l. unfold tableGet. destruct (Js.eqb `"java" l); reflexivity. }
  assert (Hc' : forall l, orElse (tableGet [(`"java", ui_java)] l)
                            (orElse (tableGet [(`"java", ui_java)] `"java") [])
                          = ui_java).
  { intros l. unfold tableGet. destruct (Js.eqb `"java" l); reflexivity. }
  assert (Hpy : forall k,
             k = `"api" \/ k = `"ui" ->
             language request = `"python" ->
             Js.endsWith (generateFilename k (language request)
                            (inputData request)) `".py" = true).
  { intros k Hk' ->. unfold generateFilename.
    destruct Hk' as [-> | ->];
      change (Js.eqb `"api" `"bdd") with false;
      change (Js.eqb `"api" `"performance") with false;
      change (Js.eqb `"ui" `"bdd") with false;
      change (Js.eqb `"ui" `"performance") with false; cbv iota zeta;
      rewrite !app_assoc; apply endsWith_app. }
  destruct Hk as [-> | ->]; unfold generateBasicTestTemplate.
  - change (tableGet templates `"api") with (Some [(`"java", api_java)]).
    change (Js.eqb `"api" `"bdd") with false.
    change (Js.eqb `"api" `"performance") with false. cbv iota.
    rewrite Hc.
    destruct api_java as [|c r] eqn:E; [discriminate E|]. rewrite <- E.
    eexists. split; [reflexivity|]. cbn [content filename].
    repeat split. apply Hpy. now left.
  - change (tableGet templates `"ui") with (Some [(`"java", ui_java)]).
    change (Js.eqb `"ui" `"bdd") with false.
    change (Js.eqb `"ui" `"performance") with false. cbv iota.
    rewrite Hc'.
    destruct ui_java as [|c r] eqn:E; [discriminate E|]. rewrite <- E.
    eexists. split; [reflexivity|]. cbn [content filename].
    repeat split. apply Hpy. now right.
Qed.

Lemma api_and_ui_templates_are_java_witness :
  exists t,
    generateBasicTestTemplate pythonApiRequest `"api" = Some t
    /\ content t = api_java
    /\ Js.endsWith (filename t) `".py" = true.
Proof.
  destruct (api_and_ui_templates_are_java pythonApiRequest `"api")
    as (t & Ht & Hc & _ & Hpy).
  - left. reflexivity.
  - cbn. intros H. repeat (destruct H as [H|H]; [discriminate H|]). exact H.
  - exists t. split; [exact Ht|]. split; [exact Hc|]. apply Hpy. reflexivity.
Defined.

(** ** Accounts *)

Lemma hasEmail_false l email :
  Accounts.hasEmail l email = false
  <-> ~ In (Database.stored email) (map Accounts.usr_email l).
Proof.
  unfold Accounts.hasEmail. induction l as [|u l IH]; cbn.
  - tauto.
  - rewrite orb_false_iff, IH. split.
    + intros [Hne Hl] [Heq|Hin]; [|tauto].
      rewrite Heq, eqb_refl in Hne. discriminate.
    + intros Hn. split; [|tauto].
      destruct (Js.eqb (Accounts.usr_email u) (Database.stored email)) eqn:E;
        [|reflexivity].
      apply eqb_eq in E. tauto.
Qed.

Lemma hasId_false l uid :
  Accounts.hasId l uid = false
  <-> ~ In (Database.stored uid) (map Accounts.usr_id l).
Proof.
  unfold Accounts.hasId. induction l as [|u l IH]; cbn.
  - tauto.
  - rewrite orb_false_iff, IH. split.
    + intros [Hne Hl] [Heq|Hin]; [|tauto].
      rewrite Heq, eqb_refl in Hne. discriminate.
    + intros Hn. split; [|tauto].
      destruct (Js.eqb (Accounts.usr_id u) (Database.stored uid)) eqn:E;
        [|reflexivity].
      apply eqb_eq in E. tauto.
Qed.

Lemma selectById_last l u uid :
  Accounts.usr_id u = Database.stored uid ->
  Accounts.hasId l uid = false ->
  Accounts.selectById (l ++ [u]) uid = Some u.
Proof.
  unfold Accounts.selectById, Accounts.hasId. intros Hu.
  induction l as [|v l IH]; cbn.
  - now rewrite Hu, eqb_refl.
  - rewrite orb_false_iff. intros [-> Hl]. auto.
Qed.

Lemma selectByEmail_last l u email :
  Accounts.usr_email u = Database.stored email ->
  Accounts.hasEmail l email = false ->
  Accounts.selectByEmail (l ++ [u]) email = Some u.
Proof.
  unfold Accounts.selectByEmail, Accounts.hasEmail. intros Hu.
  induction l as [|v l IH]; cbn.
  - now rewrite Hu, eqb_refl.
  - rewrite orb_false_iff. intros [-> Hl]. auto.
Qed.

Lemma selectUser_last d u uid :
  u_id u = Database.stored uid ->
  existsb (fun r => Js.eqb (u_id r) (Database.stored uid)) (users d) = false ->
  Database.selectUser
    (mkDb (users d ++ [u]) (projects d) (test_cases d) (test_executions d)
          (audit_logs d)) uid = Some u.
Proof.
  unfold Database.selectUser. cbn [users]. intros Hu.
  induction (users d) as [|v l IH]; cbn.
  - now rewrite Hu, eqb_refl.
  - rewrite orb_false_iff. intros [-> Hl]. auto.
Qed.

Lemma datetimeNow_run w st :
  exists now st',
    Database.datetimeNow w st = (Ok now, st') /\ db st' = db st.
Proof. unfold Database.datetimeNow, bind, readClock, ret. cbn. eauto. Qed.

Lemma generateToken_run w user st :
  exists token st',
    Auth.generateToken w user st = (Ok token, st') /\ db st' = db st.
Proof. unfold Auth.generateToken, bind, readClock, ret. cbn. eauto. Qed.

(** What [createUser] does, by the two checks of the insert. *)
Lemma createUser_run w b email name password s :
  exists uid now st,
    Database.generateId w (Accounts.base s) = (Ok uid, st) /\
    ((  (Accounts.hasId (Accounts.accounts s) uid = true
         \/ Accounts.hasEmail (Accounts.accounts s) email = true)
      /\ exists msg st',
           Accounts.createUser w b email name password s
           = (Throw (Database.SqliteError msg),
              Accounts.mkStore (Accounts.accounts s)
                               (S (Accounts.hashCalls s)) st')
           /\ Js.includes msg `"UNIQUE constraint failed" = true
           /\ db st' = db (Accounts.base s))
     \/
     (  Accounts.hasId (Accounts.accounts s) uid = false
      /\ Accounts.hasEmail (Accounts.accounts s) email = false
      /\ exists st',
           let row :=
             Accounts.mkUser (Database.stored uid) (Database.stored email)
               (Database.stored name)
               (Database.stored
                  (Accounts.bcrypt_hash b (Accounts.hashCalls s) password 12))
               `"user" `"free" now now in
           Accounts.createUser w b email name password s
           = (Ok (Some row),
              Accounts.mkStore (Accounts.accounts s ++ [row])
                               (S (Accounts.hashCalls s))
                               (Accounts.insertUser row st'))
           /\ db st' = db (Accounts.base s))).
Proof.
  unfold Accounts.createUser, Accounts.hashPassword.
  cbn [Accounts.base Accounts.accounts Accounts.hashCalls].
  destruct (generateId_run w (Accounts.base s)) as (uid & st1 & Hg & Hd1).
  destruct (datetimeNow_run w st1) as (now & st2 & Hn & Hd2).
  exists uid, now, st1. split; [exact Hg|].
  rewrite Hg, Hn.
  destruct (Accounts.hasId (Accounts.accounts s) uid) eqn:Hid.
  - left. split; [now left|]. eexists _, st2. split; [reflexivity|].
    split; [reflexivity|congruence].
  - destruct (Accounts.hasEmail (Accounts.accounts s) email) eqn:Hem.
    + left. split; [now right|]. eexists _, st2. split; [reflexivity|].
      split; [reflexivity|congruence].
    + right. split; [reflexivity|]. split; [reflexivity|].
      exists st2. cbv zeta. split; [|congruence].
      match goal with
      | |- context [Accounts.selectById (_ ++ [?row]) uid] =>
          rewrite (selectById_last (Accounts.accounts s) row uid eq_refl Hid)
      end.
      reflexivity.
Qed.

(** X27: [POST /api/auth/register] answers a
    body from which the email, the name or the password is missing or
    empty, or whose password has fewer than six UTF-16 units, with status
    400; no password is hashed, no identifier is drawn and nothing is
    stored. *)
Theorem registration_rejects_bad_input w b body s :
  badRegistration body ->
  exists error,
    Accounts.POST w b (Ok body) s = (Accounts.Refused 400 error, s).
Proof.
  unfold badRegistration, Accounts.POST.
  destruct body as [[[|e email]|] [[|n name]|] [[|p password]|]];
    cbn [Accounts.r_email Accounts.r_name Accounts.r_password];
    intros H; try (eexists; reflexivity).
  destruct H as [H|[H|[H|[H|[H|(pw & [= <-] & Hlen)]]]]]; try discriminate.
  destruct (Nat.ltb_spec (length (p :: password)) 6) as [_|Hge]; [|lia].
  eexists; reflexivity.
Qed.

Lemma registration_rejects_bad_input_witness :
  badRegistration (registration `"bob@example.org" `"Bob" `"12345")
  /\ exists error,
       Accounts.POST (exampleWorld modelDown) exampleBcrypt
         (Ok (registration `"bob@example.org" `"Bob" `"12345")) exampleStore
       = (Accounts.Refused 400 error, exampleStore).
Proof.
  assert (H : badRegistration (registration `"bob@example.org" `"Bob" `"12345")).
  { unfold badRegistration. do 5 right. eexists. split; [reflexivity|].
    vm_compute. lia. }
  split; [exact H|].
  exact (registration_rejects_bad_input (exampleWorld modelDown) exampleBcrypt
           _ exampleStore H).
Defined.

(** X28: a registration whose fields are present, with
    a password of at least six units, for an email that is already stored
    is answered with status 409 and [Email already exists]: the password
    has been hashed by then, but the stored accounts and the rest of the
    database are as before. *)
Theorem taken_email_conflict w b e email n name password s :
  6 <= length password ->
  Accounts.hasEmail (Accounts.accounts s) (e :: email) = true ->
  exists s',
    Accounts.POST w b (Ok (registration (e :: email) (n :: name) password)) s
    = (Accounts.Refused 409 `"Email already exists", s')
    /\ Accounts.accounts s' = Accounts.accounts s
    /\ Accounts.hashCalls s' = S (Accounts.hashCalls s)
    /\ db (Accounts.base s') = db (Accounts.base s).
Proof.
  intros Hlen Hem.
  unfold Accounts.POST, registration.
  cbn [Accounts.r_email Accounts.r_name Accounts.r_password].
  destruct password as [|p password]; [cbn in Hlen; lia|].
  destruct (Nat.ltb_spec (length (p :: password)) 6) as [Hlt|_]; [lia|].
  destruct (createUser_run w b (e :: email) (n :: name) (p :: password) s)
    as (uid & now & st & _ & [(_ & msg & st' & -> & Hinc & Hdb)
                             |(_ & Hno & _)]).
  - eexists. split.
    + unfold Database.SqliteError, JsError. cbn [message].
      destruct msg as [|c msg]; [discriminate Hinc|].
      rewrite Hinc. reflexivity.
    + split; [reflexivity|split; [reflexivity|exact Hdb]].
  - congruence.
Qed.

Lemma taken_email_conflict_witness :
  6 <= length (`"secret2" : jstr)
  /\ Accounts.hasEmail (Accounts.accounts exampleStore) `"ann@example.org" = true
  /\ exists s',
       Accounts.POST (exampleWorld modelDown) exampleBcrypt
         (Ok (registration `"ann@example.org" `"Ann B" `"secret2")) exampleStore
       = (Accounts.Refused 409 `"Email already exists", s')
       /\ Accounts.accounts s' = Accounts.accounts exampleStore
       /\ Accounts.hashCalls s' = S (Accounts.hashCalls exampleStore)
       /\ db (Accounts.base s') = db (Accounts.base exampleStore).
Proof.
  assert (H1 : 6 <= length (`"secret2" : jstr)) by (vm_compute; lia).
  assert (H2 : Accounts.hasEmail (Accounts.accounts exampleStore)
                                 `"ann@example.org" = true) by reflexivity.
  split; [exact H1|]. split; [exact H2|].
  exact (taken_email_conflict (exampleWorld modelDown) exampleBcrypt
           _ _ _ _ `"secret2" exampleStore H1 H2).
Defined.

Lemma NoDup_snoc {A} (l : list A) (x : A) :
  NoDup l -> ~ In x l -> NoDup (l ++ [x]).
Proof.
  induction 1 as [|y l Hy Hl IH]; cbn; intros Hx.
  - constructor; [tauto|constructor].
  - constructor.
    + rewrite in_app_iff. cbn. intros [H|[H|[]]]; [tauto|]. subst. tauto.
    + apply IH. tauto.
Qed.

Lemma hasId_planColumns l uid :
  existsb (fun r => Js.eqb (u_id r) (Database.stored uid))
          (map Accounts.planColumns l)
  = Accounts.hasId l uid.
Proof.
  unfold Accounts.hasId. induction l as [|u l IH]; cbn; [reflexivity|].
  now rewrite IH.
Qed.

Lemma sameUsers_insert row st s :
  db st = db (Accounts.base s) ->
  sameUsers s ->
  forall st' calls,
    db st' = db (Accounts.insertUser row st) ->
    sameUsers (Accounts.mkStore (Accounts.accounts s ++ [row]) calls st').
Proof.
  unfold sameUsers. intros Hdb Hs st' calls Hdb'.
  cbn [Accounts.base Accounts.accounts]. rewrite Hdb'.
  unfold Accounts.insertUser, setDb. cbn [db users].
  rewrite Hdb, Hs, map_app. reflexivity.
Qed.

Lemma hasId_stored l uid :
  Accounts.hasId l (Database.stored uid) = Accounts.hasId l uid.
Proof. unfold Accounts.hasId. now rewrite stored_idem. Qed.

(** X29: when the email is not stored yet and the
    generated identifier is not in use, [createUser] returns the new row:
    it is appended to the accounts with role [user], plan [free] and the
    hash of the password, [getUserById] finds it, [authenticateUser]
    returns it for exactly the passwords that [bcrypt.compare] accepts
    against its hash, and the plan lookup of the generation handler finds
    its plan. The email, the name and the hash of the row are those given,
    in the form that the database keeps ([Database.stored]): a surrogate
    without its partner is read back as U+FFFD, and a text without such
    surrogates is read back as it was given. *)
Theorem created_account_signs_in w b email name password s :
  sameUsers s ->
  freshId w s ->
  Accounts.hasEmail (Accounts.accounts s) email = false ->
  exists u s',
    Accounts.createUser w b email name password s = (Ok (Some u), s')
    /\ Accounts.accounts s' = Accounts.accounts s ++ [u]
    /\ Accounts.usr_email u = Database.stored email
    /\ Accounts.usr_name u = Database.stored name
    /\ (forallb plainUnit email = true -> Accounts.usr_email u = email)
    /\ (forallb plainUnit name = true -> Accounts.usr_name u = name)
    /\ Accounts.usr_role u = `"user"
    /\ Accounts.usr_plan u = `"free"
    /\ Accounts.usr_password_hash u
       = Database.stored
           (Accounts.bcrypt_hash b (Accounts.hashCalls s) password 12)
    /\ Accounts.getUserById (Accounts.usr_id u) s' = Some u
    /\ (forall attempt,
          Accounts.authenticateUser b email attempt s'
          = if Accounts.bcrypt_compare b attempt (Accounts.usr_password_hash u)
            then Some u else None)
    /\ Database.selectUser (db (Accounts.base s')) (Accounts.usr_id u)
       = Some (mkUserRow (Accounts.usr_id u) (Some `"free")).
Proof.
  intros Hs Hfresh Hem.
  destruct (createUser_run w b email name password s)
    as (uid & now & st & Hg & [([Hid|Hem'] & _)
                              |(Hid & _ & st' & Hrun & Hdb)]).
  - rewrite (Hfresh _ _ Hg) in Hid. discriminate.
  - congruence.
  - cbv zeta in Hrun.
    eexists _, _. split; [exact Hrun|].
    cbn [Accounts.accounts Accounts.base Accounts.usr_email Accounts.usr_name
         Accounts.usr_role Accounts.usr_plan Accounts.usr_password_hash
         Accounts.usr_id].
    do 3 (split; [reflexivity|]).
    split; [intros H; apply (stored_plain _ H)|].
    split; [intros H; apply (stored_plain _ H)|].
    do 3 (split; [reflexivity|]).
    split; [|split].
    + unfold Accounts.getUserById. cbn [Accounts.accounts].
      apply selectById_last.
      * cbn [Accounts.usr_id]. now rewrite stored_idem.
      * now rewrite hasId_stored.
    + intros attempt. unfold Accounts.authenticateUser.
      cbn [Accounts.accounts].
      match goal with
      | |- context [Accounts.selectByEmail (_ ++ [?row]) email] =>
          rewrite (selectByEmail_last (Accounts.accounts s) row email
                     eq_refl Hem)
      end.
      reflexivity.
    + unfold Accounts.insertUser, setDb. cbn [db].
      apply selectUser_last.
      * cbn [Accounts.planColumns Accounts.usr_id u_id].
        now rewrite stored_idem.
      * rewrite Hdb, Hs, hasId_planColumns, hasId_stored. exact Hid.
Qed.

Lemma created_account_signs_in_witness :
  sameUsers exampleStore
  /\ freshId (exampleWorld modelDown) exampleStore
  /\ Accounts.hasEmail (Accounts.accounts exampleStore) `"bob@example.org"
     = false
  /\ exists u s',
       Accounts.createUser (exampleWorld modelDown) exampleBcrypt
         `"bob@example.org" `"Bob" `"secret2" exampleStore = (Ok (Some u), s')
       /\ Accounts.accounts s' = Accounts.accounts exampleStore ++ [u]
       /\ Accounts.usr_email u = `"bob@example.org"
       /\ Accounts.usr_name u = `"Bob"
       /\ Accounts.usr_role u = `"user"
       /\ Accounts.usr_plan u = `"free"
       /\ Accounts.getUserById (Accounts.usr_id u) s' = Some u.
Proof.
  assert (H1 : sameUsers exampleStore) by reflexivity.
  assert (H2 : freshId (exampleWorld modelDown) exampleStore).
  { intros uid st. vm_compute. intros [= <- _]. reflexivity. }
  assert (H3 : Accounts.hasEmail (Accounts.accounts exampleStore)
                                 `"bob@example.org" = false) by reflexivity.
  split; [exact H1|]. split; [exact H2|]. split; [exact H3|].
  destruct (created_account_signs_in (exampleWorld modelDown) exampleBcrypt
              `"bob@example.org" `"Bob" `"secret2" exampleStore H1 H2 H3)
    as (u & s' & Hrun & Hacc & _ & _ & Hemail & Hname & Hrole & Hplan & _
        & Hget & _).
  exists u, s'. split; [exact Hrun|]. split; [exact Hacc|].
  split; [apply Hemail; reflexivity|]. split; [apply Hname; reflexivity|].
  split; [exact Hrole|]. split; [exact Hplan|]. exact Hget.
Defined.

(** X30: whatever the body, a
    registration leaves the identifiers and the emails of the stored
    accounts pairwise distinct and the plan columns in step with them; the
    accounts are as before, or one account was appended and the answer is
    a token with that account's id, email, name, role and plan. *)
Theorem registration_keeps_accounts_distinct w b json s :
  NoDup (map Accounts.usr_id (Accounts.accounts s)) ->
  NoDup (map Accounts.usr_email (Accounts.accounts s)) ->
  sameUsers s ->
  exists response s',
    Accounts.POST w b json s = (response, s')
    /\ NoDup (map Accounts.usr_id (Accounts.accounts s'))
    /\ NoDup (map Accounts.usr_email (Accounts.accounts s'))
    /\ sameUsers s'
    /\ (Accounts.accounts s' = Accounts.accounts s
        \/ exists u token,
             Accounts.accounts s' = Accounts.accounts s ++ [u]
             /\ response
                = Accounts.Registered token
                    (mkAuthUser (Accounts.usr_id u) (Accounts.usr_email u)
                                (Accounts.usr_name u) (Accounts.usr_role u)
                                (Accounts.usr_plan u))).
Proof.
  intros Hids Hems Hs.
  assert (Hsame : forall response,
             exists r s', (response, s) = (r, s')
               /\ NoDup (map Accounts.usr_id (Accounts.accounts s'))
               /\ NoDup (map Accounts.usr_email (Accounts.accounts s'))
               /\ sameUsers s'
               /\ (Accounts.accounts s' = Accounts.accounts s
                   \/ exists u token,
                        Accounts.accounts s' = Accounts.accounts s ++ [u]
                        /\ r = Accounts.Registered token
                                 (mkAuthUser (Accounts.usr_id u)
                                    (Accounts.usr_email u)
                                    (Accounts.usr_name u)
                                    (Accounts.usr_role u)
                                    (Accounts.usr_plan u)))).
  { intros r. exists r, s. repeat split; auto. }
  unfold Accounts.POST.
  destruct json as [body|e]; [|apply Hsame].
  destruct (Accounts.r_email body) as [[|e email]|]; try apply Hsame.
  destruct (Accounts.r_name body) as [[|n name]|]; try apply Hsame.
  destruct (Accounts.r_password body) as [[|p password]|]; try apply Hsame.
  destruct (length (p :: password) <? 6); [apply Hsame|].
  destruct (createUser_run w b (e :: email) (n :: name) (p :: password) s)
    as (uid & now & st & Hg & [(_ & msg & st' & -> & Hinc & Hdb)
                              |(Hid & Hem & st' & Hrun & Hdb)]).
  - eexists _, _. split; [reflexivity|].
    cbn [Accounts.accounts]. repeat split; auto.
    unfold sameUsers. cbn [Accounts.base Accounts.accounts].
    rewrite Hdb. exact Hs.
  - cbv zeta in Hrun. rewrite Hrun.
    cbn [Accounts.base Accounts.accounts Accounts.hashCalls
         Accounts.usr_id Accounts.usr_email Accounts.usr_name
         Accounts.usr_role Accounts.usr_plan].
    match goal with
    | |- context [Auth.generateToken w ?user ?st0] =>
        destruct (generateToken_run w user st0) as (token & st2 & -> & Hdb2)
    end.
    eexists _, _. split; [reflexivity|].
    cbn [Accounts.accounts]. rewrite !map_app. cbn [map Accounts.usr_id
                                                   Accounts.usr_email].
    split; [apply NoDup_snoc; [exact Hids|now apply hasId_false]|].
    split; [apply NoDup_snoc; [exact Hems|now apply hasEmail_false]|].
    split.
    + eapply sameUsers_insert; [exact Hdb|exact Hs|exact Hdb2].
    + right. eexists _, token. split; reflexivity.
Qed.

Lemma registration_keeps_accounts_distinct_witness :
  NoDup (map Accounts.usr_id (Accounts.accounts exampleStore))
  /\ NoDup (map Accounts.usr_email (Accounts.accounts exampleStore))
  /\ sameUsers exampleStore
  /\ exists response s',
       Accounts.POST (exampleWorld modelDown) exampleBcrypt
         (Ok (registration `"bob@example.org" `"Bob" `"secret2")) exampleStore
       = (response, s')
       /\ NoDup (map Accounts.usr_id (Accounts.accounts s'))
       /\ NoDup (map Accounts.usr_email (Accounts.accounts s'))
       /\ sameUsers s'
       /\ (Accounts.accounts s' = Accounts.accounts exampleStore
           \/ exists u token,
                Accounts.accounts s' = Accounts.accounts exampleStore ++ [u]
                /\ response
                   = Accounts.Registered token
                       (mkAuthUser (Accounts.usr_id u) (Accounts.usr_email u)
                                   (Accounts.usr_name u) (Accounts.usr_role u)
                                   (Accounts.usr_plan u))).
Proof.
  assert (H1 : NoDup (map Accounts.usr_id (Accounts.accounts exampleStore))).
  { cbn. constructor; [intros []|constructor]. }
  assert (H2 : NoDup (map Accounts.usr_email (Accounts.accounts exampleStore))).
  { cbn. constructor; [intros []|constructor]. }
  assert (H3 : sameUsers exampleStore) by reflexivity.
  split; [exact H1|]. split; [exact H2|]. split; [exact H3|].
  exact (registration_keeps_accounts_distinct (exampleWorld modelDown)
           exampleBcrypt _ exampleStore H1 H2 H3).
Defined.
